(** * sagre-crawler: date normalizer, temporal filter, duplicate detector,
      slug and coordinate helpers, and the detail handlers' pipeline.

    The TypeScript sources are embedded shallowly.  JavaScript strings are
    sequences of UTF-16 code units ([list N]); regular expressions are
    values of an abstract syntax run by a backtracking matcher that follows
    the ECMAScript matcher (greedy quantifiers, captures, [\b], [^], [$],
    the [i] and [g] flags); lower case, the matcher's upper case and
    canonical decomposition read the Unicode character data; dates are
    time values in milliseconds since the
    epoch, read in a host time zone of fixed offset. *)

From Stdlib Require Import ZArith NArith String Ascii Bool Lia.
From stdpp Require Import base option list gmap.

Local Open Scope N_scope.


(** ** Character data

    What [toLowerCase], [normalize] and the matcher's [i] flag read from
    the Unicode Character Database, here in version 14.0.0: code points are
    written in decimal, ranges with both ends. *)

Module Unicode.

(** Simple lower-case mappings of UnicodeData.txt outside ASCII.  An
    entry [(first, last, step, image)] maps [first], [first + step], ...
    up to [last] to [image], [image + step], ...; the entries are in the
    order of [first]. *)
Definition lowerRuns : list (N * N * N * N) :=
  [
    (192, 214, 1, 224); (216, 222, 1, 248); (256, 302, 2, 257); (306, 310, 2, 307);
    (313, 327, 2, 314); (330, 374, 2, 331); (376, 376, 1, 255); (377, 381, 2, 378);
    (385, 385, 1, 595); (386, 388, 2, 387); (390, 390, 1, 596); (391, 391, 1, 392);
    (393, 394, 1, 598); (395, 395, 1, 396); (398, 398, 1, 477); (399, 399, 1, 601);
    (400, 400, 1, 603); (401, 401, 1, 402); (403, 403, 1, 608); (404, 404, 1, 611);
    (406, 406, 1, 617); (407, 407, 1, 616); (408, 408, 1, 409); (412, 412, 1, 623);
    (413, 413, 1, 626); (415, 415, 1, 629); (416, 420, 2, 417); (422, 422, 1, 640);
    (423, 423, 1, 424); (425, 425, 1, 643); (428, 428, 1, 429); (430, 430, 1, 648);
    (431, 431, 1, 432); (433, 434, 1, 650); (435, 437, 2, 436); (439, 439, 1, 658);
    (440, 440, 1, 441); (444, 444, 1, 445); (452, 452, 1, 454); (453, 453, 1, 454);
    (455, 455, 1, 457); (456, 456, 1, 457); (458, 458, 1, 460); (459, 475, 2, 460);
    (478, 494, 2, 479); (497, 497, 1, 499); (498, 500, 2, 499); (502, 502, 1, 405);
    (503, 503, 1, 447); (504, 542, 2, 505); (544, 544, 1, 414); (546, 562, 2, 547);
    (570, 570, 1, 11365); (571, 571, 1, 572); (573, 573, 1, 410); (574, 574, 1, 11366);
    (577, 577, 1, 578); (579, 579, 1, 384); (580, 580, 1, 649); (581, 581, 1, 652);
    (582, 590, 2, 583); (880, 882, 2, 881); (886, 886, 1, 887); (895, 895, 1, 1011);
    (902, 902, 1, 940); (904, 906, 1, 941); (908, 908, 1, 972); (910, 911, 1, 973);
    (913, 929, 1, 945); (931, 939, 1, 963); (975, 975, 1, 983); (984, 1006, 2, 985);
    (1012, 1012, 1, 952); (1015, 1015, 1, 1016); (1017, 1017, 1, 1010); (1018, 1018, 1, 1019);
    (1021, 1023, 1, 891); (1024, 1039, 1, 1104); (1040, 1071, 1, 1072); (1120, 1152, 2, 1121);
    (1162, 1214, 2, 1163); (1216, 1216, 1, 1231); (1217, 1229, 2, 1218); (1232, 1326, 2, 1233);
    (1329, 1366, 1, 1377); (4256, 4293, 1, 11520); (4295, 4295, 1, 11559);
    (4301, 4301, 1, 11565); (5024, 5103, 1, 43888); (5104, 5109, 1, 5112);
    (7312, 7354, 1, 4304); (7357, 7359, 1, 4349); (7680, 7828, 2, 7681); (7838, 7838, 1, 223);
    (7840, 7934, 2, 7841); (7944, 7951, 1, 7936); (7960, 7965, 1, 7952); (7976, 7983, 1, 7968);
    (7992, 7999, 1, 7984); (8008, 8013, 1, 8000); (8025, 8031, 2, 8017); (8040, 8047, 1, 8032);
    (8072, 8079, 1, 8064); (8088, 8095, 1, 8080); (8104, 8111, 1, 8096); (8120, 8121, 1, 8112);
    (8122, 8123, 1, 8048); (8124, 8124, 1, 8115); (8136, 8139, 1, 8050); (8140, 8140, 1, 8131);
    (8152, 8153, 1, 8144); (8154, 8155, 1, 8054); (8168, 8169, 1, 8160); (8170, 8171, 1, 8058);
    (8172, 8172, 1, 8165); (8184, 8185, 1, 8056); (8186, 8187, 1, 8060); (8188, 8188, 1, 8179);
    (8486, 8486, 1, 969); (8490, 8490, 1, 107); (8491, 8491, 1, 229); (8498, 8498, 1, 8526);
    (8544, 8559, 1, 8560); (8579, 8579, 1, 8580); (9398, 9423, 1, 9424);
    (11264, 11311, 1, 11312); (11360, 11360, 1, 11361); (11362, 11362, 1, 619);
    (11363, 11363, 1, 7549); (11364, 11364, 1, 637); (11367, 11371, 2, 11368);
    (11373, 11373, 1, 593); (11374, 11374, 1, 625); (11375, 11375, 1, 592);
    (11376, 11376, 1, 594); (11378, 11378, 1, 11379); (11381, 11381, 1, 11382);
    (11390, 11391, 1, 575); (11392, 11490, 2, 11393); (11499, 11501, 2, 11500);
    (11506, 11506, 1, 11507); (42560, 42604, 2, 42561); (42624, 42650, 2, 42625);
    (42786, 42798, 2, 42787); (42802, 42862, 2, 42803); (42873, 42875, 2, 42874);
    (42877, 42877, 1, 7545); (42878, 42886, 2, 42879); (42891, 42891, 1, 42892);
    (42893, 42893, 1, 613); (42896, 42898, 2, 42897); (42902, 42920, 2, 42903);
    (42922, 42922, 1, 614); (42923, 42923, 1, 604); (42924, 42924, 1, 609);
    (42925, 42925, 1, 620); (42926, 42926, 1, 618); (42928, 42928, 1, 670);
    (42929, 42929, 1, 647); (42930, 42930, 1, 669); (42931, 42931, 1, 43859);
    (42932, 42946, 2, 42933); (42948, 42948, 1, 42900); (42949, 42949, 1, 642);
    (42950, 42950, 1, 7566); (42951, 42953, 2, 42952); (42960, 42960, 1, 42961);
    (42966, 42968, 2, 42967); (42997, 42997, 1, 42998); (65313, 65338, 1, 65345);
    (66560, 66599, 1, 66600); (66736, 66771, 1, 66776); (66928, 66938, 1, 66967);
    (66940, 66954, 1, 66979); (66956, 66962, 1, 66995); (66964, 66965, 1, 67003);
    (68736, 68786, 1, 68800); (71840, 71871, 1, 71872); (93760, 93791, 1, 93792);
    (125184, 125217, 1, 125218)
  ].

(** The code units above ASCII that the full upper-case mapping
    (UnicodeData.txt, and SpecialCasing.txt where no condition applies)
    takes to a single code unit, other than the unit itself and not an
    ASCII one; entries as in [lowerRuns], [image] the upper case. *)
Definition upperRuns : list (N * N * N * N) :=
  [
    (181, 181, 1, 924); (224, 246, 1, 192); (248, 254, 1, 216); (255, 255, 1, 376);
    (257, 303, 2, 256); (307, 311, 2, 306); (314, 328, 2, 313); (331, 375, 2, 330);
    (378, 382, 2, 377); (384, 384, 1, 579); (387, 389, 2, 386); (392, 392, 1, 391);
    (396, 396, 1, 395); (402, 402, 1, 401); (405, 405, 1, 502); (409, 409, 1, 408);
    (410, 410, 1, 573); (414, 414, 1, 544); (417, 421, 2, 416); (424, 424, 1, 423);
    (429, 429, 1, 428); (432, 432, 1, 431); (436, 438, 2, 435); (441, 441, 1, 440);
    (445, 445, 1, 444); (447, 447, 1, 503); (453, 453, 1, 452); (454, 454, 1, 452);
    (456, 456, 1, 455); (457, 457, 1, 455); (459, 459, 1, 458); (460, 460, 1, 458);
    (462, 476, 2, 461); (477, 477, 1, 398); (479, 495, 2, 478); (498, 498, 1, 497);
    (499, 499, 1, 497); (501, 501, 1, 500); (505, 543, 2, 504); (547, 563, 2, 546);
    (572, 572, 1, 571); (575, 576, 1, 11390); (578, 578, 1, 577); (583, 591, 2, 582);
    (592, 592, 1, 11375); (593, 593, 1, 11373); (594, 594, 1, 11376); (595, 595, 1, 385);
    (596, 596, 1, 390); (598, 599, 1, 393); (601, 601, 1, 399); (603, 603, 1, 400);
    (604, 604, 1, 42923); (608, 608, 1, 403); (609, 609, 1, 42924); (611, 611, 1, 404);
    (613, 613, 1, 42893); (614, 614, 1, 42922); (616, 616, 1, 407); (617, 617, 1, 406);
    (618, 618, 1, 42926); (619, 619, 1, 11362); (620, 620, 1, 42925); (623, 623, 1, 412);
    (625, 625, 1, 11374); (626, 626, 1, 413); (629, 629, 1, 415); (637, 637, 1, 11364);
    (640, 640, 1, 422); (642, 642, 1, 42949); (643, 643, 1, 425); (647, 647, 1, 42929);
    (648, 648, 1, 430); (649, 649, 1, 580); (650, 651, 1, 433); (652, 652, 1, 581);
    (658, 658, 1, 439); (669, 669, 1, 42930); (670, 670, 1, 42928); (837, 837, 1, 921);
    (881, 883, 2, 880); (887, 887, 1, 886); (891, 893, 1, 1021); (940, 940, 1, 902);
    (941, 943, 1, 904); (945, 961, 1, 913); (962, 962, 1, 931); (963, 971, 1, 931);
    (972, 972, 1, 908); (973, 974, 1, 910); (976, 976, 1, 914); (977, 977, 1, 920);
    (981, 981, 1, 934); (982, 982, 1, 928); (983, 983, 1, 975); (985, 1007, 2, 984);
    (1008, 1008, 1, 922); (1009, 1009, 1, 929); (1010, 1010, 1, 1017); (1011, 1011, 1, 895);
    (1013, 1013, 1, 917); (1016, 1016, 1, 1015); (1019, 1019, 1, 1018); (1072, 1103, 1, 1040);
    (1104, 1119, 1, 1024); (1121, 1153, 2, 1120); (1163, 1215, 2, 1162); (1218, 1230, 2, 1217);
    (1231, 1231, 1, 1216); (1233, 1327, 2, 1232); (1377, 1414, 1, 1329); (4304, 4346, 1, 7312);
    (4349, 4351, 1, 7357); (5112, 5117, 1, 5104); (7296, 7296, 1, 1042); (7297, 7297, 1, 1044);
    (7298, 7298, 1, 1054); (7299, 7300, 1, 1057); (7301, 7301, 1, 1058); (7302, 7302, 1, 1066);
    (7303, 7303, 1, 1122); (7304, 7304, 1, 42570); (7545, 7545, 1, 42877);
    (7549, 7549, 1, 11363); (7566, 7566, 1, 42950); (7681, 7829, 2, 7680);
    (7835, 7835, 1, 7776); (7841, 7935, 2, 7840); (7936, 7943, 1, 7944); (7952, 7957, 1, 7960);
    (7968, 7975, 1, 7976); (7984, 7991, 1, 7992); (8000, 8005, 1, 8008); (8017, 8023, 2, 8025);
    (8032, 8039, 1, 8040); (8048, 8049, 1, 8122); (8050, 8053, 1, 8136); (8054, 8055, 1, 8154);
    (8056, 8057, 1, 8184); (8058, 8059, 1, 8170); (8060, 8061, 1, 8186); (8112, 8113, 1, 8120);
    (8126, 8126, 1, 921); (8144, 8145, 1, 8152); (8160, 8161, 1, 8168); (8165, 8165, 1, 8172);
    (8526, 8526, 1, 8498); (8560, 8575, 1, 8544); (8580, 8580, 1, 8579); (9424, 9449, 1, 9398);
    (11312, 11359, 1, 11264); (11361, 11361, 1, 11360); (11365, 11365, 1, 570);
    (11366, 11366, 1, 574); (11368, 11372, 2, 11367); (11379, 11379, 1, 11378);
    (11382, 11382, 1, 11381); (11393, 11491, 2, 11392); (11500, 11502, 2, 11499);
    (11507, 11507, 1, 11506); (11520, 11557, 1, 4256); (11559, 11559, 1, 4295);
    (11565, 11565, 1, 4301); (42561, 42605, 2, 42560); (42625, 42651, 2, 42624);
    (42787, 42799, 2, 42786); (42803, 42863, 2, 42802); (42874, 42876, 2, 42873);
    (42879, 42887, 2, 42878); (42892, 42892, 1, 42891); (42897, 42899, 2, 42896);
    (42900, 42900, 1, 42948); (42903, 42921, 2, 42902); (42933, 42947, 2, 42932);
    (42952, 42954, 2, 42951); (42961, 42961, 1, 42960); (42967, 42969, 2, 42966);
    (42998, 42998, 1, 42997); (43859, 43859, 1, 42931); (43888, 43967, 1, 5024);
    (65345, 65370, 1, 65313)
  ].

(** The property Cased of DerivedCoreProperties.txt. *)
Definition casedRanges : list (N * N) :=
  [
    (65, 90); (97, 122); (170, 170); (181, 181); (186, 186); (192, 214); (216, 246);
    (248, 442); (444, 447); (452, 659); (661, 696); (704, 705); (736, 740); (837, 837);
    (880, 883); (886, 887); (890, 893); (895, 895); (902, 902); (904, 906); (908, 908);
    (910, 929); (931, 1013); (1015, 1153); (1162, 1327); (1329, 1366); (1376, 1416);
    (4256, 4293); (4295, 4295); (4301, 4301); (4304, 4346); (4349, 4351); (5024, 5109);
    (5112, 5117); (7296, 7304); (7312, 7354); (7357, 7359); (7424, 7615); (7680, 7957);
    (7960, 7965); (7968, 8005); (8008, 8013); (8016, 8023); (8025, 8025); (8027, 8027);
    (8029, 8029); (8031, 8061); (8064, 8116); (8118, 8124); (8126, 8126); (8130, 8132);
    (8134, 8140); (8144, 8147); (8150, 8155); (8160, 8172); (8178, 8180); (8182, 8188);
    (8305, 8305); (8319, 8319); (8336, 8348); (8450, 8450); (8455, 8455); (8458, 8467);
    (8469, 8469); (8473, 8477); (8484, 8484); (8486, 8486); (8488, 8488); (8490, 8493);
    (8495, 8500); (8505, 8505); (8508, 8511); (8517, 8521); (8526, 8526); (8544, 8575);
    (8579, 8580); (9398, 9449); (11264, 11492); (11499, 11502); (11506, 11507); (11520, 11557);
    (11559, 11559); (11565, 11565); (42560, 42605); (42624, 42653); (42786, 42887);
    (42891, 42894); (42896, 42954); (42960, 42961); (42963, 42963); (42965, 42969);
    (42997, 42998); (43000, 43002); (43824, 43866); (43868, 43880); (43888, 43967);
    (64256, 64262); (64275, 64279); (65313, 65338); (65345, 65370); (66560, 66639);
    (66736, 66771); (66776, 66811); (66928, 66938); (66940, 66954); (66956, 66962);
    (66964, 66965); (66967, 66977); (66979, 66993); (66995, 67001); (67003, 67004);
    (67456, 67456); (67459, 67461); (67463, 67504); (67506, 67514); (68736, 68786);
    (68800, 68850); (71840, 71903); (93760, 93823); (119808, 119892); (119894, 119964);
    (119966, 119967); (119970, 119970); (119973, 119974); (119977, 119980); (119982, 119993);
    (119995, 119995); (119997, 120003); (120005, 120069); (120071, 120074); (120077, 120084);
    (120086, 120092); (120094, 120121); (120123, 120126); (120128, 120132); (120134, 120134);
    (120138, 120144); (120146, 120485); (120488, 120512); (120514, 120538); (120540, 120570);
    (120572, 120596); (120598, 120628); (120630, 120654); (120656, 120686); (120688, 120712);
    (120714, 120744); (120746, 120770); (120772, 120779); (122624, 122633); (122635, 122654);
    (125184, 125251); (127280, 127305); (127312, 127337); (127344, 127369)
  ].

(** The property Case_Ignorable of DerivedCoreProperties.txt. *)
Definition caseIgnorableRanges : list (N * N) :=
  [
    (39, 39); (46, 46); (58, 58); (94, 94); (96, 96); (168, 168); (173, 173); (175, 175);
    (180, 180); (183, 184); (688, 879); (884, 885); (890, 890); (900, 901); (903, 903);
    (1155, 1161); (1369, 1369); (1375, 1375); (1425, 1469); (1471, 1471); (1473, 1474);
    (1476, 1477); (1479, 1479); (1524, 1524); (1536, 1541); (1552, 1562); (1564, 1564);
    (1600, 1600); (1611, 1631); (1648, 1648); (1750, 1757); (1759, 1768); (1770, 1773);
    (1807, 1807); (1809, 1809); (1840, 1866); (1958, 1968); (2027, 2037); (2042, 2042);
    (2045, 2045); (2070, 2093); (2137, 2139); (2184, 2184); (2192, 2193); (2200, 2207);
    (2249, 2306); (2362, 2362); (2364, 2364); (2369, 2376); (2381, 2381); (2385, 2391);
    (2402, 2403); (2417, 2417); (2433, 2433); (2492, 2492); (2497, 2500); (2509, 2509);
    (2530, 2531); (2558, 2558); (2561, 2562); (2620, 2620); (2625, 2626); (2631, 2632);
    (2635, 2637); (2641, 2641); (2672, 2673); (2677, 2677); (2689, 2690); (2748, 2748);
    (2753, 2757); (2759, 2760); (2765, 2765); (2786, 2787); (2810, 2815); (2817, 2817);
    (2876, 2876); (2879, 2879); (2881, 2884); (2893, 2893); (2901, 2902); (2914, 2915);
    (2946, 2946); (3008, 3008); (3021, 3021); (3072, 3072); (3076, 3076); (3132, 3132);
    (3134, 3136); (3142, 3144); (3146, 3149); (3157, 3158); (3170, 3171); (3201, 3201);
    (3260, 3260); (3263, 3263); (3270, 3270); (3276, 3277); (3298, 3299); (3328, 3329);
    (3387, 3388); (3393, 3396); (3405, 3405); (3426, 3427); (3457, 3457); (3530, 3530);
    (3538, 3540); (3542, 3542); (3633, 3633); (3636, 3642); (3654, 3662); (3761, 3761);
    (3764, 3772); (3782, 3782); (3784, 3789); (3864, 3865); (3893, 3893); (3895, 3895);
    (3897, 3897); (3953, 3966); (3968, 3972); (3974, 3975); (3981, 3991); (3993, 4028);
    (4038, 4038); (4141, 4144); (4146, 4151); (4153, 4154); (4157, 4158); (4184, 4185);
    (4190, 4192); (4209, 4212); (4226, 4226); (4229, 4230); (4237, 4237); (4253, 4253);
    (4348, 4348); (4957, 4959); (5906, 5908); (5938, 5939); (5970, 5971); (6002, 6003);
    (6068, 6069); (6071, 6077); (6086, 6086); (6089, 6099); (6103, 6103); (6109, 6109);
    (6155, 6159); (6211, 6211); (6277, 6278); (6313, 6313); (6432, 6434); (6439, 6440);
    (6450, 6450); (6457, 6459); (6679, 6680); (6683, 6683); (6742, 6742); (6744, 6750);
    (6752, 6752); (6754, 6754); (6757, 6764); (6771, 6780); (6783, 6783); (6823, 6823);
    (6832, 6862); (6912, 6915); (6964, 6964); (6966, 6970); (6972, 6972); (6978, 6978);
    (7019, 7027); (7040, 7041); (7074, 7077); (7080, 7081); (7083, 7085); (7142, 7142);
    (7144, 7145); (7149, 7149); (7151, 7153); (7212, 7219); (7222, 7223); (7288, 7293);
    (7376, 7378); (7380, 7392); (7394, 7400); (7405, 7405); (7412, 7412); (7416, 7417);
    (7468, 7530); (7544, 7544); (7579, 7679); (8125, 8125); (8127, 8129); (8141, 8143);
    (8157, 8159); (8173, 8175); (8189, 8190); (8203, 8207); (8216, 8217); (8228, 8228);
    (8231, 8231); (8234, 8238); (8288, 8292); (8294, 8303); (8305, 8305); (8319, 8319);
    (8336, 8348); (8400, 8432); (11388, 11389); (11503, 11505); (11631, 11631); (11647, 11647);
    (11744, 11775); (11823, 11823); (12293, 12293); (12330, 12333); (12337, 12341);
    (12347, 12347); (12441, 12446); (12540, 12542); (40981, 40981); (42232, 42237);
    (42508, 42508); (42607, 42610); (42612, 42621); (42623, 42623); (42652, 42655);
    (42736, 42737); (42752, 42785); (42864, 42864); (42888, 42890); (42994, 42996);
    (43000, 43001); (43010, 43010); (43014, 43014); (43019, 43019); (43045, 43046);
    (43052, 43052); (43204, 43205); (43232, 43249); (43263, 43263); (43302, 43309);
    (43335, 43345); (43392, 43394); (43443, 43443); (43446, 43449); (43452, 43453);
    (43471, 43471); (43493, 43494); (43561, 43566); (43569, 43570); (43573, 43574);
    (43587, 43587); (43596, 43596); (43632, 43632); (43644, 43644); (43696, 43696);
    (43698, 43700); (43703, 43704); (43710, 43711); (43713, 43713); (43741, 43741);
    (43756, 43757); (43763, 43764); (43766, 43766); (43867, 43871); (43881, 43883);
    (44005, 44005); (44008, 44008); (44013, 44013); (64286, 64286); (64434, 64450);
    (65024, 65039); (65043, 65043); (65056, 65071); (65106, 65106); (65109, 65109);
    (65279, 65279); (65287, 65287); (65294, 65294); (65306, 65306); (65342, 65342);
    (65344, 65344); (65392, 65392); (65438, 65439); (65507, 65507); (65529, 65531);
    (66045, 66045); (66272, 66272); (66422, 66426); (67456, 67461); (67463, 67504);
    (67506, 67514); (68097, 68099); (68101, 68102); (68108, 68111); (68152, 68154);
    (68159, 68159); (68325, 68326); (68900, 68903); (69291, 69292); (69446, 69456);
    (69506, 69509); (69633, 69633); (69688, 69702); (69744, 69744); (69747, 69748);
    (69759, 69761); (69811, 69814); (69817, 69818); (69821, 69821); (69826, 69826);
    (69837, 69837); (69888, 69890); (69927, 69931); (69933, 69940); (70003, 70003);
    (70016, 70017); (70070, 70078); (70089, 70092); (70095, 70095); (70191, 70193);
    (70196, 70196); (70198, 70199); (70206, 70206); (70367, 70367); (70371, 70378);
    (70400, 70401); (70459, 70460); (70464, 70464); (70502, 70508); (70512, 70516);
    (70712, 70719); (70722, 70724); (70726, 70726); (70750, 70750); (70835, 70840);
    (70842, 70842); (70847, 70848); (70850, 70851); (71090, 71093); (71100, 71101);
    (71103, 71104); (71132, 71133); (71219, 71226); (71229, 71229); (71231, 71232);
    (71339, 71339); (71341, 71341); (71344, 71349); (71351, 71351); (71453, 71455);
    (71458, 71461); (71463, 71467); (71727, 71735); (71737, 71738); (71995, 71996);
    (71998, 71998); (72003, 72003); (72148, 72151); (72154, 72155); (72160, 72160);
    (72193, 72202); (72243, 72248); (72251, 72254); (72263, 72263); (72273, 72278);
    (72281, 72283); (72330, 72342); (72344, 72345); (72752, 72758); (72760, 72765);
    (72767, 72767); (72850, 72871); (72874, 72880); (72882, 72883); (72885, 72886);
    (73009, 73014); (73018, 73018); (73020, 73021); (73023, 73029); (73031, 73031);
    (73104, 73105); (73109, 73109); (73111, 73111); (73459, 73460); (78896, 78904);
    (92912, 92916); (92976, 92982); (92992, 92995); (94031, 94031); (94095, 94111);
    (94176, 94177); (94179, 94180); (110576, 110579); (110581, 110587); (110589, 110590);
    (113821, 113822); (113824, 113827); (118528, 118573); (118576, 118598); (119143, 119145);
    (119155, 119170); (119173, 119179); (119210, 119213); (119362, 119364); (121344, 121398);
    (121403, 121452); (121461, 121461); (121476, 121476); (121499, 121503); (121505, 121519);
    (122880, 122886); (122888, 122904); (122907, 122913); (122915, 122916); (122918, 122922);
    (123184, 123197); (123566, 123566); (123628, 123631); (125136, 125142); (125252, 125259);
    (127995, 127999); (917505, 917505); (917536, 917631); (917760, 917999)
  ].

(** The non-zero values of Canonical_Combining_Class, as
    [(first, last, class)]. *)
Definition combiningClasses : list (N * N * N) :=
  [
    (768, 788, 230); (789, 789, 232); (790, 793, 220); (794, 794, 232); (795, 795, 216);
    (796, 800, 220); (801, 802, 202); (803, 806, 220); (807, 808, 202); (809, 819, 220);
    (820, 824, 1); (825, 828, 220); (829, 836, 230); (837, 837, 240); (838, 838, 230);
    (839, 841, 220); (842, 844, 230); (845, 846, 220); (848, 850, 230); (851, 854, 220);
    (855, 855, 230); (856, 856, 232); (857, 858, 220); (859, 859, 230); (860, 860, 233);
    (861, 862, 234); (863, 863, 233); (864, 865, 234); (866, 866, 233); (867, 879, 230);
    (1155, 1159, 230); (1425, 1425, 220); (1426, 1429, 230); (1430, 1430, 220);
    (1431, 1433, 230); (1434, 1434, 222); (1435, 1435, 220); (1436, 1441, 230);
    (1442, 1447, 220); (1448, 1449, 230); (1450, 1450, 220); (1451, 1452, 230);
    (1453, 1453, 222); (1454, 1454, 228); (1455, 1455, 230); (1456, 1456, 10);
    (1457, 1457, 11); (1458, 1458, 12); (1459, 1459, 13); (1460, 1460, 14); (1461, 1461, 15);
    (1462, 1462, 16); (1463, 1463, 17); (1464, 1464, 18); (1465, 1466, 19); (1467, 1467, 20);
    (1468, 1468, 21); (1469, 1469, 22); (1471, 1471, 23); (1473, 1473, 24); (1474, 1474, 25);
    (1476, 1476, 230); (1477, 1477, 220); (1479, 1479, 18); (1552, 1559, 230);
    (1560, 1560, 30); (1561, 1561, 31); (1562, 1562, 32); (1611, 1611, 27); (1612, 1612, 28);
    (1613, 1613, 29); (1614, 1614, 30); (1615, 1615, 31); (1616, 1616, 32); (1617, 1617, 33);
    (1618, 1618, 34); (1619, 1620, 230); (1621, 1622, 220); (1623, 1627, 230);
    (1628, 1628, 220); (1629, 1630, 230); (1631, 1631, 220); (1648, 1648, 35);
    (1750, 1756, 230); (1759, 1762, 230); (1763, 1763, 220); (1764, 1764, 230);
    (1767, 1768, 230); (1770, 1770, 220); (1771, 1772, 230); (1773, 1773, 220);
    (1809, 1809, 36); (1840, 1840, 230); (1841, 1841, 220); (1842, 1843, 230);
    (1844, 1844, 220); (1845, 1846, 230); (1847, 1849, 220); (1850, 1850, 230);
    (1851, 1852, 220); (1853, 1853, 230); (1854, 1854, 220); (1855, 1857, 230);
    (1858, 1858, 220); (1859, 1859, 230); (1860, 1860, 220); (1861, 1861, 230);
    (1862, 1862, 220); (1863, 1863, 230); (1864, 1864, 220); (1865, 1866, 230);
    (2027, 2033, 230); (2034, 2034, 220); (2035, 2035, 230); (2045, 2045, 220);
    (2070, 2073, 230); (2075, 2083, 230); (2085, 2087, 230); (2089, 2093, 230);
    (2137, 2139, 220); (2200, 2200, 230); (2201, 2203, 220); (2204, 2207, 230);
    (2250, 2254, 230); (2255, 2259, 220); (2260, 2273, 230); (2275, 2275, 220);
    (2276, 2277, 230); (2278, 2278, 220); (2279, 2280, 230); (2281, 2281, 220);
    (2282, 2284, 230); (2285, 2287, 220); (2288, 2288, 27); (2289, 2289, 28); (2290, 2290, 29);
    (2291, 2293, 230); (2294, 2294, 220); (2295, 2296, 230); (2297, 2298, 220);
    (2299, 2303, 230); (2364, 2364, 7); (2381, 2381, 9); (2385, 2385, 230); (2386, 2386, 220);
    (2387, 2388, 230); (2492, 2492, 7); (2509, 2509, 9); (2558, 2558, 230); (2620, 2620, 7);
    (2637, 2637, 9); (2748, 2748, 7); (2765, 2765, 9); (2876, 2876, 7); (2893, 2893, 9);
    (3021, 3021, 9); (3132, 3132, 7); (3149, 3149, 9); (3157, 3157, 84); (3158, 3158, 91);
    (3260, 3260, 7); (3277, 3277, 9); (3387, 3388, 9); (3405, 3405, 9); (3530, 3530, 9);
    (3640, 3641, 103); (3642, 3642, 9); (3656, 3659, 107); (3768, 3769, 118); (3770, 3770, 9);
    (3784, 3787, 122); (3864, 3865, 220); (3893, 3893, 220); (3895, 3895, 220);
    (3897, 3897, 216); (3953, 3953, 129); (3954, 3954, 130); (3956, 3956, 132);
    (3962, 3965, 130); (3968, 3968, 130); (3970, 3971, 230); (3972, 3972, 9);
    (3974, 3975, 230); (4038, 4038, 220); (4151, 4151, 7); (4153, 4154, 9); (4237, 4237, 220);
    (4957, 4959, 230); (5908, 5909, 9); (5940, 5940, 9); (6098, 6098, 9); (6109, 6109, 230);
    (6313, 6313, 228); (6457, 6457, 222); (6458, 6458, 230); (6459, 6459, 220);
    (6679, 6679, 230); (6680, 6680, 220); (6752, 6752, 9); (6773, 6780, 230);
    (6783, 6783, 220); (6832, 6836, 230); (6837, 6842, 220); (6843, 6844, 230);
    (6845, 6845, 220); (6847, 6848, 220); (6849, 6850, 230); (6851, 6852, 220);
    (6853, 6857, 230); (6858, 6858, 220); (6859, 6862, 230); (6964, 6964, 7); (6980, 6980, 9);
    (7019, 7019, 230); (7020, 7020, 220); (7021, 7027, 230); (7082, 7083, 9); (7142, 7142, 7);
    (7154, 7155, 9); (7223, 7223, 7); (7376, 7378, 230); (7380, 7380, 1); (7381, 7385, 220);
    (7386, 7387, 230); (7388, 7391, 220); (7392, 7392, 230); (7394, 7400, 1);
    (7405, 7405, 220); (7412, 7412, 230); (7416, 7417, 230); (7616, 7617, 230);
    (7618, 7618, 220); (7619, 7625, 230); (7626, 7626, 220); (7627, 7628, 230);
    (7629, 7629, 234); (7630, 7630, 214); (7631, 7631, 220); (7632, 7632, 202);
    (7633, 7669, 230); (7670, 7670, 232); (7671, 7672, 228); (7673, 7673, 220);
    (7674, 7674, 218); (7675, 7675, 230); (7676, 7676, 233); (7677, 7677, 220);
    (7678, 7678, 230); (7679, 7679, 220); (8400, 8401, 230); (8402, 8403, 1);
    (8404, 8407, 230); (8408, 8410, 1); (8411, 8412, 230); (8417, 8417, 230); (8421, 8422, 1);
    (8423, 8423, 230); (8424, 8424, 220); (8425, 8425, 230); (8426, 8427, 1);
    (8428, 8431, 220); (8432, 8432, 230); (11503, 11505, 230); (11647, 11647, 9);
    (11744, 11775, 230); (12330, 12330, 218); (12331, 12331, 228); (12332, 12332, 232);
    (12333, 12333, 222); (12334, 12335, 224); (12441, 12442, 8); (42607, 42607, 230);
    (42612, 42621, 230); (42654, 42655, 230); (42736, 42737, 230); (43014, 43014, 9);
    (43052, 43052, 9); (43204, 43204, 9); (43232, 43249, 230); (43307, 43309, 220);
    (43347, 43347, 9); (43443, 43443, 7); (43456, 43456, 9); (43696, 43696, 230);
    (43698, 43699, 230); (43700, 43700, 220); (43703, 43704, 230); (43710, 43711, 230);
    (43713, 43713, 230); (43766, 43766, 9); (44013, 44013, 9); (64286, 64286, 26);
    (65056, 65062, 230); (65063, 65069, 220); (65070, 65071, 230); (66045, 66045, 220);
    (66272, 66272, 220); (66422, 66426, 230); (68109, 68109, 220); (68111, 68111, 230);
    (68152, 68152, 230); (68153, 68153, 1); (68154, 68154, 220); (68159, 68159, 9);
    (68325, 68325, 230); (68326, 68326, 220); (68900, 68903, 230); (69291, 69292, 230);
    (69446, 69447, 220); (69448, 69450, 230); (69451, 69451, 220); (69452, 69452, 230);
    (69453, 69456, 220); (69506, 69506, 230); (69507, 69507, 220); (69508, 69508, 230);
    (69509, 69509, 220); (69702, 69702, 9); (69744, 69744, 9); (69759, 69759, 9);
    (69817, 69817, 9); (69818, 69818, 7); (69888, 69890, 230); (69939, 69940, 9);
    (70003, 70003, 7); (70080, 70080, 9); (70090, 70090, 7); (70197, 70197, 9);
    (70198, 70198, 7); (70377, 70377, 7); (70378, 70378, 9); (70459, 70460, 7);
    (70477, 70477, 9); (70502, 70508, 230); (70512, 70516, 230); (70722, 70722, 9);
    (70726, 70726, 7); (70750, 70750, 230); (70850, 70850, 9); (70851, 70851, 7);
    (71103, 71103, 9); (71104, 71104, 7); (71231, 71231, 9); (71350, 71350, 9);
    (71351, 71351, 7); (71467, 71467, 9); (71737, 71737, 9); (71738, 71738, 7);
    (71997, 71998, 9); (72003, 72003, 7); (72160, 72160, 9); (72244, 72244, 9);
    (72263, 72263, 9); (72345, 72345, 9); (72767, 72767, 9); (73026, 73026, 7);
    (73028, 73029, 9); (73111, 73111, 9); (92912, 92916, 1); (92976, 92982, 230);
    (94192, 94193, 6); (113822, 113822, 1); (119141, 119142, 216); (119143, 119145, 1);
    (119149, 119149, 226); (119150, 119154, 216); (119163, 119170, 220); (119173, 119177, 230);
    (119178, 119179, 220); (119210, 119213, 230); (119362, 119364, 230); (122880, 122886, 230);
    (122888, 122904, 230); (122907, 122913, 230); (122915, 122916, 230); (122918, 122922, 230);
    (123184, 123190, 230); (123566, 123566, 230); (123628, 123631, 230); (125136, 125142, 220);
    (125252, 125257, 230); (125258, 125258, 7)
  ].

(** The canonical decompositions of UnicodeData.txt, each written out in
    full (decomposed again until nothing decomposes), in the order of the
    code points.  The Hangul syllables, which decompose by arithmetic,
    are not listed. *)
Definition decompositions : list (N * list N) :=
  [
    (192, [65; 768]); (193, [65; 769]); (194, [65; 770]); (195, [65; 771]); (196, [65; 776]);
    (197, [65; 778]); (199, [67; 807]); (200, [69; 768]); (201, [69; 769]); (202, [69; 770]);
    (203, [69; 776]); (204, [73; 768]); (205, [73; 769]); (206, [73; 770]); (207, [73; 776]);
    (209, [78; 771]); (210, [79; 768]); (211, [79; 769]); (212, [79; 770]); (213, [79; 771]);
    (214, [79; 776]); (217, [85; 768]); (218, [85; 769]); (219, [85; 770]); (220, [85; 776]);
    (221, [89; 769]); (224, [97; 768]); (225, [97; 769]); (226, [97; 770]); (227, [97; 771]);
    (228, [97; 776]); (229, [97; 778]); (231, [99; 807]); (232, [101; 768]); (233, [101; 769]);
    (234, [101; 770]); (235, [101; 776]); (236, [105; 768]); (237, [105; 769]);
    (238, [105; 770]); (239, [105; 776]); (241, [110; 771]); (242, [111; 768]);
    (243, [111; 769]); (244, [111; 770]); (245, [111; 771]); (246, [111; 776]);
    (249, [117; 768]); (250, [117; 769]); (251, [117; 770]); (252, [117; 776]);
    (253, [121; 769]); (255, [121; 776]); (256, [65; 772]); (257, [97; 772]); (258, [65; 774]);
    (259, [97; 774]); (260, [65; 808]); (261, [97; 808]); (262, [67; 769]); (263, [99; 769]);
    (264, [67; 770]); (265, [99; 770]); (266, [67; 775]); (267, [99; 775]); (268, [67; 780]);
    (269, [99; 780]); (270, [68; 780]); (271, [100; 780]); (274, [69; 772]); (275, [101; 772]);
    (276, [69; 774]); (277, [101; 774]); (278, [69; 775]); (279, [101; 775]); (280, [69; 808]);
    (281, [101; 808]); (282, [69; 780]); (283, [101; 780]); (284, [71; 770]);
    (285, [103; 770]); (286, [71; 774]); (287, [103; 774]); (288, [71; 775]);
    (289, [103; 775]); (290, [71; 807]); (291, [103; 807]); (292, [72; 770]);
    (293, [104; 770]); (296, [73; 771]); (297, [105; 771]); (298, [73; 772]);
    (299, [105; 772]); (300, [73; 774]); (301, [105; 774]); (302, [73; 808]);
    (303, [105; 808]); (304, [73; 775]); (308, [74; 770]); (309, [106; 770]); (310, [75; 807]);
    (311, [107; 807]); (313, [76; 769]); (314, [108; 769]); (315, [76; 807]);
    (316, [108; 807]); (317, [76; 780]); (318, [108; 780]); (323, [78; 769]);
    (324, [110; 769]); (325, [78; 807]); (326, [110; 807]); (327, [78; 780]);
    (328, [110; 780]); (332, [79; 772]); (333, [111; 772]); (334, [79; 774]);
    (335, [111; 774]); (336, [79; 779]); (337, [111; 779]); (340, [82; 769]);
    (341, [114; 769]); (342, [82; 807]); (343, [114; 807]); (344, [82; 780]);
    (345, [114; 780]); (346, [83; 769]); (347, [115; 769]); (348, [83; 770]);
    (349, [115; 770]); (350, [83; 807]); (351, [115; 807]); (352, [83; 780]);
    (353, [115; 780]); (354, [84; 807]); (355, [116; 807]); (356, [84; 780]);
    (357, [116; 780]); (360, [85; 771]); (361, [117; 771]); (362, [85; 772]);
    (363, [117; 772]); (364, [85; 774]); (365, [117; 774]); (366, [85; 778]);
    (367, [117; 778]); (368, [85; 779]); (369, [117; 779]); (370, [85; 808]);
    (371, [117; 808]); (372, [87; 770]); (373, [119; 770]); (374, [89; 770]);
    (375, [121; 770]); (376, [89; 776]); (377, [90; 769]); (378, [122; 769]); (379, [90; 775]);
    (380, [122; 775]); (381, [90; 780]); (382, [122; 780]); (416, [79; 795]);
    (417, [111; 795]); (431, [85; 795]); (432, [117; 795]); (461, [65; 780]); (462, [97; 780]);
    (463, [73; 780]); (464, [105; 780]); (465, [79; 780]); (466, [111; 780]); (467, [85; 780]);
    (468, [117; 780]); (469, [85; 776; 772]); (470, [117; 776; 772]); (471, [85; 776; 769]);
    (472, [117; 776; 769]); (473, [85; 776; 780]); (474, [117; 776; 780]);
    (475, [85; 776; 768]); (476, [117; 776; 768]); (478, [65; 776; 772]);
    (479, [97; 776; 772]); (480, [65; 775; 772]); (481, [97; 775; 772]); (482, [198; 772]);
    (483, [230; 772]); (486, [71; 780]); (487, [103; 780]); (488, [75; 780]);
    (489, [107; 780]); (490, [79; 808]); (491, [111; 808]); (492, [79; 808; 772]);
    (493, [111; 808; 772]); (494, [439; 780]); (495, [658; 780]); (496, [106; 780]);
    (500, [71; 769]); (501, [103; 769]); (504, [78; 768]); (505, [110; 768]);
    (506, [65; 778; 769]); (507, [97; 778; 769]); (508, [198; 769]); (509, [230; 769]);
    (510, [216; 769]); (511, [248; 769]); (512, [65; 783]); (513, [97; 783]); (514, [65; 785]);
    (515, [97; 785]); (516, [69; 783]); (517, [101; 783]); (518, [69; 785]); (519, [101; 785]);
    (520, [73; 783]); (521, [105; 783]); (522, [73; 785]); (523, [105; 785]); (524, [79; 783]);
    (525, [111; 783]); (526, [79; 785]); (527, [111; 785]); (528, [82; 783]);
    (529, [114; 783]); (530, [82; 785]); (531, [114; 785]); (532, [85; 783]);
    (533, [117; 783]); (534, [85; 785]); (535, [117; 785]); (536, [83; 806]);
    (537, [115; 806]); (538, [84; 806]); (539, [116; 806]); (542, [72; 780]);
    (543, [104; 780]); (550, [65; 775]); (551, [97; 775]); (552, [69; 807]); (553, [101; 807]);
    (554, [79; 776; 772]); (555, [111; 776; 772]); (556, [79; 771; 772]);
    (557, [111; 771; 772]); (558, [79; 775]); (559, [111; 775]); (560, [79; 775; 772]);
    (561, [111; 775; 772]); (562, [89; 772]); (563, [121; 772]); (832, [768]); (833, [769]);
    (835, [787]); (836, [776; 769]); (884, [697]); (894, [59]); (901, [168; 769]);
    (902, [913; 769]); (903, [183]); (904, [917; 769]); (905, [919; 769]); (906, [921; 769]);
    (908, [927; 769]); (910, [933; 769]); (911, [937; 769]); (912, [953; 776; 769]);
    (938, [921; 776]); (939, [933; 776]); (940, [945; 769]); (941, [949; 769]);
    (942, [951; 769]); (943, [953; 769]); (944, [965; 776; 769]); (970, [953; 776]);
    (971, [965; 776]); (972, [959; 769]); (973, [965; 769]); (974, [969; 769]);
    (979, [978; 769]); (980, [978; 776]); (1024, [1045; 768]); (1025, [1045; 776]);
    (1027, [1043; 769]); (1031, [1030; 776]); (1036, [1050; 769]); (1037, [1048; 768]);
    (1038, [1059; 774]); (1049, [1048; 774]); (1081, [1080; 774]); (1104, [1077; 768]);
    (1105, [1077; 776]); (1107, [1075; 769]); (1111, [1110; 776]); (1116, [1082; 769]);
    (1117, [1080; 768]); (1118, [1091; 774]); (1142, [1140; 783]); (1143, [1141; 783]);
    (1217, [1046; 774]); (1218, [1078; 774]); (1232, [1040; 774]); (1233, [1072; 774]);
    (1234, [1040; 776]); (1235, [1072; 776]); (1238, [1045; 774]); (1239, [1077; 774]);
    (1242, [1240; 776]); (1243, [1241; 776]); (1244, [1046; 776]); (1245, [1078; 776]);
    (1246, [1047; 776]); (1247, [1079; 776]); (1250, [1048; 772]); (1251, [1080; 772]);
    (1252, [1048; 776]); (1253, [1080; 776]); (1254, [1054; 776]); (1255, [1086; 776]);
    (1258, [1256; 776]); (1259, [1257; 776]); (1260, [1069; 776]); (1261, [1101; 776]);
    (1262, [1059; 772]); (1263, [1091; 772]); (1264, [1059; 776]); (1265, [1091; 776]);
    (1266, [1059; 779]); (1267, [1091; 779]); (1268, [1063; 776]); (1269, [1095; 776]);
    (1272, [1067; 776]); (1273, [1099; 776]); (1570, [1575; 1619]); (1571, [1575; 1620]);
    (1572, [1608; 1620]); (1573, [1575; 1621]); (1574, [1610; 1620]); (1728, [1749; 1620]);
    (1730, [1729; 1620]); (1747, [1746; 1620]); (2345, [2344; 2364]); (2353, [2352; 2364]);
    (2356, [2355; 2364]); (2392, [2325; 2364]); (2393, [2326; 2364]); (2394, [2327; 2364]);
    (2395, [2332; 2364]); (2396, [2337; 2364]); (2397, [2338; 2364]); (2398, [2347; 2364]);
    (2399, [2351; 2364]); (2507, [2503; 2494]); (2508, [2503; 2519]); (2524, [2465; 2492]);
    (2525, [2466; 2492]); (2527, [2479; 2492]); (2611, [2610; 2620]); (2614, [2616; 2620]);
    (2649, [2582; 2620]); (2650, [2583; 2620]); (2651, [2588; 2620]); (2654, [2603; 2620]);
    (2888, [2887; 2902]); (2891, [2887; 2878]); (2892, [2887; 2903]); (2908, [2849; 2876]);
    (2909, [2850; 2876]); (2964, [2962; 3031]); (3018, [3014; 3006]); (3019, [3015; 3006]);
    (3020, [3014; 3031]); (3144, [3142; 3158]); (3264, [3263; 3285]); (3271, [3270; 3285]);
    (3272, [3270; 3286]); (3274, [3270; 3266]); (3275, [3270; 3266; 3285]);
    (3402, [3398; 3390]); (3403, [3399; 3390]); (3404, [3398; 3415]); (3546, [3545; 3530]);
    (3548, [3545; 3535]); (3549, [3545; 3535; 3530]); (3550, [3545; 3551]);
    (3907, [3906; 4023]); (3917, [3916; 4023]); (3922, [3921; 4023]); (3927, [3926; 4023]);
    (3932, [3931; 4023]); (3945, [3904; 4021]); (3955, [3953; 3954]); (3957, [3953; 3956]);
    (3958, [4018; 3968]); (3960, [4019; 3968]); (3969, [3953; 3968]); (3987, [3986; 4023]);
    (3997, [3996; 4023]); (4002, [4001; 4023]); (4007, [4006; 4023]); (4012, [4011; 4023]);
    (4025, [3984; 4021]); (4134, [4133; 4142]); (6918, [6917; 6965]); (6920, [6919; 6965]);
    (6922, [6921; 6965]); (6924, [6923; 6965]); (6926, [6925; 6965]); (6930, [6929; 6965]);
    (6971, [6970; 6965]); (6973, [6972; 6965]); (6976, [6974; 6965]); (6977, [6975; 6965]);
    (6979, [6978; 6965]); (7680, [65; 805]); (7681, [97; 805]); (7682, [66; 775]);
    (7683, [98; 775]); (7684, [66; 803]); (7685, [98; 803]); (7686, [66; 817]);
    (7687, [98; 817]); (7688, [67; 807; 769]); (7689, [99; 807; 769]); (7690, [68; 775]);
    (7691, [100; 775]); (7692, [68; 803]); (7693, [100; 803]); (7694, [68; 817]);
    (7695, [100; 817]); (7696, [68; 807]); (7697, [100; 807]); (7698, [68; 813]);
    (7699, [100; 813]); (7700, [69; 772; 768]); (7701, [101; 772; 768]);
    (7702, [69; 772; 769]); (7703, [101; 772; 769]); (7704, [69; 813]); (7705, [101; 813]);
    (7706, [69; 816]); (7707, [101; 816]); (7708, [69; 807; 774]); (7709, [101; 807; 774]);
    (7710, [70; 775]); (7711, [102; 775]); (7712, [71; 772]); (7713, [103; 772]);
    (7714, [72; 775]); (7715, [104; 775]); (7716, [72; 803]); (7717, [104; 803]);
    (7718, [72; 776]); (7719, [104; 776]); (7720, [72; 807]); (7721, [104; 807]);
    (7722, [72; 814]); (7723, [104; 814]); (7724, [73; 816]); (7725, [105; 816]);
    (7726, [73; 776; 769]); (7727, [105; 776; 769]); (7728, [75; 769]); (7729, [107; 769]);
    (7730, [75; 803]); (7731, [107; 803]); (7732, [75; 817]); (7733, [107; 817]);
    (7734, [76; 803]); (7735, [108; 803]); (7736, [76; 803; 772]); (7737, [108; 803; 772]);
    (7738, [76; 817]); (7739, [108; 817]); (7740, [76; 813]); (7741, [108; 813]);
    (7742, [77; 769]); (7743, [109; 769]); (7744, [77; 775]); (7745, [109; 775]);
    (7746, [77; 803]); (7747, [109; 803]); (7748, [78; 775]); (7749, [110; 775]);
    (7750, [78; 803]); (7751, [110; 803]); (7752, [78; 817]); (7753, [110; 817]);
    (7754, [78; 813]); (7755, [110; 813]); (7756, [79; 771; 769]); (7757, [111; 771; 769]);
    (7758, [79; 771; 776]); (7759, [111; 771; 776]); (7760, [79; 772; 768]);
    (7761, [111; 772; 768]); (7762, [79; 772; 769]); (7763, [111; 772; 769]);
    (7764, [80; 769]); (7765, [112; 769]); (7766, [80; 775]); (7767, [112; 775]);
    (7768, [82; 775]); (7769, [114; 775]); (7770, [82; 803]); (7771, [114; 803]);
    (7772, [82; 803; 772]); (7773, [114; 803; 772]); (7774, [82; 817]); (7775, [114; 817]);
    (7776, [83; 775]); (7777, [115; 775]); (7778, [83; 803]); (7779, [115; 803]);
    (7780, [83; 769; 775]); (7781, [115; 769; 775]); (7782, [83; 780; 775]);
    (7783, [115; 780; 775]); (7784, [83; 803; 775]); (7785, [115; 803; 775]);
    (7786, [84; 775]); (7787, [116; 775]); (7788, [84; 803]); (7789, [116; 803]);
    (7790, [84; 817]); (7791, [116; 817]); (7792, [84; 813]); (7793, [116; 813]);
    (7794, [85; 804]); (7795, [117; 804]); (7796, [85; 816]); (7797, [117; 816]);
    (7798, [85; 813]); (7799, [117; 813]); (7800, [85; 771; 769]); (7801, [117; 771; 769]);
    (7802, [85; 772; 776]); (7803, [117; 772; 776]); (7804, [86; 771]); (7805, [118; 771]);
    (7806, [86; 803]); (7807, [118; 803]); (7808, [87; 768]); (7809, [119; 768]);
    (7810, [87; 769]); (7811, [119; 769]); (7812, [87; 776]); (7813, [119; 776]);
    (7814, [87; 775]); (7815, [119; 775]); (7816, [87; 803]); (7817, [119; 803]);
    (7818, [88; 775]); (7819, [120; 775]); (7820, [88; 776]); (7821, [120; 776]);
    (7822, [89; 775]); (7823, [121; 775]); (7824, [90; 770]); (7825, [122; 770]);
    (7826, [90; 803]); (7827, [122; 803]); (7828, [90; 817]); (7829, [122; 817]);
    (7830, [104; 817]); (7831, [116; 776]); (7832, [119; 778]); (7833, [121; 778]);
    (7835, [383; 775]); (7840, [65; 803]); (7841, [97; 803]); (7842, [65; 777]);
    (7843, [97; 777]); (7844, [65; 770; 769]); (7845, [97; 770; 769]); (7846, [65; 770; 768]);
    (7847, [97; 770; 768]); (7848, [65; 770; 777]); (7849, [97; 770; 777]);
    (7850, [65; 770; 771]); (7851, [97; 770; 771]); (7852, [65; 803; 770]);
    (7853, [97; 803; 770]); (7854, [65; 774; 769]); (7855, [97; 774; 769]);
    (7856, [65; 774; 768]); (7857, [97; 774; 768]); (7858, [65; 774; 777]);
    (7859, [97; 774; 777]); (7860, [65; 774; 771]); (7861, [97; 774; 771]);
    (7862, [65; 803; 774]); (7863, [97; 803; 774]); (7864, [69; 803]); (7865, [101; 803]);
    (7866, [69; 777]); (7867, [101; 777]); (7868, [69; 771]); (7869, [101; 771]);
    (7870, [69; 770; 769]); (7871, [101; 770; 769]); (7872, [69; 770; 768]);
    (7873, [101; 770; 768]); (7874, [69; 770; 777]); (7875, [101; 770; 777]);
    (7876, [69; 770; 771]); (7877, [101; 770; 771]); (7878, [69; 803; 770]);
    (7879, [101; 803; 770]); (7880, [73; 777]); (7881, [105; 777]); (7882, [73; 803]);
    (7883, [105; 803]); (7884, [79; 803]); (7885, [111; 803]); (7886, [79; 777]);
    (7887, [111; 777]); (7888, [79; 770; 769]); (7889, [111; 770; 769]);
    (7890, [79; 770; 768]); (7891, [111; 770; 768]); (7892, [79; 770; 777]);
    (7893, [111; 770; 777]); (7894, [79; 770; 771]); (7895, [111; 770; 771]);
    (7896, [79; 803; 770]); (7897, [111; 803; 770]); (7898, [79; 795; 769]);
    (7899, [111; 795; 769]); (7900, [79; 795; 768]); (7901, [111; 795; 768]);
    (7902, [79; 795; 777]); (7903, [111; 795; 777]); (7904, [79; 795; 771]);
    (7905, [111; 795; 771]); (7906, [79; 795; 803]); (7907, [111; 795; 803]);
    (7908, [85; 803]); (7909, [117; 803]); (7910, [85; 777]); (7911, [117; 777]);
    (7912, [85; 795; 769]); (7913, [117; 795; 769]); (7914, [85; 795; 768]);
    (7915, [117; 795; 768]); (7916, [85; 795; 777]); (7917, [117; 795; 777]);
    (7918, [85; 795; 771]); (7919, [117; 795; 771]); (7920, [85; 795; 803]);
    (7921, [117; 795; 803]); (7922, [89; 768]); (7923, [121; 768]); (7924, [89; 803]);
    (7925, [121; 803]); (7926, [89; 777]); (7927, [121; 777]); (7928, [89; 771]);
    (7929, [121; 771]); (7936, [945; 787]); (7937, [945; 788]); (7938, [945; 787; 768]);
    (7939, [945; 788; 768]); (7940, [945; 787; 769]); (7941, [945; 788; 769]);
    (7942, [945; 787; 834]); (7943, [945; 788; 834]); (7944, [913; 787]); (7945, [913; 788]);
    (7946, [913; 787; 768]); (7947, [913; 788; 768]); (7948, [913; 787; 769]);
    (7949, [913; 788; 769]); (7950, [913; 787; 834]); (7951, [913; 788; 834]);
    (7952, [949; 787]); (7953, [949; 788]); (7954, [949; 787; 768]); (7955, [949; 788; 768]);
    (7956, [949; 787; 769]); (7957, [949; 788; 769]); (7960, [917; 787]); (7961, [917; 788]);
    (7962, [917; 787; 768]); (7963, [917; 788; 768]); (7964, [917; 787; 769]);
    (7965, [917; 788; 769]); (7968, [951; 787]); (7969, [951; 788]); (7970, [951; 787; 768]);
    (7971, [951; 788; 768]); (7972, [951; 787; 769]); (7973, [951; 788; 769]);
    (7974, [951; 787; 834]); (7975, [951; 788; 834]); (7976, [919; 787]); (7977, [919; 788]);
    (7978, [919; 787; 768]); (7979, [919; 788; 768]); (7980, [919; 787; 769]);
    (7981, [919; 788; 769]); (7982, [919; 787; 834]); (7983, [919; 788; 834]);
    (7984, [953; 787]); (7985, [953; 788]); (7986, [953; 787; 768]); (7987, [953; 788; 768]);
    (7988, [953; 787; 769]); (7989, [953; 788; 769]); (7990, [953; 787; 834]);
    (7991, [953; 788; 834]); (7992, [921; 787]); (7993, [921; 788]); (7994, [921; 787; 768]);
    (7995, [921; 788; 768]); (7996, [921; 787; 769]); (7997, [921; 788; 769]);
    (7998, [921; 787; 834]); (7999, [921; 788; 834]); (8000, [959; 787]); (8001, [959; 788]);
    (8002, [959; 787; 768]); (8003, [959; 788; 768]); (8004, [959; 787; 769]);
    (8005, [959; 788; 769]); (8008, [927; 787]); (8009, [927; 788]); (8010, [927; 787; 768]);
    (8011, [927; 788; 768]); (8012, [927; 787; 769]); (8013, [927; 788; 769]);
    (8016, [965; 787]); (8017, [965; 788]); (8018, [965; 787; 768]); (8019, [965; 788; 768]);
    (8020, [965; 787; 769]); (8021, [965; 788; 769]); (8022, [965; 787; 834]);
    (8023, [965; 788; 834]); (8025, [933; 788]); (8027, [933; 788; 768]);
    (8029, [933; 788; 769]); (8031, [933; 788; 834]); (8032, [969; 787]); (8033, [969; 788]);
    (8034, [969; 787; 768]); (8035, [969; 788; 768]); (8036, [969; 787; 769]);
    (8037, [969; 788; 769]); (8038, [969; 787; 834]); (8039, [969; 788; 834]);
    (8040, [937; 787]); (8041, [937; 788]); (8042, [937; 787; 768]); (8043, [937; 788; 768]);
    (8044, [937; 787; 769]); (8045, [937; 788; 769]); (8046, [937; 787; 834]);
    (8047, [937; 788; 834]); (8048, [945; 768]); (8049, [945; 769]); (8050, [949; 768]);
    (8051, [949; 769]); (8052, [951; 768]); (8053, [951; 769]); (8054, [953; 768]);
    (8055, [953; 769]); (8056, [959; 768]); (8057, [959; 769]); (8058, [965; 768]);
    (8059, [965; 769]); (8060, [969; 768]); (8061, [969; 769]); (8064, [945; 787; 837]);
    (8065, [945; 788; 837]); (8066, [945; 787; 768; 837]); (8067, [945; 788; 768; 837]);
    (8068, [945; 787; 769; 837]); (8069, [945; 788; 769; 837]); (8070, [945; 787; 834; 837]);
    (8071, [945; 788; 834; 837]); (8072, [913; 787; 837]); (8073, [913; 788; 837]);
    (8074, [913; 787; 768; 837]); (8075, [913; 788; 768; 837]); (8076, [913; 787; 769; 837]);
    (8077, [913; 788; 769; 837]); (8078, [913; 787; 834; 837]); (8079, [913; 788; 834; 837]);
    (8080, [951; 787; 837]); (8081, [951; 788; 837]); (8082, [951; 787; 768; 837]);
    (8083, [951; 788; 768; 837]); (8084, [951; 787; 769; 837]); (8085, [951; 788; 769; 837]);
    (8086, [951; 787; 834; 837]); (8087, [951; 788; 834; 837]); (8088, [919; 787; 837]);
    (8089, [919; 788; 837]); (8090, [919; 787; 768; 837]); (8091, [919; 788; 768; 837]);
    (8092, [919; 787; 769; 837]); (8093, [919; 788; 769; 837]); (8094, [919; 787; 834; 837]);
    (8095, [919; 788; 834; 837]); (8096, [969; 787; 837]); (8097, [969; 788; 837]);
    (8098, [969; 787; 768; 837]); (8099, [969; 788; 768; 837]); (8100, [969; 787; 769; 837]);
    (8101, [969; 788; 769; 837]); (8102, [969; 787; 834; 837]); (8103, [969; 788; 834; 837]);
    (8104, [937; 787; 837]); (8105, [937; 788; 837]); (8106, [937; 787; 768; 837]);
    (8107, [937; 788; 768; 837]); (8108, [937; 787; 769; 837]); (8109, [937; 788; 769; 837]);
    (8110, [937; 787; 834; 837]); (8111, [937; 788; 834; 837]); (8112, [945; 774]);
    (8113, [945; 772]); (8114, [945; 768; 837]); (8115, [945; 837]); (8116, [945; 769; 837]);
    (8118, [945; 834]); (8119, [945; 834; 837]); (8120, [913; 774]); (8121, [913; 772]);
    (8122, [913; 768]); (8123, [913; 769]); (8124, [913; 837]); (8126, [953]);
    (8129, [168; 834]); (8130, [951; 768; 837]); (8131, [951; 837]); (8132, [951; 769; 837]);
    (8134, [951; 834]); (8135, [951; 834; 837]); (8136, [917; 768]); (8137, [917; 769]);
    (8138, [919; 768]); (8139, [919; 769]); (8140, [919; 837]); (8141, [8127; 768]);
    (8142, [8127; 769]); (8143, [8127; 834]); (8144, [953; 774]); (8145, [953; 772]);
    (8146, [953; 776; 768]); (8147, [953; 776; 769]); (8150, [953; 834]);
    (8151, [953; 776; 834]); (8152, [921; 774]); (8153, [921; 772]); (8154, [921; 768]);
    (8155, [921; 769]); (8157, [8190; 768]); (8158, [8190; 769]); (8159, [8190; 834]);
    (8160, [965; 774]); (8161, [965; 772]); (8162, [965; 776; 768]); (8163, [965; 776; 769]);
    (8164, [961; 787]); (8165, [961; 788]); (8166, [965; 834]); (8167, [965; 776; 834]);
    (8168, [933; 774]); (8169, [933; 772]); (8170, [933; 768]); (8171, [933; 769]);
    (8172, [929; 788]); (8173, [168; 768]); (8174, [168; 769]); (8175, [96]);
    (8178, [969; 768; 837]); (8179, [969; 837]); (8180, [969; 769; 837]); (8182, [969; 834]);
    (8183, [969; 834; 837]); (8184, [927; 768]); (8185, [927; 769]); (8186, [937; 768]);
    (8187, [937; 769]); (8188, [937; 837]); (8189, [180]); (8192, [8194]); (8193, [8195]);
    (8486, [937]); (8490, [75]); (8491, [65; 778]); (8602, [8592; 824]); (8603, [8594; 824]);
    (8622, [8596; 824]); (8653, [8656; 824]); (8654, [8660; 824]); (8655, [8658; 824]);
    (8708, [8707; 824]); (8713, [8712; 824]); (8716, [8715; 824]); (8740, [8739; 824]);
    (8742, [8741; 824]); (8769, [8764; 824]); (8772, [8771; 824]); (8775, [8773; 824]);
    (8777, [8776; 824]); (8800, [61; 824]); (8802, [8801; 824]); (8813, [8781; 824]);
    (8814, [60; 824]); (8815, [62; 824]); (8816, [8804; 824]); (8817, [8805; 824]);
    (8820, [8818; 824]); (8821, [8819; 824]); (8824, [8822; 824]); (8825, [8823; 824]);
    (8832, [8826; 824]); (8833, [8827; 824]); (8836, [8834; 824]); (8837, [8835; 824]);
    (8840, [8838; 824]); (8841, [8839; 824]); (8876, [8866; 824]); (8877, [8872; 824]);
    (8878, [8873; 824]); (8879, [8875; 824]); (8928, [8828; 824]); (8929, [8829; 824]);
    (8930, [8849; 824]); (8931, [8850; 824]); (8938, [8882; 824]); (8939, [8883; 824]);
    (8940, [8884; 824]); (8941, [8885; 824]); (9001, [12296]); (9002, [12297]);
    (10972, [10973; 824]); (12364, [12363; 12441]); (12366, [12365; 12441]);
    (12368, [12367; 12441]); (12370, [12369; 12441]); (12372, [12371; 12441]);
    (12374, [12373; 12441]); (12376, [12375; 12441]); (12378, [12377; 12441]);
    (12380, [12379; 12441]); (12382, [12381; 12441]); (12384, [12383; 12441]);
    (12386, [12385; 12441]); (12389, [12388; 12441]); (12391, [12390; 12441]);
    (12393, [12392; 12441]); (12400, [12399; 12441]); (12401, [12399; 12442]);
    (12403, [12402; 12441]); (12404, [12402; 12442]); (12406, [12405; 12441]);
    (12407, [12405; 12442]); (12409, [12408; 12441]); (12410, [12408; 12442]);
    (12412, [12411; 12441]); (12413, [12411; 12442]); (12436, [12358; 12441]);
    (12446, [12445; 12441]); (12460, [12459; 12441]); (12462, [12461; 12441]);
    (12464, [12463; 12441]); (12466, [12465; 12441]); (12468, [12467; 12441]);
    (12470, [12469; 12441]); (12472, [12471; 12441]); (12474, [12473; 12441]);
    (12476, [12475; 12441]); (12478, [12477; 12441]); (12480, [12479; 12441]);
    (12482, [12481; 12441]); (12485, [12484; 12441]); (12487, [12486; 12441]);
    (12489, [12488; 12441]); (12496, [12495; 12441]); (12497, [12495; 12442]);
    (12499, [12498; 12441]); (12500, [12498; 12442]); (12502, [12501; 12441]);
    (12503, [12501; 12442]); (12505, [12504; 12441]); (12506, [12504; 12442]);
    (12508, [12507; 12441]); (12509, [12507; 12442]); (12532, [12454; 12441]);
    (12535, [12527; 12441]); (12536, [12528; 12441]); (12537, [12529; 12441]);
    (12538, [12530; 12441]); (12542, [12541; 12441]); (63744, [35912]); (63745, [26356]);
    (63746, [36554]); (63747, [36040]); (63748, [28369]); (63749, [20018]); (63750, [21477]);
    (63751, [40860]); (63752, [40860]); (63753, [22865]); (63754, [37329]); (63755, [21895]);
    (63756, [22856]); (63757, [25078]); (63758, [30313]); (63759, [32645]); (63760, [34367]);
    (63761, [34746]); (63762, [35064]); (63763, [37007]); (63764, [27138]); (63765, [27931]);
    (63766, [28889]); (63767, [29662]); (63768, [33853]); (63769, [37226]); (63770, [39409]);
    (63771, [20098]); (63772, [21365]); (63773, [27396]); (63774, [29211]); (63775, [34349]);
    (63776, [40478]); (63777, [23888]); (63778, [28651]); (63779, [34253]); (63780, [35172]);
    (63781, [25289]); (63782, [33240]); (63783, [34847]); (63784, [24266]); (63785, [26391]);
    (63786, [28010]); (63787, [29436]); (63788, [37070]); (63789, [20358]); (63790, [20919]);
    (63791, [21214]); (63792, [25796]); (63793, [27347]); (63794, [29200]); (63795, [30439]);
    (63796, [32769]); (63797, [34310]); (63798, [34396]); (63799, [36335]); (63800, [38706]);
    (63801, [39791]); (63802, [40442]); (63803, [30860]); (63804, [31103]); (63805, [32160]);
    (63806, [33737]); (63807, [37636]); (63808, [40575]); (63809, [35542]); (63810, [22751]);
    (63811, [24324]); (63812, [31840]); (63813, [32894]); (63814, [29282]); (63815, [30922]);
    (63816, [36034]); (63817, [38647]); (63818, [22744]); (63819, [23650]); (63820, [27155]);
    (63821, [28122]); (63822, [28431]); (63823, [32047]); (63824, [32311]); (63825, [38475]);
    (63826, [21202]); (63827, [32907]); (63828, [20956]); (63829, [20940]); (63830, [31260]);
    (63831, [32190]); (63832, [33777]); (63833, [38517]); (63834, [35712]); (63835, [25295]);
    (63836, [27138]); (63837, [35582]); (63838, [20025]); (63839, [23527]); (63840, [24594]);
    (63841, [29575]); (63842, [30064]); (63843, [21271]); (63844, [30971]); (63845, [20415]);
    (63846, [24489]); (63847, [19981]); (63848, [27852]); (63849, [25976]); (63850, [32034]);
    (63851, [21443]); (63852, [22622]); (63853, [30465]); (63854, [33865]); (63855, [35498]);
    (63856, [27578]); (63857, [36784]); (63858, [27784]); (63859, [25342]); (63860, [33509]);
    (63861, [25504]); (63862, [30053]); (63863, [20142]); (63864, [20841]); (63865, [20937]);
    (63866, [26753]); (63867, [31975]); (63868, [33391]); (63869, [35538]); (63870, [37327]);
    (63871, [21237]); (63872, [21570]); (63873, [22899]); (63874, [24300]); (63875, [26053]);
    (63876, [28670]); (63877, [31018]); (63878, [38317]); (63879, [39530]); (63880, [40599]);
    (63881, [40654]); (63882, [21147]); (63883, [26310]); (63884, [27511]); (63885, [36706]);
    (63886, [24180]); (63887, [24976]); (63888, [25088]); (63889, [25754]); (63890, [28451]);
    (63891, [29001]); (63892, [29833]); (63893, [31178]); (63894, [32244]); (63895, [32879]);
    (63896, [36646]); (63897, [34030]); (63898, [36899]); (63899, [37706]); (63900, [21015]);
    (63901, [21155]); (63902, [21693]); (63903, [28872]); (63904, [35010]); (63905, [35498]);
    (63906, [24265]); (63907, [24565]); (63908, [25467]); (63909, [27566]); (63910, [31806]);
    (63911, [29557]); (63912, [20196]); (63913, [22265]); (63914, [23527]); (63915, [23994]);
    (63916, [24604]); (63917, [29618]); (63918, [29801]); (63919, [32666]); (63920, [32838]);
    (63921, [37428]); (63922, [38646]); (63923, [38728]); (63924, [38936]); (63925, [20363]);
    (63926, [31150]); (63927, [37300]); (63928, [38584]); (63929, [24801]); (63930, [20102]);
    (63931, [20698]); (63932, [23534]); (63933, [23615]); (63934, [26009]); (63935, [27138]);
    (63936, [29134]); (63937, [30274]); (63938, [34044]); (63939, [36988]); (63940, [40845]);
    (63941, [26248]); (63942, [38446]); (63943, [21129]); (63944, [26491]); (63945, [26611]);
    (63946, [27969]); (63947, [28316]); (63948, [29705]); (63949, [30041]); (63950, [30827]);
    (63951, [32016]); (63952, [39006]); (63953, [20845]); (63954, [25134]); (63955, [38520]);
    (63956, [20523]); (63957, [23833]); (63958, [28138]); (63959, [36650]); (63960, [24459]);
    (63961, [24900]); (63962, [26647]); (63963, [29575]); (63964, [38534]); (63965, [21033]);
    (63966, [21519]); (63967, [23653]); (63968, [26131]); (63969, [26446]); (63970, [26792]);
    (63971, [27877]); (63972, [29702]); (63973, [30178]); (63974, [32633]); (63975, [35023]);
    (63976, [35041]); (63977, [37324]); (63978, [38626]); (63979, [21311]); (63980, [28346]);
    (63981, [21533]); (63982, [29136]); (63983, [29848]); (63984, [34298]); (63985, [38563]);
    (63986, [40023]); (63987, [40607]); (63988, [26519]); (63989, [28107]); (63990, [33256]);
    (63991, [31435]); (63992, [31520]); (63993, [31890]); (63994, [29376]); (63995, [28825]);
    (63996, [35672]); (63997, [20160]); (63998, [33590]); (63999, [21050]); (64000, [20999]);
    (64001, [24230]); (64002, [25299]); (64003, [31958]); (64004, [23429]); (64005, [27934]);
    (64006, [26292]); (64007, [36667]); (64008, [34892]); (64009, [38477]); (64010, [35211]);
    (64011, [24275]); (64012, [20800]); (64013, [21952]); (64016, [22618]); (64018, [26228]);
    (64021, [20958]); (64022, [29482]); (64023, [30410]); (64024, [31036]); (64025, [31070]);
    (64026, [31077]); (64027, [31119]); (64028, [38742]); (64029, [31934]); (64030, [32701]);
    (64032, [34322]); (64034, [35576]); (64037, [36920]); (64038, [37117]); (64042, [39151]);
    (64043, [39164]); (64044, [39208]); (64045, [40372]); (64046, [37086]); (64047, [38583]);
    (64048, [20398]); (64049, [20711]); (64050, [20813]); (64051, [21193]); (64052, [21220]);
    (64053, [21329]); (64054, [21917]); (64055, [22022]); (64056, [22120]); (64057, [22592]);
    (64058, [22696]); (64059, [23652]); (64060, [23662]); (64061, [24724]); (64062, [24936]);
    (64063, [24974]); (64064, [25074]); (64065, [25935]); (64066, [26082]); (64067, [26257]);
    (64068, [26757]); (64069, [28023]); (64070, [28186]); (64071, [28450]); (64072, [29038]);
    (64073, [29227]); (64074, [29730]); (64075, [30865]); (64076, [31038]); (64077, [31049]);
    (64078, [31048]); (64079, [31056]); (64080, [31062]); (64081, [31069]); (64082, [31117]);
    (64083, [31118]); (64084, [31296]); (64085, [31361]); (64086, [31680]); (64087, [32244]);
    (64088, [32265]); (64089, [32321]); (64090, [32626]); (64091, [32773]); (64092, [33261]);
    (64093, [33401]); (64094, [33401]); (64095, [33879]); (64096, [35088]); (64097, [35222]);
    (64098, [35585]); (64099, [35641]); (64100, [36051]); (64101, [36104]); (64102, [36790]);
    (64103, [36920]); (64104, [38627]); (64105, [38911]); (64106, [38971]); (64107, [24693]);
    (64108, [148206]); (64109, [33304]); (64112, [20006]); (64113, [20917]); (64114, [20840]);
    (64115, [20352]); (64116, [20805]); (64117, [20864]); (64118, [21191]); (64119, [21242]);
    (64120, [21917]); (64121, [21845]); (64122, [21913]); (64123, [21986]); (64124, [22618]);
    (64125, [22707]); (64126, [22852]); (64127, [22868]); (64128, [23138]); (64129, [23336]);
    (64130, [24274]); (64131, [24281]); (64132, [24425]); (64133, [24493]); (64134, [24792]);
    (64135, [24910]); (64136, [24840]); (64137, [24974]); (64138, [24928]); (64139, [25074]);
    (64140, [25140]); (64141, [25540]); (64142, [25628]); (64143, [25682]); (64144, [25942]);
    (64145, [26228]); (64146, [26391]); (64147, [26395]); (64148, [26454]); (64149, [27513]);
    (64150, [27578]); (64151, [27969]); (64152, [28379]); (64153, [28363]); (64154, [28450]);
    (64155, [28702]); (64156, [29038]); (64157, [30631]); (64158, [29237]); (64159, [29359]);
    (64160, [29482]); (64161, [29809]); (64162, [29958]); (64163, [30011]); (64164, [30237]);
    (64165, [30239]); (64166, [30410]); (64167, [30427]); (64168, [30452]); (64169, [30538]);
    (64170, [30528]); (64171, [30924]); (64172, [31409]); (64173, [31680]); (64174, [31867]);
    (64175, [32091]); (64176, [32244]); (64177, [32574]); (64178, [32773]); (64179, [33618]);
    (64180, [33775]); (64181, [34681]); (64182, [35137]); (64183, [35206]); (64184, [35222]);
    (64185, [35519]); (64186, [35576]); (64187, [35531]); (64188, [35585]); (64189, [35582]);
    (64190, [35565]); (64191, [35641]); (64192, [35722]); (64193, [36104]); (64194, [36664]);
    (64195, [36978]); (64196, [37273]); (64197, [37494]); (64198, [38524]); (64199, [38627]);
    (64200, [38742]); (64201, [38875]); (64202, [38911]); (64203, [38923]); (64204, [38971]);
    (64205, [39698]); (64206, [40860]); (64207, [141386]); (64208, [141380]);
    (64209, [144341]); (64210, [15261]); (64211, [16408]); (64212, [16441]); (64213, [152137]);
    (64214, [154832]); (64215, [163539]); (64216, [40771]); (64217, [40846]);
    (64285, [1497; 1460]); (64287, [1522; 1463]); (64298, [1513; 1473]); (64299, [1513; 1474]);
    (64300, [1513; 1468; 1473]); (64301, [1513; 1468; 1474]); (64302, [1488; 1463]);
    (64303, [1488; 1464]); (64304, [1488; 1468]); (64305, [1489; 1468]); (64306, [1490; 1468]);
    (64307, [1491; 1468]); (64308, [1492; 1468]); (64309, [1493; 1468]); (64310, [1494; 1468]);
    (64312, [1496; 1468]); (64313, [1497; 1468]); (64314, [1498; 1468]); (64315, [1499; 1468]);
    (64316, [1500; 1468]); (64318, [1502; 1468]); (64320, [1504; 1468]); (64321, [1505; 1468]);
    (64323, [1507; 1468]); (64324, [1508; 1468]); (64326, [1510; 1468]); (64327, [1511; 1468]);
    (64328, [1512; 1468]); (64329, [1513; 1468]); (64330, [1514; 1468]); (64331, [1493; 1465]);
    (64332, [1489; 1471]); (64333, [1499; 1471]); (64334, [1508; 1471]);
    (69786, [69785; 69818]); (69788, [69787; 69818]); (69803, [69797; 69818]);
    (69934, [69937; 69927]); (69935, [69938; 69927]); (70475, [70471; 70462]);
    (70476, [70471; 70487]); (70843, [70841; 70842]); (70844, [70841; 70832]);
    (70846, [70841; 70845]); (71098, [71096; 71087]); (71099, [71097; 71087]);
    (71992, [71989; 71984]); (119134, [119127; 119141]); (119135, [119128; 119141]);
    (119136, [119128; 119141; 119150]); (119137, [119128; 119141; 119151]);
    (119138, [119128; 119141; 119152]); (119139, [119128; 119141; 119153]);
    (119140, [119128; 119141; 119154]); (119227, [119225; 119141]); (119228, [119226; 119141]);
    (119229, [119225; 119141; 119150]); (119230, [119226; 119141; 119150]);
    (119231, [119225; 119141; 119151]); (119232, [119226; 119141; 119151]); (194560, [20029]);
    (194561, [20024]); (194562, [20033]); (194563, [131362]); (194564, [20320]);
    (194565, [20398]); (194566, [20411]); (194567, [20482]); (194568, [20602]);
    (194569, [20633]); (194570, [20711]); (194571, [20687]); (194572, [13470]);
    (194573, [132666]); (194574, [20813]); (194575, [20820]); (194576, [20836]);
    (194577, [20855]); (194578, [132380]); (194579, [13497]); (194580, [20839]);
    (194581, [20877]); (194582, [132427]); (194583, [20887]); (194584, [20900]);
    (194585, [20172]); (194586, [20908]); (194587, [20917]); (194588, [168415]);
    (194589, [20981]); (194590, [20995]); (194591, [13535]); (194592, [21051]);
    (194593, [21062]); (194594, [21106]); (194595, [21111]); (194596, [13589]);
    (194597, [21191]); (194598, [21193]); (194599, [21220]); (194600, [21242]);
    (194601, [21253]); (194602, [21254]); (194603, [21271]); (194604, [21321]);
    (194605, [21329]); (194606, [21338]); (194607, [21363]); (194608, [21373]);
    (194609, [21375]); (194610, [21375]); (194611, [21375]); (194612, [133676]);
    (194613, [28784]); (194614, [21450]); (194615, [21471]); (194616, [133987]);
    (194617, [21483]); (194618, [21489]); (194619, [21510]); (194620, [21662]);
    (194621, [21560]); (194622, [21576]); (194623, [21608]); (194624, [21666]);
    (194625, [21750]); (194626, [21776]); (194627, [21843]); (194628, [21859]);
    (194629, [21892]); (194630, [21892]); (194631, [21913]); (194632, [21931]);
    (194633, [21939]); (194634, [21954]); (194635, [22294]); (194636, [22022]);
    (194637, [22295]); (194638, [22097]); (194639, [22132]); (194640, [20999]);
    (194641, [22766]); (194642, [22478]); (194643, [22516]); (194644, [22541]);
    (194645, [22411]); (194646, [22578]); (194647, [22577]); (194648, [22700]);
    (194649, [136420]); (194650, [22770]); (194651, [22775]); (194652, [22790]);
    (194653, [22810]); (194654, [22818]); (194655, [22882]); (194656, [136872]);
    (194657, [136938]); (194658, [23020]); (194659, [23067]); (194660, [23079]);
    (194661, [23000]); (194662, [23142]); (194663, [14062]); (194664, [14076]);
    (194665, [23304]); (194666, [23358]); (194667, [23358]); (194668, [137672]);
    (194669, [23491]); (194670, [23512]); (194671, [23527]); (194672, [23539]);
    (194673, [138008]); (194674, [23551]); (194675, [23558]); (194676, [24403]);
    (194677, [23586]); (194678, [14209]); (194679, [23648]); (194680, [23662]);
    (194681, [23744]); (194682, [23693]); (194683, [138724]); (194684, [23875]);
    (194685, [138726]); (194686, [23918]); (194687, [23915]); (194688, [23932]);
    (194689, [24033]); (194690, [24034]); (194691, [14383]); (194692, [24061]);
    (194693, [24104]); (194694, [24125]); (194695, [24169]); (194696, [14434]);
    (194697, [139651]); (194698, [14460]); (194699, [24240]); (194700, [24243]);
    (194701, [24246]); (194702, [24266]); (194703, [172946]); (194704, [24318]);
    (194705, [140081]); (194706, [140081]); (194707, [33281]); (194708, [24354]);
    (194709, [24354]); (194710, [14535]); (194711, [144056]); (194712, [156122]);
    (194713, [24418]); (194714, [24427]); (194715, [14563]); (194716, [24474]);
    (194717, [24525]); (194718, [24535]); (194719, [24569]); (194720, [24705]);
    (194721, [14650]); (194722, [14620]); (194723, [24724]); (194724, [141012]);
    (194725, [24775]); (194726, [24904]); (194727, [24908]); (194728, [24910]);
    (194729, [24908]); (194730, [24954]); (194731, [24974]); (194732, [25010]);
    (194733, [24996]); (194734, [25007]); (194735, [25054]); (194736, [25074]);
    (194737, [25078]); (194738, [25104]); (194739, [25115]); (194740, [25181]);
    (194741, [25265]); (194742, [25300]); (194743, [25424]); (194744, [142092]);
    (194745, [25405]); (194746, [25340]); (194747, [25448]); (194748, [25475]);
    (194749, [25572]); (194750, [142321]); (194751, [25634]); (194752, [25541]);
    (194753, [25513]); (194754, [14894]); (194755, [25705]); (194756, [25726]);
    (194757, [25757]); (194758, [25719]); (194759, [14956]); (194760, [25935]);
    (194761, [25964]); (194762, [143370]); (194763, [26083]); (194764, [26360]);
    (194765, [26185]); (194766, [15129]); (194767, [26257]); (194768, [15112]);
    (194769, [15076]); (194770, [20882]); (194771, [20885]); (194772, [26368]);
    (194773, [26268]); (194774, [32941]); (194775, [17369]); (194776, [26391]);
    (194777, [26395]); (194778, [26401]); (194779, [26462]); (194780, [26451]);
    (194781, [144323]); (194782, [15177]); (194783, [26618]); (194784, [26501]);
    (194785, [26706]); (194786, [26757]); (194787, [144493]); (194788, [26766]);
    (194789, [26655]); (194790, [26900]); (194791, [15261]); (194792, [26946]);
    (194793, [27043]); (194794, [27114]); (194795, [27304]); (194796, [145059]);
    (194797, [27355]); (194798, [15384]); (194799, [27425]); (194800, [145575]);
    (194801, [27476]); (194802, [15438]); (194803, [27506]); (194804, [27551]);
    (194805, [27578]); (194806, [27579]); (194807, [146061]); (194808, [138507]);
    (194809, [146170]); (194810, [27726]); (194811, [146620]); (194812, [27839]);
    (194813, [27853]); (194814, [27751]); (194815, [27926]); (194816, [27966]);
    (194817, [28023]); (194818, [27969]); (194819, [28009]); (194820, [28024]);
    (194821, [28037]); (194822, [146718]); (194823, [27956]); (194824, [28207]);
    (194825, [28270]); (194826, [15667]); (194827, [28363]); (194828, [28359]);
    (194829, [147153]); (194830, [28153]); (194831, [28526]); (194832, [147294]);
    (194833, [147342]); (194834, [28614]); (194835, [28729]); (194836, [28702]);
    (194837, [28699]); (194838, [15766]); (194839, [28746]); (194840, [28797]);
    (194841, [28791]); (194842, [28845]); (194843, [132389]); (194844, [28997]);
    (194845, [148067]); (194846, [29084]); (194847, [148395]); (194848, [29224]);
    (194849, [29237]); (194850, [29264]); (194851, [149000]); (194852, [29312]);
    (194853, [29333]); (194854, [149301]); (194855, [149524]); (194856, [29562]);
    (194857, [29579]); (194858, [16044]); (194859, [29605]); (194860, [16056]);
    (194861, [16056]); (194862, [29767]); (194863, [29788]); (194864, [29809]);
    (194865, [29829]); (194866, [29898]); (194867, [16155]); (194868, [29988]);
    (194869, [150582]); (194870, [30014]); (194871, [150674]); (194872, [30064]);
    (194873, [139679]); (194874, [30224]); (194875, [151457]); (194876, [151480]);
    (194877, [151620]); (194878, [16380]); (194879, [16392]); (194880, [30452]);
    (194881, [151795]); (194882, [151794]); (194883, [151833]); (194884, [151859]);
    (194885, [30494]); (194886, [30495]); (194887, [30495]); (194888, [30538]);
    (194889, [16441]); (194890, [30603]); (194891, [16454]); (194892, [16534]);
    (194893, [152605]); (194894, [30798]); (194895, [30860]); (194896, [30924]);
    (194897, [16611]); (194898, [153126]); (194899, [31062]); (194900, [153242]);
    (194901, [153285]); (194902, [31119]); (194903, [31211]); (194904, [16687]);
    (194905, [31296]); (194906, [31306]); (194907, [31311]); (194908, [153980]);
    (194909, [154279]); (194910, [154279]); (194911, [31470]); (194912, [16898]);
    (194913, [154539]); (194914, [31686]); (194915, [31689]); (194916, [16935]);
    (194917, [154752]); (194918, [31954]); (194919, [17056]); (194920, [31976]);
    (194921, [31971]); (194922, [32000]); (194923, [155526]); (194924, [32099]);
    (194925, [17153]); (194926, [32199]); (194927, [32258]); (194928, [32325]);
    (194929, [17204]); (194930, [156200]); (194931, [156231]); (194932, [17241]);
    (194933, [156377]); (194934, [32634]); (194935, [156478]); (194936, [32661]);
    (194937, [32762]); (194938, [32773]); (194939, [156890]); (194940, [156963]);
    (194941, [32864]); (194942, [157096]); (194943, [32880]); (194944, [144223]);
    (194945, [17365]); (194946, [32946]); (194947, [33027]); (194948, [17419]);
    (194949, [33086]); (194950, [23221]); (194951, [157607]); (194952, [157621]);
    (194953, [144275]); (194954, [144284]); (194955, [33281]); (194956, [33284]);
    (194957, [36766]); (194958, [17515]); (194959, [33425]); (194960, [33419]);
    (194961, [33437]); (194962, [21171]); (194963, [33457]); (194964, [33459]);
    (194965, [33469]); (194966, [33510]); (194967, [158524]); (194968, [33509]);
    (194969, [33565]); (194970, [33635]); (194971, [33709]); (194972, [33571]);
    (194973, [33725]); (194974, [33767]); (194975, [33879]); (194976, [33619]);
    (194977, [33738]); (194978, [33740]); (194979, [33756]); (194980, [158774]);
    (194981, [159083]); (194982, [158933]); (194983, [17707]); (194984, [34033]);
    (194985, [34035]); (194986, [34070]); (194987, [160714]); (194988, [34148]);
    (194989, [159532]); (194990, [17757]); (194991, [17761]); (194992, [159665]);
    (194993, [159954]); (194994, [17771]); (194995, [34384]); (194996, [34396]);
    (194997, [34407]); (194998, [34409]); (194999, [34473]); (195000, [34440]);
    (195001, [34574]); (195002, [34530]); (195003, [34681]); (195004, [34600]);
    (195005, [34667]); (195006, [34694]); (195007, [17879]); (195008, [34785]);
    (195009, [34817]); (195010, [17913]); (195011, [34912]); (195012, [34915]);
    (195013, [161383]); (195014, [35031]); (195015, [35038]); (195016, [17973]);
    (195017, [35066]); (195018, [13499]); (195019, [161966]); (195020, [162150]);
    (195021, [18110]); (195022, [18119]); (195023, [35488]); (195024, [35565]);
    (195025, [35722]); (195026, [35925]); (195027, [162984]); (195028, [36011]);
    (195029, [36033]); (195030, [36123]); (195031, [36215]); (195032, [163631]);
    (195033, [133124]); (195034, [36299]); (195035, [36284]); (195036, [36336]);
    (195037, [133342]); (195038, [36564]); (195039, [36664]); (195040, [165330]);
    (195041, [165357]); (195042, [37012]); (195043, [37105]); (195044, [37137]);
    (195045, [165678]); (195046, [37147]); (195047, [37432]); (195048, [37591]);
    (195049, [37592]); (195050, [37500]); (195051, [37881]); (195052, [37909]);
    (195053, [166906]); (195054, [38283]); (195055, [18837]); (195056, [38327]);
    (195057, [167287]); (195058, [18918]); (195059, [38595]); (195060, [23986]);
    (195061, [38691]); (195062, [168261]); (195063, [168474]); (195064, [19054]);
    (195065, [19062]); (195066, [38880]); (195067, [168970]); (195068, [19122]);
    (195069, [169110]); (195070, [38923]); (195071, [38923]); (195072, [38953]);
    (195073, [169398]); (195074, [39138]); (195075, [19251]); (195076, [39209]);
    (195077, [39335]); (195078, [39362]); (195079, [39422]); (195080, [19406]);
    (195081, [170800]); (195082, [39698]); (195083, [40000]); (195084, [40189]);
    (195085, [19662]); (195086, [19693]); (195087, [40295]); (195088, [172238]);
    (195089, [19704]); (195090, [172293]); (195091, [172558]); (195092, [172689]);
    (195093, [40635]); (195094, [19798]); (195095, [40697]); (195096, [40702]);
    (195097, [40709]); (195098, [40719]); (195099, [40726]); (195100, [40763]);
    (195101, [173568])
  ].

End Unicode.

(** ** Strings of UTF-16 code units *)

Module JS.

(** Source literals are written as Rocq strings (UTF-8 bytes) and decoded
    to code units of the Basic Multilingual Plane. *)
Fixpoint str (s : string) : list N :=
  match s with
  | EmptyString => []
  | String a s1 =>
    let b0 := N_of_ascii a in
    if b0 <? 128 then b0 :: str s1
    else if b0 <? 224 then
      match s1 with
      | String b s2 => ((b0 - 192) * 64 + (N_of_ascii b - 128)) :: str s2
      | EmptyString => [b0]
      end
    else
      match s1 with
      | String b (String c s3) =>
        ((b0 - 224) * 4096 + (N_of_ascii b - 128) * 64 + (N_of_ascii c - 128))
          :: str s3
      | _ => [b0]
      end
  end.

Definition between (lo hi c : N) : bool := (lo <=? c) && (c <=? hi).

Definition isDigit (c : N) : bool := between 48 57 c.
Definition isLowerAscii (c : N) : bool := between 97 122 c.
Definition isUpperAscii (c : N) : bool := between 65 90 c.

(** WhiteSpace and LineTerminator code units: what [trim] strips and what
    [\s] matches. *)
Definition whiteRanges : list (N * N) :=
  [(9, 13); (32, 32); (160, 160); (5760, 5760); (8192, 8202);
   (8232, 8233); (8239, 8239); (8287, 8287); (12288, 12288); (65279, 65279)].

Definition inRanges (rs : list (N * N)) (c : N) : bool :=
  existsb (fun r => between (fst r) (snd r) c) rs.

Definition isWhite (c : N) : bool := inRanges whiteRanges c.

(** *** Code points *)

Definition isLeadSurrogate (c : N) : bool := between 55296 56319 c.
Definition isTrailSurrogate (c : N) : bool := between 56320 57343 c.

(** StringToCodePoints: a lead surrogate followed by a trail surrogate is
    one code point; every other code unit is a code point by itself. *)
Fixpoint codePoints (s : list N) : list N :=
  match s with
  | [] => []
  | c :: s' =>
    match s' with
    | d :: s'' =>
      if isLeadSurrogate c && isTrailSurrogate d
      then (65536 + (c - 55296) * 1024 + (d - 56320)) :: codePoints s''
      else c :: codePoints s'
    | [] => [c]
    end
  end.

(** CodePointsToString. *)
Definition codeUnits (cp : N) : list N :=
  if cp <? 65536 then [cp]
  else [55296 + (cp - 65536) / 1024; 56320 + (cp - 65536) mod 1024].

Definition ofCodePoints (cps : list N) : list N := flat_map codeUnits cps.

(** Membership in ranges that are listed in increasing order. *)
Fixpoint inSorted (rs : list (N * N)) (c : N) : bool :=
  match rs with
  | [] => false
  | (lo, hi) :: rs' =>
    if c <? lo then false else if c <=? hi then true else inSorted rs' c
  end.

Definition isCased (c : N) : bool := inSorted Unicode.casedRanges c.
Definition isCaseIgnorable (c : N) : bool := inSorted Unicode.caseIgnorableRanges c.

(** *** Lower case *)

(** The image of [c] under mappings listed as [(first, last, step,
    image)] in the order of [first], and [c] where none of them has it. *)
Fixpoint imageIn (runs : list (N * N * N * N)) (c : N) : N :=
  match runs with
  | [] => c
  | (first, last, step, image) :: runs' =>
    if c <? first then c
    else if (c <=? last) && ((c - first) mod step =? 0) then image + (c - first)
    else imageIn runs' c
  end.

(** The simple lower-case mapping of a code point: A to Z go to a to z,
    the mappings outside ASCII are tabulated. *)
Definition lowerSimple (c : N) : N :=
  if c <? 128 then (if isUpperAscii c then c + 32 else c)
  else imageIn Unicode.lowerRuns c.

(** Lowercase_Mapping where no condition applies: the simple mapping,
    and for U+0130 the one entry of SpecialCasing.txt that lower-cases
    to two code points whatever the language. *)
Definition lowerPoint (c : N) : list N :=
  if c =? 304 then [105; 775] else [lowerSimple c].

(** Whether case-ignorable code points and then a cased letter follow. *)
Fixpoint casedAhead (after : list N) : bool :=
  match after with
  | [] => false
  | c :: after' => if isCaseIgnorable c then casedAhead after' else isCased c
  end.

(** The lower case of the code point [c] where it stands.  [before]
    says that a cased letter and then only case-ignorable code points
    come before it: U+03A3 so preceded and not followed by such a letter
    is in the Final_Sigma context and becomes U+03C2 instead of
    U+03C3. *)
Definition lowerAt (before : bool) (c : N) (after : list N) : list N :=
  if c =? 931 then (if before && negb (casedAhead after) then [962] else [963])
  else lowerPoint c.

Definition seenCased (before : bool) (c : N) : bool :=
  if isCaseIgnorable c then before else isCased c.

Fixpoint lowerPoints (before : bool) (cps : list N) : list N :=
  match cps with
  | [] => []
  | c :: after => lowerAt before c after ++ lowerPoints (seenCased before c) after
  end.

(** [String.prototype.toLowerCase]: the string read as code points,
    each lower-cased by the locale-insensitive mappings, and written
    back as code units.  [lowerCaseFrom] is the same from inside a
    text. *)
Definition lowerCaseFrom (before : bool) (s : list N) : list N :=
  ofCodePoints (lowerPoints before (codePoints s)).

Definition toLowerCase (s : list N) : list N := lowerCaseFrom false s.

Fixpoint trimStart (s : list N) : list N :=
  match s with
  | c :: s' => if isWhite c then trimStart s' else s
  | [] => []
  end.

Definition trimEnd (s : list N) : list N := rev (trimStart (rev s)).
Definition trim (s : list N) : list N := trimEnd (trimStart s).

(** Canonicalize of the matcher under the [i] flag (no [u] flag): the
    upper case of a code unit, where toUppercase gives a single code
    unit and not an ASCII one for a unit above ASCII; the unit itself
    otherwise. *)
Definition upperUnit (c : N) : N :=
  if c <? 128 then (if isLowerAscii c then c - 32 else c)
  else imageIn Unicode.upperRuns c.

Fixpoint sourcesIn (runs : list (N * N * N * N)) (u : N) : list N :=
  match runs with
  | [] => []
  | (first, last, step, image) :: runs' =>
    (if (image <=? u) && (u <=? image + (last - first)) && ((u - image) mod step =? 0)
     then [first + (u - image)] else [])
    ++ sourcesIn runs' u
  end.

(** The code units other than [u] that [upperUnit] takes to [u]. *)
Definition lowerOfUpper (u : N) : list N :=
  if u <? 128 then (if isUpperAscii u then [u + 32] else [])
  else sourcesIn Unicode.upperRuns u.

(** The code units with the same canonical form as [c]. *)
Definition caseVariants (c : N) : list N :=
  let u := upperUnit c in c :: u :: lowerOfUpper u.

(** *** Normalization *)

(** Lookup in a table whose keys are in increasing order. *)
Fixpoint assocSorted {A} (k : N) (l : list (N * A)) : option A :=
  match l with
  | [] => None
  | (k', v) :: l' =>
    if k <? k' then None else if k =? k' then Some v else assocSorted k l'
  end.

(** The full canonical decomposition of a code point: a Hangul syllable
    into its two or three jamo, a tabulated code point into the listed
    ones, any other into itself. *)
Definition decompose (c : N) : list N :=
  if between 44032 55203 c then
    let i := c - 44032 in
    let l := 4352 + i / 588 in
    let v := 4449 + (i mod 588) / 28 in
    let t := 4519 + i mod 28 in
    if i mod 28 =? 0 then [l; v] else [l; v; t]
  else
    match assocSorted c Unicode.decompositions with
    | Some l => l
    | None => [c]
    end.

Fixpoint classIn (rs : list (N * N * N)) (c : N) : N :=
  match rs with
  | [] => 0
  | (lo, hi, k) :: rs' =>
    if c <? lo then 0 else if c <=? hi then k else classIn rs' c
  end.

(** Canonical_Combining_Class. *)
Definition combiningClass (c : N) : N := classIn Unicode.combiningClasses c.

(** The Canonical Ordering Algorithm.  [done] holds the code points
    placed so far, the last one first; a code point of class [k] above 0
    goes before the placed ones of a greater class that end [done], and
    after any other. *)
Fixpoint insertMark (k c : N) (done : list N) : list N :=
  match done with
  | x :: done' => if k <? combiningClass x then x :: insertMark k c done' else c :: done
  | [] => [c]
  end.

Definition placePoint (done : list N) (c : N) : list N :=
  let k := combiningClass c in
  if k =? 0 then c :: done else insertMark k c done.

Definition canonicalOrder (cps : list N) : list N := rev (fold_left placePoint cps []).

(** [String.prototype.normalize("NFD")]: every code point decomposed,
    the combining marks put in canonical order. *)
Definition normalizeNFD (s : list N) : list N :=
  ofCodePoints (canonicalOrder (flat_map decompose (codePoints s))).

(** Decimal digits of a natural number, most significant first. *)
Fixpoint digitsFuel (fuel : nat) (n : N) (acc : list N) : list N :=
  match fuel with
  | O => acc
  | S f =>
    let acc' := (48 + n mod 10) :: acc in
    if n <? 10 then acc' else digitsFuel f (n / 10) acc'
  end.

Definition showN (n : N) : list N := digitsFuel (S (N.to_nat (N.log2 n))) n [].

(** Number-to-string of an integer ([String(n)], template literals). *)
Definition showZ (z : Z) : list N :=
  match z with
  | Zneg p => 45 :: showN (Npos p)
  | _ => showN (Z.to_N z)
  end.

(** Zero-padded decimal of width at least [w]. *)
Definition padStart (w : nat) (s : list N) : list N :=
  repeat 48 (w - length s)%nat ++ s.

(** [parseInt(s, 10)] on a string: leading white space, an optional sign,
    then the longest run of decimal digits; [None] is NaN. *)
Fixpoint digitsValue (s : list N) (acc : N) : N :=
  match s with
  | c :: s' => if isDigit c then digitsValue s' (acc * 10 + (c - 48)) else acc
  | [] => acc
  end.

Definition parseInt10 (s : list N) : option Z :=
  match trimStart s with
  | 45 :: (c :: _) as ds =>
    if isDigit c then Some (- Z.of_N (digitsValue ds 0))%Z else None
  | 43 :: (c :: _) as ds =>
    if isDigit c then Some (Z.of_N (digitsValue ds 0)) else None
  | (c :: _) as ds => if isDigit c then Some (Z.of_N (digitsValue ds 0)) else None
  | [] => None
  end.

(** [String.prototype.indexOf] with a code-unit pattern. *)
Fixpoint startsWith (p s : list N) : bool :=
  match p, s with
  | [], _ => true
  | a :: p', b :: s' => (a =? b) && startsWith p' s'
  | _ :: _, [] => false
  end.

Fixpoint indexOfFrom (p s : list N) (i : nat) : option nat :=
  if startsWith p s then Some i
  else match s with
       | [] => None
       | _ :: s' => indexOfFrom p s' (S i)
       end.

Definition indexOf (s p : list N) : option nat := indexOfFrom p s 0.

Definition includes (s p : list N) : bool :=
  match indexOf s p with Some _ => true | None => false end.

(** [Array.prototype.join]. *)
Fixpoint join (sep : list N) (l : list (list N)) : list N :=
  match l with
  | [] => []
  | [x] => x
  | x :: l' => x ++ sep ++ join sep l'
  end.

(** [s.replace(p, by)] with a string pattern: the first occurrence. *)
Definition replaceFirst (p by_ s : list N) : list N :=
  match indexOf s p with
  | Some i => take i s ++ by_ ++ drop (i + length p) s
  | None => s
  end.

(** The result of a computation that may throw. *)
Inductive outcome (A : Type) : Type :=
| Ok (a : A)
| Thrown.
Arguments Ok {A} a.
Arguments Thrown {A}.

End JS.

(** ** Regular expressions *)

Module RegExp.
Import JS.

(** Pattern syntax.  [Class neg rs] is a bracket class given by ranges;
    [\d], [\s] and [.] are classes. *)
Inductive regex : Type :=
| Empty
| Char (c : N)
| Class (neg : bool) (rs : list (N * N))
| Bol
| Eol
| WordBoundary
| Seq (r1 r2 : regex)
| Alt (r1 r2 : regex)
| Repeat (lo : nat) (hi : option nat) (greedy : bool) (r : regex)
| Group (n : nat) (r : regex).

Definition digit : regex := Class false [(48, 57)].
Definition space : regex := Class false whiteRanges.
Definition dot : regex := Class true [(10, 10); (13, 13); (8232, 8233)].
Definition plus (r : regex) : regex := Repeat 1 None true r.
Definition star (r : regex) : regex := Repeat 0 None true r.
Definition opt (r : regex) : regex := Repeat 0 (Some 1%nat) true r.
Definition times (lo hi : nat) (r : regex) : regex := Repeat lo (Some hi) true r.

Fixpoint seqs (rs : list regex) : regex :=
  match rs with
  | [] => Empty
  | [r] => r
  | r :: rs' => Seq r (seqs rs')
  end.

Fixpoint alts (rs : list regex) : regex :=
  match rs with
  | [] => Class false []
  | [r] => r
  | r :: rs' => Alt r (alts rs')
  end.

(** A literal word, one [Char] per code unit. *)
Definition lit (w : string) : regex := seqs (map Char (str w)).

(** Matcher state: the code unit before the current position, the input
    still to read, the position, and the captures made so far. *)
Record mstate : Type := MState {
  prev : option N;
  rest : list N;
  pos : nat;
  caps : list (nat * list N)
}.

Definition advance (st : mstate) : option mstate :=
  match rest st with
  | c :: s' => Some (MState (Some c) s' (S (pos st)) (caps st))
  | [] => None
  end.

Definition consumed (st st1 : mstate) : list N :=
  take (pos st1 - pos st)%nat (rest st).

Definition setCap (n : nat) (w : list N) (st : mstate) : mstate :=
  MState (prev st) (rest st) (pos st) ((n, w) :: caps st).

Fixpoint capture (n : nat) (cs : list (nat * list N)) : option (list N) :=
  match cs with
  | [] => None
  | (k, w) :: cs' => if Nat.eqb k n then Some w else capture n cs'
  end.

Definition charEq (ic : bool) (a c : N) : bool :=
  if ic then upperUnit a =? upperUnit c else a =? c.

Definition classHas (ic neg : bool) (rs : list (N * N)) (c : N) : bool :=
  xorb neg (if ic then existsb (inRanges rs) (caseVariants c) else inRanges rs c).

Definition isWordChar (c : N) : bool :=
  isLowerAscii c || isUpperAscii c || isDigit c || (c =? 95).

Definition isWordAt (o : option N) : bool :=
  match o with Some c => isWordChar c | None => false end.

Definition orElse {A} (x y : option A) : option A :=
  match x with Some _ => x | None => y end.

(** RepeatMatcher for a quantified [body]: an iteration past the minimum
    that consumes nothing is rejected, so [lo + |rest| + 1] rounds are
    enough; [greedy] tries one more iteration before the continuation. *)
Fixpoint repeatMatcher (body : mstate -> (mstate -> option mstate) -> option mstate)
    (greedy : bool) (k : mstate -> option mstate)
    (fuel lo : nat) (hi : option nat) (st : mstate) {struct fuel} : option mstate :=
  match fuel with
  | O => None
  | S fuel' =>
    match hi with
    | Some O => k st
    | _ =>
      let d := fun st1 =>
        if Nat.eqb lo 0 && Nat.eqb (pos st1) (pos st) then None
        else repeatMatcher body greedy k fuel' (Nat.pred lo) (option_map Nat.pred hi) st1 in
      if Nat.ltb 0 lo then body st d
      else if greedy then orElse (body st d) (k st)
      else orElse (k st) (body st d)
    end
  end.

(** The backtracking matcher in continuation style: [m ic r st k] matches
    [r] at [st] and hands the state after it to [k]; a failure of [k]
    makes the matcher try its next alternative.  [ic] is the [i] flag. *)
Fixpoint m (ic : bool) (r : regex) (st : mstate)
    (k : mstate -> option mstate) {struct r} : option mstate :=
  match r with
  | Empty => k st
  | Char a =>
    match rest st with
    | c :: s' =>
      if charEq ic a c then k (MState (Some c) s' (S (pos st)) (caps st))
      else None
    | [] => None
    end
  | Class neg rs =>
    match rest st with
    | c :: s' =>
      if classHas ic neg rs c then k (MState (Some c) s' (S (pos st)) (caps st))
      else None
    | [] => None
    end
  | Bol => if Nat.eqb (pos st) 0 then k st else None
  | Eol => match rest st with [] => k st | _ :: _ => None end
  | WordBoundary =>
    if xorb (isWordAt (prev st)) (isWordAt (head (rest st))) then k st else None
  | Seq r1 r2 => m ic r1 st (fun st1 => m ic r2 st1 k)
  | Alt r1 r2 => orElse (m ic r1 st k) (m ic r2 st k)
  | Group n r1 => m ic r1 st (fun st1 => k (setCap n (consumed st st1) st1))
  | Repeat lo hi greedy r1 =>
    repeatMatcher (m ic r1) greedy k (S (lo + length (rest st))) lo hi st
  end.

(** One successful match: start index, matched text, captures, and the
    matcher state at its end. *)
Record rmatch : Type := RMatch {
  index : nat;
  text : list N;
  groups : list (nat * list N);
  stop : mstate
}.

Definition group (n : nat) (mt : rmatch) : option (list N) := capture n (groups mt).

Definition matchAt (ic : bool) (r : regex) (st : mstate) : option rmatch :=
  match m ic r (MState (prev st) (rest st) (pos st) []) Some with
  | Some e => Some (RMatch (pos st) (consumed st e) (caps e) e)
  | None => None
  end.

(** RegExpBuiltinExec: the first position at or after [st] where the
    pattern matches. *)
Fixpoint search (ic : bool) (r : regex) (p : option N) (i : nat) (s : list N)
    : option rmatch :=
  match matchAt ic r (MState p s i []) with
  | Some mt => Some mt
  | None =>
    match s with
    | [] => None
    | c :: s' => search ic r (Some c) (S i) s'
    end
  end.

(** [exec] / [String.prototype.match] without the [g] flag. *)
Definition exec (ic : bool) (r : regex) (s : list N) : option rmatch :=
  search ic r None 0 s.

(** All matches under the [g] flag, left to right, each search resuming
    where the previous match stopped (one unit further after an empty
    match). *)
Fixpoint matchesFrom (fuel : nat) (ic : bool) (r : regex) (st : mstate)
    : list rmatch :=
  match fuel with
  | O => []
  | S fuel' =>
    match search ic r (prev st) (pos st) (rest st) with
    | None => []
    | Some mt =>
      let e := stop mt in
      if Nat.eqb (pos e) (index mt) then
        match advance e with
        | Some e' => mt :: matchesFrom fuel' ic r e'
        | None => [mt]
        end
      else mt :: matchesFrom fuel' ic r e
    end
  end.

Definition matchAll (ic : bool) (r : regex) (s : list N) : list rmatch :=
  matchesFrom (S (length s)) ic r (MState None s 0 []).

(** [String.prototype.replace] with a [g] pattern and a replacement text
    without [$] references. *)
Fixpoint splice (s : list N) (cur : nat) (ms : list rmatch) (by_ : list N)
    : list N :=
  match ms with
  | [] => drop cur s
  | mt :: ms' =>
    take (index mt - cur)%nat (drop cur s) ++ by_ ++ splice s (pos (stop mt)) ms' by_
  end.

Definition replaceAll (ic : bool) (r : regex) (by_ s : list N) : list N :=
  splice s 0 (matchAll ic r s) by_.

(** [String.prototype.replace] with a pattern without the [g] flag: the
    first match only. *)
Definition replaceOnce (ic : bool) (r : regex) (by_ s : list N) : list N :=
  match exec ic r s with
  | Some mt => take (index mt) s ++ by_ ++ drop (pos (stop mt)) s
  | None => s
  end.

(** [String.prototype.split] with a pattern without captures: the
    pattern is tried at each position [q]; a match that ends at the last
    split point is skipped. *)
Fixpoint splitFrom (fuel : nat) (ic : bool) (r : regex) (s : list N)
    (p q : nat) : list (list N) :=
  match fuel with
  | O => [drop p s]
  | S fuel' =>
    if Nat.leb (length s) q then [drop p s]
    else
      let st := MState (last (take q s)) (drop q s) q [] in
      match matchAt ic r st with
      | None => splitFrom fuel' ic r s p (S q)
      | Some mt =>
        let e := Nat.min (pos (stop mt)) (length s) in
        if Nat.eqb e p then splitFrom fuel' ic r s p (S q)
        else take (q - p)%nat (drop p s) :: splitFrom fuel' ic r s e e
      end
  end.

Definition split (ic : bool) (r : regex) (s : list N) : list (list N) :=
  match s with
  | [] => match matchAt ic r (MState None [] 0 []) with
          | Some _ => []
          | None => [[]]
          end
  | _ :: _ => splitFrom (S (length s)) ic r s 0 0
  end.

End RegExp.

(** ** Values of type [any] and the host *)

Module JSValue.
Import JS.

(** A Number: NaN, an infinity, or the finite value [m * 2^e]. *)
Inductive number : Type :=
| NaN
| Infinite (negative : bool)
| Finite (m e : Z).

(** JSON-shaped values, as found in a structured-data island and in
    fields typed [any]. *)
#[warnings="-register-all"] Inductive jsval : Type :=
| VUndefined
| VNull
| VBool (b : bool)
| VNum (x : number)
| VStr (s : list N)
| VArr (items : list jsval)
| VObj (fields : list (list N * jsval)).

(** The host: its local time zone, as a fixed offset in milliseconds east
    of UTC; what its [Date] constructor makes of a string that is not a
    plain ISO calendar date (that fallback is implementation-defined);
    and its Number-to-string conversion. *)
Record Host : Type := {
  tzOffset : Z;
  dateParseOther : list N -> option Z;
  numberToString : number -> list N
}.

Definition isZero (x : number) : bool :=
  match x with Finite m _ => (m =? 0)%Z | _ => false end.

(** ToBoolean. *)
Definition truthy (v : jsval) : bool :=
  match v with
  | VUndefined | VNull => false
  | VBool b => b
  | VNum NaN => false
  | VNum x => negb (isZero x)
  | VStr s => match s with [] => false | _ :: _ => true end
  | VArr _ | VObj _ => true
  end.

Fixpoint lookupField (k : list N) (fs : list (list N * jsval)) : option jsval :=
  match fs with
  | [] => None
  | (k', v) :: fs' => if bool_decide (k = k') then Some v else lookupField k fs'
  end.

(** Property read [v.k] on a value that is not null or undefined; the
    members every array or string has are not fields of the model. *)
Definition getProp (v : jsval) (k : string) : jsval :=
  match v with
  | VObj fs => match lookupField (str k) fs with Some x => x | None => VUndefined end
  | _ => VUndefined
  end.

(** Optional chaining [v?.k]. *)
Definition getPropOpt (v : jsval) (k : string) : jsval :=
  match v with
  | VUndefined | VNull => VUndefined
  | _ => getProp v k
  end.

(** [k in v] for an object or array [v]. *)
Definition hasProp (v : jsval) (k : string) : bool :=
  match v with
  | VObj fs => match lookupField (str k) fs with Some _ => true | None => false end
  | _ => false
  end.

Definition typeofObject (v : jsval) : bool :=
  match v with VNull | VArr _ | VObj _ => true | _ => false end.

(** ToString, as applied by [String(v)]. *)
Fixpoint toString (h : Host) (v : jsval) : list N :=
  match v with
  | VUndefined => str "undefined"
  | VNull => str "null"
  | VBool true => str "true"
  | VBool false => str "false"
  | VNum x => numberToString h x
  | VStr s => s
  | VArr items =>
    join (str ",")
      (map (fun x => match x with
                     | VUndefined | VNull => []
                     | _ => toString h x
                     end) items)
  | VObj _ => str "[object Object]"
  end.

End JSValue.

(** ** Time values and the Date object *)

Module JSDate.
Import JS JSValue.
Local Open Scope Z_scope.

Definition msPerDay : Z := 86400000.

Definition isLeap (y : Z) : bool :=
  ((y mod 4 =? 0) && negb (y mod 100 =? 0)) || (y mod 400 =? 0).

(** Day number of 1 January of year [y] (DayFromYear). *)
Definition dayFromYear (y : Z) : Z :=
  365 * (y - 1970) + (y - 1969) / 4 - (y - 1901) / 100 + (y - 1601) / 400.

(** Days before the first of month [mo] (0..11) within a year. *)
Definition monthStart (leap : bool) (mo : Z) : Z :=
  let l := if leap then 1 else 0 in
  match mo with
  | 0 => 0 | 1 => 31 | 2 => 59 + l | 3 => 90 + l | 4 => 120 + l
  | 5 => 151 + l | 6 => 181 + l | 7 => 212 + l | 8 => 243 + l
  | 9 => 273 + l | 10 => 304 + l | _ => 334 + l
  end.

(** MakeDay: months beyond 0..11 carry into the year, and the date counts
    on from the first of the month, so day 0 or day 31 of a 30-day month
    roll over. *)
Definition makeDay (year month date : Z) : Z :=
  let ym := year + month / 12 in
  let mn := month mod 12 in
  dayFromYear ym + monthStart (isLeap ym) mn + date - 1.

Definition makeDate (day time : Z) : Z := day * msPerDay + time.

(** TimeClip: a time value beyond 8.64e15 ms is NaN ([None]). *)
Definition timeClip (t : Z) : option Z :=
  if Z.abs t <=? 8640000000000000 then Some t else None.

(** [new Date(year, month, day)]: local midnight of that day; a year in
    0..99 means 1900 + year. *)
Definition newDateYMD (h : Host) (year month date : Z) : option Z :=
  let yr := if (0 <=? year) && (year <=? 99) then 1900 + year else year in
  timeClip (makeDate (makeDay yr month date) 0 - tzOffset h).

Fixpoint yearSearch (fuel : nat) (y d : Z) : Z :=
  match fuel with
  | O => y
  | S f => if dayFromYear y <=? d then y else yearSearch f (y - 1) d
  end.

(** YearFromTime on day numbers: the largest year starting on or before
    day [d]. *)
Definition yearFromDay (d : Z) : Z :=
  yearSearch 6 (1970 + d * 400 / 146097 + 2) d.

Definition monthFromDayInYear (leap : bool) (n : Z) : Z :=
  let fix go (fuel : nat) (mo : Z) : Z :=
    match fuel with
    | O => mo
    | S f => if monthStart leap mo <=? n then mo else go f (mo - 1)
    end in
  go 11%nat 11.

Record civil : Type := Civil { cYear : Z; cMonth : Z; cDate : Z; cMs : Z }.

(** Year, month (0..11), day of month and milliseconds within the day. *)
Definition civilOf (t : Z) : civil :=
  let d := t / msPerDay in
  let y := yearFromDay d in
  let n := d - dayFromYear y in
  let mo := monthFromDayInYear (isLeap y) n in
  Civil y mo (n - monthStart (isLeap y) mo + 1) (t mod msPerDay).

Definition getFullYear (h : Host) (t : Z) : Z := cYear (civilOf (t + tzOffset h)).
Definition getMonth (h : Host) (t : Z) : Z := cMonth (civilOf (t + tzOffset h)).
Definition getDate (h : Host) (t : Z) : Z := cDate (civilOf (t + tzOffset h)).

(** [today.setHours(0, 0, 0, 0)]: local midnight of the day of [t]. *)
Definition startOfDay (h : Host) (t : Z) : Z :=
  (t + tzOffset h) / msPerDay * msPerDay - tzOffset h.

Definition pad (w : nat) (z : Z) : list N := padStart w (showZ z).

(** [Date.prototype.toISOString]: the UTC fields; years outside 0..9999
    are written with a sign and six digits. *)
Definition toISOString (t : Z) : list N :=
  let c := civilOf t in
  let y := cYear c in
  let ys := if (0 <=? y) && (y <=? 9999) then pad 4 y
            else (if y <? 0 then 45%N else 43%N) :: pad 6 (Z.abs y) in
  let ms := cMs c in
  ys ++ str "-" ++ pad 2 (cMonth c + 1) ++ str "-" ++ pad 2 (cDate c)
     ++ str "T" ++ pad 2 (ms / 3600000) ++ str ":" ++ pad 2 (ms / 60000 mod 60)
     ++ str ":" ++ pad 2 (ms / 1000 mod 60) ++ str "." ++ pad 3 (ms mod 1000)
     ++ str "Z".

(** [s.split(c)] for a separator of one code unit. *)
Fixpoint splitUnit (c : N) (s : list N) : list (list N) :=
  match s with
  | [] => [[]]
  | x :: s' =>
    match splitUnit c s' with
    | w :: ws => if (x =? c)%N then [] :: w :: ws else (x :: w) :: ws
    | [] => [[x]]
    end
  end.

(** [date.toISOString().split("T")[0]] *)
Definition isoDay (t : Z) : list N :=
  match splitUnit 84 (toISOString t) with
  | w :: _ => w
  | [] => []
  end.

Definition daysInMonth (y mo : Z) : Z :=
  match mo with
  | 1 => if isLeap y then 29 else 28
  | 3 | 5 | 8 | 10 => 30
  | _ => 31
  end.

(** The date-only form [YYYY-MM-DD] of the Date Time String Format: a
    calendar day that exists is midnight UTC of that day. *)
Definition parseIsoDay (s : list N) : option Z :=
  match s with
  | [y1; y2; y3; y4; 45%N; m1; m2; 45%N; d1; d2] =>
    if forallb isDigit [y1; y2; y3; y4; m1; m2; d1; d2] then
      let y := Z.of_N (digitsValue [y1; y2; y3; y4] 0) in
      let mo := Z.of_N (digitsValue [m1; m2] 0) in
      let d := Z.of_N (digitsValue [d1; d2] 0) in
      if (1 <=? mo) && (mo <=? 12) && (1 <=? d) && (d <=? daysInMonth y (mo - 1))
      then Some (makeDate (makeDay y (mo - 1) d) 0)
      else None
    else None
  | _ => None
  end.

(** [new Date(s)] for a string [s]: [None] is an Invalid Date, which the
    empty string always is. *)
Definition newDateStr (h : Host) (s : list N) : option Z :=
  match s with
  | [] => None
  | _ :: _ =>
    match parseIsoDay s with
    | Some t => Some t
    | None =>
      match dateParseOther h s with
      | Some t => timeClip t
      | None => None
      end
    end
  end.

End JSDate.

(** ** The record built by the detail handlers (schemas.ts) *)

Module Model.
Import JS JSValue.

Record Image : Type := { src : list N; alt : list N }.

Record Contacts : Type := {
  phones : list (list N);
  emails : list (list N);
  websites : list (list N)
}.

Record SocialMedia : Type := {
  facebook : option (list N);
  instagram : option (list N);
  twitter : option (list N)
}.

(** [StructuredDataSchema]: every field optional, [location] of any
    shape. *)
Record StructuredData : Type := {
  sdType : option (list N);
  sdName : option (list N);
  sdStartDate : option (list N);
  sdEndDate : option (list N);
  sdLocation : jsval;
  sdDescription : option (list N)
}.

(** [Record<string, any>] as the handlers fill it; a field that a handler
    may leave unset is an [option], [location] is typed [any]. *)
Record FestivalData : Type := {
  url : list N;
  title : option (list N);
  scrapedAt : list N;
  source : list N;
  structuredData : option StructuredData;
  name : option (list N);
  startDate : option (list N);
  endDate : option (list N);
  location : jsval;
  description : option (list N);
  metaDescription : option (list N);
  ogImage : option (list N);
  ogTitle : option (list N);
  dates : option (list (list N));
  province : option (list N);
  images : option (list Image);
  paragraphs : option (list (list N));
  fullText : option (list N);
  contacts : option Contacts;
  socialMedia : option SocialMedia;
  categories : option (list (list N));
  schedule : option (list (list N));
  prices : option (list (list N))
}.

Definition isSome {A} (o : option A) : bool :=
  match o with Some _ => true | None => false end.

(** [FestivalDataSchema.safeParse(fd).success] of schemas.ts: the
    required fields are set, [url] passes [z.url()], [scrapedAt] passes
    [z.iso.datetime()] (the two library checks are [zUrl] and
    [zDatetime]), and [source] is one of the three known sites. *)
Definition festivalDataSchema (zUrl zDatetime : list N -> bool) (fd : FestivalData) : bool :=
  zUrl (url fd) && isSome (title fd) && zDatetime (scrapedAt fd)
  && existsb (fun s => bool_decide (source fd = str s))
             [ "sagreinromagna.it"; "sagreinemilia.it"; "assosagre.it" ]%string
  && isSome (metaDescription fd) && isSome (ogImage fd) && isSome (ogTitle fd)
  && isSome (dates fd) && isSome (province fd) && isSome (images fd)
  && isSome (paragraphs fd) && isSome (fullText fd) && isSome (categories fd)
  && isSome (schedule fd) && isSome (prices fd).

End Model.

(** ** utils/helpers.ts *)

Module Helpers.
Import JS JSValue JSDate RegExp Model.
Local Open Scope Z_scope.

(** A [Date] object: its time value, or Invalid Date. *)
Inductive jsdate : Type :=
| InvalidDate
| Time (t : Z).

(** What reading [monthMap[w]] yields: an entry of the literal, a member
    inherited from [Object.prototype] (the only one spelled in lower-case
    letters is [constructor]), or [undefined]. *)
Inductive monthEntry : Type :=
| Month (n : Z)
| Inherited
| NoMonth.

Definition monthNames : list (list N * Z) :=
  [ (str "gennaio", 0); (str "febbraio", 1); (str "marzo", 2);
    (str "aprile", 3); (str "maggio", 4); (str "giugno", 5);
    (str "luglio", 6); (str "agosto", 7); (str "settembre", 8);
    (str "ottobre", 9); (str "novembre", 10); (str "dicembre", 11) ].

Fixpoint assoc {A} (k : list N) (l : list (list N * A)) : option A :=
  match l with
  | [] => None
  | (k', v) :: l' => if bool_decide (k = k') then Some v else assoc k l'
  end.

Definition monthMap (w : list N) : monthEntry :=
  match assoc w monthNames with
  | Some n => Month n
  | None => if bool_decide (w = str "constructor") then Inherited else NoMonth
  end.

(** [/(\d{1,2})\s+([a-zà-ù]+)\s+(\d{4})/gi] *)
Definition datePattern : regex :=
  seqs [ Group 1 (times 1 2 digit); plus space;
         Group 2 (plus (Class false [(97, 122); (224, 249)]%N)); plus space;
         Group 3 (times 4 4 digit) ].

Definition groupText (n : nat) (mt : rmatch) : list N :=
  match group n mt with Some w => w | None => [] end.

(** [parseItalianDate]: [None] is [null]. *)
Definition parseItalianDate (h : Host) (dateStr : list N) : option jsdate :=
  let normalized := trim (toLowerCase dateStr) in
  let matches := matchAll true datePattern normalized in
  match last matches with
  | None => None
  | Some lastMatch =>
    let day := parseInt10 (groupText 1 lastMatch) in
    let month := monthMap (toLowerCase (groupText 2 lastMatch)) in
    let year := parseInt10 (groupText 3 lastMatch) in
    match month, day, year with
    | NoMonth, _, _ => None
    | _, None, _ => None
    | _, _, None => None
    | Inherited, Some _, Some _ => Some InvalidDate
    | Month mo, Some d, Some y =>
      Some (match newDateYMD h y mo d with
            | Some t => Time t
            | None => InvalidDate
            end)
    end
  end.

(** [if (s) { const d = new Date(s); if (!isNaN(d.getTime())) ... }]:
    the time value of a non-empty string field that parses. *)
Definition validTime (h : Host) (field : option (list N)) : option Z :=
  match field with
  | Some (c :: s) => newDateStr h (c :: s)
  | _ => None
  end.

(** The loop over [festivalData.dates]: [false] at the first fragment
    that parses to a date not before [today], [true] when the loop ends. *)
Fixpoint allDatesPast (h : Host) (today : Z) (ds : list (list N)) : bool :=
  match ds with
  | [] => true
  | dateStr :: ds' =>
    match parseItalianDate h dateStr with
    | Some (Time t) => if today <=? t then false else allDatesPast h today ds'
    | _ => allDatesPast h today ds'
    end
  end.

(** [isFestivalPast], run at clock reading [now]. *)
Definition isFestivalPast (h : Host) (now : Z) (festivalData : FestivalData) : bool :=
  let today := startOfDay h now in
  match validTime h (endDate festivalData) with
  | Some t => t <? today
  | None =>
    match validTime h (startDate festivalData) with
    | Some t => t <? today
    | None =>
      match dates festivalData with
      | Some (d :: ds) => allDatesPast h today (d :: ds)
      | _ => false
      end
    end
  end.

Definition monthYear (h : Host) (d : jsdate) : list N :=
  match d with
  | Time t => showZ (getMonth h t) ++ str "-" ++ showZ (getFullYear h t)
  | InvalidDate => str "NaN-NaN"
  end.

(** [generateFestivalKey] *)
Definition generateFestivalKey (h : Host) (festivalData : FestivalData) : list N :=
  let normalizedTitle :=
    match title festivalData with
    | Some t => trim (toLowerCase t)
    | None => []
    end in
  let locationStr :=
    match location festivalData with
    | VStr s => trim (toLowerCase s)
    | v =>
      if truthy v && typeofObject v && hasProp v "name"
      then trim (toLowerCase (toString h (getProp v "name")))
      else []
    end in
  let dateKey :=
    match startDate festivalData with
    | Some (c :: s) =>
      match newDateStr h (c :: s) with
      | Some t => monthYear h (Time t)
      | None => []
      end
    | _ =>
      match dates festivalData with
      | Some (d :: _) =>
        match parseItalianDate h d with
        | Some parsedDate => monthYear h parsedDate
        | None => []
        end
      | _ => []
      end
    end in
  normalizedTitle ++ str "|" ++ locationStr ++ str "|" ++ dateKey.

(** The module-level [seenFestivals] set is the state threaded through
    [isDuplicate] and [clearDuplicateCache]. *)
Definition isDuplicate (h : Host) (festivalData : FestivalData)
    (seenFestivals : gset (list N)) : bool * gset (list N) :=
  let key := generateFestivalKey h festivalData in
  if bool_decide (key ∈ seenFestivals) then (true, seenFestivals)
  else (false, {[ key ]} ∪ seenFestivals).

Definition clearDuplicateCache (seenFestivals : gset (list N)) : gset (list N) := ∅.

End Helpers.

(** ** utils/constants.ts: the patterns *)

Module Constants.
Import JS RegExp.

(** [/(gennaio|febbraio|...|dicembre)/gi] *)
Definition ITALIAN_MONTH : regex :=
  Group 1 (alts (map lit
    [ "gennaio"; "febbraio"; "marzo"; "aprile"; "maggio"; "giugno"; "luglio";
      "agosto"; "settembre"; "ottobre"; "novembre"; "dicembre" ]%string)).

(** [/\b(\d{1,2})(?:\s*-\s*(\d{1,2}))*\b/g] *)
Definition DAY_NUMBERS : regex :=
  seqs [ WordBoundary; Group 1 (times 1 2 digit);
         star (seqs [star space; Char 45; star space; Group 2 (times 1 2 digit)]);
         WordBoundary ].

(** [/\b(20\d{2})\b/] *)
Definition YEAR : regex :=
  seqs [ WordBoundary; Group 1 (seqs [Char 50; Char 48; times 2 2 digit]);
         WordBoundary ].

(** [/\(([A-Z]{2})\)/] *)
Definition PROVINCE_CODE : regex :=
  seqs [ Char 40; Group 1 (times 2 2 (Class false [(65, 90)])); Char 41 ].

(** [/\b(\d{1,2})\b/g], written inline in the date parsers. *)
Definition DAY_WORD : regex :=
  seqs [ WordBoundary; Group 1 (times 1 2 digit); WordBoundary ].

(** [/\s*-\s*/], the separator the day ranges are split on. *)
Definition DASH : regex := seqs [ star space; Char 45; star space ].

End Constants.


(** ** The page, the mappers and the effects of a handler *)

Module Crawler.
Import JS JSValue JSDate RegExp Model Helpers Constants.
Local Open Scope Z_scope.

(** One element of a cheerio selection. *)
Record Element : Type := {
  elText : list N;
  elHtml : option (list N);
  elAttr : string -> option (list N)
}.

(** The parsed document [$]: the selection a query yields, in document
    order.  A query is keyed by its selector, written with single quotes
    inside; a chained query is keyed by the chain. *)
Definition Cheerio : Type := string -> list Element.

Definition textOf (sel : list Element) : list N := concat (map elText sel).
Definition firstOf (sel : list Element) : list Element := take 1 sel.
Definition attrOf (sel : list Element) (a : string) : option (list N) :=
  match sel with
  | e :: _ => elAttr e a
  | [] => None
  end.

Definition nonEmpty (s : list N) : bool :=
  match s with [] => false | _ :: _ => true end.

(** [a || b] on strings. *)
Definition orStr (a b : list N) : list N := if nonEmpty a then a else b.

(** [o || ""] and [o || null] on an attribute. *)
Definition orEmpty (o : option (list N)) : list N :=
  match o with Some s => s | None => [] end.
Definition orNull (o : option (list N)) : option (list N) :=
  match o with Some (c :: s) => Some (c :: s) | _ => None end.

(** [WEBSITE_CONFIG] of utils/constants.ts, as far as the handlers
    read strings from it: the sites it has an entry for, each with its
    string-valued keys. *)
Definition WEBSITE_CONFIG : list (string * list (string * list N)) :=
  [ ("ROMAGNA_EMILIA", []);
    ("ASSOSAGRE", [ ("SOURCE", str "assosagre.it") ]) ]%string.

(** [WEBSITE_CONFIG[site].SOURCE]: [undefined] ([None]) where the entry
    of the site has no such key; for a site without an entry the read is
    a property read on [undefined], which throws a TypeError. *)
Definition configSource (site : string) : outcome (option (list N)) :=
  match List.find (fun e => String.eqb (fst e) site) WEBSITE_CONFIG with
  | Some e =>
    Ok (match List.find (fun kv => String.eqb (fst kv) "SOURCE") (snd e) with
        | Some kv => Some (snd kv)
        | None => None
        end)
  | None => Thrown
  end.

(** What the handlers take from their surroundings: the host, the clock
    reading of this invocation, the library calls [JSON.parse],
    [new URL(href, base).toString()] and [parseFloat], the validator
    [FestivalDataSchema.safeParse(...).success], and whether the upload
    is enabled and configured. *)
Record Env : Type := {
  host : Host;
  now : Z;
  jsonParse : list N -> outcome jsval;
  resolveUrl : list N -> list N -> outcome (list N);
  parseFloat : list N -> number;
  safeParse : FestivalData -> bool;
  uploadEnabled : bool
}.

(** *** utils/mappers *)

Definition selectorList (sels : list string) : string :=
  String.concat ", " sels.

(** [$(sels.join(", ")).map(text.trim).get().filter(nonempty)] *)
Definition trimmedTexts (q : Cheerio) (sels : list string) : list (list N) :=
  filter (fun t => nonEmpty t) (map (fun e => trim (elText e)) (q (selectorList sels))).

Definition extractDates (q : Cheerio) (sels : list string) := trimmedTexts q sels.
Definition extractCategories (q : Cheerio) (sels : list string) := trimmedTexts q sels.
Definition extractSchedule (q : Cheerio) (sels : list string) := trimmedTexts q sels.
Definition extractPrices (q : Cheerio) (sels : list string) := trimmedTexts q sels.

Definition extractParagraphs (q : Cheerio) (sels : list string) (minLength : nat)
    : list (list N) :=
  filter (fun t => Nat.ltb minLength (length t))
         (map (fun e => trim (elText e)) (q (selectorList sels))).

Definition extractProvince (q : Cheerio) (sels : list string) : list N :=
  trim (textOf (firstOf (q (selectorList sels)))).

Definition extractTitle (q : Cheerio) (customSelector : option string) : list N :=
  let customTitle :=
    match customSelector with
    | Some sel => trim (textOf (q sel))
    | None => []
    end in
  if nonEmpty customTitle then customTitle
  else
    let h1Title := trim (textOf (firstOf (q "h1"%string))) in
    if nonEmpty h1Title then h1Title
    else
      let pageTitle :=
        trim (match splitUnit 124 (textOf (q "title"%string)) with
              | w :: _ => w
              | [] => []
              end) in
      if nonEmpty pageTitle then pageTitle else [].

Definition extractFullText (q : Cheerio) : list N :=
  trim (replaceAll false (plus space) (str " ") (textOf (q "body"%string))).

Record Metadata : Type := {
  mMetaDescription : list N;
  mOgImage : list N;
  mOgTitle : list N
}.

Definition extractMetadata (q : Cheerio) : Metadata :=
  {| mMetaDescription := orEmpty (orNull (attrOf (q "meta[name='description']"%string) "content"));
     mOgImage := orEmpty (orNull (attrOf (q "meta[property='og:image']"%string) "content"));
     mOgTitle := orEmpty (orNull (attrOf (q "meta[property='og:title']"%string) "content")) |}.


Definition anyIncluded (patterns : list (list N)) (s : list N) : bool :=
  existsb (fun p => includes s p) patterns.

(** [extractImages] of festival-mapper. *)
Fixpoint mapImages (env : Env) (excludePatterns : list (list N))
    (baseUrl : option (list N)) (imgs : list Element) : outcome (list Image) :=
  match imgs with
  | [] => Ok []
  | el :: imgs' =>
    let continue_ (found : list Image) :=
      match mapImages env excludePatterns baseUrl imgs' with
      | Ok l => Ok (found ++ l)
      | Thrown => Thrown
      end in
    match orNull (elAttr el "src") with
    | None => continue_ []
    | Some s =>
      if anyIncluded excludePatterns (toLowerCase s) then continue_ []
      else
        let alt_ := orEmpty (orNull (elAttr el "alt")) in
        match baseUrl with
        | Some (c :: b) =>
          if startsWith (str "http") s then continue_ [ {| src := s; alt := alt_ |} ]
          else match resolveUrl env s (c :: b) with
               | Ok a => continue_ [ {| src := a; alt := alt_ |} ]
               | Thrown => Thrown
               end
        | _ => continue_ [ {| src := s; alt := alt_ |} ]
        end
    end
  end.

Definition extractImages (env : Env) (q : Cheerio) (excludePatterns : list string)
    (baseUrl : option (list N)) : outcome (list Image) :=
  mapImages env (map str excludePatterns) baseUrl (q "img"%string).

(** [$(sel).map(el => $(el).attr("href")?.replace(prefix, "").trim()).get()];
    an element without the attribute yields nothing. *)
Definition hrefsWithout (q : Cheerio) (sel : string) (prefix : string) : list (list N) :=
  omap (fun e => match elAttr e "href" with
                 | Some hr => Some (trim (replaceFirst (str prefix) [] hr))
                 | None => None
                 end) (q sel).

Definition hrefs (q : Cheerio) (sel : string) : list (list N) :=
  omap (fun e => elAttr e "href") (q sel).

(** [extractContacts] of contact-mapper. *)
Definition extractContacts (q : Cheerio) (excludeDomains : list string) : Contacts :=
  {| phones := filter (fun s => nonEmpty s) (hrefsWithout q "a[href^='tel:']" "tel:");
     emails := filter (fun s => nonEmpty s) (hrefsWithout q "a[href^='mailto:']" "mailto:");
     websites := filter (fun hr => nonEmpty hr && negb (anyIncluded (map str excludeDomains) hr))
                        (hrefs q "a[href^='http']") |}.

(** [extractSocialMedia] of contact-mapper. *)
Definition extractSocialMedia (q : Cheerio) : SocialMedia :=
  {| facebook := orNull (attrOf (q "a[href*='facebook.com']"%string) "href");
     instagram := orNull (attrOf (q "a[href*='instagram.com']"%string) "href");
     twitter := orNull (attrOf (q "a[href*='twitter.com'], a[href*='x.com']"%string) "href") |}.

Definition COMMON_DATE_SELECTORS : list string :=
  [ ".date"; ".data"; ".quando"; "[class*='date']"; "[class*='quando']" ]%string.
Definition COMMON_PROVINCE_SELECTORS : list string :=
  [ ".province"; ".provincia"; "[class*='province']" ]%string.
Definition COMMON_IMAGE_EXCLUDE_PATTERNS : list string := [ "logo"; "icon"; "favicon" ]%string.
Definition COMMON_PARAGRAPH_SELECTORS : list string :=
  [ "article p"; ".content p"; ".description p"; "main p" ]%string.
Definition COMMON_CATEGORY_SELECTORS : list string :=
  [ ".category"; ".tipo"; ".tag"; "[class*='category']"; "[class*='tag']" ]%string.
Definition COMMON_SCHEDULE_SELECTORS : list string :=
  [ ".orari"; ".schedule"; "[class*='orari']"; "[class*='schedule']" ]%string.
Definition COMMON_PRICE_SELECTORS : list string :=
  [ ".prezzo"; ".price"; "[class*='prezzo']"; "[class*='price']" ]%string.
Definition EXCLUDED_ROMAGNA_EMILIA : list string :=
  [ "sagreinromagna.it"; "sagreinemilia.it" ]%string.

(** [/q=([-\d.]+),([-\d.]+)/] *)
Definition MAPS_COORDINATES : regex :=
  let coord := plus (Class false [(45, 45); (48, 57); (46, 46)]%N) in
  seqs [ Char 113; Char 61; Group 1 coord; Char 44; Group 2 coord ].

(** *** Effects *)

(** The calls a handler makes to the three checks and to the sink, in the
    order it makes them. *)
Inductive call : Type :=
| CallIsFestivalPast (fd : FestivalData) (result : bool)
| CallIsDuplicate (fd : FestivalData) (result : bool)
| CallSafeParse (fd : FestivalData) (success : bool)
| CallPushData (fd : FestivalData)
| CallUpload (fd : FestivalData).

(** The process state a handler runs in: the module-level seen-set of
    helpers.ts and the log of calls. *)
Record world : Type := {
  seenFestivals : gset (list N);
  calls : list call
}.

Definition M (A : Type) : Type := world -> outcome A * world.

Definition ret {A} (a : A) : M A := fun w => (Ok a, w).
Definition throw {A} : M A := fun w => (Thrown, w).
Definition bind {A B} (c : M A) (k : A -> M B) : M B :=
  fun w => match c w with
           | (Ok a, w') => k a w'
           | (Thrown, w') => (Thrown, w')
           end.
Definition lift {A} (o : outcome A) : M A := fun w => (o, w).

Notation "'let*' x ':=' c 'in' k" := (bind c (fun x => k))
  (at level 10, x pattern, k at level 200).

Definition logCall (c : call) : M unit :=
  fun w => (Ok tt, {| seenFestivals := seenFestivals w; calls := calls w ++ [c] |}).

Definition callIsFestivalPast (env : Env) (fd : FestivalData) : M bool :=
  let b := isFestivalPast (host env) (now env) fd in
  let* _ := logCall (CallIsFestivalPast fd b) in ret b.

Definition callIsDuplicate (env : Env) (fd : FestivalData) : M bool :=
  fun w =>
    let (b, seen') := isDuplicate (host env) fd (seenFestivals w) in
    (Ok b, {| seenFestivals := seen'; calls := calls w ++ [CallIsDuplicate fd b] |}).

Definition callSafeParse (env : Env) (fd : FestivalData) : M bool :=
  let b := safeParse env fd in
  let* _ := logCall (CallSafeParse fd b) in ret b.

Definition pushData (fd : FestivalData) : M unit := logCall (CallPushData fd).

(** The tail every handler shares: validate, throw on failure, emit, and
    hand the record to the upload when that is enabled. *)
Definition validateAndSave (env : Env) (festivalData : FestivalData) : M unit :=
  let* ok := callSafeParse env festivalData in
  if negb ok then throw
  else
    let* _ := pushData festivalData in
    if uploadEnabled env then logCall (CallUpload festivalData) else ret tt.

End Crawler.

(** ** The [{ startDate?, endDate? }] results of the per-site date parsers *)

Module DateFields.
Import JS JSDate Helpers.

Record parsedDates : Type := {
  pStartDate : option (list N);
  pEndDate : option (list N)
}.

(** [if (d) { result.x = d.toISOString().split("T")[0] }]; [toISOString]
    of an Invalid Date throws. *)
Definition isoField (d : option jsdate) : outcome (option (list N)) :=
  match d with
  | None => Ok None
  | Some (Time t) => Ok (Some (isoDay t))
  | Some InvalidDate => Thrown
  end.

Definition assign (sd ed : option jsdate) : outcome parsedDates :=
  match isoField sd with
  | Thrown => Thrown
  | Ok s =>
    match isoField ed with
    | Thrown => Thrown
    | Ok e => Ok {| pStartDate := s; pEndDate := e |}
    end
  end.

End DateFields.
(** ** websites/assosagre/routes.ts *)

Module Assosagre.
Import JS JSValue JSDate RegExp Model Helpers Constants Crawler DateFields.
Local Open Scope Z_scope.

(** The Numbers the day arithmetic can produce. *)
Inductive num : Type :=
| NumNaN
| NumInf (negative : bool)
| NumInt (z : Z).

Definition ofParseInt (o : option Z) : num :=
  match o with Some z => NumInt z | None => NumNaN end.

Definition showNum (x : num) : list N :=
  match x with
  | NumNaN => str "NaN"
  | NumInf false => str "Infinity"
  | NumInf true => str "-Infinity"
  | NumInt z => showZ z
  end.

Definition min2 (a b : num) : num :=
  match a, b with
  | NumNaN, _ | _, NumNaN => NumNaN
  | NumInf true, _ | _, NumInf true => NumInf true
  | NumInf false, x | x, NumInf false => x
  | NumInt x, NumInt y => NumInt (Z.min x y)
  end.

Definition max2 (a b : num) : num :=
  match a, b with
  | NumNaN, _ | _, NumNaN => NumNaN
  | NumInf false, _ | _, NumInf false => NumInf false
  | NumInf true, x | x, NumInf true => x
  | NumInt x, NumInt y => NumInt (Z.max x y)
  end.

(** [Math.min(...l)] and [Math.max(...l)]. *)
Definition mathMin (l : list num) : num := fold_right min2 (NumInf false) l.
Definition mathMax (l : list num) : num := fold_right max2 (NumInf true) l.

(** [s.indexOf(p)], with -1 for no occurrence. *)
Definition indexOfZ (s p : list N) : Z :=
  match indexOf s p with Some i => Z.of_nat i | None => -1 end.

Definition clampIndex (s : list N) (i : Z) : nat :=
  Z.to_nat (Z.min (Z.max i 0) (Z.of_nat (length s))).

(** [s.substring(a, b)] and [s.substring(a)]. *)
Definition substring (s : list N) (a b : Z) : list N :=
  let a' := clampIndex s a in
  let b' := clampIndex s b in
  take (Nat.max a' b' - Nat.min a' b')%nat (drop (Nat.min a' b') s).

Definition substringFrom (s : list N) (a : Z) : list N :=
  drop (clampIndex s a) s.

Definition dayWords (s : list N) : list num :=
  map (fun mt => ofParseInt (parseInt10 (text mt))) (matchAll false DAY_WORD s).

(** [parseSagradateText], run at clock reading [now]. *)
Definition parseSagradateText (h : Host) (now : Z) (sagradateText : list N)
    : outcome parsedDates :=
  match sagradateText with
  | [] => Ok {| pStartDate := None; pEndDate := None |}
  | _ :: _ =>
    let year :=
      match exec false YEAR sagradateText with
      | Some yearMatch => groupText 1 yearMatch
      | None => showZ (getFullYear h now)
      end in
    let months := map text (matchAll true ITALIAN_MONTH sagradateText) in
    let dayMatches := matchAll false DAY_NUMBERS sagradateText in
    match months, dayMatches with
    | firstMonth :: otherMonths, _ :: _ =>
      let allDays :=
        flat_map (fun mt => map (fun d => ofParseInt (parseInt10 (trim d)))
                               (split false DASH (text mt))) dayMatches in
      let firstDay := mathMin allDays in
      let lastDay := mathMax allDays in
      let sp := str " " in
      match last otherMonths with
      | None =>
        let month := firstMonth in
        assign (parseItalianDate h (showNum firstDay ++ sp ++ month ++ sp ++ year))
               (parseItalianDate h (showNum lastDay ++ sp ++ month ++ sp ++ year))
      | Some lastMonth =>
        let firstMonthIndex := indexOfZ sagradateText firstMonth in
        let secondMonthIndex := indexOfZ sagradateText lastMonth in
        let beforeSecondMonth := substring sagradateText 0 secondMonthIndex in
        let daysBeforeSecondMonth := dayWords beforeSecondMonth in
        let afterFirstMonth :=
          substringFrom sagradateText (firstMonthIndex + Z.of_nat (length firstMonth)) in
        let daysAfterFirstMonth := dayWords afterFirstMonth in
        let startDay :=
          match daysBeforeSecondMonth with
          | d :: _ => d
          | [] => firstDay
          end in
        let endDay :=
          match daysAfterFirstMonth with
          | _ :: _ => mathMax daysAfterFirstMonth
          | [] => lastDay
          end in
        assign (parseItalianDate h (showNum startDay ++ sp ++ firstMonth ++ sp ++ year))
               (parseItalianDate h (showNum endDay ++ sp ++ lastMonth ++ sp ++ year))
      end
    | _, _ => Ok {| pStartDate := None; pEndDate := None |}
    end
  end.


Definition noDates : parsedDates := {| pStartDate := None; pEndDate := None |}.

(** The record as it stands when the temporal check runs: the fields
    set so far, the others not yet assigned. *)
Definition early (loadedUrl title_ scrapedAt_ source_ : list N)
    (dates_ : option (list (list N))) (parsed : parsedDates) : FestivalData :=
  {| url := loadedUrl; title := Some title_; scrapedAt := scrapedAt_;
     source := source_; structuredData := None; name := None;
     startDate := pStartDate parsed; endDate := pEndDate parsed;
     location := VUndefined; description := None; metaDescription := None;
     ogImage := None; ogTitle := None; dates := dates_; province := None;
     images := None; paragraphs := None; fullText := None; contacts := None;
     socialMedia := None; categories := None; schedule := None; prices := None |}.

(** The structured-data object a handler synthesizes around coordinates
    read from a map link. *)
Definition geoEvent (title_ : list N) (parsed : parsedDates) (placeName : list N)
    (lat lng : number) : StructuredData :=
  {| sdType := Some (str "Event"); sdName := Some title_;
     sdStartDate := pStartDate parsed; sdEndDate := pEndDate parsed;
     sdLocation :=
       VObj [ (str "@type", VStr (str "Place")); (str "name", VStr placeName);
              (str "geo", VObj [ (str "@type", VStr (str "GeoCoordinates"));
                                 (str "latitude", VNum lat);
                                 (str "longitude", VNum lng) ]) ];
     sdDescription := None |}.

Definition coordinatesOf (env : Env) (href : option (list N)) : option (number * number) :=
  match orNull href with
  | Some hr =>
    match exec false MAPS_COORDINATES hr with
    | Some coordMatch =>
      Some (parseFloat env (groupText 1 coordMatch), parseFloat env (groupText 2 coordMatch))
    | None => None
    end
  | None => None
  end.

(** The [assosagre-detail] handler. *)
Definition assosagreDetail (env : Env) (loadedUrl : list N) (q : Cheerio) : M unit :=
  let title_ := extractTitle q (Some ".nomesagra"%string) in
  let sagradateText := trim (textOf (q ".sagradate"%string)) in
  let dates_ := if nonEmpty sagradateText then [sagradateText] else [] in
  let scrapedAt_ := toISOString (now env) in
  let* parsed :=
    lift (if nonEmpty sagradateText
          then parseSagradateText (host env) (now env) sagradateText
          else Ok noDates) in
  let festivalData0 :=
    early loadedUrl title_ scrapedAt_ (str "assosagre.it") (Some dates_) parsed in
  let* past := callIsFestivalPast env festivalData0 in
  if past then ret tt
  else
    let locationLink :=
      match q ".sagrainfo"%string with
      | _ :: _ => q ".sagrainfo i.icon-location :parent(a)"%string
      | [] => []
      end in
    let location_ :=
      match locationLink with
      | _ :: _ => trim (textOf (firstOf locationLink))
      | [] => []
      end in
    let locationCoordinates :=
      match locationLink with
      | _ :: _ => coordinatesOf env (attrOf (firstOf locationLink) "href")
      | [] => None
      end in
    let structuredData_ :=
      match locationCoordinates with
      | Some (lat, lng) => Some (geoEvent title_ parsed location_ lat lng)
      | None =>
        match coordinatesOf env (attrOf (q "iframe[src*='maps.google.com']"%string) "src") with
        | Some (lat, lng) => Some (geoEvent title_ parsed location_ lat lng)
        | None => None
        end
      end in
    let province_ :=
      match exec false PROVINCE_CODE (textOf (q "body"%string)) with
      | Some provinceMatch => groupText 1 provinceMatch
      | None => []
      end in
    let md := extractMetadata q in
    let* images_ := lift (extractImages env q [ "icon"; "favicon" ]%string (Some loadedUrl)) in
    let paragraphs_ :=
      filter (fun t => negb (includes t (str "Dove:")) && negb (includes t (str "Quando:")))
             (extractParagraphs q [ "p"%string ] 20) in
    let scheduleText := trim (textOf (q "p:contains('Orari:'), p:contains('dalle')"%string)) in
    let schedule_ :=
      extractSchedule q [] ++ (if nonEmpty scheduleText then [scheduleText] else []) in
    let festivalData :=
      {| url := loadedUrl; title := Some title_; scrapedAt := scrapedAt_;
         source := str "assosagre.it"; structuredData := structuredData_;
         name := None; startDate := pStartDate parsed; endDate := pEndDate parsed;
         location := VStr location_;
         description := Some (join [10; 10]%N paragraphs_);
         metaDescription := Some (mMetaDescription md); ogImage := Some (mOgImage md);
         ogTitle := Some (mOgTitle md); dates := Some dates_;
         province := Some province_; images := Some images_;
         paragraphs := Some paragraphs_; fullText := Some (extractFullText q);
         contacts := None; socialMedia := None;
         categories := Some (extractCategories q [ ".category"; ".tag"; ".tipo" ]%string);
         schedule := Some schedule_;
         prices := Some (extractPrices q [ ".price"; ".prezzo" ]%string) |} in
    let* dup := callIsDuplicate env festivalData in
    if dup then ret tt
    else validateAndSave env festivalData.

End Assosagre.

(** ** websites/viviromagna/routes.ts *)

Module Viviromagna.
Import JS JSValue JSDate RegExp Model Helpers Constants Crawler DateFields.
Local Open Scope Z_scope.

Definition letters : regex := Class false [(97, 122); (224, 249)]%N.

(** The pattern of [parseViviromagnaPeriod], flags [gi]: a day, a word,
    an optional year, an optional separator made of the characters
    [-], [a], [l] between optional white space, then an optional second
    day, word and year. *)
Definition periodPattern : regex :=
  seqs [ Group 1 (times 1 2 digit); plus space; Group 2 (plus letters);
         opt (seqs [plus space; Group 3 (times 4 4 digit)]);
         opt (seqs [star space; plus (Class false [(45, 45); (97, 97); (108, 108)]%N);
                    star space]);
         opt (Group 4 (times 1 2 digit)); star space;
         opt (Group 5 (plus letters)); star space;
         opt (Group 6 (times 4 4 digit)) ].

(** The range pattern, flag [i]: a day, a word, an optional year, a
    hyphen between optional white space, a second day, and an optional
    second word and year. *)
Definition rangePattern : regex :=
  seqs [ Group 1 (times 1 2 digit); plus space; Group 2 (plus letters);
         opt (seqs [plus space; Group 3 (times 4 4 digit)]);
         star space; Char 45; star space; Group 4 (times 1 2 digit);
         opt (seqs [plus space; Group 5 (plus letters)]); star space;
         opt (Group 6 (times 4 4 digit)) ].

(** [/^Dal\s+/i] and [/\s+al\s+/i] *)
Definition DAL : regex := seqs [ Bol; lit "Dal"; plus space ].
Definition AL : regex := seqs [ plus space; lit "al"; plus space ].

(** [mt[n]] where a capture that did not take part is [undefined]. *)
Definition cap (n : nat) (mt : rmatch) : option (list N) := orNull (group n mt).

(** [a || b] on captures. *)
Definition orCap (a b : option (list N)) : option (list N) :=
  match a with Some _ => a | None => b end.

(** A capture inside a template literal. *)
Definition showCap (o : option (list N)) : list N :=
  match o with Some s => s | None => str "undefined" end.

Definition sameCap (a b : option (list N)) : bool := bool_decide (a = b).

(** [parseViviromagnaPeriod], run at clock reading [now]. *)
Definition parseViviromagnaPeriod (h : Host) (now : Z) (periodText : list N)
    : outcome parsedDates :=
  match periodText with
  | [] => Ok {| pStartDate := None; pEndDate := None |}
  | _ :: _ =>
    let cleanText :=
      trim (replaceOnce true AL (str " - ") (replaceOnce true DAL [] periodText)) in
    let matches := matchAll true periodPattern cleanText in
    let currentYear := Some (showZ (getFullYear h now)) in
    let sp := str " " in
    match matches with
    | [] => Ok {| pStartDate := None; pEndDate := None |}
    | [ mt ] =>
      let day := cap 1 mt in
      let month := cap 2 mt in
      let year := orCap (cap 3 mt) currentYear in
      let date := parseItalianDate h (showCap day ++ sp ++ showCap month ++ sp ++ showCap year) in
      assign date date
    | firstMatch :: _ =>
      let lastMatch := match last matches with Some x => x | None => firstMatch end in
      let startDay := cap 1 firstMatch in
      let startMonth := cap 2 firstMatch in
      let startYear := orCap (cap 3 firstMatch) currentYear in
      let endDay0 := orCap (cap 4 lastMatch) (cap 1 lastMatch) in
      let endMonth0 := orCap (cap 5 lastMatch) (cap 2 lastMatch) in
      let endYear0 := orCap (cap 6 lastMatch) (orCap (cap 3 lastMatch) currentYear) in
      let '(endDay, endMonth, endYear) :=
        if sameCap endMonth0 None || sameCap endMonth0 startMonth then
          match exec true rangePattern periodText with
          | Some rangeMatch =>
            (group 4 rangeMatch,
             orCap (cap 5 rangeMatch) (group 2 rangeMatch),
             orCap (cap 6 rangeMatch) (orCap (cap 3 rangeMatch) currentYear))
          | None => (endDay0, endMonth0, endYear0)
          end
        else (endDay0, endMonth0, endYear0) in
      assign
        (parseItalianDate h (showCap startDay ++ sp ++ showCap startMonth ++ sp ++ showCap startYear))
        (parseItalianDate h (showCap endDay ++ sp ++ showCap endMonth ++ sp ++ showCap endYear))
    end
  end.

(** [/Periodo\s+(.+?)(?:Orario|$)/i] and [/Periodo\s*/i] *)
Definition PERIODO : regex :=
  seqs [ lit "Periodo"; plus space; Group 1 (Repeat 1 None false dot);
         Alt (lit "Orario") Eol ].
Definition PERIODO_LABEL : regex := seqs [ lit "Periodo"; star space ].

(** The [each] loop over [div.titolo1]: the period text of the first
    element that mentions "periodo". *)
Fixpoint findPeriod (els : list Element) : list N :=
  match els with
  | [] => []
  | el :: els' =>
    let text_ := trim (elText el) in
    if includes (toLowerCase text_) (str "periodo") then
      match exec true PERIODO text_ with
      | Some periodMatch => trim (groupText 1 periodMatch)
      | None => trim (replaceOnce true PERIODO_LABEL [] text_)
      end
    else findPeriod els'
  end.

(** The [viviromagna-detail] handler.  The record's [source] is read
    from [WEBSITE_CONFIG.VIVIROMAGNA.SOURCE] when the record is first
    built, after the title check; a source that is [undefined] is written
    as the empty text.  [extractContacts] and [extractSocialMedia] are
    spread onto the record with [Object.assign], which sets properties
    outside the record's fields; [contacts] and [socialMedia] themselves
    stay unset. *)
Definition viviromagnaDetail (env : Env) (loadedUrl : list N) (q : Cheerio) : M unit :=
  let titleElement := firstOf (q "h1.titoloevento.titolopagina"%string) in
  let title_ := match titleElement with _ :: _ => trim (textOf titleElement) | [] => [] end in
  if negb (nonEmpty title_) then ret tt
  else
    let scrapedAt_ := toISOString (now env) in
    let* source_ := lift (configSource "VIVIROMAGNA") in
    let dateText := findPeriod (q "div.titolo1"%string) in
    let* parsed :=
      lift (if nonEmpty dateText
            then parseViviromagnaPeriod (host env) (now env) dateText
            else Ok Assosagre.noDates) in
    let dates_ := if nonEmpty dateText then Some [dateText] else None in
    let festivalData0 :=
      Assosagre.early loadedUrl title_ scrapedAt_ (orEmpty source_) dates_ parsed in
    let* past := callIsFestivalPast env festivalData0 in
    if past then ret tt
    else
      let mappaInfoDiv := firstOf (q "div.mappa_info_dett"%string) in
      let location_ := trim (textOf mappaInfoDiv) in
      let coords :=
        match orNull (attrOf mappaInfoDiv "data-info-mappa-lat"),
              orNull (attrOf mappaInfoDiv "data-info-mappa-lon") with
        | Some latStr, Some lonStr => Some (parseFloat env latStr, parseFloat env lonStr)
        | _, _ => None
        end in
      let structuredData_ :=
        match coords with
        | Some (lat, lng) => Some (Assosagre.geoEvent title_ parsed location_ lat lng)
        | None => None
        end in
      let province_ :=
        match exec false PROVINCE_CODE location_ with
        | Some provinceMatch => groupText 1 provinceMatch
        | None => []
        end in
      let descrizioneDiv := firstOf (q "div.descrizione"%string) in
      let paragraphs_ :=
        match descrizioneDiv with
        | _ :: _ => [ trim (textOf descrizioneDiv) ]
        | [] => extractParagraphs q
                  [ "article p"; ".content p"; ".description p"; "main p"; "p" ]%string 100
        end in
      let description_ :=
        match descrizioneDiv with
        | _ :: _ => trim (textOf descrizioneDiv)
        | [] => join [10; 10]%N paragraphs_
        end in
      let md := extractMetadata q in
      let* images_ :=
        lift (extractImages env q [ "logo"; "icon"; "favicon" ]%string (Some loadedUrl)) in
      let festivalData :=
        {| url := loadedUrl; title := Some title_; scrapedAt := scrapedAt_;
           source := orEmpty source_; structuredData := structuredData_;
           name := None; startDate := pStartDate parsed; endDate := pEndDate parsed;
           location := VStr location_; description := Some description_;
           metaDescription := Some (mMetaDescription md); ogImage := Some (mOgImage md);
           ogTitle := Some (mOgTitle md); dates := dates_;
           province := Some province_; images := Some images_;
           paragraphs := Some paragraphs_; fullText := Some (extractFullText q);
           contacts := None; socialMedia := None;
           categories := Some (extractCategories q COMMON_CATEGORY_SELECTORS);
           schedule := Some (extractSchedule q
                               [ ".orari"; ".schedule"; "[class*='orari']";
                                 "[class*='schedule']" ]%string);
           prices := Some (extractPrices q [ ".prezzo"; ".price" ]%string) |} in
      let* dup := callIsDuplicate env festivalData in
      if dup then ret tt
      else validateAndSave env festivalData.

End Viviromagna.

(** ** Structured data in a JSON-LD island *)

Module JsonLd.
Import JS JSValue Model Crawler.

(** A field declared [z.string().optional()]: absent or a string. *)
Definition optionalString (v : jsval) (k : string) : option (option (list N)) :=
  match v with
  | VObj fs =>
    match lookupField (str k) fs with
    | None | Some VUndefined => Some None
    | Some (VStr s) => Some (Some s)
    | Some _ => None
    end
  | _ => None
  end.

(** [StructuredDataSchema.safeParse(v)]: the parsed data on success. *)
Definition parseStructuredData (v : jsval) : option StructuredData :=
  match optionalString v "@type", optionalString v "name",
        optionalString v "startDate", optionalString v "endDate",
        optionalString v "description" with
  | Some t, Some n, Some s, Some e, Some d =>
    Some {| sdType := t; sdName := n; sdStartDate := s; sdEndDate := e;
            sdLocation := getProp v "location"; sdDescription := d |}
  | _, _, _, _, _ => None
  end.

Definition isEvent (data : StructuredData) : bool :=
  bool_decide (sdType data = Some (str "Event"))
  || bool_decide (sdType data = Some (str "FoodEvent")).

(** The [each] loop over the JSON-LD scripts: the last island that
    validates as an Event or FoodEvent; [JSON.parse] may throw. *)
Fixpoint scanScripts (env : Env) (scripts : list Element)
    (structuredData : option StructuredData) : outcome (option StructuredData) :=
  match scripts with
  | [] => Ok structuredData
  | script :: scripts' =>
    match orNull (elHtml script) with
    | None => scanScripts env scripts' structuredData
    | Some jsonContent =>
      match jsonParse env jsonContent with
      | Thrown => Thrown
      | Ok v =>
        match parseStructuredData v with
        | None => scanScripts env scripts' structuredData
        | Some data =>
          if isEvent data then scanScripts env scripts' (Some data)
          else scanScripts env scripts' structuredData
        end
      end
    end
  end.

End JsonLd.

(** ** websites/romagna-emilia/routes.ts *)

Module RomagnaEmilia.
Import JS JSValue JSDate RegExp Model Helpers Constants Crawler JsonLd.

Definition getSourceFromUrl (url_ : list N) : list N :=
  if includes url_ (str "romagna") then str "sagreinromagna.it"
  else str "sagreinemilia.it".

Definition fromStructured {A} (sd : option StructuredData)
    (f : StructuredData -> option A) : option A :=
  match sd with Some d => f d | None => None end.

(** The [romagna-emilia-festival-detail] handler. *)
Definition romagnaEmiliaDetail (env : Env) (loadedUrl : list N) (q : Cheerio) : M unit :=
  let title_ := extractTitle q None in
  let* structuredData_ :=
    lift (scanScripts env (q "script[type='application/ld+json']"%string) None) in
  let md := extractMetadata q in
  let recapiti := trim (textOf (q "#recapiti span:has(.fa-map-marker)"%string)) in
  let location_ :=
    if nonEmpty recapiti then VStr recapiti
    else match structuredData_ with
         | Some d => sdLocation d
         | None => VUndefined
         end in
  let* images_ :=
    lift (extractImages env q COMMON_IMAGE_EXCLUDE_PATTERNS (Some loadedUrl)) in
  let festivalData :=
    {| url := loadedUrl; title := Some title_; scrapedAt := toISOString (now env);
       source := getSourceFromUrl loadedUrl; structuredData := structuredData_;
       name := fromStructured structuredData_ sdName;
       startDate := fromStructured structuredData_ sdStartDate;
       endDate := fromStructured structuredData_ sdEndDate;
       location := location_;
       description := fromStructured structuredData_ sdDescription;
       metaDescription := Some (mMetaDescription md); ogImage := Some (mOgImage md);
       ogTitle := Some (mOgTitle md);
       dates := Some (extractDates q COMMON_DATE_SELECTORS);
       province := Some (extractProvince q COMMON_PROVINCE_SELECTORS);
       images := Some images_;
       paragraphs := Some (extractParagraphs q COMMON_PARAGRAPH_SELECTORS 20);
       fullText := Some (extractFullText q);
       contacts := Some (extractContacts q EXCLUDED_ROMAGNA_EMILIA);
       socialMedia := Some (extractSocialMedia q);
       categories := Some (extractCategories q COMMON_CATEGORY_SELECTORS);
       schedule := Some (extractSchedule q COMMON_SCHEDULE_SELECTORS);
       prices := Some (extractPrices q COMMON_PRICE_SELECTORS) |} in
  let* past := callIsFestivalPast env festivalData in
  if past then ret tt
  else
    let* dup := callIsDuplicate env festivalData in
    if dup then ret tt
    else validateAndSave env festivalData.

End RomagnaEmilia.

(** ** routes.ts: the earlier single-router handler *)

Module Routes.
Import JS JSValue JSDate RegExp Model Helpers Constants Crawler JsonLd.

(** [$("img").map(...)]: an image with a source that mentions neither
    "logo" nor "icon". *)
Definition plainImages (q : Cheerio) : list Image :=
  omap (fun el =>
          match orNull (elAttr el "src") with
          | Some s =>
            if negb (includes s (str "logo")) && negb (includes s (str "icon"))
            then Some {| src := s; alt := orEmpty (orNull (elAttr el "alt")) |}
            else None
          | None => None
          end) (q "img"%string).

(** The record the [festival-detail] handler of routes.ts builds. *)
Definition buildFestivalData (env : Env) (loadedUrl : list N) (q : Cheerio)
    (structuredData_ : option StructuredData) : FestivalData :=
  let title_ :=
    orStr (trim (textOf (firstOf (q "h1"%string))))
          (trim (match splitUnit 124 (textOf (q "title"%string)) with
                 | w :: _ => w
                 | [] => []
                 end)) in
  {| url := loadedUrl; title := Some title_; scrapedAt := toISOString (now env);
     source := if includes loadedUrl (str "romagna") then str "sagreinromagna.it"
               else str "sagreinemilia.it";
     structuredData := structuredData_;
     name := RomagnaEmilia.fromStructured structuredData_ sdName;
     startDate := RomagnaEmilia.fromStructured structuredData_ sdStartDate;
     endDate := RomagnaEmilia.fromStructured structuredData_ sdEndDate;
     location :=
       VArr (map VStr (filter (fun t => nonEmpty t)
               (map (fun e => trim (elText e))
                    (q ".map-marker, .fa-map-marker :parent()"%string))));
     description := RomagnaEmilia.fromStructured structuredData_ sdDescription;
     metaDescription :=
       Some (orEmpty (orNull (attrOf (q "meta[name='description']"%string) "content")));
     ogImage :=
       Some (orEmpty (orNull (attrOf (q "meta[property='og:image']"%string) "content")));
     ogTitle :=
       Some (orEmpty (orNull (attrOf (q "meta[property='og:title']"%string) "content")));
     dates := Some (trimmedTexts q COMMON_DATE_SELECTORS);
     province := Some (trim (textOf (firstOf (q (selectorList COMMON_PROVINCE_SELECTORS)))));
     images := Some (plainImages q);
     paragraphs := Some (extractParagraphs q COMMON_PARAGRAPH_SELECTORS 20);
     fullText := Some (extractFullText q);
     contacts :=
       Some {| phones := hrefsWithout q "a[href^='tel:']" "tel:";
               emails := hrefsWithout q "a[href^='mailto:']" "mailto:";
               websites :=
                 filter (fun hr => nonEmpty hr
                                   && negb (includes hr (str "sagreinromagna.it"))
                                   && negb (includes hr (str "sagreinemilia.it")))
                        (hrefs q "a[href^='http']") |};
     socialMedia := Some (extractSocialMedia q);
     categories := Some (trimmedTexts q COMMON_CATEGORY_SELECTORS);
     schedule := Some (trimmedTexts q COMMON_SCHEDULE_SELECTORS);
     prices := Some (trimmedTexts q COMMON_PRICE_SELECTORS) |}.

(** The [festival-detail] handler of routes.ts: the record goes from
    extraction straight to validation. *)
Definition festivalDetail (env : Env) (loadedUrl : list N) (q : Cheerio) : M unit :=
  let* structuredData_ :=
    lift (scanScripts env (q "script[type='application/ld+json']"%string) None) in
  validateAndSave env (buildFestivalData env loadedUrl q structuredData_).

End Routes.

(** ** strapi.ts *)

Module Strapi.
Import JS JSValue JSDate RegExp Model Helpers Crawler.

(** [StrapiPosition]; the coordinates are passed on as found. *)
Record StrapiPosition : Type := { lat : jsval; lng : jsval }.

(** [extractCoordinates]: [None] is [null]. *)
Definition extractCoordinates (festivalData : FestivalData) : option StrapiPosition :=
  let loc := location festivalData in
  if truthy loc && typeofObject loc then
    let geo := getProp loc "geo" in
    if truthy (getPropOpt geo "latitude") && truthy (getPropOpt geo "longitude")
    then Some {| lat := getProp geo "latitude"; lng := getProp geo "longitude" |}
    else None
  else None.

(** [/[\u0300-\u036f]/g], [/[^a-z0-9]+/g] and [/^-+|-+$/g] *)
Definition DIACRITICS : regex := Class false [(768, 879)].
Definition NON_ALNUM : regex := plus (Class true [(97, 122); (48, 57)]).
Definition EDGE_HYPHENS : regex :=
  Alt (Seq Bol (plus (Char 45))) (Seq (plus (Char 45)) Eol).

(** [generateSlug] *)
Definition generateSlug (title_ : list N) : list N :=
  replaceAll false EDGE_HYPHENS []
    (replaceAll false NON_ALNUM (str "-")
       (replaceAll false DIACRITICS []
          (normalizeNFD (toLowerCase title_)))).

(** [parseDate]: the UTC calendar day of a date string that parses. *)
Definition parseDate (h : Host) (dateString : option (list N)) : option (list N) :=
  match validTime h dateString with
  | Some t => Some (isoDay t)
  | None => None
  end.

(** [/\n\n+/], the separator of [createRichTextDescription]. *)
Definition BLANK_LINES : regex := Seq (Char 10) (plus (Char 10)).

(** [createRichTextDescription]: the text of each paragraph block. *)
Definition createRichTextDescription (festivalData : FestivalData) : list (list N) :=
  let firstParagraph :=
    match paragraphs festivalData with
    | Some (p :: _) => p
    | _ => []
    end in
  let textContent0 :=
    orStr (orEmpty (description festivalData))
      (orStr (orEmpty (metaDescription festivalData))
         (orStr firstParagraph (str "Nessuna descrizione disponibile"))) in
  let textContent :=
    match paragraphs festivalData with
    | Some (p :: ps) => join [10; 10] (p :: ps)
    | _ => textContent0
    end in
  map trim (filter (fun p => nonEmpty (trim p)) (split false BLANK_LINES textContent)).

Record StrapiPayload : Type := {
  payloadTitle : list N;
  payloadStartDate : option (list N);
  payloadEndDate : option (list N);
  payloadDescription : list (list N);
  payloadSlug : list N;
  payloadPosition : StrapiPosition
}.

(** [geocodeLocation] applied to the record's [location]: [geoapify] is
    the remote lookup; a value without a [trim] method makes the call
    throw. *)
Definition geocodeLocation (geoapify : list N -> option StrapiPosition)
    (locationString : jsval) : outcome (option StrapiPosition) :=
  match locationString with
  | VUndefined | VNull => Ok None
  | VStr s => if nonEmpty (trim s) then Ok (geoapify s) else Ok None
  | _ => Thrown
  end.

(** [transformToStrapiFormat]: [None] is [null]; the [catch] turns a
    throw into [null]. *)
Definition transformToStrapiFormat (h : Host)
    (geoapify : list N -> option StrapiPosition) (festivalData : FestivalData)
    : option StrapiPayload :=
  let position :=
    match extractCoordinates festivalData with
    | Some p => Ok (Some p)
    | None => geocodeLocation geoapify (location festivalData)
    end in
  match position with
  | Ok (Some p) =>
    Some {| payloadTitle := orEmpty (title festivalData);
            payloadStartDate := parseDate h (startDate festivalData);
            payloadEndDate := parseDate h (endDate festivalData);
            payloadDescription := createRichTextDescription festivalData;
            payloadSlug := generateSlug (orEmpty (title festivalData));
            payloadPosition := p |}
  | _ => None
  end.

End Strapi.

(** ** cleanup.ts *)

Module Cleanup.
Import JS JSValue JSDate.
Local Open Scope Z_scope.

(** [StrapiFestival]: the fields the script reads; an absent or null
    date is [None]. *)
Record StrapiFestival : Type := {
  id : Z;
  documentId : list N;
  title : list N;
  startDate : option (list N);
  endDate : option (list N)
}.

(** What the list endpoint answers for a page: the festivals of the page
    and [meta.pagination.pageCount], or a failure (no response, a status
    that is not ok, a body that is not JSON), which the loop logs and
    throws on. *)
Definition Server : Type := nat -> outcome (list StrapiFestival * Z).

(** The [while (hasMore)] loop of [fetchAllFestivals], [fuel] rounds of
    it: [None] when the rounds are used up before the loop ends. *)
Fixpoint fetchLoop (fuel : nat) (server : Server) (page : nat)
    (allFestivals : list StrapiFestival) : option (outcome (list StrapiFestival)) :=
  match fuel with
  | O => None
  | S fuel' =>
    match server page with
    | Thrown => Some Thrown
    | Ok (data, pageCount) =>
      if Z.of_nat page <? pageCount
      then fetchLoop fuel' server (S page) (allFestivals ++ data)
      else Some (Ok (allFestivals ++ data))
    end
  end.

(** [fetchAllFestivals] *)
Definition fetchAllFestivals (fuel : nat) (server : Server)
    : option (outcome (list StrapiFestival)) :=
  fetchLoop fuel server 1 [].

(** [a < b] on a Date built from a string and a time value: false when
    the string does not parse. *)
Definition dateBefore (h : Host) (s : list N) (b : Z) : bool :=
  match newDateStr h s with
  | Some t => t <? b
  | None => false
  end.

(** [isPastFestival], called at clock reading [now]. *)
Definition isPastFestival (h : Host) (now : Z) (festival : StrapiFestival) : bool :=
  match endDate festival with
  | Some (c :: s) => dateBefore h (c :: s) (startOfDay h now)
  | _ =>
    match startDate festival with
    | Some (c :: s) => dateBefore h (c :: s) now
    | _ => false
    end
  end.

Inductive status : Type := StDeleted | StFailed | StSkipped.

(** An entry of [CleanupResult.festivals]. *)
Record festivalInfo : Type := {
  infoId : Z;
  infoDocumentId : list N;
  infoTitle : list N;
  infoEndDate : option (list N);
  infoStatus : status
}.

Record CleanupResult : Type := {
  total : nat;
  deleted : nat;
  failed : nat;
  festivals : list festivalInfo
}.

(** The remote side: [deleteFestival] answers true or false for a
    document id, given the ids it was asked to delete before; the list of
    those ids is the state the loop threads. *)
Definition Remote : Type := list (list N) -> list N -> bool.

(** The [for] loop over the past festivals. *)
Fixpoint deleteLoop (dryRun : bool) (remote : Remote) (pastFestivals : list StrapiFestival)
    (asked : list (list N)) (result : CleanupResult) : CleanupResult * list (list N) :=
  match pastFestivals with
  | [] => (result, asked)
  | festival :: rest =>
    let info (st : status) :=
      {| infoId := id festival; infoDocumentId := documentId festival;
         infoTitle := title festival; infoEndDate := endDate festival;
         infoStatus := st |} in
    if dryRun then
      deleteLoop dryRun remote rest asked
        {| total := total result; deleted := deleted result; failed := failed result;
           festivals := festivals result ++ [ info StSkipped ] |}
    else if remote asked (documentId festival) then
      deleteLoop dryRun remote rest (asked ++ [ documentId festival ])
        {| total := total result; deleted := S (deleted result); failed := failed result;
           festivals := festivals result ++ [ info StDeleted ] |}
    else
      deleteLoop dryRun remote rest (asked ++ [ documentId festival ])
        {| total := total result; deleted := deleted result; failed := S (failed result);
           festivals := festivals result ++ [ info StFailed ] |}
  end.

(** [cleanupPastFestivals]: [fetched] is what [fetchAllFestivals]
    returned or its throw, which is thrown on; the second component is
    the list of ids [deleteFestival] was called on. *)
Definition cleanupPastFestivals (h : Host) (now : Z) (dryRun : bool) (remote : Remote)
    (fetched : outcome (list StrapiFestival)) : outcome CleanupResult * list (list N) :=
  match fetched with
  | Thrown => (Thrown, [])
  | Ok allFestivals =>
    let pastFestivals := filter (fun f => isPastFestival h now f) allFestivals in
    let result := {| total := length pastFestivals; deleted := 0; failed := 0;
                     festivals := [] |} in
    let r := deleteLoop dryRun remote pastFestivals [] result in
    (Ok (fst r), snd r)
  end.

End Cleanup.

(** * Definitions used by the statements *)

Import JS JSValue JSDate RegExp Model Helpers Constants Crawler DateFields.
Local Open Scope Z_scope.

(** Two hosts: one on UTC, one an hour east of it (Central European
    Time). *)
Definition utcHost : Host :=
  {| tzOffset := 0; dateParseOther := fun _ => None;
     numberToString := fun _ => str "NaN" |}.

Definition cetHost : Host :=
  {| tzOffset := 3600000; dateParseOther := fun _ => None;
     numberToString := fun _ => str "NaN" |}.

(** A record with every optional field unset. *)
Definition blank : FestivalData :=
  {| url := []; title := None; scrapedAt := []; source := [];
     structuredData := None; name := None; startDate := None; endDate := None;
     location := VUndefined; description := None; metaDescription := None;
     ogImage := None; ogTitle := None; dates := None; province := None;
     images := None; paragraphs := None; fullText := None; contacts := None;
     socialMedia := None; categories := None; schedule := None; prices := None |}.

Definition withDates (ds : list (list N)) (fd : FestivalData) : FestivalData :=
  {| url := url fd; title := title fd; scrapedAt := scrapedAt fd; source := source fd;
     structuredData := structuredData fd; name := name fd;
     startDate := startDate fd; endDate := endDate fd; location := location fd;
     description := description fd; metaDescription := metaDescription fd;
     ogImage := ogImage fd; ogTitle := ogTitle fd; dates := Some ds;
     province := province fd; images := images fd; paragraphs := paragraphs fd;
     fullText := fullText fd; contacts := contacts fd; socialMedia := socialMedia fd;
     categories := categories fd; schedule := schedule fd; prices := prices fd |}.

Definition withEndDate (s : list N) (fd : FestivalData) : FestivalData :=
  {| url := url fd; title := title fd; scrapedAt := scrapedAt fd; source := source fd;
     structuredData := structuredData fd; name := name fd;
     startDate := startDate fd; endDate := Some s; location := location fd;
     description := description fd; metaDescription := metaDescription fd;
     ogImage := ogImage fd; ogTitle := ogTitle fd; dates := dates fd;
     province := province fd; images := images fd; paragraphs := paragraphs fd;
     fullText := fullText fd; contacts := contacts fd; socialMedia := socialMedia fd;
     categories := categories fd; schedule := schedule fd; prices := prices fd |}.

Definition withTitle (s : list N) (fd : FestivalData) : FestivalData :=
  {| url := url fd; title := Some s; scrapedAt := scrapedAt fd; source := source fd;
     structuredData := structuredData fd; name := name fd;
     startDate := startDate fd; endDate := endDate fd; location := location fd;
     description := description fd; metaDescription := metaDescription fd;
     ogImage := ogImage fd; ogTitle := ogTitle fd; dates := dates fd;
     province := province fd; images := images fd; paragraphs := paragraphs fd;
     fullText := fullText fd; contacts := contacts fd; socialMedia := socialMedia fd;
     categories := categories fd; schedule := schedule fd; prices := prices fd |}.

Definition withLocation (v : jsval) (fd : FestivalData) : FestivalData :=
  {| url := url fd; title := title fd; scrapedAt := scrapedAt fd; source := source fd;
     structuredData := structuredData fd; name := name fd;
     startDate := startDate fd; endDate := endDate fd; location := v;
     description := description fd; metaDescription := metaDescription fd;
     ogImage := ogImage fd; ogTitle := ogTitle fd; dates := dates fd;
     province := province fd; images := images fd; paragraphs := paragraphs fd;
     fullText := fullText fd; contacts := contacts fd; socialMedia := socialMedia fd;
     categories := categories fd; schedule := schedule fd; prices := prices fd |}.

(** 10:00 UTC on 7 November 2025. *)
Definition nov7 : Z := 1762509600000.

(** The local calendar day a time value falls on. *)
Definition localDay (h : Host) (t : Z) : Z := (t + tzOffset h) / msPerDay.

(** The operations the module exports on the seen-set. *)
Inductive cacheOp : Type :=
| OpIsDuplicate (fd : FestivalData)
| OpClearDuplicateCache.

Definition isClear (o : cacheOp) : bool :=
  match o with OpClearDuplicateCache => true | OpIsDuplicate _ => false end.

Definition stepCache (h : Host) (seen : gset (list N)) (o : cacheOp) : gset (list N) :=
  match o with
  | OpIsDuplicate fd => snd (isDuplicate h fd seen)
  | OpClearDuplicateCache => clearDuplicateCache seen
  end.

(** The seen-set after a sequence of operations. *)
Definition runCache (h : Host) (ops : list cacheOp) (seen : gset (list N)) : gset (list N) :=
  fold_left (stepCache h) ops seen.

(** What a run of a handler added to the log of calls. *)
Definition added (w w' : world) : list call := drop (length (calls w)) (calls w').

(** A handler emits only checked records: whenever its run calls
    [pushData] on a record, the calls of that run are, in this order, the
    temporal check answering false, the duplicate check on that record
    answering false, the validation of that record succeeding, and the
    one [pushData]; the emitted record itself is not past, its key was
    not in the seen-set, and it validates. *)
Definition emitsOnlyChecked (env : Env) (handler : M unit) : Prop :=
  forall (w : world) (fd : FestivalData),
    In (CallPushData fd) (added w (snd (handler w))) ->
    exists fd0 tail,
      added w (snd (handler w))
      = [ CallIsFestivalPast fd0 false; CallIsDuplicate fd false;
          CallSafeParse fd true; CallPushData fd ] ++ tail
      /\ (tail = [] \/ tail = [ CallUpload fd ])
      /\ isFestivalPast (host env) (now env) fd = false
      /\ (generateFestivalKey (host env) fd ∉ seenFestivals w)
      /\ safeParse env fd = true.

Definition logged (w : world) (l : list call) : world :=
  {| seenFestivals := seenFestivals w; calls := calls w ++ l |}.

Definition remembered (h : Host) (fd : FestivalData) (w : world) (l : list call) : world :=
  {| seenFestivals := {[ generateFestivalKey h fd ]} ∪ seenFestivals w;
     calls := calls w ++ l |}.

(** The temporal filter reads these three fields only. *)
Definition sameDates (a b : FestivalData) : Prop :=
  endDate a = endDate b /\ startDate a = startDate b /\ dates a = dates b.

(** The runs a guarded handler can make from the world [w]: it stops
    before the temporal check; the record is past; it throws during the
    extraction that follows the temporal check; the record is a duplicate;
    the record fails validation, which throws; the record is emitted. *)
Inductive pipelineRun (env : Env) (w : world) : outcome unit * world -> Prop :=
| RunStopped (o : outcome unit) :
    pipelineRun env w (o, w)
| RunPast (fd0 : FestivalData) :
    isFestivalPast (host env) (now env) fd0 = true ->
    pipelineRun env w (Ok tt, logged w [ CallIsFestivalPast fd0 true ])
| RunBroken (fd0 : FestivalData) (o : outcome unit) :
    isFestivalPast (host env) (now env) fd0 = false ->
    pipelineRun env w (o, logged w [ CallIsFestivalPast fd0 false ])
| RunDuplicate (fd0 fd : FestivalData) :
    isFestivalPast (host env) (now env) fd0 = false -> sameDates fd0 fd ->
    generateFestivalKey (host env) fd ∈ seenFestivals w ->
    pipelineRun env w
      (Ok tt, logged w [ CallIsFestivalPast fd0 false; CallIsDuplicate fd true ])
| RunInvalid (fd0 fd : FestivalData) :
    isFestivalPast (host env) (now env) fd0 = false -> sameDates fd0 fd ->
    generateFestivalKey (host env) fd ∉ seenFestivals w ->
    safeParse env fd = false ->
    pipelineRun env w
      (Thrown, remembered (host env) fd w
                 [ CallIsFestivalPast fd0 false; CallIsDuplicate fd false;
                   CallSafeParse fd false ])
| RunEmitted (fd0 fd : FestivalData) (tail : list call) :
    isFestivalPast (host env) (now env) fd0 = false -> sameDates fd0 fd ->
    generateFestivalKey (host env) fd ∉ seenFestivals w ->
    safeParse env fd = true ->
    tail = [] \/ tail = [ CallUpload fd ] ->
    pipelineRun env w
      (Ok tt, remembered (host env) fd w
                ([ CallIsFestivalPast fd0 false; CallIsDuplicate fd false;
                   CallSafeParse fd true; CallPushData fd ] ++ tail)).

(** The part of a handler from the duplicate check on. *)
Definition checkAndSave (env : Env) (fd : FestivalData) : M unit :=
  bind (callIsDuplicate env fd)
       (fun dup => if dup then ret tt else validateAndSave env fd).

(** *** Concrete pages and surroundings for the examples *)

Definition element (t : string) : Element :=
  {| elText := str t; elHtml := Some (str t); elAttr := fun _ => None |}.

(** A document given by the selections of the queries that find
    something. *)
Definition page (entries : list (string * list Element)) : Cheerio :=
  fun sel =>
    match List.find (fun e => String.eqb (fst e) sel) entries with
    | Some e => snd e
    | None => []
    end.

(** The JSON-LD island of a festival that ended on 9 November 2020. *)
Definition tortelloJsonLd : jsval :=
  VObj [ (str "@type", VStr (str "FoodEvent"));
         (str "name", VStr (str "Sagra del Tortello"));
         (str "startDate", VStr (str "2020-11-07"));
         (str "endDate", VStr (str "2020-11-09")) ].

Definition tortelloPage : Cheerio :=
  page [ ("h1", [ element "Sagra del Tortello" ]);
         ("script[type='application/ld+json']", [ element "{...}" ]) ]%string.

Definition tortelloUrl : list N := str "https://www.sagreinromagna.it/sagre/tortello".

(** Surroundings on 7 November 2025, on UTC: [JSON.parse] reads the
    island above, the validator is the schema of schemas.ts with the
    library's URL check replaced by a test for an [http] prefix, and the
    upload is off. *)
Definition exampleEnv : Env :=
  {| host := utcHost; now := nov7;
     jsonParse := fun _ => Ok tortelloJsonLd;
     resolveUrl := fun s _ => Ok s;
     parseFloat := fun _ => NaN;
     safeParse := festivalDataSchema (startsWith (str "http")) (fun _ => true);
     uploadEnabled := false |}.

Definition freshWorld : world := {| seenFestivals := ∅; calls := [] |}.

(** The record routes.ts builds from that page. *)
Definition tortelloRecord : FestivalData :=
  Routes.buildFestivalData exampleEnv tortelloUrl tortelloPage
    (JsonLd.parseStructuredData tortelloJsonLd).

(** A calendar page of assosagre.it for a festival on 7 to 15 November
    2025, fetched from an address that is not a URL, so that validation
    fails. *)
Definition novembrePage : Cheerio :=
  page [ (".nomesagra", [ element "Sagra della Castagna" ]);
         (".sagradate", [ element "7-8-14-15 Novembre 2025" ]) ]%string.

Definition badUrl : list N := str "calendario_sagre.php?id_sagra=12".
Definition goodUrl : list N :=
  str "https://www.assosagre.it/calendario_sagre.php?id_sagra=12".

(** The record the assosagre handler hands to the duplicate check for
    that page. *)
Definition castagnaRecord : FestivalData :=
  Eval vm_compute in
    match calls (snd (Assosagre.assosagreDetail exampleEnv badUrl novembrePage freshWorld)) with
    | _ :: CallIsDuplicate fd _ :: _ => fd
    | _ => blank
    end.

(** The same for the page fetched from its proper address. *)
Definition castagnaGood : FestivalData :=
  Eval vm_compute in
    match calls (snd (Assosagre.assosagreDetail exampleEnv goodUrl novembrePage freshWorld)) with
    | _ :: CallIsDuplicate fd _ :: _ => fd
    | _ => blank
    end.

(** A property value that is there: neither [undefined] nor [null]. *)
Definition present (v : jsval) : Prop := v <> VUndefined /\ v <> VNull.

(** A structured place with coordinates, as JSON-LD gives it. *)
Definition place (latitude longitude : jsval) : jsval :=
  VObj [ (str "@type", VStr (str "Place")); (str "name", VStr (str "Imola"));
         (str "geo", VObj [ (str "latitude", latitude); (str "longitude", longitude) ]) ].

(** 44.5 = 89 * 2^-1 and 11.75 = 47 * 2^-2. *)
Definition imola : jsval := place (VNum (Finite 89 (-1))) (VNum (Finite 47 (-2))).
Definition onEquator : jsval := place (VNum (Finite 0 0)) (VNum (Finite 47 (-2))).

(** *** The texts a pattern can match *)

(** [lang ic r w]: the text [w] has the shape the pattern [r] asks for;
    assertions ask for nothing, and a quantifier asks for at least its
    minimum of iterations unless it stopped at its maximum. *)
Fixpoint lang (ic : bool) (r : regex) (w : list N) : Prop :=
  match r with
  | Empty | Bol | Eol | WordBoundary => w = []
  | Char a => exists c, w = [c] /\ charEq ic a c = true
  | Class neg rs => exists c, w = [c] /\ classHas ic neg rs c = true
  | Seq r1 r2 => exists w1 w2, w = w1 ++ w2 /\ lang ic r1 w1 /\ lang ic r2 w2
  | Alt r1 r2 => lang ic r1 w \/ lang ic r2 w
  | Group _ r1 => lang ic r1 w
  | Repeat lo hi _ r1 =>
    exists ws, Forall (lang ic r1) ws /\ w = concat ws
               /\ ((lo <= length ws)%nat \/ hi = Some (length ws))
  end.

(** The number of decimal digits a text starts with, and whether a text
    holds four decimal digits in a row. *)
Fixpoint digitRun (s : list N) : nat :=
  match s with
  | c :: s' => if isDigit c then S (digitRun s') else O
  | [] => O
  end.

Fixpoint hasFourDigits (s : list N) : bool :=
  match s with
  | [] => false
  | _ :: s' => Nat.leb 4 (digitRun s) || hasFourDigits s'
  end.

(** *** Texts made of day, word and year triples *)

(** The matcher state after reading [run], with [tail] left to read. *)
Definition after (st : mstate) (run tail : list N) : mstate :=
  MState (match last run with Some c => Some c | None => prev st end)
         tail (pos st + length run) (caps st).

Definition isAsciiLetter (c : N) : bool := isLowerAscii c || isUpperAscii c.

(** A day of one or two digits, a word of ASCII letters, a year of four
    digits. *)
Record triple : Type := { tDay : list N; tWord : list N; tYear : list N }.

Definition wfTriple (t : triple) : Prop :=
  (length (tDay t) = 1 \/ length (tDay t) = 2)%nat
  /\ Forall (fun c => isDigit c = true) (tDay t)
  /\ tWord t <> []
  /\ Forall (fun c => isAsciiLetter c = true) (tWord t)
  /\ length (tYear t) = 4%nat
  /\ Forall (fun c => isDigit c = true) (tYear t).

(** The triple written out with single spaces, and a sequence of triples
    written out one after the other, a space between them. *)
Definition render (t : triple) : list N :=
  tDay t ++ [32%N] ++ tWord t ++ [32%N] ++ tYear t.

Definition renderAll (ts : list triple) : list N := join [32%N] (map render ts).

(** The date the normalizer builds from a triple. *)
Definition tripleDate (h : Host) (t : triple) : option jsdate :=
  match monthMap (toLowerCase (tWord t)) with
  | NoMonth => None
  | Inherited => Some InvalidDate
  | Month mo =>
    Some (match newDateYMD h (Z.of_N (digitsValue (tYear t) 0)) mo
                           (Z.of_N (digitsValue (tDay t) 0)) with
          | Some x => Time x
          | None => InvalidDate
          end)
  end.

Definition mkTriple (d w y : string) : triple :=
  {| tDay := str d; tWord := str w; tYear := str y |}.

Definition lettersRanges : list (N * N) := [(97, 122); (224, 249)]%N.
Definition digitRanges : list (N * N) := [(48, 57)]%N.


(** * Definitions used by the further properties *)

(** A triple whose word is already in lower case. *)
Definition lowTriple (t : triple) : Prop :=
  wfTriple t /\ Forall (fun c => isLowerAscii c = true) (tWord t).

Definition tripleCaps (t : triple) : list (nat * list N) :=
  [ (3%nat, tYear t); (2%nat, tWord t); (1%nat, tDay t) ].

(** The triple with its word in lower case. *)
Definition lowerT (t : triple) : triple :=
  {| tDay := tDay t; tWord := toLowerCase (tWord t); tYear := tYear t |}.

(** The operations after the last [clearDuplicateCache] of a sequence;
    [None] when the sequence has no clear. *)
Fixpoint afterLastClear (ops : list cacheOp) : option (list cacheOp) :=
  match ops with
  | [] => None
  | o :: ops' =>
    match afterLastClear ops' with
    | Some l => Some l
    | None => if isClear o then Some ops' else None
    end
  end.

(** The keys of the records a sequence of operations passed to
    [isDuplicate]. *)
Definition keysOf (h : Host) (ops : list cacheOp) : gset (list N) :=
  list_to_set (omap (fun o => match o with
                              | OpIsDuplicate fd => Some (generateFestivalKey h fd)
                              | OpClearDuplicateCache => None
                              end) ops).

Definition pushes (l : list call) : list FestivalData :=
  omap (fun c => match c with CallPushData fd => Some fd | _ => None end) l.

Definition isCheck (c : call) : bool :=
  match c with
  | CallIsFestivalPast _ _ | CallIsDuplicate _ _ => true
  | _ => false
  end.

Definition withStartDate (s : list N) (fd : FestivalData) : FestivalData :=
  {| url := url fd; title := title fd; scrapedAt := scrapedAt fd; source := source fd;
     structuredData := structuredData fd; name := name fd;
     startDate := Some s; endDate := endDate fd; location := location fd;
     description := description fd; metaDescription := metaDescription fd;
     ogImage := ogImage fd; ogTitle := ogTitle fd; dates := dates fd;
     province := province fd; images := images fd; paragraphs := paragraphs fd;
     fullText := fullText fd; contacts := contacts fd; socialMedia := socialMedia fd;
     categories := categories fd; schedule := schedule fd; prices := prices fd |}.

Definition withParagraphs (ps : list (list N)) (fd : FestivalData) : FestivalData :=
  {| url := url fd; title := title fd; scrapedAt := scrapedAt fd; source := source fd;
     structuredData := structuredData fd; name := name fd;
     startDate := startDate fd; endDate := endDate fd; location := location fd;
     description := description fd; metaDescription := metaDescription fd;
     ogImage := ogImage fd; ogTitle := ogTitle fd; dates := dates fd;
     province := province fd; images := images fd; paragraphs := Some ps;
     fullText := fullText fd; contacts := contacts fd; socialMedia := socialMedia fd;
     categories := categories fd; schedule := schedule fd; prices := prices fd |}.


(** *** Calendar days *)

(** A day of the month that exists: month 0 to 11, day 1 to the length
    of the month. *)
Definition validDay (y mo d : Z) : Prop :=
  (0 <= mo <= 11)%Z /\ (1 <= d <= daysInMonth y mo)%Z.

(** The text [YYYY-MM-DD] of a day. *)
Definition dayText (y mo d : Z) : list N :=
  pad 4 y ++ str "-" ++ pad 2 (mo + 1) ++ str "-" ++ pad 2 d.

(** The day before a day of the calendar. *)
Definition dayBefore (y mo d : Z) : Z * Z * Z :=
  if (2 <=? d)%Z then (y, mo, d - 1)%Z
  else if (1 <=? mo)%Z then (y, mo - 1, daysInMonth y (mo - 1))%Z
  else (y - 1, 11, 31)%Z.

Definition dayTextOf (ymd : Z * Z * Z) : list N :=
  dayText (fst (fst ymd)) (snd (fst ymd)) (snd ymd).

(** A host five hours west of UTC. *)
Definition estHost : Host :=
  {| tzOffset := -18000000; dateParseOther := fun _ => None;
     numberToString := fun _ => str "NaN" |}.

(** *** The crawler's record and the stored festival *)

(** The stored festival carries the record's two date fields. *)
Definition sameSchedule (fd : FestivalData) (sf : Cleanup.StrapiFestival) : Prop :=
  Cleanup.startDate sf = startDate fd /\ Cleanup.endDate sf = endDate fd.

(** A field that is not set: absent or the empty string. *)
Definition unset (field : option (list N)) : Prop := field = None \/ field = Some [].

Definition stored (fd : FestivalData) : Cleanup.StrapiFestival :=
  {| Cleanup.id := 1; Cleanup.documentId := str "doc1";
     Cleanup.title := match title fd with Some s => s | None => [] end;
     Cleanup.startDate := startDate fd; Cleanup.endDate := endDate fd |}.

Definition pastIds (h : Host) (now : Z) (l : list Cleanup.StrapiFestival) : list (list N) :=
  map Cleanup.documentId (filter (fun f => Cleanup.isPastFestival h now f) l).

(** *** Runs and separators *)

Definition alnumRanges : list (N * N) := [(97, 122); (48, 57)]%N.
Definition diacriticRanges : list (N * N) := [(768, 879)]%N.
Definition hyphenRanges : list (N * N) := [(45, 45)]%N.

Definition isAlnum (c : N) : bool := inRanges alnumRanges c.
Definition isHyphen (c : N) : bool := (c =? 45)%N.
Definition isInk (c : N) : bool := negb (isWhite c).

(** One pass over a text that writes its runs of units to keep, one
    separator between two runs, nothing before the first run and nothing
    after the last. *)
Inductive passState : Type := AtStart | InWord | InGap.

Fixpoint squeeze (keep : N -> bool) (sep : N) (q : passState) (s : list N) : list N :=
  match s with
  | [] => []
  | c :: s' =>
    if keep c then
      match q with
      | InGap => sep :: c :: squeeze keep sep InWord s'
      | _ => c :: squeeze keep sep InWord s'
      end
    else
      match q with
      | AtStart => squeeze keep sep AtStart s'
      | _ => squeeze keep sep InGap s'
      end
  end.

(** The pass that writes a slug, and the one that writes a text with
    single spaces. *)
Definition slugify : list N -> list N := squeeze isAlnum 45%N AtStart.
Definition singleSpaced : list N -> list N := squeeze isInk 32%N AtStart.

(** Every maximal run of units not to keep replaced by one separator;
    [inRun] says that the run being read has its separator already. *)
Fixpoint collapseFrom (keep : N -> bool) (sep : N) (inRun : bool) (s : list N) : list N :=
  match s with
  | [] => []
  | c :: s' =>
    if keep c then c :: collapseFrom keep sep false s'
    else if inRun then collapseFrom keep sep true s'
    else sep :: collapseFrom keep sep true s'
  end.

Fixpoint dropLeading (p : N -> bool) (s : list N) : list N :=
  match s with
  | c :: s' => if p c then dropLeading p s' else s
  | [] => []
  end.

Fixpoint dropTrailing (p : N -> bool) (s : list N) : list N :=
  match s with
  | c :: s' => if forallb p (c :: s') then [] else c :: dropTrailing p s'
  | [] => []
  end.

(** The longest prefix of units that satisfy [p], and what follows it. *)
Fixpoint spanRun (p : N -> bool) (s : list N) : list N * list N :=
  match s with
  | c :: s' => if p c then (c :: fst (spanRun p s'), snd (spanRun p s')) else ([], s)
  | [] => ([], [])
  end.

(** No two units that satisfy [p] in a row. *)
Fixpoint noTwo (p : N -> bool) (s : list N) : bool :=
  match s with
  | a :: (b :: _) as s' => negb (p a && p b) && noTwo p s'
  | _ => true
  end.

(** A text without a decimal digit. *)
Definition digitFree (s : list N) : Prop := Forall (fun c => isDigit c = false) s.

(** The festivals of the pages [from], [from + 1], ..., [from + n - 1] of
    a server that answers, one page after the other. *)
Fixpoint pagesFrom (server : Cleanup.Server) (from n : nat) : list Cleanup.StrapiFestival :=
  match n with
  | O => []
  | S n' =>
    match server from with
    | Ok (data, _) => data ++ pagesFrom server (S from) n'
    | Thrown => []
    end
  end.

(** A server with two pages of one festival each. *)
Definition twoPages : Cleanup.Server :=
  fun p =>
    match p with
    | 1%nat => Ok ([ stored (withTitle (str "Sagra del Tortello") blank) ], 2%Z)
    | 2%nat => Ok ([ stored (withTitle (str "Sagra della Castagna") blank) ], 2%Z)
    | _ => Thrown
    end.

(** A validated record whose location is the structured place on the
    equator. *)
Definition equatorRecord : FestivalData :=
  withParagraphs [str "Tre giorni di festa."]
    (withTitle (str "Sagra del Tortello") (withLocation onEquator blank)).

Definition isLineFeed (c : N) : bool := (c =? 10)%N.

(** A text that begins with two line feeds. *)
Definition startsBlank (s : list N) : bool :=
  match s with
  | a :: b :: _ => isLineFeed a && isLineFeed b
  | _ => false
  end.

(** What [join] with a blank line puts after the first element. *)
Definition joinTail (ps : list (list N)) : list N :=
  flat_map (fun p => 10%N :: 10%N :: p) ps.

(** The title "Sagra dei Tortelli", an em dash (U+2014) between two
    spaces, and "Citt" followed by U+00E0 (a with grave). *)
Definition tortelliCitta : list N :=
  str "Sagra dei Tortelli " ++ [8212%N] ++ str " Citt" ++ [224%N].


(** * Properties *)

(** ** Temporal filter *)

Section TemporalFilter.
Variable h : Host.
Variable now : Z.

Lemma startOfDay_lt (t : Z) : t < startOfDay h now <-> localDay h t < localDay h now.
Proof.
  unfold startOfDay, localDay, msPerDay.
  pose proof (Z.div_mod (now + tzOffset h) 86400000 ltac:(lia)).
  pose proof (Z.mod_pos_bound (now + tzOffset h) 86400000 ltac:(lia)).
  pose proof (Z.div_mod (t + tzOffset h) 86400000 ltac:(lia)).
  pose proof (Z.mod_pos_bound (t + tzOffset h) 86400000 ltac:(lia)).
  lia.
Qed.

Lemma validTime_Some (field : option (list N)) (s : list N) (t : Z) :
  field = Some s -> newDateStr h s = Some t -> validTime h field = Some t.
Proof.
  intros -> Hs. destruct s as [|c s]; [discriminate|]. exact Hs.
Qed.

Lemma validTime_None (field : option (list N)) :
  field = None -> validTime h field = None.
Proof. now intros ->. Qed.

(** A record whose endDate parses is past exactly when the instant it
    parses to is strictly before the start of the current local day: an
    instant on the local day before is past, one on the current local day
    is not; a record with no date information is not past. *)
Theorem isFestivalPast_end_date (fd : FestivalData) :
  (forall s t, endDate fd = Some s -> newDateStr h s = Some t ->
     (isFestivalPast h now fd = true <-> t < startOfDay h now)
     /\ (localDay h t = localDay h now - 1 -> isFestivalPast h now fd = true)
     /\ (localDay h t = localDay h now -> isFestivalPast h now fd = false))
  /\ (endDate fd = None -> startDate fd = None ->
      dates fd = None \/ dates fd = Some [] ->
      isFestivalPast h now fd = false).
Proof.
  split.
  - intros s t He Hs.
    assert (Hp : isFestivalPast h now fd = (t <? startOfDay h now)).
    { unfold isFestivalPast. now rewrite (validTime_Some _ _ _ He Hs). }
    rewrite Hp. split; [apply Z.ltb_lt|]. split; intros Hd.
    + apply Z.ltb_lt, startOfDay_lt. lia.
    + apply Z.ltb_ge. pose proof (startOfDay_lt t). lia.
  - intros He Hs Hd. unfold isFestivalPast.
    rewrite (validTime_None _ He), (validTime_None _ Hs).
    now destruct Hd as [-> | ->].
Qed.

End TemporalFilter.

Lemma isFestivalPast_end_date_witness :
  (isFestivalPast utcHost nov7 (withEndDate (str "2025-11-06") blank) = true
   <-> 1762387200000 < startOfDay utcHost nov7)
  /\ isFestivalPast utcHost nov7 (withEndDate (str "2025-11-06") blank) = true.
Proof.
  pose proof (proj1 (isFestivalPast_end_date utcHost nov7
                       (withEndDate (str "2025-11-06") blank))
                (str "2025-11-06") 1762387200000 eq_refl eq_refl) as [H1 [H2 _]].
  split; [exact H1 | apply H2; reflexivity].
Defined.

(** C3.  An endDate that names today is reported past on a host west of
    UTC.  The date-only text is read as midnight UTC, which on such a
    host is the evening before and so lies before the start of the local
    day.  At 10:00 UTC on 7 November 2025, which is 05:00 of that day
    five hours west of UTC, the record ending "2025-11-07" is past there,
    while the same record at the same instant is not past on UTC and one
    hour east of it. *)
Theorem isFestivalPast_end_today_west :
  getFullYear estHost nov7 = 2025 /\ getMonth estHost nov7 = 10 /\ getDate estHost nov7 = 7
  /\ newDateStr estHost (str "2025-11-07") = Some 1762473600000
  /\ startOfDay estHost nov7 = 1762491600000
  /\ isFestivalPast estHost nov7 (withEndDate (str "2025-11-07") blank) = true
  /\ isFestivalPast utcHost nov7 (withEndDate (str "2025-11-07") blank) = false
  /\ isFestivalPast cetHost nov7 (withEndDate (str "2025-11-07") blank) = false.
Proof. repeat split; vm_compute; reflexivity. Qed.

(** C2.  With no startDate and no endDate, a fragment that does not parse
    leaves the loop of isFestivalPast untouched, and the function then
    answers "past": the record is dropped although nothing was parsed. *)
Theorem isFestivalPast_unparsed_fragment :
  parseItalianDate utcHost (str "data da definire") = None
  /\ isFestivalPast utcHost nov7 (withDates [str "data da definire"] blank) = true.
Proof. split; vm_compute; reflexivity. Qed.

(** ** Duplicate detector *)

Section DuplicateDetector.
Variable h : Host.

Lemma isDuplicate_fresh (fd : FestivalData) (seen : gset (list N)) :
  generateFestivalKey h fd ∉ seen ->
  isDuplicate h fd seen = (false, {[ generateFestivalKey h fd ]} ∪ seen).
Proof. intros Hk. unfold isDuplicate. now rewrite bool_decide_eq_false_2. Qed.

Lemma isDuplicate_seen (fd : FestivalData) (seen : gset (list N)) :
  generateFestivalKey h fd ∈ seen -> isDuplicate h fd seen = (true, seen).
Proof. intros Hk. unfold isDuplicate. now rewrite bool_decide_eq_true_2. Qed.

Lemma isDuplicate_false_inv (fd : FestivalData) (seen : gset (list N)) :
  fst (isDuplicate h fd seen) = false ->
  (generateFestivalKey h fd ∉ seen)
  /\ snd (isDuplicate h fd seen) = {[ generateFestivalKey h fd ]} ∪ seen.
Proof.
  unfold isDuplicate. case_bool_decide; simpl; [discriminate|]. intros _. now split.
Qed.

Lemma isDuplicate_grows (fd : FestivalData) (seen : gset (list N)) :
  seen ⊆ snd (isDuplicate h fd seen).
Proof. unfold isDuplicate. case_bool_decide; simpl; set_solver. Qed.

(** C5.  From the empty seen-set the first call answers false; whenever
    a call answers false it has put the record's key into the seen-set,
    and the next call with that record, or with any record of the same
    key, answers true. *)
Theorem isDuplicate_false_then_true (fd fd' : FestivalData) (seen : gset (list N)) :
  fst (isDuplicate h fd ∅) = false
  /\ (generateFestivalKey h fd ∉ seen -> fst (isDuplicate h fd seen) = false)
  /\ (fst (isDuplicate h fd seen) = false ->
      (generateFestivalKey h fd ∈ snd (isDuplicate h fd seen))
      /\ fst (isDuplicate h fd (snd (isDuplicate h fd seen))) = true
      /\ (generateFestivalKey h fd' = generateFestivalKey h fd ->
          fst (isDuplicate h fd' (snd (isDuplicate h fd seen))) = true)).
Proof.
  split; [|split].
  - rewrite isDuplicate_fresh; [reflexivity | set_solver].
  - intros Hk. now rewrite isDuplicate_fresh.
  - intros Hf. destruct (isDuplicate_false_inv _ _ Hf) as [_ ->].
    assert (Hin : generateFestivalKey h fd ∈ ({[ generateFestivalKey h fd ]} ∪ seen))
      by set_solver.
    split; [exact Hin|]. split.
    + now rewrite isDuplicate_seen.
    + intros Hk. rewrite isDuplicate_seen; [reflexivity | now rewrite Hk].
Qed.

Lemma stepCache_keeps (o : cacheOp) (seen : gset (list N)) (k : list N) :
  isClear o = false -> k ∈ seen -> k ∈ stepCache h seen o.
Proof.
  destruct o as [fd|]; simpl; [|discriminate].
  intros _ Hk. now apply isDuplicate_grows.
Qed.

Lemma runCache_keeps (ops : list cacheOp) (seen : gset (list N)) (k : list N) :
  forallb (fun o => negb (isClear o)) ops = true -> k ∈ seen -> k ∈ runCache h ops seen.
Proof.
  revert seen. induction ops as [|o ops IH]; intros seen Hall Hk; [exact Hk|].
  simpl in Hall. apply andb_true_iff in Hall as [Ho Hall].
  apply (IH _ Hall), stepCache_keeps; [now destruct (isClear o) | exact Hk].
Qed.

End DuplicateDetector.

Definition sagraTortello : FestivalData :=
  withDates [str "7 Novembre 2025"]
    (withLocation (VStr (str "Imola (BO)")) (withTitle (str " Sagra del Tortello ") blank)).

Lemma isDuplicate_false_then_true_witness :
  generateFestivalKey utcHost sagraTortello = str "sagra del tortello|imola (bo)|10-2025"
  /\ fst (isDuplicate utcHost sagraTortello ∅) = false
  /\ fst (isDuplicate utcHost sagraTortello (snd (isDuplicate utcHost sagraTortello ∅))) = true.
Proof.
  pose proof (isDuplicate_false_then_true utcHost sagraTortello sagraTortello ∅)
    as [H1 [_ H3]].
  split; [vm_compute; reflexivity|]. split; [exact H1|].
  exact (proj1 (proj2 (H3 H1))).
Defined.

(** ** The detail handlers *)

Section Handlers.
Variable env : Env.

Lemma added_logged (w : world) (l : list call) : added w (logged w l) = l.
Proof. unfold added, logged. simpl. apply drop_app_length. Qed.

Lemma added_remembered (w : world) (fd : FestivalData) (l : list call) :
  added w (remembered (host env) fd w l) = l.
Proof. unfold added, remembered. simpl. apply drop_app_length. Qed.

Lemma added_same (w : world) : added w w = [].
Proof. unfold added. apply drop_all. Qed.

(** The temporal filter reads only the two normalized dates and the raw
    fragments. *)
Lemma isFestivalPast_ext (hst : Host) (t : Z) (a b : FestivalData) :
  sameDates a b -> isFestivalPast hst t a = isFestivalPast hst t b.
Proof. intros (E1 & E2 & E3). unfold isFestivalPast. now rewrite E1, E2, E3. Qed.

(** The shared tail: validation, then at most one emission. *)
Lemma validateAndSave_run (fd : FestivalData) (w : world) :
  (safeParse env fd = false
   /\ validateAndSave env fd w = (Thrown, logged w [ CallSafeParse fd false ]))
  \/ (safeParse env fd = true
      /\ exists tail, (tail = [] \/ tail = [ CallUpload fd ])
         /\ validateAndSave env fd w
            = (Ok tt, logged w ([ CallSafeParse fd true; CallPushData fd ] ++ tail))).
Proof.
  unfold validateAndSave, callSafeParse, pushData, logCall, bind, ret, throw, logged.
  destruct (safeParse env fd) eqn:Hs; simpl.
  - right. split; [reflexivity|]. destruct (uploadEnabled env); simpl.
    + exists [ CallUpload fd ]. split; [now right|]. now rewrite <- !app_assoc.
    + exists []. split; [now left|]. now rewrite <- !app_assoc.
  - left. now split.
Qed.

(** From the temporal check on, the record being [fd0] at the temporal
    check and [fd] afterwards, a handler makes one of the guarded runs. *)
Lemma pipeline_tail (fd0 fd : FestivalData) (rest : M unit) (w : world) :
  sameDates fd0 fd ->
  (forall w1, rest w1 = checkAndSave env fd w1 \/ exists o, rest w1 = (o, w1)) ->
  pipelineRun env w
    (bind (callIsFestivalPast env fd0) (fun past => if past then ret tt else rest) w).
Proof.
  intros Hd Hrest.
  unfold bind, callIsFestivalPast, logCall, ret. simpl.
  destruct (isFestivalPast (host env) (now env) fd0) eqn:Hpast; simpl.
  { now apply (RunPast env w fd0). }
  change {| seenFestivals := seenFestivals w;
            calls := calls w ++ [ CallIsFestivalPast fd0 false ] |}
    with (logged w [ CallIsFestivalPast fd0 false ]).
  destruct (Hrest (logged w [ CallIsFestivalPast fd0 false ])) as [-> | [o ->]].
  2:{ now apply RunBroken. }
  unfold checkAndSave, bind, callIsDuplicate, isDuplicate, ret.
  case_bool_decide as Hk; simpl.
  { rewrite <- app_assoc. now apply (RunDuplicate env w fd0 fd). }
  set (w2 := {| seenFestivals := _; calls := _ |}).
  destruct (validateAndSave_run fd w2) as [[Hs ->] | [Hs [tail [Ht ->]]]];
    unfold w2, logged; simpl; rewrite <- !app_assoc.
  - now apply (RunInvalid env w fd0 fd).
  - now apply (RunEmitted env w fd0 fd tail).
Qed.

(** A guarded run emits only checked records. *)
Lemma pipelineRun_emits (handler : M unit) :
  (forall w, pipelineRun env w (handler w)) -> emitsOnlyChecked env handler.
Proof.
  intros Hrun w e. specialize (Hrun w).
  inversion Hrun as [o Ho | fd0 Hp Ho | fd0 o Hp Ho | fd0 fd Hp Hd Hk Ho
                     | fd0 fd Hp Hd Hk Hs Ho | fd0 fd tail Hp Hd Hk Hs Ht Ho];
    simpl; rewrite ?added_same, ?added_logged, ?added_remembered; simpl.
  - intros [].
  - intros [H|[]]; discriminate.
  - intros [H|[]]; discriminate.
  - intros [H|[H|[]]]; discriminate.
  - intros [H|[H|[H|[]]]]; discriminate.
  - intros Hin.
    assert (e = fd) as ->.
    { destruct Hin as [H|[H|[H|[H|Hin]]]]; try discriminate.
      - now inversion H.
      - destruct Ht as [-> | ->]; simpl in Hin; [tauto|].
        destruct Hin as [H|[]]. discriminate. }
    exists fd0, tail. split; [reflexivity|]. split; [exact Ht|].
    split; [now rewrite <- (isFestivalPast_ext _ _ fd0 fd)|]. now split.
Qed.

(** A run never takes a key out of the seen-set, and a duplicate check
    that answered false has put the record's key into it, whatever
    happened to the record afterwards. *)
Lemma pipelineRun_remembers (w : world) (r : outcome unit * world) :
  pipelineRun env w r ->
  seenFestivals w ⊆ seenFestivals (snd r)
  /\ forall fd, In (CallIsDuplicate fd false) (added w (snd r)) ->
       generateFestivalKey (host env) fd ∈ seenFestivals (snd r).
Proof.
  intros Hrun.
  destruct Hrun as [o | fd0 Hp | fd0 o Hp | fd0 fd Hp Hd Hk
                    | fd0 fd Hp Hd Hk Hs | fd0 fd tail Hp Hd Hk Hs Ht];
    simpl; rewrite ?added_same, ?added_logged, ?added_remembered;
    (split; [set_solver|]); intros e Hin; simpl in Hin.
  - destruct Hin.
  - destruct Hin as [H|[]]; discriminate.
  - destruct Hin as [H|[]]; discriminate.
  - destruct Hin as [H|[H|[]]]; discriminate.
  - destruct Hin as [H|[H|[H|[]]]]; try discriminate. inversion H. set_solver.
  - destruct Hin as [H|[H|[H|[H|Hin]]]]; try discriminate.
    + inversion H. set_solver.
    + destruct Ht as [-> | ->]; simpl in Hin; [tauto|].
      destruct Hin as [H|[]]. discriminate.
Qed.

Lemma assosagreDetail_run (loadedUrl : list N) (q : Cheerio) (w : world) :
  pipelineRun env w (Assosagre.assosagreDetail env loadedUrl q w).
Proof.
  unfold Assosagre.assosagreDetail.
  match goal with |- context [lift ?o] => destruct o as [parsed|] end.
  2:{ apply RunStopped. }
  unfold bind at 1, lift at 1.
  match goal with |- context [lift ?o] => destruct o as [imgs|] end.
  - eapply pipeline_tail; cycle 1.
    + intros w1. left. unfold checkAndSave. reflexivity.
    + repeat split.
  - eapply pipeline_tail; [repeat split|].
    intros w1. right. eexists. reflexivity.
Qed.

Lemma viviromagnaDetail_run (loadedUrl : list N) (q : Cheerio) (w : world) :
  pipelineRun env w (Viviromagna.viviromagnaDetail env loadedUrl q w).
Proof.
  unfold Viviromagna.viviromagnaDetail.
  match goal with |- context [if ?c then ret tt else _] => destruct c end.
  { apply RunStopped. }
  match goal with |- context [lift ?o] => destruct o as [source_|] end.
  2:{ apply RunStopped. }
  unfold bind at 1, lift at 1.
  match goal with |- context [lift ?o] => destruct o as [parsed|] end.
  2:{ apply RunStopped. }
  unfold bind at 1, lift at 1.
  match goal with |- context [lift ?o] => destruct o as [imgs|] end.
  - eapply pipeline_tail; cycle 1.
    + intros w1. left. unfold checkAndSave. reflexivity.
    + repeat split.
  - eapply pipeline_tail; [repeat split|].
    intros w1. right. eexists. reflexivity.
Qed.

Lemma romagnaEmiliaDetail_run (loadedUrl : list N) (q : Cheerio) (w : world) :
  pipelineRun env w (RomagnaEmilia.romagnaEmiliaDetail env loadedUrl q w).
Proof.
  unfold RomagnaEmilia.romagnaEmiliaDetail.
  match goal with |- context [lift ?o] => destruct o as [sd|] end.
  2:{ apply RunStopped. }
  unfold bind at 1, lift at 1.
  match goal with |- context [lift ?o] => destruct o as [imgs|] end.
  2:{ apply RunStopped. }
  unfold bind at 1, lift at 1.
  eapply pipeline_tail; [repeat split|].
  intros w1. left. reflexivity.
Qed.

(** C4, amended.  In the three detail handlers that main.ts registers, a
    record is emitted only after the temporal filter answered false, then
    the duplicate detector answered false, then the validator accepted
    it, in that order. *)
Theorem registered_handlers_emit_only_checked (loadedUrl : list N) (q : Cheerio) :
  emitsOnlyChecked env (Assosagre.assosagreDetail env loadedUrl q)
  /\ emitsOnlyChecked env (Viviromagna.viviromagnaDetail env loadedUrl q)
  /\ emitsOnlyChecked env (RomagnaEmilia.romagnaEmiliaDetail env loadedUrl q).
Proof.
  split; [|split]; apply pipelineRun_emits; intros w.
  - apply assosagreDetail_run.
  - apply viviromagnaDetail_run.
  - apply romagnaEmiliaDetail_run.
Qed.

End Handlers.

(** C4, as stated, fails on the festival-detail handler of routes.ts: on
    a page whose structured data ends in 2020 it validates the record and
    emits it, with no temporal check and no duplicate check. *)
Lemma festivalDetail_emits_unchecked :
  Routes.festivalDetail exampleEnv tortelloUrl tortelloPage freshWorld
  = (Ok tt, logged freshWorld [ CallSafeParse tortelloRecord true;
                                CallPushData tortelloRecord ])
  /\ isFestivalPast (host exampleEnv) (now exampleEnv) tortelloRecord = true
  /\ ~ emitsOnlyChecked exampleEnv
         (Routes.festivalDetail exampleEnv tortelloUrl tortelloPage).
Proof.
  assert (E : Routes.festivalDetail exampleEnv tortelloUrl tortelloPage freshWorld
              = (Ok tt, logged freshWorld [ CallSafeParse tortelloRecord true;
                                            CallPushData tortelloRecord ])).
  { vm_compute. reflexivity. }
  split; [exact E|]. split; [vm_compute; reflexivity|].
  intros H. specialize (H freshWorld tortelloRecord).
  rewrite E in H. simpl in H. rewrite added_logged in H.
  destruct H as (fd0 & tail & Heq & _); [right; now left|].
  discriminate Heq.
Qed.

Lemma registered_handlers_emit_only_checked_witness :
  exists fd,
    added freshWorld
      (snd (Assosagre.assosagreDetail exampleEnv goodUrl novembrePage freshWorld))
    = [ CallIsFestivalPast fd false; CallIsDuplicate castagnaGood false;
        CallSafeParse castagnaGood true; CallPushData castagnaGood ].
Proof.
  destruct (proj1 (registered_handlers_emit_only_checked exampleEnv goodUrl novembrePage)
              freshWorld castagnaGood) as (fd0 & tail & Heq & Ht & _).
  - vm_compute. right; right; right; left. reflexivity.
  - exists fd0. rewrite Heq.
    assert (Hl : length (added freshWorld
              (snd (Assosagre.assosagreDetail exampleEnv goodUrl novembrePage freshWorld)))
            = 4%nat) by (vm_compute; reflexivity).
    rewrite Heq in Hl. destruct Ht as [-> | ->]; [reflexivity | discriminate Hl].
Defined.

(** ** The seen-set over a process run *)

Section SeenSet.
Variable env : Env.

Lemma no_clear_or_clear (ops : list cacheOp) :
  forallb (fun o => negb (isClear o)) ops = true \/ In OpClearDuplicateCache ops.
Proof.
  induction ops as [|o ops [IH | IH]]; [now left | | right; now right].
  destruct o as [fd|]; [left; exact IH | right; now left].
Qed.

(** C9.  Once isDuplicate has answered false for a key, every later call
    with a record of that key answers true, whatever calls of isDuplicate
    came in between; a key leaves the seen-set only through
    clearDuplicateCache; and the key is kept also when the handler, after
    the duplicate check, fails validation and throws without emitting the
    record. *)
Theorem seen_key_stays (fd fd' : FestivalData) (seen : gset (list N))
    (ops : list cacheOp) (loadedUrl : list N) (q : Cheerio) (w : world) :
  (fst (isDuplicate (host env) fd seen) = false ->
   forallb (fun o => negb (isClear o)) ops = true ->
   generateFestivalKey (host env) fd' = generateFestivalKey (host env) fd ->
   fst (isDuplicate (host env) fd'
          (runCache (host env) ops (snd (isDuplicate (host env) fd seen)))) = true)
  /\ (forall k, k ∈ seen -> k ∉ runCache (host env) ops seen ->
        In OpClearDuplicateCache ops)
  /\ (In (CallIsDuplicate fd false)
         (added w (snd (Assosagre.assosagreDetail env loadedUrl q w))) ->
      safeParse env fd = false ->
      fst (Assosagre.assosagreDetail env loadedUrl q w) = Thrown
      /\ ~ In (CallPushData fd)
             (added w (snd (Assosagre.assosagreDetail env loadedUrl q w)))
      /\ generateFestivalKey (host env) fd
           ∈ seenFestivals (snd (Assosagre.assosagreDetail env loadedUrl q w))
      /\ seenFestivals w
           ⊆ seenFestivals (snd (Assosagre.assosagreDetail env loadedUrl q w))).
Proof.
  split; [|split].
  - intros Hf Hops Hk.
    rewrite isDuplicate_seen; [reflexivity|]. rewrite Hk.
    apply runCache_keeps; [exact Hops|].
    destruct (isDuplicate_false_inv _ _ _ Hf) as [_ ->]. set_solver.
  - intros k Hin Hout. destruct (no_clear_or_clear ops) as [Hops | Hc]; [|exact Hc].
    exfalso. apply Hout. now apply runCache_keeps.
  - intros Hin Hs.
    pose proof (assosagreDetail_run env loadedUrl q w) as Hrun.
    destruct (pipelineRun_remembers env w _ Hrun) as [Hsub Hrem].
    split; [|split; [|split; [now apply Hrem | exact Hsub]]].
    + revert Hin. inversion Hrun as [o Ho | fd0 Hp Ho | fd0 o Hp Ho | fd0 e Hp Hd Hk Ho
                         | fd0 e Hp Hd Hk Hv Ho | fd0 e tail Hp Hd Hk Hv Ht Ho];
        simpl; rewrite ?added_same, ?added_logged, ?added_remembered; simpl;
        try reflexivity.
      * intros [].
      * intros [H|[]]; discriminate.
      * intros [H|[]]; discriminate.
      * intros [H|[H|[]]]; discriminate.
      * intros [H|[H|[H|[H|Hin]]]]; try discriminate.
        -- inversion H; subst e. congruence.
        -- destruct Ht as [-> | ->]; simpl in Hin; [tauto|].
           destruct Hin as [H|[]]. discriminate.
    + revert Hin. inversion Hrun as [o Ho | fd0 Hp Ho | fd0 o Hp Ho | fd0 e Hp Hd Hk Ho
                         | fd0 e Hp Hd Hk Hv Ho | fd0 e tail Hp Hd Hk Hv Ht Ho];
        simpl; rewrite ?added_same, ?added_logged, ?added_remembered; simpl.
      * intros [].
      * intros [H|[]]; discriminate.
      * intros [H|[]]; discriminate.
      * intros [H|[H|[]]]; discriminate.
      * intros _ [H|[H|[H|[]]]]; discriminate.
      * intros [H|[H|[H|[H|Hin]]]]; try discriminate.
        -- inversion H; subst e. congruence.
        -- destruct Ht as [-> | ->]; simpl in Hin; [tauto|].
           destruct Hin as [H|[]]. discriminate.
Qed.

End SeenSet.

Lemma seen_key_stays_witness :
  fst (isDuplicate utcHost castagnaGood
         (runCache utcHost [ OpIsDuplicate sagraTortello ]
            (snd (isDuplicate utcHost castagnaRecord ∅)))) = true
  /\ fst (Assosagre.assosagreDetail exampleEnv badUrl novembrePage freshWorld) = Thrown
  /\ generateFestivalKey utcHost castagnaRecord
       ∈ seenFestivals (snd (Assosagre.assosagreDetail exampleEnv badUrl novembrePage freshWorld)).
Proof.
  pose proof (seen_key_stays exampleEnv castagnaRecord castagnaGood ∅
                [ OpIsDuplicate sagraTortello ] badUrl novembrePage freshWorld)
    as (H1 & _ & H3).
  split.
  - apply H1; vm_compute; reflexivity.
  - destruct H3 as (Ht & _ & Hk & _).
    + vm_compute. right; left. reflexivity.
    + vm_compute. reflexivity.
    + split; [exact Ht | exact Hk].
Defined.

(** ** Coordinates *)

Section Coordinates.
Import Strapi.

(** C10.  extractCoordinates returns a pair only when location is an
    object whose geo has a latitude and a longitude that are both present
    and not the number zero, and null when either is absent or is the
    number zero.  After that null transformToStrapiFormat does not
    geocode a location object: it hands the object itself to
    geocodeLocation, whose call of [trim] throws, and the catch returns
    null, whatever the geocoder would answer.  So the record of the place
    on the equator gets no payload. *)
Theorem extractCoordinates_null_not_geocoded (h : Host)
    (geoapify : list N -> option StrapiPosition) (fd : FestivalData) :
  (forall p, extractCoordinates fd = Some p ->
     typeofObject (location fd) = true
     /\ lat p = getProp (getProp (location fd) "geo") "latitude"
     /\ lng p = getProp (getProp (location fd) "geo") "longitude"
     /\ present (lat p) /\ present (lng p)
     /\ (forall x, lat p = VNum x -> isZero x = false)
     /\ (forall x, lng p = VNum x -> isZero x = false))
  /\ (forall c, c = "latitude"%string \/ c = "longitude"%string ->
        ~ present (getProp (getProp (location fd) "geo") c)
        \/ (exists x, getProp (getProp (location fd) "geo") c = VNum x /\ isZero x = true) ->
        extractCoordinates fd = None)
  /\ (typeofObject (location fd) = true -> extractCoordinates fd = None ->
      transformToStrapiFormat h geoapify fd = None)
  /\ extractCoordinates equatorRecord = None
  /\ geocodeLocation geoapify (location equatorRecord) = Thrown
  /\ transformToStrapiFormat h geoapify equatorRecord = None.
Proof.
  split; [|split; [|split]].
  - intros p. unfold extractCoordinates.
    destruct (truthy (location fd) && typeofObject (location fd)) eqn:Hl; [|discriminate].
    apply andb_true_iff in Hl as [_ Ho].
    set (geo := getProp (location fd) "geo").
    destruct (truthy (getPropOpt geo "latitude") && truthy (getPropOpt geo "longitude"))
      eqn:Hg; [|discriminate].
    apply andb_true_iff in Hg as [Hla Hlo].
    intros [= <-]. simpl.
    assert (Hopt : forall c, truthy (getPropOpt geo c) = true ->
              present (getProp geo c)
              /\ (forall x, getProp geo c = VNum x -> isZero x = false)).
    { intros c. unfold getPropOpt, present.
      destruct geo as [| |b|x|s|items|fs] eqn:Eg; simpl; try discriminate.
      destruct (lookupField (str c) fs) as [v|]; simpl; [|discriminate].
      intros Hv. split; [split; intros ->; discriminate|].
      intros x ->. simpl in Hv. destruct x as [|neg|m0 e0]; simpl in *;
        [discriminate | reflexivity | now apply negb_true_iff]. }
    destruct (Hopt _ Hla) as [[? ?] ?], (Hopt _ Hlo) as [[? ?] ?].
    repeat split; assumption.
  - intros c Hc Hbad. unfold extractCoordinates.
    destruct (truthy (location fd) && typeofObject (location fd)); [|reflexivity].
    set (geo := getProp (location fd) "geo") in *.
    assert (Hf : truthy (getPropOpt geo c) = false).
    { unfold getPropOpt. destruct Hbad as [Hu | [x [Hx Hz]]].
      - unfold present in Hu.
        destruct geo; try reflexivity;
          destruct (getProp _ c) as [| |b'|x'|s'|i'|f']; try reflexivity;
          exfalso; apply Hu; split; discriminate.
      - destruct geo; try reflexivity; rewrite Hx; simpl;
          destruct x; simpl in *; try discriminate; now rewrite Hz. }
    destruct Hc as [-> | ->]; rewrite Hf; [reflexivity | now rewrite andb_false_r].
  - intros Ho Hnone. unfold transformToStrapiFormat. rewrite Hnone.
    destruct (location fd); try discriminate Ho; reflexivity.
  - repeat split.
Qed.

End Coordinates.



(** ** The matcher matches only texts of the pattern's shape *)

Section MatcherSound.
Variable ic : bool.

Definition soundBody (L : list N -> Prop)
    (body : mstate -> (mstate -> option mstate) -> option mstate) : Prop :=
  forall st k res, body st k = Some res ->
    exists st' w, k st' = Some res /\ L w /\ rest st = w ++ rest st'.

Lemma repeatMatcher_sound (L : list N -> Prop)
    (body : mstate -> (mstate -> option mstate) -> option mstate)
    (greedy : bool) (k : mstate -> option mstate) :
  soundBody L body ->
  forall fuel lo hi st res,
    repeatMatcher body greedy k fuel lo hi st = Some res ->
    exists st' ws, k st' = Some res /\ Forall L ws /\ rest st = concat ws ++ rest st'
                   /\ ((lo <= length ws)%nat \/ hi = Some (length ws)).
Proof.
  intros Hbody. induction fuel as [|fuel IH]; intros lo hi st res; simpl; [discriminate|].
  assert (Hstop : k st = Some res ->
            (lo = 0%nat \/ hi = Some 0%nat) ->
            exists st' ws, k st' = Some res /\ Forall L ws
              /\ rest st = concat ws ++ rest st'
              /\ ((lo <= length ws)%nat \/ hi = Some (length ws))).
  { intros Hk Hz. exists st, []. simpl. split; [exact Hk|]. split; [constructor|].
    split; [reflexivity|]. destruct Hz as [-> | ->]; [left; lia | now right]. }
  assert (Hiter : hi <> Some 0%nat ->
            body st (fun st1 =>
                if Nat.eqb lo 0 && Nat.eqb (pos st1) (pos st) then None
                else repeatMatcher body greedy k fuel (Nat.pred lo)
                       (option_map Nat.pred hi) st1) = Some res ->
            exists st' ws, k st' = Some res /\ Forall L ws
              /\ rest st = concat ws ++ rest st'
              /\ ((lo <= length ws)%nat \/ hi = Some (length ws))).
  { intros Hhi Hb. apply Hbody in Hb as (st1 & w & Hd & Hw & Hr).
    destruct (Nat.eqb lo 0 && Nat.eqb (pos st1) (pos st)); [discriminate|].
    apply IH in Hd as (st' & ws & Hk & Hws & Hr' & Hn).
    exists st', (w :: ws). simpl. split; [exact Hk|]. split; [now constructor|].
    split; [now rewrite Hr, Hr', app_assoc|].
    destruct Hn as [Hn | Hn]; [left; lia|].
    destruct hi as [[|hh]|]; simpl in Hn; [congruence | | discriminate].
    right. congruence. }
  destruct hi as [[|hh]|].
  - intros Hk. apply Hstop; [exact Hk | now right].
  - destruct (Nat.ltb 0 lo) eqn:Hlo; [apply Hiter; discriminate|].
    apply Nat.ltb_ge in Hlo.
    destruct greedy; unfold orElse;
      match goal with |- context [match ?x with Some _ => _ | None => _ end] =>
        destruct x eqn:Hx end; intros Heq;
      try (apply Hstop; [congruence | left; lia]);
      try (apply Hiter; [discriminate | congruence]).
  - destruct (Nat.ltb 0 lo) eqn:Hlo; [apply Hiter; discriminate|].
    apply Nat.ltb_ge in Hlo.
    destruct greedy; unfold orElse;
      match goal with |- context [match ?x with Some _ => _ | None => _ end] =>
        destruct x eqn:Hx end; intros Heq;
      try (apply Hstop; [congruence | left; lia]);
      try (apply Hiter; [discriminate | congruence]).
Qed.

Lemma m_sound (r : regex) : soundBody (lang ic r) (m ic r).
Proof.
  induction r as [ | a | neg rs | | | | r1 IH1 r2 IH2 | r1 IH1 r2 IH2
                   | lo hi greedy r1 IH1 | n r1 IH1 ];
    intros st k res; [simpl .. | | simpl].
  - intros Hk. exists st, []. auto.
  - destruct (rest st) as [|c s'] eqn:Hr; [discriminate|].
    destruct (charEq ic a c) eqn:Hc; [|discriminate].
    intros Hk. eexists _, [c]. split; [exact Hk|]. split; [eauto|reflexivity].
  - destruct (rest st) as [|c s'] eqn:Hr; [discriminate|].
    destruct (classHas ic neg rs c) eqn:Hc; [|discriminate].
    intros Hk. eexists _, [c]. split; [exact Hk|]. split; [eauto|reflexivity].
  - destruct (Nat.eqb (pos st) 0); [|discriminate]. intros Hk. exists st, []. auto.
  - destruct (rest st) eqn:Hr; [|discriminate]. intros Hk. exists st, [].
    split; [exact Hk|]. split; [reflexivity|]. now rewrite Hr.
  - destruct (xorb _ _); [|discriminate]. intros Hk. exists st, []. auto.
  - intros H. apply IH1 in H as (st1 & w1 & H & Hw1 & Hr1).
    apply IH2 in H as (st2 & w2 & H & Hw2 & Hr2).
    exists st2, (w1 ++ w2). split; [exact H|]. split; [eauto|].
    now rewrite Hr1, Hr2, app_assoc.
  - unfold orElse. destruct (m ic r1 st k) eqn:H1.
    + intros [= <-]. apply IH1 in H1 as (st' & w & ? & ? & ?). exists st', w. auto.
    + intros H2. apply IH2 in H2 as (st' & w & ? & ? & ?). exists st', w. auto.
  - intros H.
    change (repeatMatcher (m ic r1) greedy k (S (lo + length (rest st))) lo hi st
            = Some res) in H.
    apply (repeatMatcher_sound _ _ _ _ IH1) in H as (st' & ws & Hk & Hws & Hr & Hn).
    exists st', (concat ws). split; [exact Hk|]. split; [|exact Hr].
    exists ws. auto.
  - intros H. apply IH1 in H as (st1 & w & Hk & Hw & Hr).
    exists (setCap n (consumed st st1) st1), w. auto.
Qed.

End MatcherSound.

(** ** Lower case *)

Ltac boolN :=
  unfold isDigit, isUpperAscii, isLowerAscii, between in *;
  repeat match goal with
  | H : (_ && _)%bool = true |- _ => apply andb_true_iff in H; destruct H
  | H : (_ && _)%bool = false |- _ => apply andb_false_iff in H
  | H : (_ || _)%bool = true |- _ => apply orb_true_iff in H
  | H : (_ || _)%bool = false |- _ => apply orb_false_iff in H; destruct H
  | H : negb _ = true |- _ => apply negb_true_iff in H
  | H : negb _ = false |- _ => apply negb_false_iff in H
  | H : (_ <=? _)%N = true |- _ => apply N.leb_le in H
  | H : (_ <=? _)%N = false |- _ => apply N.leb_gt in H
  | H : (_ <? _)%N = true |- _ => apply N.ltb_lt in H
  | H : (_ <? _)%N = false |- _ => apply N.ltb_ge in H
  | H : (_ =? _)%N = true |- _ => apply N.eqb_eq in H
  | H : (_ =? _)%N = false |- _ => apply N.eqb_neq in H
  | H : _ \/ _ |- _ => destruct H
  end.

Section LowerCase.

Local Open Scope N_scope.

Lemma pair_ind (P : list N -> Prop) :
  P [] -> (forall c, P [c]) -> (forall c d s, P s -> P (d :: s) -> P (c :: d :: s)) ->
  forall s, P s.
Proof.
  intros H0 H1 H2 s. enough (P s /\ forall c, P (c :: s)) by tauto.
  induction s as [|d s [IH1 IH2]]; [split; auto|].
  split; [apply IH2|]. intros c. apply H2; auto.
Qed.

(** *** Code points *)

Lemma codePoints_pair (c d : N) (s : list N) :
  codePoints (c :: d :: s)
  = if isLeadSurrogate c && isTrailSurrogate d
    then (65536 + (c - 55296) * 1024 + (d - 56320)) :: codePoints s
    else c :: codePoints (d :: s).
Proof. reflexivity. Qed.

Lemma codePoints_plain (c : N) (s : list N) :
  isLeadSurrogate c = false -> codePoints (c :: s) = c :: codePoints s.
Proof.
  intros H. destruct s as [|d s]; [reflexivity|]. now rewrite codePoints_pair, H.
Qed.

Lemma codePoints_before (d : N) (s a : list N) :
  isTrailSurrogate d = false ->
  codePoints (a ++ d :: s) = codePoints a ++ codePoints (d :: s).
Proof.
  intros Hd. induction a as [|c|c e a IH1 IH2] using pair_ind.
  - reflexivity.
  - cbn [app]. now rewrite codePoints_pair, Hd, andb_false_r.
  - change ((c :: e :: a) ++ d :: s) with (c :: e :: (a ++ d :: s)).
    rewrite !codePoints_pair.
    destruct (isLeadSurrogate c && isTrailSurrogate e).
    + now rewrite IH1.
    + change (e :: a ++ d :: s) with ((e :: a) ++ d :: s). now rewrite IH2.
Qed.

Lemma codePoints_ascii (a s : list N) :
  Forall (fun c => c < 128) a -> codePoints (a ++ s) = a ++ codePoints s.
Proof.
  induction 1 as [|c a Hc Ha IH]; [reflexivity|].
  cbn [app]. rewrite codePoints_plain, IH; [reflexivity|].
  unfold isLeadSurrogate, between. apply andb_false_iff. left. apply N.leb_gt. lia.
Qed.

Lemma ofCodePoints_app (x y : list N) :
  ofCodePoints (x ++ y) = ofCodePoints x ++ ofCodePoints y.
Proof. apply flat_map_app. Qed.

Lemma codeUnits_small (c : N) : c < 65536 -> codeUnits c = [c].
Proof. intros H. unfold codeUnits. apply N.ltb_lt in H. now rewrite H. Qed.

Lemma ofCodePoints_ascii (a : list N) : Forall (fun c => c < 128) a -> ofCodePoints a = a.
Proof.
  induction 1 as [|c a Hc Ha IH]; [reflexivity|].
  unfold ofCodePoints in *. cbn [flat_map]. rewrite IH, codeUnits_small by lia. reflexivity.
Qed.

(** *** ASCII *)

Lemma lowerSimple_ascii (c : N) : c < 128 -> lowerSimple c < 128.
Proof.
  intros H. unfold lowerSimple. apply N.ltb_lt in H as H'. rewrite H'.
  destruct (isUpperAscii c) eqn:E; [boolN; lia | exact H].
Qed.

Lemma lowerSimple_fixed (c : N) : c < 128 -> isUpperAscii c = false -> lowerSimple c = c.
Proof. intros H E. unfold lowerSimple. apply N.ltb_lt in H. now rewrite H, E. Qed.

Lemma lowerAt_ascii (b : bool) (c : N) (after : list N) :
  c < 128 -> lowerAt b c after = [lowerSimple c].
Proof.
  intros H. unfold lowerAt, lowerPoint.
  destruct (c =? 931) eqn:E1; [boolN; lia|].
  destruct (c =? 304) eqn:E2; [boolN; lia|]. reflexivity.
Qed.

Lemma lowerPoints_ascii (a : list N) (b : bool) (cs : list N) :
  Forall (fun c => c < 128) a ->
  lowerPoints b (a ++ cs) = map lowerSimple a ++ lowerPoints (fold_left seenCased a b) cs.
Proof.
  intros Ha. revert b. induction Ha as [|c a Hc Ha IH]; intros b; [reflexivity|].
  cbn [app lowerPoints map fold_left]. now rewrite lowerAt_ascii, IH.
Qed.

Lemma lowerCaseFrom_nil (b : bool) : lowerCaseFrom b [] = [].
Proof. reflexivity. Qed.

Lemma lowerCaseFrom_ascii_app (a : list N) (b : bool) (s : list N) :
  Forall (fun c => c < 128) a ->
  lowerCaseFrom b (a ++ s) = map lowerSimple a ++ lowerCaseFrom (fold_left seenCased a b) s.
Proof.
  intros Ha. unfold lowerCaseFrom.
  rewrite (codePoints_ascii _ _ Ha), (lowerPoints_ascii _ _ _ Ha), ofCodePoints_app.
  f_equal. apply ofCodePoints_ascii.
  apply Forall_map. apply (Forall_impl _ _ _ Ha). intros c Hc. now apply lowerSimple_ascii.
Qed.

Lemma lowerCaseFrom_ascii (a : list N) (b : bool) :
  Forall (fun c => c < 128) a -> lowerCaseFrom b a = map lowerSimple a.
Proof.
  intros Ha. rewrite <- (app_nil_r a) at 1.
  now rewrite (lowerCaseFrom_ascii_app _ _ _ Ha), lowerCaseFrom_nil, app_nil_r.
Qed.

(** *** Decimal digits *)

Lemma digit_ascii (c : N) : isDigit c = true -> c < 128.
Proof. intros H. boolN. lia. Qed.

Lemma digit_plain (d : N) :
  isDigit d = true -> isCaseIgnorable d = false /\ isCased d = false.
Proof.
  intros H.
  assert (Hd : d = 48 \/ d = 49 \/ d = 50 \/ d = 51 \/ d = 52 \/ d = 53 \/ d = 54
               \/ d = 55 \/ d = 56 \/ d = 57) by (boolN; lia).
  repeat (destruct Hd as [-> | Hd]; [now vm_compute|]). subst d. now vm_compute.
Qed.

Lemma digit_not_surrogate (d : N) :
  isDigit d = true -> isLeadSurrogate d = false /\ isTrailSurrogate d = false.
Proof.
  intros H. unfold isLeadSurrogate, isTrailSurrogate, between.
  split; apply andb_false_iff; left; apply N.leb_gt; boolN; lia.
Qed.

Lemma digit_lowerSimple (d : N) : isDigit d = true -> lowerSimple d = d.
Proof.
  intros H. apply lowerSimple_fixed; [now apply digit_ascii|].
  apply not_true_is_false. intros E. boolN. lia.
Qed.

Lemma casedAhead_before (d : N) (s a : list N) :
  isCaseIgnorable d = false -> isCased d = false -> casedAhead (a ++ d :: s) = casedAhead a.
Proof.
  intros H1 H2. induction a as [|c a IH]; cbn [app casedAhead].
  - now rewrite H1, H2.
  - now rewrite IH.
Qed.

Lemma lowerPoints_before (d : N) (s a : list N) (b : bool) :
  isCaseIgnorable d = false -> isCased d = false ->
  lowerPoints b (a ++ d :: s)
  = lowerPoints b a ++ lowerPoints (fold_left seenCased a b) (d :: s).
Proof.
  intros H1 H2. revert b. induction a as [|c a IH]; intros b; [reflexivity|].
  cbn [app lowerPoints fold_left]. rewrite IH, <- app_assoc. f_equal.
  unfold lowerAt. now rewrite casedAhead_before.
Qed.

(** What stands before a digit is lower-cased as if the text ended
    there, and what stands behind it as if the text began there. *)
Lemma lowerCaseFrom_before_digit (g : list N) (d : N) (s : list N) (b : bool) :
  isDigit d = true ->
  lowerCaseFrom b (g ++ d :: s) = lowerCaseFrom b g ++ d :: lowerCaseFrom false s.
Proof.
  intros Hd. destruct (digit_plain d Hd) as [H1 H2].
  destruct (digit_not_surrogate d Hd) as [H3 H4].
  unfold lowerCaseFrom.
  rewrite (codePoints_before _ _ _ H4), (codePoints_plain _ _ H3).
  rewrite (lowerPoints_before _ _ _ _ H1 H2), ofCodePoints_app. f_equal.
  cbn [lowerPoints]. rewrite (lowerAt_ascii _ _ _ (digit_ascii d Hd)), (digit_lowerSimple d Hd).
  unfold seenCased at 1. rewrite H1, H2.
  rewrite ofCodePoints_app. unfold ofCodePoints at 1. cbn [flat_map].
  rewrite codeUnits_small by (pose proof (digit_ascii d Hd); lia). reflexivity.
Qed.

Lemma lowerRuns_images : forallb (fun r => 58 <=? snd r) Unicode.lowerRuns = true.
Proof. vm_compute. reflexivity. Qed.

Lemma upperRuns_images : forallb (fun r => 128 <=? snd r) Unicode.upperRuns = true.
Proof. vm_compute. reflexivity. Qed.

Lemma upperRuns_firsts :
  forallb (fun r => 128 <=? fst (fst (fst r))) Unicode.upperRuns = true.
Proof. vm_compute. reflexivity. Qed.

Lemma imageIn_ge (k : N) (runs : list (N * N * N * N)) (c : N) :
  forallb (fun r => k <=? snd r) runs = true -> k <= c -> k <= imageIn runs c.
Proof.
  intros H Hc. induction runs as [|[[[f l] st] im] runs IH]; cbn [imageIn]; [exact Hc|].
  cbn [forallb snd] in H. apply andb_true_iff in H as [H1 H2]. apply N.leb_le in H1.
  destruct (c <? f); [exact Hc|].
  destruct ((c <=? l) && ((c - f) mod st =? 0)); [lia | now apply IH].
Qed.

Lemma sourcesIn_ge (k : N) (runs : list (N * N * N * N)) (u : N) :
  forallb (fun r => k <=? fst (fst (fst r))) runs = true ->
  Forall (fun x => k <= x) (sourcesIn runs u).
Proof.
  intros H. induction runs as [|[[[f l] st] im] runs IH]; cbn [sourcesIn]; [constructor|].
  cbn [forallb fst] in H. apply andb_true_iff in H as [H1 H2]. apply N.leb_le in H1.
  apply Forall_app. split; [|now apply IH].
  destruct ((im <=? u) && (u <=? im + (l - f)) && ((u - im) mod st =? 0));
    [|constructor].
  constructor; [lia | constructor].
Qed.

Lemma lowerSimple_not_digit (c : N) : isDigit c = false -> isDigit (lowerSimple c) = false.
Proof.
  intros H. unfold lowerSimple.
  destruct (c <? 128) eqn:E.
  - destruct (isUpperAscii c) eqn:E'; [|exact H].
    unfold isDigit, between. apply andb_false_iff. right. apply N.leb_gt. clear H. boolN. lia.
  - assert (58 <= imageIn Unicode.lowerRuns c).
    { apply (imageIn_ge 58); [exact lowerRuns_images | boolN; lia]. }
    unfold isDigit, between. apply andb_false_iff. right. apply N.leb_gt. lia.
Qed.

(** *** The matcher's canonical forms *)

Lemma upperUnit_ascii (c : N) : c < 128 -> upperUnit c = if isLowerAscii c then c - 32 else c.
Proof. intros H. unfold upperUnit. apply N.ltb_lt in H. now rewrite H. Qed.

Lemma upperUnit_above (c : N) : 128 <= c -> 128 <= upperUnit c.
Proof.
  intros H. unfold upperUnit. apply N.ltb_ge in H as H'. rewrite H'.
  apply imageIn_ge; [exact upperRuns_images | exact H].
Qed.

Lemma lowerOfUpper_ascii (u : N) :
  u < 128 -> lowerOfUpper u = if isUpperAscii u then [u + 32] else [].
Proof. intros H. unfold lowerOfUpper. apply N.ltb_lt in H. now rewrite H. Qed.

Lemma lowerOfUpper_above (u : N) : 128 <= u -> Forall (fun x => 128 <= x) (lowerOfUpper u).
Proof.
  intros H. unfold lowerOfUpper. apply N.ltb_ge in H as H'. rewrite H'.
  apply sourcesIn_ge. exact upperRuns_firsts.
Qed.

Lemma upperUnit_digit (c : N) : isDigit (upperUnit c) = true -> isDigit c = true.
Proof.
  intros H. destruct (N.lt_ge_cases c 128) as [Hc | Hc].
  - rewrite (upperUnit_ascii c Hc) in H.
    destruct (isLowerAscii c) eqn:E; [exfalso; boolN; lia | exact H].
  - pose proof (upperUnit_above c Hc). exfalso. boolN. lia.
Qed.

Lemma lowerOfUpper_digit (u : N) : Forall (fun x => isDigit x = false) (lowerOfUpper u).
Proof.
  assert (Hnot : forall x, 97 <= x -> isDigit x = false).
  { intros x Hx. unfold isDigit, between. apply andb_false_iff. right.
    apply N.leb_gt. lia. }
  destruct (N.lt_ge_cases u 128) as [Hu | Hu].
  - rewrite (lowerOfUpper_ascii u Hu).
    destruct (isUpperAscii u) eqn:E; [|constructor].
    constructor; [|constructor]. apply Hnot. boolN. lia.
  - apply (Forall_impl _ _ _ (lowerOfUpper_above u Hu)). intros x Hx. apply Hnot. lia.
Qed.

Lemma upperUnit_digit_id (c : N) : isDigit c = true -> upperUnit c = c.
Proof.
  intros Hd. rewrite upperUnit_ascii by (boolN; lia).
  destruct (isLowerAscii c) eqn:E; [boolN; lia | reflexivity].
Qed.

Lemma lowerOfUpper_digit_id (c : N) : isDigit c = true -> lowerOfUpper c = [].
Proof.
  intros Hd. rewrite lowerOfUpper_ascii by (boolN; lia).
  destruct (isUpperAscii c) eqn:E; [boolN; lia | reflexivity].
Qed.

Lemma upperUnit_lower (c : N) : isLowerAscii c = true -> upperUnit c = c - 32.
Proof. intros H. rewrite upperUnit_ascii by (boolN; lia). now rewrite H. Qed.

Lemma lowerOfUpper_upper (c : N) : isLowerAscii c = true -> lowerOfUpper (c - 32) = [c].
Proof.
  intros H. rewrite lowerOfUpper_ascii by (boolN; lia).
  replace (isUpperAscii (c - 32)) with true
    by (symmetry; boolN; apply andb_true_iff; rewrite !N.leb_le; lia).
  f_equal. boolN. lia.
Qed.

Lemma codeUnits_not_digit (c : N) :
  isDigit c = false -> codeUnits c <> [] /\ digitFree (codeUnits c).
Proof.
  intros H. unfold codeUnits. destruct (c <? 65536).
  - split; [discriminate | now repeat constructor].
  - split; [discriminate|].
    constructor; [|constructor; [|constructor]];
      unfold isDigit, between; apply andb_false_iff; right; apply N.leb_gt;
      (eapply N.lt_le_trans; [|apply N.le_add_r]); lia.
Qed.

Lemma lowerAt_units (b : bool) (c : N) (after : list N) :
  isDigit c = false ->
  ofCodePoints (lowerAt b c after) <> []
  /\ digitFree (ofCodePoints (lowerAt b c after)).
Proof.
  intros H. unfold lowerAt, lowerPoint.
  destruct (c =? 931).
  { destruct (b && negb (casedAhead after));
      (split; [discriminate | vm_compute; repeat constructor]). }
  destruct (c =? 304).
  { split; [discriminate | vm_compute; repeat constructor]. }
  unfold ofCodePoints. cbn [flat_map]. rewrite app_nil_r.
  now apply codeUnits_not_digit, lowerSimple_not_digit.
Qed.

(** One step of lower-casing: the first code point, one or two code
    units [u], gives the code units [B]; a digit gives itself, and
    anything else something without a digit and not empty. *)
Lemma lowerCaseFrom_step (b : bool) (c : N) (s : list N) :
  exists (u r B : list N) (b' : bool),
    c :: s = u ++ r /\ (length r <= length s)%nat
    /\ lowerCaseFrom b (c :: s) = B ++ lowerCaseFrom b' r
    /\ ((isDigit c = true /\ u = [c] /\ B = [c])
        \/ (isDigit c = false /\ digitFree u /\ B <> [] /\ digitFree B)).
Proof.
  assert (Hone : codePoints (c :: s) = c :: codePoints s ->
    exists (u r B : list N) (b' : bool),
      c :: s = u ++ r /\ (length r <= length s)%nat
      /\ lowerCaseFrom b (c :: s) = B ++ lowerCaseFrom b' r
      /\ ((isDigit c = true /\ u = [c] /\ B = [c])
          \/ (isDigit c = false /\ digitFree u /\ B <> [] /\ digitFree B))).
  { intros Hcp.
    exists [c], s, (ofCodePoints (lowerAt b c (codePoints s))), (seenCased b c).
    split; [reflexivity|]. split; [lia|].
    split; [unfold lowerCaseFrom; rewrite Hcp; cbn [lowerPoints]; apply ofCodePoints_app|].
    destruct (isDigit c) eqn:Hd.
    - left. repeat split.
      rewrite (lowerAt_ascii _ _ _ (digit_ascii c Hd)), (digit_lowerSimple c Hd).
      unfold ofCodePoints. cbn [flat_map].
      rewrite codeUnits_small by (pose proof (digit_ascii c Hd); lia). reflexivity.
    - right. destruct (lowerAt_units b c (codePoints s) Hd) as [Hn Hf].
      repeat split; [now repeat constructor | exact Hn | exact Hf]. }
  destruct s as [|d s]; [apply Hone; reflexivity|].
  destruct (isLeadSurrogate c && isTrailSurrogate d) eqn:Hp.
  2:{ apply Hone. now rewrite codePoints_pair, Hp. }
  set (cp := 65536 + (c - 55296) * 1024 + (d - 56320)).
  assert (Hcp : isDigit cp = false).
  { unfold isDigit, between. apply andb_false_iff. right. apply N.leb_gt. unfold cp. lia. }
  apply andb_true_iff in Hp as Hp'. destruct Hp' as [Hc Hd].
  unfold isLeadSurrogate, isTrailSurrogate, between in Hc, Hd.
  apply andb_true_iff in Hc as [Hc _]. apply andb_true_iff in Hd as [Hd _].
  apply N.leb_le in Hc, Hd.
  assert (Hdc : isDigit c = false).
  { unfold isDigit, between. apply andb_false_iff. right. apply N.leb_gt. lia. }
  assert (Hdd : isDigit d = false).
  { unfold isDigit, between. apply andb_false_iff. right. apply N.leb_gt. lia. }
  exists [c; d], s, (ofCodePoints (lowerAt b cp (codePoints s))), (seenCased b cp).
  split; [reflexivity|]. split; [cbn [length]; lia|].
  split.
  { unfold lowerCaseFrom. rewrite codePoints_pair, Hp. fold cp.
    cbn [lowerPoints]. apply ofCodePoints_app. }
  right. destruct (lowerAt_units b cp (codePoints s) Hcp) as [Hn Hf].
  repeat split; [exact Hdc | now repeat constructor | exact Hn | exact Hf].
Qed.

Lemma digitRun_digitFree (a s : list N) :
  a <> [] -> digitFree a -> digitRun (a ++ s) = 0%nat.
Proof.
  intros Hn Hf. destruct Hf as [|c a Hc Ha]; [congruence|].
  cbn [app digitRun]. now rewrite Hc.
Qed.

Lemma hasFourDigits_digitFree (a s : list N) :
  digitFree a -> hasFourDigits (a ++ s) = hasFourDigits s.
Proof.
  induction 1 as [|c a Hc Ha IH]; [reflexivity|].
  change (Nat.leb 4 (digitRun (c :: a ++ s)) || hasFourDigits (a ++ s) = hasFourDigits s).
  cbn [digitRun]. now rewrite Hc, IH.
Qed.

Lemma lowerCaseFrom_digits (n : nat) :
  forall (s : list N) (b : bool), (length s < n)%nat ->
  digitRun (lowerCaseFrom b s) = digitRun s
  /\ hasFourDigits (lowerCaseFrom b s) = hasFourDigits s
  /\ (digitFree s -> digitFree (lowerCaseFrom b s)).
Proof.
  induction n as [|n IH]; intros s b Hlen; [lia|].
  destruct s as [|c s]; [repeat split; constructor|].
  destruct (lowerCaseFrom_step b c s) as (u & r & B & b' & Hs & Hr & HB & Hcase).
  cbn [length] in Hlen.
  destruct (IH r b' ltac:(lia)) as (IH1 & IH2 & IH3).
  rewrite HB. destruct Hcase as [(Hd & -> & ->) | (Hd & Hu & HBn & HBf)].
  - cbn [app] in Hs. injection Hs as <-.
    assert (Hrun : digitRun (c :: lowerCaseFrom b' s) = digitRun (c :: s)).
    { cbn [digitRun]. now rewrite Hd, IH1. }
    split; [exact Hrun|]. split.
    + change (Nat.leb 4 (digitRun (c :: lowerCaseFrom b' s))
              || hasFourDigits (lowerCaseFrom b' s)
              = Nat.leb 4 (digitRun (c :: s)) || hasFourDigits s).
      now rewrite Hrun, IH2.
    + intros Hf. inversion Hf; congruence.
  - split; [|split].
    + rewrite (digitRun_digitFree _ _ HBn HBf). cbn [digitRun]. now rewrite Hd.
    + rewrite (hasFourDigits_digitFree _ _ HBf), IH2, Hs.
      symmetry. now apply hasFourDigits_digitFree.
    + intros Hf. apply Forall_app. split; [exact HBf|]. apply IH3.
      unfold digitFree in Hf. rewrite Hs in Hf. now apply Forall_app in Hf as [_ Hf].
Qed.

Lemma digitRun_toLowerCase (s : list N) : digitRun (toLowerCase s) = digitRun s.
Proof. apply (lowerCaseFrom_digits (S (length s))). lia. Qed.

Lemma hasFourDigits_toLowerCase (s : list N) :
  hasFourDigits (toLowerCase s) = hasFourDigits s.
Proof. apply (lowerCaseFrom_digits (S (length s))). lia. Qed.


End LowerCase.

(** ** The date normalizer needs a year *)

Section YearRequired.

Lemma digitRun_app_ge (p r : list N) : (digitRun p <= digitRun (p ++ r))%nat.
Proof.
  induction p as [|c p IH]; simpl; [lia|]. destruct (isDigit c); lia.
Qed.

Lemma hasFourDigits_prefix (p r : list N) :
  hasFourDigits p = true -> hasFourDigits (p ++ r) = true.
Proof.
  induction p as [|c p IH]; [discriminate|].
  change (Nat.leb 4 (digitRun (c :: p)) || hasFourDigits p = true ->
          Nat.leb 4 (digitRun ((c :: p) ++ r)) || hasFourDigits (p ++ r) = true).
  intros H. apply orb_true_iff in H as [H | H]; apply orb_true_iff.
  - left. apply Nat.leb_le in H. apply Nat.leb_le.
    pose proof (digitRun_app_ge (c :: p) r). lia.
  - right. now apply IH.
Qed.

Lemma hasFourDigits_suffix (l s : list N) :
  hasFourDigits s = true -> hasFourDigits (l ++ s) = true.
Proof.
  intros H. induction l as [|c l IH]; [exact H|].
  change (Nat.leb 4 (digitRun (c :: l ++ s)) || hasFourDigits (l ++ s) = true).
  rewrite IH. apply orb_true_r.
Qed.

Lemma hasFourDigits_run (ds b : list N) :
  Forall (fun c => isDigit c = true) ds -> (4 <= length ds)%nat ->
  hasFourDigits (ds ++ b) = true.
Proof.
  intros Hd Hl.
  assert (Hrun : (length ds <= digitRun (ds ++ b))%nat).
  { clear Hl. induction Hd as [|c ds Hc Hd IH]; simpl; [lia|]. rewrite Hc. lia. }
  destruct ds as [|c ds]; [simpl in Hl; lia|].
  change (Nat.leb 4 (digitRun ((c :: ds) ++ b)) || hasFourDigits (ds ++ b) = true).
  apply orb_true_iff. left. apply Nat.leb_le. lia.
Qed.

Lemma trimStart_suffix (s : list N) : exists l, s = l ++ trimStart s.
Proof.
  induction s as [|c s [l IH]]; [now exists []|]. simpl.
  destruct (isWhite c); [|now exists []].
  exists (c :: l). simpl. now rewrite <- IH.
Qed.

Lemma hasFourDigits_trim (s : list N) :
  hasFourDigits (trim s) = true -> hasFourDigits s = true.
Proof.
  unfold trim, trimEnd. intros H.
  destruct (trimStart_suffix s) as [l Hl]. rewrite Hl. apply hasFourDigits_suffix.
  destruct (trimStart_suffix (rev (trimStart s))) as [l' Hl'].
  apply (f_equal (@rev N)) in Hl'. rewrite rev_involutive, rev_app_distr in Hl'.
  rewrite Hl'. now apply hasFourDigits_prefix.
Qed.

Ltac caseIfs :=
  repeat match goal with
  | H : context [if ?b then _ else _] |- _ => destruct b eqn:?
  end.

(** Under either setting of the [i] flag, [\d] matches decimal digits
    only. *)
Lemma digit_class (ic : bool) (c : N) :
  classHas ic false [(48, 57)]%N c = true -> isDigit c = true.
Proof.
  assert (Hin : forall x, inRanges [(48, 57)]%N x = isDigit x).
  { intros x. unfold inRanges. cbn [existsb fst snd]. apply orb_false_r. }
  unfold classHas, caseVariants. cbn [xorb].
  destruct ic; [|now rewrite Hin].
  intros H. apply existsb_exists in H as (x & Hx & Hd). rewrite Hin in Hd.
  destruct Hx as [<- | [<- | Hx]]; [exact Hd | now apply upperUnit_digit|].
  pose proof (lowerOfUpper_digit (upperUnit c)) as Hf.
  rewrite List.Forall_forall in Hf. specialize (Hf x Hx). congruence.
Qed.

Lemma lang_digits (ic : bool) (ws : list (list N)) :
  Forall (lang ic digit) ws ->
  Forall (fun c => isDigit c = true) (concat ws) /\ length (concat ws) = length ws.
Proof.
  induction 1 as [|w ws [c [-> Hc]] Hws [IH1 IH2]]; simpl; [split; [constructor | reflexivity]|].
  split; [constructor; [now apply (digit_class ic) | exact IH1] | now rewrite IH2].
Qed.

(** A text of the date pattern's shape ends in four decimal digits. *)
Lemma lang_datePattern_year (ic : bool) (w : list N) :
  lang ic datePattern w ->
  exists a ds, w = a ++ ds /\ Forall (fun c => isDigit c = true) ds
               /\ (4 <= length ds)%nat.
Proof.
  unfold datePattern. simpl.
  intros (w1 & r1 & -> & _ & w2 & r2 & -> & _ & w3 & r3 & -> & _ & w4 & w5 & -> & _
          & ws & Hws & -> & Hn).
  apply lang_digits in Hws as [Hd Hl].
  exists (w1 ++ w2 ++ w3 ++ w4), (concat ws).
  split; [now rewrite <- !app_assoc|]. split; [exact Hd|].
  rewrite Hl. destruct Hn as [Hn | [= Hn]]; lia.
Qed.

Lemma matchAt_no_year (ic : bool) (st : mstate) :
  hasFourDigits (rest st) = false -> matchAt ic datePattern st = None.
Proof.
  intros Hs. unfold matchAt.
  match goal with |- context [m ?a ?b ?c ?d] => destruct (m a b c d) eqn:Hm end;
    [|reflexivity].
  apply m_sound in Hm as (st' & w & _ & Hw & Hr). simpl in Hr.
  apply lang_datePattern_year in Hw as (a & ds & -> & Hd & Hl).
  rewrite Hr, <- app_assoc in Hs.
  rewrite (hasFourDigits_suffix a _ (hasFourDigits_run ds _ Hd Hl)) in Hs.
  discriminate.
Qed.

Lemma search_unfold (ic : bool) (r : regex) (p : option N) (i : nat) (s : list N) :
  search ic r p i s
  = match matchAt ic r (MState p s i []) with
    | Some mt => Some mt
    | None => match s with
              | [] => None
              | c :: s' => search ic r (Some c) (S i) s'
              end
    end.
Proof. destruct s; reflexivity. Qed.

Lemma search_no_year (ic : bool) (s : list N) (p : option N) (i : nat) :
  hasFourDigits s = false -> search ic datePattern p i s = None.
Proof.
  revert p i. induction s as [|c s IH]; intros p i Hs;
    rewrite search_unfold, matchAt_no_year by exact Hs; [reflexivity|].
  apply IH.
  change (Nat.leb 4 (digitRun (c :: s)) || hasFourDigits s = false) in Hs.
  now apply orb_false_iff in Hs as [_ Hs].
Qed.

(** C1, amended.  parseItalianDate requires the four-digit year: on an
    input without four decimal digits in a row it returns null, whatever
    day and month the input names. *)
Theorem parseItalianDate_requires_year (h : Host) (dateStr : list N) :
  hasFourDigits dateStr = false -> parseItalianDate h dateStr = None.
Proof.
  intros Hs. unfold parseItalianDate.
  assert (Hn : hasFourDigits (trim (toLowerCase dateStr)) = false).
  { destruct (hasFourDigits (trim (toLowerCase dateStr))) eqn:E; [|reflexivity].
    apply hasFourDigits_trim in E. rewrite hasFourDigits_toLowerCase in E. congruence. }
  unfold matchAll. cbn [matchesFrom prev pos rest].
  now rewrite (search_no_year true _ None 0 Hn).
Qed.

End YearRequired.

(** A day and a recognized month without a year: null, not a date in the
    current year. *)
Lemma parseItalianDate_requires_year_witness :
  hasFourDigits (str "7 novembre") = false
  /\ parseItalianDate cetHost (str "7 novembre") = None.
Proof.
  split; [reflexivity|].
  apply (parseItalianDate_requires_year cetHost (str "7 novembre")). reflexivity.
Defined.

(** C1, as stated, fails: "7 novembre" holds a one-digit day and a
    recognized month and no year, and parseItalianDate returns null for
    it; with the year written out the same text parses. *)
Lemma parseItalianDate_no_default_year :
  parseItalianDate cetHost (str "7 novembre") = None
  /\ (forall t, parseItalianDate cetHost (str "7 novembre") <> Some (Time t))
  /\ parseItalianDate cetHost (str "7 novembre 2025") = Some (Time 1762470000000).
Proof.
  split; [vm_compute; reflexivity|]. split; [|vm_compute; reflexivity].
  intros t. vm_compute. discriminate.
Qed.

(** For the same text parseSagradateText, which finds no year in it,
    writes the current year behind the day and the month before it calls
    the normalizer, and so gets a date. *)
Lemma parseSagradateText_default_year :
  Assosagre.parseSagradateText utcHost nov7 (str "7 novembre")
  = Ok {| pStartDate := Some (str "2025-11-07"); pEndDate := Some (str "2025-11-07") |}.
Proof. vm_compute. reflexivity. Qed.

(** ** The documented range examples *)

(** C6.  On a host one hour east of UTC the two documented inputs give
    start and end dates one day early: the parsed date is local midnight,
    and the calendar day is read off its UTC form. *)
Theorem parseSagradateText_examples_east_of_utc :
  Assosagre.parseSagradateText cetHost nov7 (str "7-8-14-15 Novembre 2025")
  = Ok {| pStartDate := Some (str "2025-11-06"); pEndDate := Some (str "2025-11-14") |}
  /\ Assosagre.parseSagradateText cetHost nov7 (str "31 Ottobre 1-2 Novembre 2025")
     = Ok {| pStartDate := Some (str "2025-10-30"); pEndDate := Some (str "2025-11-01") |}.
Proof. split; vm_compute; reflexivity. Qed.

(** On a host on UTC the same inputs give the documented dates. *)
Lemma parseSagradateText_examples_on_utc :
  Assosagre.parseSagradateText utcHost nov7 (str "7-8-14-15 Novembre 2025")
  = Ok {| pStartDate := Some (str "2025-11-07"); pEndDate := Some (str "2025-11-15") |}
  /\ Assosagre.parseSagradateText utcHost nov7 (str "31 Ottobre 1-2 Novembre 2025")
     = Ok {| pStartDate := Some (str "2025-10-31"); pEndDate := Some (str "2025-11-02") |}.
Proof. split; vm_compute; reflexivity. Qed.

(** The dates the normalizer itself builds are the documented ones; the
    day is lost only in the conversion to text. *)
Lemma parseItalianDate_examples_local_day :
  parseItalianDate cetHost (str "7 Novembre 2025") = Some (Time 1762470000000)
  /\ getDate cetHost 1762470000000 = 7 /\ getMonth cetHost 1762470000000 = 10
  /\ getFullYear cetHost 1762470000000 = 2025
  /\ isoDay 1762470000000 = str "2025-11-06".
Proof. repeat split; vm_compute; reflexivity. Qed.

(** Boolean comparisons on code units, turned into arithmetic. *)
Ltac boolArith :=
  unfold isAsciiLetter, isDigit, isUpperAscii, isLowerAscii, between in *;
  repeat match goal with
  | H : (_ && _)%bool = true |- _ => apply andb_true_iff in H; destruct H
  | H : (_ && _)%bool = false |- _ => apply andb_false_iff in H
  | H : (_ || _)%bool = true |- _ => apply orb_true_iff in H
  | H : (_ || _)%bool = false |- _ => apply orb_false_iff in H; destruct H
  | H : negb _ = true |- _ => apply negb_true_iff in H
  | H : negb _ = false |- _ => apply negb_false_iff in H
  | H : (_ <=? _)%N = true |- _ => apply N.leb_le in H
  | H : (_ <=? _)%N = false |- _ => apply N.leb_gt in H
  | H : (_ =? _)%N = true |- _ => apply N.eqb_eq in H
  | H : (_ =? _)%N = false |- _ => apply N.eqb_neq in H
  | H : _ \/ _ |- _ => destruct H
  end.

Ltac splitIfs :=
  repeat match goal with
  | H : context [if ?b then _ else _] |- _ => destruct b eqn:?
  end.

Ltac refute := apply not_true_is_false; intros Hclass; simpl in Hclass; splitIfs; boolArith; lia.

(** ** Greedy quantifiers over a class read a whole run *)

Section Runs.
Variable ic : bool.

Lemma mstate_eta (st : mstate) : MState (prev st) (rest st) (pos st) (caps st) = st.
Proof. now destruct st. Qed.

Lemma after_nil (st : mstate) : after st [] (rest st) = st.
Proof. unfold after. simpl. rewrite Nat.add_0_r. apply mstate_eta. Qed.

Lemma after_cons (st : mstate) (c : N) (run tail : list N) :
  after (MState (Some c) (run ++ tail) (S (pos st)) (caps st)) run tail
  = after st (c :: run) tail.
Proof.
  unfold after. simpl. f_equal; [|lia].
  destruct run as [|x run]; [reflexivity|]. simpl.
  destruct (last (x :: run)) eqn:E; [reflexivity|].
  apply last_None in E. discriminate.
Qed.

(** A greedy quantifier over a class, standing before a run of the class
    that ends the input, or is followed by a unit outside the class, or
    fills the maximum: when the continuation accepts the state after the
    run, that is the result. *)
Lemma repeat_class_run (neg : bool) (rs : list (N * N)) (k : mstate -> option mstate)
    (res : mstate) (tail : list N) :
  forall (run : list N) (st : mstate) (fuel lo : nat) (hi : option nat),
    rest st = run ++ tail ->
    Forall (fun c => classHas ic neg rs c = true) run ->
    (lo <= length run)%nat ->
    (hi = Some (length run)
     \/ (match hi with Some x => (length run <= x)%nat | None => True end
         /\ match tail with [] => True | c :: _ => classHas ic neg rs c = false end)) ->
    (length run < fuel)%nat ->
    k (after st run tail) = Some res ->
    repeatMatcher (m ic (Class neg rs)) true k fuel lo hi st = Some res.
Proof.
  induction run as [|c run IH]; intros st fuel lo hi Hr Hrun Hlo Hhi Hfuel Hk.
  - simpl in *. subst tail. rewrite after_nil in Hk.
    destruct fuel as [|fuel]; [lia|]. simpl.
    destruct hi as [[|x]|]; [exact Hk | |];
      (replace (Nat.ltb 0 lo) with false by (symmetry; apply Nat.ltb_ge; lia));
      (destruct Hhi as [Hhi | [_ Hhi]]; [discriminate|]);
      (destruct (rest st) as [|c s']; [exact Hk|]); rewrite Hhi; exact Hk.
  - destruct fuel as [|fuel]; [simpl in Hfuel; lia|].
    inversion Hrun as [|? ? Hc Hrun']; subst.
    cbn [repeatMatcher]. cbv zeta.
    match goal with |- context [m ic (Class neg rs) st ?dd] => set (d := dd) end.
    assert (Hstep : m ic (Class neg rs) st d = Some res).
    { subst d. cbn [m]. rewrite Hr. cbn [app]. rewrite Hc. cbn [pos].
      replace (Nat.eqb (S (pos st)) (pos st)) with false
        by (symmetry; apply Nat.eqb_neq; lia).
      rewrite andb_false_r.
      apply (IH (MState (Some c) (run ++ tail) (S (pos st)) (caps st))).
      - reflexivity.
      - exact Hrun'.
      - simpl in Hlo. lia.
      - destruct Hhi as [-> | [Hhi Ht]]; [now left|]. right. split; [|exact Ht].
        destruct hi as [x|]; simpl in *; [lia | exact I].
      - simpl in Hfuel. lia.
      - now rewrite after_cons. }
    destruct hi as [[|x]|].
    + exfalso. destruct Hhi as [Hhi | [Hhi _]]; simpl in Hhi; [discriminate | lia].
    + destruct (Nat.ltb 0 lo); [exact Hstep|]. unfold orElse. now rewrite Hstep.
    + destruct (Nat.ltb 0 lo); [exact Hstep|]. unfold orElse. now rewrite Hstep.
Qed.

Lemma m_repeat_class (neg : bool) (rs : list (N * N)) (k : mstate -> option mstate)
    (res : mstate) (run tail : list N) (st : mstate) (lo : nat) (hi : option nat) :
  rest st = run ++ tail ->
  Forall (fun c => classHas ic neg rs c = true) run ->
  (lo <= length run)%nat ->
  (hi = Some (length run)
   \/ (match hi with Some x => (length run <= x)%nat | None => True end
       /\ match tail with [] => True | c :: _ => classHas ic neg rs c = false end)) ->
  k (after st run tail) = Some res ->
  m ic (Repeat lo hi true (Class neg rs)) st k = Some res.
Proof.
  intros Hr Hrun Hlo Hhi Hk. cbn [m].
  apply (repeat_class_run neg rs k res tail run); try assumption.
  rewrite Hr, length_app. lia.
Qed.

Lemma consumed_after (st : mstate) (run tail : list N) :
  rest st = run ++ tail -> consumed st (after st run tail) = run.
Proof.
  intros Hr. unfold consumed, after. simpl. rewrite Hr.
  replace (pos st + length run - pos st)%nat with (length run) by lia.
  apply take_app_length.
Qed.

Lemma m_group_repeat_class (n : nat) (neg : bool) (rs : list (N * N))
    (k : mstate -> option mstate) (res : mstate) (run tail : list N) (st : mstate)
    (lo : nat) (hi : option nat) :
  rest st = run ++ tail ->
  Forall (fun c => classHas ic neg rs c = true) run ->
  (lo <= length run)%nat ->
  (hi = Some (length run)
   \/ (match hi with Some x => (length run <= x)%nat | None => True end
       /\ match tail with [] => True | c :: _ => classHas ic neg rs c = false end)) ->
  k (setCap n run (after st run tail)) = Some res ->
  m ic (Group n (Repeat lo hi true (Class neg rs))) st k = Some res.
Proof.
  intros Hr Hrun Hlo Hhi Hk. cbn [m].
  apply (repeat_class_run neg rs _ res tail run); try assumption.
  - rewrite Hr, length_app. lia.
  - now rewrite consumed_after.
Qed.

End Runs.

(** ** The date pattern on a text of triples *)

Section Triples.


(** On a digit and on a lower-case letter, what a class says under the
    [i] flag is what its ranges say of the unit and of its upper case. *)
Lemma classHas_digit (rs : list (N * N)) (c : N) :
  isDigit c = true -> classHas true false rs c = inRanges rs c.
Proof.
  intros Hd. unfold classHas, caseVariants.
  rewrite (upperUnit_digit_id c Hd), (lowerOfUpper_digit_id c Hd). cbn [existsb xorb].
  destruct (inRanges rs c); reflexivity.
Qed.

Lemma classHas_lower (rs : list (N * N)) (c : N) :
  isLowerAscii c = true ->
  classHas true false rs c = inRanges rs c || inRanges rs (c - 32).
Proof.
  intros Hl. unfold classHas, caseVariants.
  rewrite (upperUnit_lower c Hl), (lowerOfUpper_upper c Hl). cbn [existsb xorb].
  destruct (inRanges rs c), (inRanges rs (c - 32)); reflexivity.
Qed.

Lemma digit_is_digit (c : N) : isDigit c = true -> classHas true false digitRanges c = true.
Proof. intros Hd. rewrite classHas_digit by exact Hd. simpl. now rewrite orb_false_r. Qed.

Lemma digit_not_white (c : N) : isDigit c = true -> classHas true false whiteRanges c = false.
Proof.
  intros Hd. rewrite classHas_digit by exact Hd.
  unfold inRanges, whiteRanges. refute.
Qed.

Lemma digit_not_letter (c : N) : isDigit c = true -> classHas true false lettersRanges c = false.
Proof.
  intros Hd. rewrite classHas_digit by exact Hd.
  unfold inRanges, lettersRanges. refute.
Qed.

Lemma lower_is_letter (c : N) :
  isLowerAscii c = true -> classHas true false lettersRanges c = true.
Proof.
  intros Hl. rewrite classHas_lower by exact Hl. unfold inRanges, lettersRanges. simpl.
  fold (isLowerAscii c). now rewrite Hl.
Qed.

Lemma lower_not_white (c : N) :
  isLowerAscii c = true -> classHas true false whiteRanges c = false.
Proof.
  intros Hl. rewrite classHas_lower by exact Hl.
  unfold inRanges, whiteRanges. refute.
Qed.

Lemma lower_not_digit (c : N) :
  isLowerAscii c = true -> classHas true false digitRanges c = false.
Proof.
  intros Hl. rewrite classHas_lower by exact Hl.
  unfold inRanges, digitRanges. refute.
Qed.


Lemma datePattern_unfold (st : mstate) (k : mstate -> option mstate) :
  m true datePattern st k
  = m true (Group 1 (Repeat 1 (Some 2%nat) true (Class false digitRanges))) st
      (fun st1 => m true (Repeat 1 None true (Class false whiteRanges)) st1
      (fun st2 => m true (Group 2 (Repeat 1 None true (Class false lettersRanges))) st2
      (fun st3 => m true (Repeat 1 None true (Class false whiteRanges)) st3
      (fun st4 => m true (Group 3 (Repeat 4 (Some 4%nat) true (Class false digitRanges)))
                    st4 k)))).
Proof. reflexivity. Qed.

(** At the start of a triple the pattern matches the whole triple and
    captures its three parts. *)
Lemma datePattern_at_triple (t : triple) (tail : list N) (st : mstate) :
  lowTriple t -> rest st = render t ++ tail ->
  (match tail with [] => True | c :: _ => c = 32%N end) ->
  exists e, m true datePattern st Some = Some e
            /\ rest e = tail /\ caps e = tripleCaps t ++ caps st
            /\ pos e = (pos st + length (render t))%nat.
Proof.
  intros [(Hdl & Hd & Hwn & _ & Hyl & Hy) Hw] Hr Htail.
  destruct t as [D W Y]. unfold render, tripleCaps in *.
  cbn [tDay tWord tYear] in *.
  destruct W as [|w0 W]; [congruence|].
  destruct Y as [|y0 [|y1 [|y2 [|y3 [|]]]]]; try discriminate Hyl.
  rewrite <- !app_assoc in Hr. simpl in Hr.
  eexists. split.
  { rewrite datePattern_unfold.
    eapply (m_group_repeat_class true 1 false digitRanges _ _ D); cycle -1.
    { cbv beta.
      eapply (m_repeat_class true false whiteRanges _ _ [32%N]); cycle -1.
      { cbv beta.
        eapply (m_group_repeat_class true 2 false lettersRanges _ _ (w0 :: W)); cycle -1.
        { cbv beta.
          eapply (m_repeat_class true false whiteRanges _ _ [32%N]); cycle -1.
          { cbv beta.
            eapply (m_group_repeat_class true 3 false digitRanges _ _ [y0; y1; y2; y3]);
              cycle -1.
            { reflexivity. }
            - simpl. reflexivity.
            - apply (Forall_impl _ _ _ Hy). intros c. apply digit_is_digit.
            - simpl. lia.
            - now left. }
          - simpl. reflexivity.
          - repeat constructor.
          - simpl. lia.
          - right. split; [exact I|]. inversion Hy. now apply digit_not_white. }
        - simpl. reflexivity.
        - apply (Forall_impl _ _ _ Hw). intros c. apply lower_is_letter.
        - simpl. lia.
        - right. split; [exact I|]. reflexivity. }
      - simpl. reflexivity.
      - repeat constructor.
      - simpl. lia.
      - right. split; [exact I|]. inversion Hw. now apply lower_not_white. }
    - exact Hr.
    - apply (Forall_impl _ _ _ Hd). intros c. apply digit_is_digit.
    - lia.
    - destruct Hdl as [Hdl | Hdl]; [right | left; now rewrite Hdl].
      split; [rewrite Hdl; lia | reflexivity]. }
  simpl. split; [reflexivity|]. split; [reflexivity|].
  rewrite !length_app. simpl. rewrite !length_app. simpl. lia.
Qed.

End Triples.

Section LastTriple.

Lemma matchAt_at_triple (t : triple) (tail : list N) (st : mstate) :
  lowTriple t -> rest st = render t ++ tail ->
  (match tail with [] => True | c :: _ => c = 32%N end) ->
  exists mt, matchAt true datePattern st = Some mt
             /\ groups mt = tripleCaps t /\ index mt = pos st
             /\ rest (stop mt) = tail
             /\ pos (stop mt) = (pos st + length (render t))%nat.
Proof.
  intros Ht Hr Htail.
  destruct (datePattern_at_triple t tail (MState (prev st) (rest st) (pos st) [])
              Ht Hr Htail) as (e & Hm & He & Hc & Hp).
  unfold matchAt. rewrite Hm. eexists. split; [reflexivity|]. simpl.
  rewrite Hc, app_nil_r. auto.
Qed.

Lemma m_class_fail (ic neg : bool) (rs : list (N * N)) (st : mstate)
    (k : mstate -> option mstate) :
  match rest st with [] => True | c :: _ => classHas ic neg rs c = false end ->
  m ic (Class neg rs) st k = None.
Proof.
  intros H. cbn [m]. destruct (rest st) as [|c s']; [reflexivity|]. now rewrite H.
Qed.

(** A quantifier that needs at least one iteration fails where its class
    does not match. *)
Lemma repeatMatcher_class_fail (ic neg : bool) (rs : list (N * N)) (st : mstate)
    (k : mstate -> option mstate) (greedy : bool) (fuel lo : nat) (hi : option nat) :
  match rest st with [] => True | c :: _ => classHas ic neg rs c = false end ->
  (0 < lo)%nat -> hi <> Some 0%nat ->
  repeatMatcher (m ic (Class neg rs)) greedy k fuel lo hi st = None.
Proof.
  intros H Hlo Hhi. destruct fuel as [|fuel]; [reflexivity|].
  cbn [repeatMatcher]. cbv zeta.
  replace (Nat.ltb 0 lo) with true by (symmetry; now apply Nat.ltb_lt).
  destruct hi as [[|x]|]; [congruence | |]; now apply m_class_fail.
Qed.

(** Where the input is over, or the next unit is no digit, the pattern
    does not match. *)
Lemma matchAt_no_digit (st : mstate) :
  match rest st with [] => True | c :: _ => classHas true false digitRanges c = false end ->
  matchAt true datePattern st = None.
Proof.
  intros Hc. unfold matchAt. rewrite datePattern_unfold.
  change (m true (Group 1 (Repeat 1 (Some 2%nat) true (Class false digitRanges))) ?s ?k)
    with (repeatMatcher (m true (Class false digitRanges)) true
            (fun st1 => k (setCap 1 (consumed s st1) st1))
            (S (1 + length (rest s))) 1 (Some 2%nat) s).
  rewrite repeatMatcher_class_fail; [reflexivity | exact Hc | lia | discriminate].
Qed.

Lemma matchesFrom_skip (fuel : nat) (r : regex) (e : mstate) (c : N) (s : list N) :
  rest e = c :: s ->
  matchAt true r (MState (prev e) (c :: s) (pos e) []) = None ->
  matchesFrom fuel true r e
  = matchesFrom fuel true r (MState (Some c) s (S (pos e)) []).
Proof.
  intros Hr Hn. destruct fuel as [|fuel]; [reflexivity|].
  cbn [matchesFrom prev pos rest]. rewrite Hr, search_unfold, Hn. reflexivity.
Qed.

Lemma render_length (t : triple) : (0 < length (render t))%nat.
Proof. unfold render. rewrite !length_app. simpl. lia. Qed.

Lemma renderAll_cons (t : triple) (ts : list triple) :
  ts <> [] -> renderAll (t :: ts) = render t ++ 32%N :: renderAll ts.
Proof. destruct ts as [|t' ts]; [congruence|]. reflexivity. Qed.

(** On a text of triples the last match is the last triple. *)
Lemma last_match_renderAll (ts : list triple) (t : triple) :
  Forall lowTriple ts -> lowTriple t ->
  forall (p : option N) (i fuel : nat),
    (0 < fuel)%nat ->
    (length ts < fuel)%nat ->
    exists mt,
      last (matchesFrom fuel true datePattern (MState p (renderAll (ts ++ [t])) i []))
      = Some mt
      /\ groups mt = tripleCaps t.
Proof.
  intros Hts Ht. induction Hts as [|t1 ts Ht1 Hts IH]; intros p i fuel Hf0 Hf.
  - destruct fuel as [|fuel]; [lia|].
    destruct (matchAt_at_triple t [] (MState p (render t) i []) Ht)
      as (mt & Hm & Hg & Hi & Hrest & Hpos);
      [simpl; now rewrite app_nil_r | exact I |].
    exists mt. split; [|exact Hg].
    change (renderAll ([] ++ [t])) with (render t).
    cbn [matchesFrom prev pos rest]. rewrite search_unfold, Hm.
    replace (Nat.eqb (pos (stop mt)) (index mt)) with false.
    2:{ symmetry. apply Nat.eqb_neq. rewrite Hpos, Hi. simpl.
        pose proof (render_length t). lia. }
    destruct fuel as [|fuel]; [reflexivity|].
    cbn [matchesFrom]. rewrite Hrest, search_unfold.
    rewrite matchAt_no_digit by exact I. reflexivity.
  - destruct fuel as [|fuel]; [lia|].
    assert (Hne : ts ++ [t] <> []) by (destruct ts; discriminate).
    change ((t1 :: ts) ++ [t]) with (t1 :: (ts ++ [t])).
    rewrite (renderAll_cons _ _ Hne).
    destruct (matchAt_at_triple t1 (32%N :: renderAll (ts ++ [t]))
                (MState p (render t1 ++ 32%N :: renderAll (ts ++ [t])) i []) Ht1)
      as (mt1 & Hm & Hg & Hi & Hrest & Hpos); [reflexivity | reflexivity |].
    cbn [matchesFrom prev pos rest]. rewrite search_unfold, Hm.
    replace (Nat.eqb (pos (stop mt1)) (index mt1)) with false.
    2:{ symmetry. apply Nat.eqb_neq. rewrite Hpos, Hi. simpl.
        pose proof (render_length t1). lia. }
    rewrite (matchesFrom_skip fuel datePattern (stop mt1) 32 (renderAll (ts ++ [t])) Hrest).
    2:{ apply matchAt_no_digit. reflexivity. }
    simpl in Hf.
    destruct (IH (Some 32%N) (S (pos (stop mt1))) fuel) as (mt & Hl & Hgm); [lia | lia |].
    exists mt. split; [|exact Hgm]. rewrite last_cons, Hl. reflexivity.
Qed.

End LastTriple.

(** ** The normalizer on a text of triples *)

Section TripleText.


Lemma digit_not_isWhite (c : N) : isDigit c = true -> isWhite c = false.
Proof.
  intros Hd. unfold isWhite, inRanges, whiteRanges.
  apply not_true_is_false. intros H. simpl in H. boolArith; lia.
Qed.

Lemma letter_ascii (c : N) : isAsciiLetter c = true -> (c < 128)%N.
Proof. unfold isAsciiLetter. intros H. boolArith; lia. Qed.

Lemma letter_lowerSimple (c : N) :
  isAsciiLetter c = true -> isLowerAscii (lowerSimple c) = true.
Proof.
  intros Hl. pose proof (letter_ascii c Hl) as Hc. unfold lowerSimple.
  apply N.ltb_lt in Hc. rewrite Hc.
  destruct (isUpperAscii c) eqn:H1.
  - boolArith; apply andb_true_iff; rewrite !N.leb_le; lia.
  - unfold isAsciiLetter in Hl. now rewrite H1, orb_false_r in Hl.
Qed.

Lemma lower_lowerSimple (c : N) : isLowerAscii c = true -> lowerSimple c = c.
Proof.
  intros Hl. apply lowerSimple_fixed; [boolArith; lia|].
  apply not_true_is_false. intros H. boolArith; lia.
Qed.

Lemma map_lowerSimple_digits (s : list N) :
  Forall (fun c => isDigit c = true) s -> map lowerSimple s = s.
Proof.
  induction 1 as [|c s Hc Hs IH]; [reflexivity|].
  cbn [map]. now rewrite (digit_lowerSimple c Hc), IH.
Qed.

Lemma digits_ascii (s : list N) :
  Forall (fun c => isDigit c = true) s -> Forall (fun c => (c < 128)%N) s.
Proof. intros H. apply (Forall_impl _ _ _ H). exact digit_ascii. Qed.

Lemma letters_ascii (s : list N) :
  Forall (fun c => isAsciiLetter c = true) s -> Forall (fun c => (c < 128)%N) s.
Proof. intros H. apply (Forall_impl _ _ _ H). exact letter_ascii. Qed.

Lemma toLowerCase_digits (s : list N) :
  Forall (fun c => isDigit c = true) s -> toLowerCase s = s.
Proof.
  intros H. unfold toLowerCase.
  now rewrite (lowerCaseFrom_ascii _ _ (digits_ascii _ H)), map_lowerSimple_digits.
Qed.

Lemma toLowerCase_lower (s : list N) :
  Forall (fun c => isLowerAscii c = true) s -> toLowerCase s = s.
Proof.
  intros H. unfold toLowerCase. rewrite lowerCaseFrom_ascii.
  - induction H as [|c s Hc Hs IH]; [reflexivity|].
    cbn [map]. now rewrite (lower_lowerSimple c Hc), IH.
  - apply (Forall_impl _ _ _ H). intros c Hc. boolArith; lia.
Qed.

Lemma toLowerCase_letters (s : list N) :
  Forall (fun c => isAsciiLetter c = true) s ->
  Forall (fun c => isLowerAscii c = true) (toLowerCase s)
  /\ (s <> [] -> toLowerCase s <> []).
Proof.
  intros H. unfold toLowerCase. rewrite (lowerCaseFrom_ascii _ _ (letters_ascii _ H)).
  split.
  - apply Forall_map. apply (Forall_impl _ _ _ H). exact letter_lowerSimple.
  - destruct s; [congruence | discriminate].
Qed.


Lemma lowerT_low (t : triple) : wfTriple t -> lowTriple (lowerT t).
Proof.
  intros (Hdl & Hd & Hwn & Hw & Hyl & Hy).
  destruct (toLowerCase_letters _ Hw) as [Hlow Hne].
  split; [|exact Hlow]. repeat split; simpl; auto.
  apply (Forall_impl _ _ _ Hlow). intros c Hc. unfold isAsciiLetter. now rewrite Hc.
Qed.

(** A triple inside a text: what stands before its first digit is
    lower-cased as if the text ended there, the triple letter by letter,
    and what stands behind its last digit as if the text began there. *)
Lemma lowerCaseFrom_render (b : bool) (g : list N) (t : triple) (s : list N) :
  wfTriple t ->
  lowerCaseFrom b (g ++ render t ++ s)
  = lowerCaseFrom b g ++ render (lowerT t) ++ lowerCaseFrom false s.
Proof.
  intros (Hdl & Hd & _ & Hw & Hyl & Hy). unfold render. cbn [lowerT tDay tWord tYear].
  destruct (tDay t) as [|d ds]; [cbn [length] in Hdl; lia|].
  destruct (tYear t) as [|y1 [|y2 [|y3 [|y4 [|? ?]]]]]; try discriminate Hyl.
  inversion Hd as [|? ? Hd1 Hds]; subst.
  assert (Hy4 : isDigit y4 = true).
  { inversion Hy as [|? ? ? Hy']; inversion Hy' as [|? ? ? Hy'']; subst.
    inversion Hy'' as [|? ? ? Hy3]; subst. now inversion Hy3. }
  assert (Hy123 : Forall (fun c => isDigit c = true) [y1; y2; y3]).
  { inversion Hy as [|? ? ? Hy']; inversion Hy' as [|? ? ? Hy'']; subst.
    inversion Hy'' as [|? ? ? Hy3]; subst. now repeat constructor. }
  set (mid := ds ++ [32%N] ++ tWord t ++ [32%N] ++ [y1; y2; y3]).
  assert (Hmid : Forall (fun c => (c < 128)%N) mid).
  { unfold mid. repeat (apply Forall_app; split);
      try (now apply digits_ascii); try (now apply letters_ascii);
      now repeat constructor. }
  replace (g ++ ((d :: ds) ++ [32%N] ++ tWord t ++ [32%N] ++ [y1; y2; y3; y4]) ++ s)
    with (g ++ d :: (mid ++ y4 :: s)).
  2:{ unfold mid. cbn [app]. rewrite <- !app_assoc. cbn [app].
      do 2 f_equal. rewrite <- !app_assoc. reflexivity. }
  rewrite (lowerCaseFrom_before_digit g d _ b Hd1).
  rewrite (lowerCaseFrom_before_digit mid y4 s false Hy4).
  rewrite (lowerCaseFrom_ascii _ _ Hmid).
  f_equal. unfold mid. rewrite !map_app.
  rewrite (map_lowerSimple_digits _ Hds), (map_lowerSimple_digits _ Hy123).
  unfold toLowerCase. rewrite (lowerCaseFrom_ascii _ _ (letters_ascii _ Hw)).
  cbn [app map]. rewrite <- !app_assoc. cbn [app].
  change (lowerSimple 32) with 32%N.
  do 3 f_equal. rewrite <- !app_assoc. reflexivity.
Qed.

Lemma toLowerCase_render (t : triple) :
  wfTriple t -> toLowerCase (render t) = render (lowerT t).
Proof.
  intros Ht. pose proof (lowerCaseFrom_render false [] t [] Ht) as H.
  cbn [app] in H. rewrite app_nil_r in H. unfold toLowerCase. rewrite H.
  now rewrite !lowerCaseFrom_nil, app_nil_r.
Qed.

Lemma toLowerCase_renderAll (ts : list triple) :
  Forall wfTriple ts -> toLowerCase (renderAll ts) = renderAll (map lowerT ts).
Proof.
  induction 1 as [|t ts Ht Hts IH]; [reflexivity|].
  destruct ts as [|t' ts].
  - simpl. now apply toLowerCase_render.
  - change (renderAll (t :: t' :: ts)) with (render t ++ [32%N] ++ renderAll (t' :: ts)).
    change (renderAll (map lowerT (t :: t' :: ts)))
      with (render (lowerT t) ++ [32%N] ++ renderAll (map lowerT (t' :: ts))).
    unfold toLowerCase in *.
    pose proof (lowerCaseFrom_render false [] t ([32%N] ++ renderAll (t' :: ts)) Ht) as H.
    cbn [app] in H. cbn [app]. rewrite H, lowerCaseFrom_nil. cbn [app]. f_equal.
    change (32%N :: renderAll (t' :: ts)) with ([32%N] ++ renderAll (t' :: ts)).
    rewrite lowerCaseFrom_ascii_app by (now repeat constructor).
    cbn [map app fold_left]. change (lowerSimple 32) with 32%N.
    change (seenCased false 32) with false. now rewrite IH.
Qed.

Lemma trimStart_id (c : N) (s : list N) : isWhite c = false -> trimStart (c :: s) = c :: s.
Proof. intros H. simpl. now rewrite H. Qed.

Lemma renderAll_starts (ts : list triple) (t : triple) :
  Forall lowTriple (ts ++ [t]) ->
  exists c s, renderAll (ts ++ [t]) = c :: s /\ isDigit c = true.
Proof.
  intros H. destruct ts as [|t1 ts]; simpl app in *.
  - inversion H as [|? ? [(Hdl & Hd & _) _] _]; subst.
    unfold renderAll. simpl. unfold render.
    destruct (tDay t) as [|c D]; [simpl in Hdl; lia|].
    inversion Hd; subst. simpl. eauto.
  - inversion H as [|? ? [(Hdl & Hd & _) _] _]; subst.
    rewrite renderAll_cons by (destruct ts; discriminate).
    unfold render. destruct (tDay t1) as [|c D]; [simpl in Hdl; lia|].
    inversion Hd; subst. simpl. eauto.
Qed.

Lemma renderAll_ends (ts : list triple) (t : triple) :
  lowTriple t ->
  exists c s, rev (renderAll (ts ++ [t])) = c :: s /\ isDigit c = true.
Proof.
  intros [(_ & _ & _ & _ & Hyl & Hy) _].
  assert (Hx : exists x, renderAll (ts ++ [t]) = x ++ tYear t).
  { induction ts as [|t1 ts [x IH]].
    - simpl. unfold renderAll, render. simpl.
      exists (tDay t ++ [32%N] ++ tWord t ++ [32%N]). now rewrite <- !app_assoc.
    - change ((t1 :: ts) ++ [t]) with (t1 :: (ts ++ [t])).
      rewrite renderAll_cons by (destruct ts; discriminate).
      rewrite IH. exists (render t1 ++ 32%N :: x). now rewrite <- app_assoc. }
  destruct Hx as [x ->]. rewrite rev_app_distr.
  destruct (tYear t) as [|y0 [|y1 [|y2 [|y3 [|]]]]]; try discriminate Hyl.
  simpl. exists y3. eexists. split; [reflexivity|].
  apply Forall_forall with (x := y3) in Hy; [exact Hy|].
  right; right; right; now left.
Qed.

Lemma trim_renderAll (ts : list triple) (t : triple) :
  Forall lowTriple (ts ++ [t]) -> trim (renderAll (ts ++ [t])) = renderAll (ts ++ [t]).
Proof.
  intros H.
  assert (Ht : lowTriple t).
  { apply Forall_app in H as [_ H]. now inversion H. }
  destruct (renderAll_starts ts t H) as (c & s & Hs & Hc).
  destruct (renderAll_ends ts t Ht) as (c' & s' & Hs' & Hc').
  unfold trim, trimEnd. rewrite Hs, (trimStart_id _ _ (digit_not_isWhite _ Hc)), <- Hs.
  rewrite Hs', (trimStart_id _ _ (digit_not_isWhite _ Hc')), <- Hs'.
  apply rev_involutive.
Qed.

Lemma digit_values (c : N) :
  isDigit c = true ->
  In c [48; 49; 50; 51; 52; 53; 54; 55; 56; 57]%N.
Proof.
  intros H. boolArith. simpl. lia.
Qed.

Lemma parseInt10_digits (s : list N) :
  s <> [] -> Forall (fun c => isDigit c = true) s ->
  parseInt10 s = Some (Z.of_N (digitsValue s 0)).
Proof.
  intros Hne Hs. destruct s as [|c s]; [congruence|].
  inversion Hs as [|? ? Hc _]; subst.
  unfold parseInt10. rewrite (trimStart_id _ _ (digit_not_isWhite _ Hc)).
  apply digit_values in Hc. simpl in Hc.
  repeat (destruct Hc as [<- | Hc]; [reflexivity|]). destruct Hc.
Qed.

(** On an input made of triples [parseItalianDate] builds its date
    from the last one. *)
Lemma parseItalianDate_renderAll (h : Host) (ts : list triple) (t : triple) :
  Forall wfTriple ts -> wfTriple t ->
  parseItalianDate h (renderAll (ts ++ [t])) = tripleDate h t.
Proof.
  intros Hts Ht.
  assert (Hall : Forall wfTriple (ts ++ [t])) by (apply Forall_app; auto).
  assert (Hlow : Forall lowTriple (map lowerT ts ++ [lowerT t])).
  { apply Forall_app. split; [|constructor; [now apply lowerT_low | constructor]].
    apply Forall_map. apply (Forall_impl _ _ _ Hts). intros x. apply lowerT_low. }
  unfold parseItalianDate.
  rewrite (toLowerCase_renderAll _ Hall), map_app. simpl map.
  rewrite (trim_renderAll _ _ Hlow).
  apply Forall_app in Hlow as [Hlts Hlt]. inversion Hlt as [|? ? Hlt' _]; subst.
  unfold matchAll.
  destruct (last_match_renderAll (map lowerT ts) (lowerT t) Hlts Hlt' None 0
              (S (length (renderAll (map lowerT ts ++ [lowerT t])))))
    as (mt & -> & Hg); [lia | |].
  { rewrite length_map. clear. induction ts as [|t1 ts IH]; [simpl; lia|].
    change (map lowerT (t1 :: ts) ++ [lowerT t])
      with (lowerT t1 :: (map lowerT ts ++ [lowerT t])).
    rewrite renderAll_cons by (destruct ts; discriminate).
    rewrite length_app. simpl. lia. }
  unfold groupText, group. rewrite Hg. simpl.
  destruct Ht as (Hdl & Hd & Hwn & Hw & Hyl & Hy).
  rewrite (parseInt10_digits (tDay t)), (parseInt10_digits (tYear t)); auto.
  2:{ destruct (tYear t); [discriminate | congruence]. }
  2:{ destruct (tDay t); [simpl in Hdl; lia | congruence]. }
  rewrite (toLowerCase_lower (toLowerCase (tWord t)))
    by (apply toLowerCase_letters; exact Hw).
  unfold tripleDate. destruct (monthMap (toLowerCase (tWord t))); reflexivity.
Qed.

(** X1.  On an input made of day, word and year triples, a space between
    them, [parseItalianDate] looks at the last triple only: whatever the
    earlier triples are, it returns what it returns for the last one
    alone, which is the date built from it when its word is a month name
    in any letter case, null when the word is no key of the month table,
    and an Invalid Date for the one inherited key [constructor]. *)
Theorem parseItalianDate_last_triple (h : Host) (ts : list triple) (t : triple) :
  Forall wfTriple ts -> wfTriple t ->
  parseItalianDate h (renderAll (ts ++ [t])) = parseItalianDate h (render t)
  /\ parseItalianDate h (renderAll (ts ++ [t])) = tripleDate h t
  /\ (parseItalianDate h (renderAll (ts ++ [t])) = None
      <-> monthMap (toLowerCase (tWord t)) = NoMonth).
Proof.
  intros Hts Ht.
  rewrite (parseItalianDate_renderAll h ts t Hts Ht).
  split; [|split; [reflexivity|]].
  - symmetry. apply (parseItalianDate_renderAll h [] t); [constructor | exact Ht].
  - unfold tripleDate. destruct (monthMap (toLowerCase (tWord t))); split; congruence.
Qed.

End TripleText.

Lemma parseItalianDate_last_triple_witness :
  parseItalianDate cetHost
    (renderAll ([ mkTriple "31" "Ottobre" "2025" ] ++ [ mkTriple "2" "Novembre" "2025" ]))
  = tripleDate cetHost (mkTriple "2" "Novembre" "2025").
Proof.
  apply (parseItalianDate_last_triple cetHost
           [ mkTriple "31" "Ottobre" "2025" ] (mkTriple "2" "Novembre" "2025")).
  - constructor; [|constructor].
    repeat split; try discriminate; try (right; reflexivity); repeat constructor.
  - repeat split; try discriminate; try (left; reflexivity); repeat constructor.
Defined.

(** ** The temporal filter's order of decision *)

Section DecisionOrder.
Variable h : Host.
Variable now : Z.

(** X4.  When endDate is missing, empty or unparseable and startDate parses,
    the start date alone decides, whatever the raw fragments say. *)
Theorem isFestivalPast_start_date_fallback (fd : FestivalData) (t : Z) :
  validTime h (endDate fd) = None ->
  validTime h (startDate fd) = Some t ->
  isFestivalPast h now fd = (t <? startOfDay h now)
  /\ forall ds, isFestivalPast h now (withDates ds fd) = isFestivalPast h now fd.
Proof.
  intros He Hs. unfold isFestivalPast. simpl. now rewrite He, Hs.
Qed.

Lemma allDatesPast_false (today : Z) (ds : list (list N)) :
  allDatesPast h today ds = false
  <-> exists s t, In s ds /\ parseItalianDate h s = Some (Time t) /\ today <= t.
Proof.
  induction ds as [|d ds IH]; simpl.
  - split; [discriminate | intros (s & t & [] & _)].
  - destruct (parseItalianDate h d) as [[|t]|] eqn:Hp.
    + rewrite IH. split; intros (s & t & Hin & Hs & Ht).
      * exists s, t. auto.
      * destruct Hin as [<- | Hin]; [congruence|]. exists s, t. auto.
    + destruct (today <=? t) eqn:Hle.
      * split; [intros _ | reflexivity]. exists d, t.
        split; [now left|]. split; [exact Hp | now apply Z.leb_le].
      * rewrite IH. split; intros (s & t' & Hin & Hs & Ht).
        -- exists s, t'. auto.
        -- destruct Hin as [<- | Hin]; [|exists s, t'; auto].
           rewrite Hp in Hs. injection Hs as <-. apply Z.leb_gt in Hle. lia.
    + rewrite IH. split; intros (s & t & Hin & Hs & Ht).
      * exists s, t. auto.
      * destruct Hin as [<- | Hin]; [congruence|]. exists s, t. auto.
Qed.

(** X5.  With neither date usable and raw fragments present, the record is
    kept exactly when some fragment parses to a date on or after the
    start of today; with no fragments it is kept. *)
Theorem isFestivalPast_by_fragments (fd : FestivalData) :
  validTime h (endDate fd) = None ->
  validTime h (startDate fd) = None ->
  match dates fd with
  | Some (d :: ds) =>
    isFestivalPast h now fd = false
    <-> exists s t, In s (d :: ds) /\ parseItalianDate h s = Some (Time t)
                    /\ startOfDay h now <= t
  | _ => isFestivalPast h now fd = false
  end.
Proof.
  intros He Hs. unfold isFestivalPast. rewrite He, Hs.
  destruct (dates fd) as [[|d ds]|]; [reflexivity | | reflexivity].
  apply allDatesPast_false.
Qed.

End DecisionOrder.

Lemma isFestivalPast_start_date_fallback_witness :
  isFestivalPast utcHost nov7
    (withStartDate (str "2025-11-06") (withDates [str "7 novembre 2030"] blank)) = true.
Proof.
  destruct (isFestivalPast_start_date_fallback utcHost nov7
              (withStartDate (str "2025-11-06") (withDates [str "7 novembre 2030"] blank))
              1762387200000 eq_refl eq_refl) as [H _].
  rewrite H. reflexivity.
Defined.

Lemma isFestivalPast_by_fragments_witness :
  isFestivalPast utcHost nov7
    (withDates [str "sabato sera"; str "7 novembre 2030"] blank) = false.
Proof.
  apply (isFestivalPast_by_fragments utcHost nov7
           (withDates [str "sabato sera"; str "7 novembre 2030"] blank) eq_refl eq_refl).
  exists (str "7 novembre 2030"), 1920240000000.
  split; [right; now left|]. split; vm_compute; [reflexivity | discriminate].
Defined.

(** ** The seen-set as a function of the calls made *)

Section SeenSetContents.
Variable h : Host.

Lemma runCache_app (a b : list cacheOp) (seen : gset (list N)) :
  runCache h (a ++ b) seen = runCache h b (runCache h a seen).
Proof. unfold runCache. apply fold_left_app. Qed.

Lemma runCache_no_clear (ops : list cacheOp) (seen : gset (list N)) :
  afterLastClear ops = None -> runCache h ops seen = keysOf h ops ∪ seen.
Proof.
  revert seen. induction ops as [|o ops IH]; intros seen Hn.
  - unfold keysOf. simpl. set_solver.
  - simpl in Hn. destruct (afterLastClear ops) eqn:Ha; [discriminate|].
    destruct o as [fd|]; [|discriminate].
    change (runCache h (OpIsDuplicate fd :: ops) seen)
      with (runCache h ops (snd (isDuplicate h fd seen))).
    rewrite IH by reflexivity. unfold keysOf. simpl.
    unfold isDuplicate. case_bool_decide; simpl; set_solver.
Qed.

(** X8.  After any sequence of calls the seen-set holds exactly the keys
    passed to isDuplicate since the last clearDuplicateCache, together
    with the initial keys when there was no clear; isDuplicate answers
    true exactly for the keys in that set. *)
Theorem runCache_contents (ops : list cacheOp) (seen : gset (list N)) (fd : FestivalData) :
  runCache h ops seen
  = match afterLastClear ops with
    | Some l => keysOf h l
    | None => keysOf h ops ∪ seen
    end
  /\ (fst (isDuplicate h fd (runCache h ops seen)) = true
      <-> generateFestivalKey h fd
            ∈ match afterLastClear ops with
              | Some l => keysOf h l
              | None => keysOf h ops ∪ seen
              end).
Proof.
  assert (Hrun : runCache h ops seen
                 = match afterLastClear ops with
                   | Some l => keysOf h l
                   | None => keysOf h ops ∪ seen
                   end).
  { revert seen. induction ops as [|o ops IH]; intros seen.
    - unfold keysOf. simpl. set_solver.
    - change (runCache h (o :: ops) seen) with (runCache h ops (stepCache h seen o)).
      simpl afterLastClear. specialize (IH (stepCache h seen o)).
      destruct (afterLastClear ops) as [l|] eqn:Ha; [exact IH|].
      destruct o as [fd'|]; simpl isClear; cbv iota.
      + apply (runCache_no_clear (OpIsDuplicate fd' :: ops)). simpl. now rewrite Ha.
      + rewrite IH. unfold stepCache, clearDuplicateCache. set_solver. }
  split; [exact Hrun|]. rewrite <- Hrun.
  unfold isDuplicate. case_bool_decide; simpl; split; auto; discriminate.
Qed.

End SeenSetContents.

(** ** The upload payload *)

Section Payload.
Import Strapi.
Variable h : Host.

(** X11.  For a record with a title and a paragraphs array, as a validated
    record has: when it carries coordinates the remote
    geocoder plays no part, the payload has those coordinates and is the
    same whatever the geocoder would answer; without coordinates the
    payload is null exactly when location is not a string with text in it
    or the geocoder finds nothing for it. *)
Theorem transformToStrapiFormat_position
    (geoapify : list N -> option StrapiPosition) (fd : FestivalData) :
  title fd <> None -> paragraphs fd <> None ->
  (forall p, extractCoordinates fd = Some p ->
     (exists payload, transformToStrapiFormat h geoapify fd = Some payload
                      /\ payloadPosition payload = p)
     /\ forall other, transformToStrapiFormat h other fd
                      = transformToStrapiFormat h geoapify fd)
  /\ (extractCoordinates fd = None ->
      (transformToStrapiFormat h geoapify fd = None
       <-> forall s, location fd = VStr s -> nonEmpty (trim s) = true -> geoapify s = None)).
Proof.
  intros _ _. split.
  - intros p Hp. unfold transformToStrapiFormat. rewrite Hp.
    split; [eexists; split; reflexivity | reflexivity].
  - intros Hn. unfold transformToStrapiFormat, geocodeLocation. rewrite Hn.
    destruct (location fd) as [| |b|x|s|items|fs]; try (split; [discriminate | reflexivity]);
      try (split; [intros _ s' [=] | reflexivity]).
    destruct (nonEmpty (trim s)) eqn:Hs.
    + destruct (geoapify s) as [p|] eqn:Hg.
      * split; [discriminate|]. intros H. specialize (H s eq_refl Hs). congruence.
      * split; [|reflexivity]. intros _ s' [= <-] _. exact Hg.
    + split; [|reflexivity]. intros _ s' [= <-] Hs'. congruence.
Qed.

End Payload.

Lemma transformToStrapiFormat_position_witness :
  exists payload,
    Strapi.transformToStrapiFormat utcHost (fun _ => None)
      (withParagraphs [str "Tre giorni di festa."]
         (withTitle (str "Sagra del Tortello") (withLocation imola blank)))
    = Some payload
    /\ Strapi.payloadPosition payload
       = {| Strapi.lat := VNum (Finite 89 (-1)); Strapi.lng := VNum (Finite 47 (-2)) |}.
Proof.
  refine (proj1 (proj1 (transformToStrapiFormat_position utcHost (fun _ => None)
                          (withParagraphs [str "Tre giorni di festa."]
                             (withTitle (str "Sagra del Tortello") (withLocation imola blank)))
                          _ _)
                   _ eq_refl)); discriminate.
Defined.

(** ** What a handler run leaves behind *)

Section RunTraces.
Variable env : Env.

(** Every guarded run emits at most one record; a record found past
    leaves the seen-set as it was; a record found duplicate is neither
    validated nor emitted; and the seen-set gains at most one key. *)
Lemma pipelineRun_traces (w : world) (r : outcome unit * world) :
  pipelineRun env w r ->
  (length (pushes (added w (snd r))) <= 1)%nat
  /\ (forall fd0, In (CallIsFestivalPast fd0 true) (added w (snd r)) ->
        seenFestivals (snd r) = seenFestivals w /\ fst r = Ok tt
        /\ added w (snd r) = [ CallIsFestivalPast fd0 true ])
  /\ (forall fd, In (CallIsDuplicate fd true) (added w (snd r)) ->
        seenFestivals (snd r) = seenFestivals w /\ fst r = Ok tt
        /\ pushes (added w (snd r)) = []
        /\ forall e b, ~ In (CallSafeParse e b) (added w (snd r)))
  /\ (seenFestivals (snd r) = seenFestivals w
      \/ exists fd, (generateFestivalKey (host env) fd ∉ seenFestivals w)
                    /\ seenFestivals (snd r)
                       = {[ generateFestivalKey (host env) fd ]} ∪ seenFestivals w).
Proof.
  intros Hrun.
  destruct Hrun as [o | fd0 Hp | fd0 o Hp | fd0 fd Hp Hd Hk
                    | fd0 fd Hp Hd Hk Hs | fd0 fd tail Hp Hd Hk Hs Ht];
    simpl; rewrite ?added_same, ?added_logged, ?added_remembered; simpl.
  - repeat split; try lia; try (now left); intros ? [].
  - split; [lia|]. split; [|split; [|now left]].
    + intros e [[= <-]|[]]. auto.
    + intros e [H|[]]. discriminate.
  - split; [lia|]. split; [|split; [|now left]].
    + intros e [H|[]]. discriminate.
    + intros e [H|[]]. discriminate.
  - split; [lia|]. split; [|split; [|now left]].
    + intros e [H|[H|[]]]; discriminate.
    + intros e _. repeat split. intros e' b [H|[H|[]]]; discriminate.
  - split; [lia|]. split; [|split; [|right; eauto]].
    + intros e [H|[H|[H|[]]]]; discriminate.
    + intros e [H|[H|[H|[]]]]; discriminate.
  - split; [destruct Ht as [-> | ->]; simpl; lia|].
    split; [|split; [|right; eauto]].
    + intros e [H|[H|[H|[H|Hin]]]]; try discriminate.
      destruct Ht as [-> | ->]; simpl in Hin; [tauto|]. destruct Hin as [H|[]]. discriminate.
    + intros e [H|[H|[H|[H|Hin]]]]; try discriminate.
      destruct Ht as [-> | ->]; simpl in Hin; [tauto|]. destruct Hin as [H|[]]. discriminate.
Qed.

(** X9.  In a run of each of the three registered handlers: at most one
    record is emitted; a past record is dropped before the duplicate
    check, so its key is not remembered; a duplicate is dropped before
    validation; and the seen-set gains at most one key, which was not in
    it before. *)
Theorem registered_handlers_traces (loadedUrl : list N) (q : Cheerio) (w : world)
    (handler : M unit) :
  handler = Assosagre.assosagreDetail env loadedUrl q
  \/ handler = Viviromagna.viviromagnaDetail env loadedUrl q
  \/ handler = RomagnaEmilia.romagnaEmiliaDetail env loadedUrl q ->
  (length (pushes (added w (snd (handler w)))) <= 1)%nat
  /\ (forall fd0, In (CallIsFestivalPast fd0 true) (added w (snd (handler w))) ->
        seenFestivals (snd (handler w)) = seenFestivals w /\ fst (handler w) = Ok tt
        /\ added w (snd (handler w)) = [ CallIsFestivalPast fd0 true ])
  /\ (forall fd, In (CallIsDuplicate fd true) (added w (snd (handler w))) ->
        seenFestivals (snd (handler w)) = seenFestivals w /\ fst (handler w) = Ok tt
        /\ pushes (added w (snd (handler w))) = []
        /\ forall e b, ~ In (CallSafeParse e b) (added w (snd (handler w))))
  /\ (seenFestivals (snd (handler w)) = seenFestivals w
      \/ exists fd, (generateFestivalKey (host env) fd ∉ seenFestivals w)
                    /\ seenFestivals (snd (handler w))
                       = {[ generateFestivalKey (host env) fd ]} ∪ seenFestivals w).
Proof.
  intros Hh. apply pipelineRun_traces.
  destruct Hh as [-> | [-> | ->]].
  - apply assosagreDetail_run.
  - apply viviromagnaDetail_run.
  - apply romagnaEmiliaDetail_run.
Qed.

(** X10.  The festival-detail handler of routes.ts never reads or changes the
    seen-set and makes no temporal or duplicate check: once the
    structured data is read, the record is emitted exactly when the
    validator accepts it, and the handler throws otherwise. *)
Theorem festivalDetail_validates_only (loadedUrl : list N) (q : Cheerio) (w : world) :
  seenFestivals (snd (Routes.festivalDetail env loadedUrl q w)) = seenFestivals w
  /\ forallb (fun c => negb (isCheck c))
       (added w (snd (Routes.festivalDetail env loadedUrl q w))) = true
  /\ forall sd,
       JsonLd.scanScripts env (q "script[type='application/ld+json']"%string) None = Ok sd ->
       let fd := Routes.buildFestivalData env loadedUrl q sd in
       (safeParse env fd = true ->
        fst (Routes.festivalDetail env loadedUrl q w) = Ok tt
        /\ pushes (added w (snd (Routes.festivalDetail env loadedUrl q w))) = [ fd ])
       /\ (safeParse env fd = false ->
           fst (Routes.festivalDetail env loadedUrl q w) = Thrown
           /\ pushes (added w (snd (Routes.festivalDetail env loadedUrl q w))) = []).
Proof.
  assert (Routes.festivalDetail env loadedUrl q w
          = match JsonLd.scanScripts env (q "script[type='application/ld+json']"%string) None with
            | Ok sd => validateAndSave env (Routes.buildFestivalData env loadedUrl q sd) w
            | Thrown => (Thrown, w)
            end) as ->.
  { unfold Routes.festivalDetail, bind, lift.
    now destruct (JsonLd.scanScripts env _ None). }
  destruct (JsonLd.scanScripts env _ None) as [sd|] eqn:Hscan.
  2:{ cbn [fst snd]. rewrite added_same.
      split; [reflexivity|]. split; [reflexivity|]. intros sd [=]. }
  set (fd := Routes.buildFestivalData env loadedUrl q sd).
  destruct (validateAndSave_run env fd w) as [[Hs ->] | [Hs [tail [Ht ->]]]];
    cbn [fst snd]; rewrite added_logged; unfold logged; cbn [seenFestivals].
  - split; [reflexivity|]. split; [reflexivity|].
    intros sd' [= <-]. fold fd. split; [congruence | now split].
  - split; [reflexivity|].
    split; [destruct Ht as [-> | ->]; reflexivity|].
    intros sd' [= <-]. fold fd. split; [|congruence].
    intros _. split; [reflexivity|]. destruct Ht as [-> | ->]; reflexivity.
Qed.

End RunTraces.

Lemma registered_handlers_traces_witness :
  (length (pushes (added freshWorld
             (snd (Assosagre.assosagreDetail exampleEnv goodUrl novembrePage freshWorld))))
   <= 1)%nat.
Proof.
  exact (proj1 (registered_handlers_traces exampleEnv goodUrl novembrePage freshWorld
                  (Assosagre.assosagreDetail exampleEnv goodUrl novembrePage)
                  (or_introl eq_refl))).
Defined.

Lemma festivalDetail_validates_only_witness :
  pushes (added freshWorld
            (snd (Routes.festivalDetail exampleEnv tortelloUrl tortelloPage freshWorld)))
  = [ tortelloRecord ].
Proof.
  destruct (festivalDetail_validates_only exampleEnv tortelloUrl tortelloPage freshWorld)
    as (_ & _ & H).
  destruct (H (JsonLd.parseStructuredData tortelloJsonLd)) as [H1 _].
  - vm_compute. reflexivity.
  - apply H1. vm_compute. reflexivity.
Defined.

Ltac zdiv := Z.div_mod_to_equations; lia.
Ltac ndiv := zify; Z.to_euclidean_division_equations; lia.
Ltac calc := vm_compute; repeat split; try reflexivity; discriminate.

(** ** The calendar *)

Section Civil.

Lemma dayFromYear_step (y : Z) :
  dayFromYear (y + 1) - dayFromYear y = if isLeap y then 366 else 365.
Proof.
  unfold dayFromYear, isLeap.
  replace (y + 1 - 1970) with (y - 1969) by lia.
  replace (y + 1 - 1969) with (y - 1968) by lia.
  replace (y + 1 - 1901) with (y - 1900) by lia.
  replace (y + 1 - 1601) with (y - 1600) by lia.
  destruct (Z.eqb_spec (y mod 4) 0) as [H4|H4];
    destruct (Z.eqb_spec (y mod 100) 0) as [H100|H100];
    destruct (Z.eqb_spec (y mod 400) 0) as [H400|H400]; simpl; zdiv.
Qed.

Lemma dayFromYear_mono (y y' : Z) : y <= y' -> dayFromYear y <= dayFromYear y'.
Proof. unfold dayFromYear. intros H. zdiv. Qed.

Lemma yearSearch_spec (y d : Z) (fuel : nat) (e : Z) :
  dayFromYear y <= d < dayFromYear (y + 1) ->
  y <= e < y + Z.of_nat fuel -> yearSearch fuel e d = y.
Proof.
  intros Hd. revert e. induction fuel as [|f IH]; intros e He; [lia|].
  simpl. destruct (Z.leb_spec (dayFromYear e) d) as [Hle|Hgt].
  - destruct (Z.eq_dec e y) as [->|Hne]; [reflexivity|].
    pose proof (dayFromYear_mono (y + 1) e). lia.
  - apply IH. destruct (Z.eq_dec e y) as [->|Hne]; lia.
Qed.

Lemma yearFromDay_spec (y d : Z) :
  dayFromYear y <= d < dayFromYear (y + 1) -> yearFromDay d = y.
Proof.
  intros Hd. unfold yearFromDay. apply yearSearch_spec; [exact Hd|].
  unfold dayFromYear in Hd. simpl Z.of_nat. zdiv.
Qed.

Lemma monthFromDayInYear_spec (y mo d : Z) :
  validDay y mo d ->
  monthFromDayInYear (isLeap y) (monthStart (isLeap y) mo + d - 1) = mo.
Proof.
  intros [Hmo Hd].
  assert (mo = 0 \/ mo = 1 \/ mo = 2 \/ mo = 3 \/ mo = 4 \/ mo = 5 \/ mo = 6
          \/ mo = 7 \/ mo = 8 \/ mo = 9 \/ mo = 10 \/ mo = 11) as Hcases by lia.
  unfold monthFromDayInYear.
  repeat (destruct Hcases as [-> | Hcases]); try subst mo;
    unfold daysInMonth in Hd; destruct (isLeap y); cbn [monthStart] in *;
    repeat match goal with
           | |- context [?a <=? ?b] =>
             destruct (Z.leb_spec a b); simpl in *; try lia
           end; reflexivity.
Qed.

Lemma makeDay_in_year (y mo d : Z) :
  validDay y mo d ->
  makeDay y mo d = dayFromYear y + monthStart (isLeap y) mo + d - 1
  /\ dayFromYear y <= makeDay y mo d < dayFromYear (y + 1).
Proof.
  intros [Hmo Hd]. unfold makeDay.
  replace (mo / 12) with 0 by zdiv. replace (mo mod 12) with mo by zdiv.
  rewrite Z.add_0_r. split; [reflexivity|].
  pose proof (dayFromYear_step y) as Hstep.
  assert (mo = 0 \/ mo = 1 \/ mo = 2 \/ mo = 3 \/ mo = 4 \/ mo = 5 \/ mo = 6
          \/ mo = 7 \/ mo = 8 \/ mo = 9 \/ mo = 10 \/ mo = 11) as Hcases by lia.
  repeat (destruct Hcases as [-> | Hcases]); try subst mo;
    unfold daysInMonth in Hd; destruct (isLeap y); cbn [monthStart] in *; lia.
Qed.

(** The calendar fields of a time value within a day that exists. *)
Lemma civilOf_makeDay (y mo d ms : Z) :
  validDay y mo d -> 0 <= ms < msPerDay ->
  civilOf (makeDate (makeDay y mo d) ms) = Civil y mo d ms.
Proof.
  intros Hv Hms. destruct (makeDay_in_year y mo d Hv) as [HD Hin].
  unfold civilOf, makeDate.
  assert ((makeDay y mo d * msPerDay + ms) / msPerDay = makeDay y mo d) as ->.
  { unfold msPerDay in *. zdiv. }
  assert ((makeDay y mo d * msPerDay + ms) mod msPerDay = ms) as ->.
  { unfold msPerDay in *. zdiv. }
  rewrite (yearFromDay_spec y _ Hin). cbv zeta.
  replace (makeDay y mo d - dayFromYear y) with (monthStart (isLeap y) mo + d - 1) by lia.
  rewrite (monthFromDayInYear_spec y mo d Hv). f_equal. lia.
Qed.

End Civil.

(** ** Decimal texts *)

Section Decimal.

Lemma digitsFuel_last (f : nat) (n : N) (acc : list N) :
  (n < 10)%N -> digitsFuel (S f) n acc = ((48 + n) :: acc)%N.
Proof.
  intros Hn. cbn [digitsFuel].
  replace (n <? 10)%N with true by (symmetry; apply N.ltb_lt; exact Hn).
  rewrite N.mod_small by exact Hn. reflexivity.
Qed.

Lemma digitsFuel_step (f : nat) (n : N) (acc : list N) :
  (10 <= n)%N -> digitsFuel (S f) n acc = digitsFuel f (n / 10) ((48 + n mod 10)%N :: acc).
Proof.
  intros Hn. cbn [digitsFuel].
  replace (n <? 10)%N with false by (symmetry; apply N.ltb_ge; exact Hn). reflexivity.
Qed.

Lemma log2_fuel (n : N) : (10 <= n)%N -> exists f, N.to_nat (N.log2 n) = S (S (S f)).
Proof.
  intros Hn. pose proof (N.log2_le_mono 10 n Hn) as H.
  change (N.log2 10) with 3%N in H.
  exists (N.to_nat (N.log2 n) - 3)%nat. lia.
Qed.

(** The decimal text of a number below ten thousand, zero-padded to four
    places. *)
Lemma padStart_4 (n : N) :
  (n < 10000)%N ->
  padStart 4 (showN n)
  = [48 + n / 1000; 48 + (n / 100) mod 10; 48 + (n / 10) mod 10; 48 + n mod 10]%N.
Proof.
  intros Hn. unfold showN.
  destruct (N.lt_ge_cases n 10) as [H1|H1].
  { rewrite digitsFuel_last by exact H1. unfold padStart. cbn [length Nat.sub repeat app].
    repeat f_equal; ndiv. }
  destruct (log2_fuel n H1) as (f & ->).
  rewrite digitsFuel_step by exact H1.
  destruct (N.lt_ge_cases (n / 10) 10) as [H2|H2].
  { rewrite digitsFuel_last by exact H2. unfold padStart. cbn [length Nat.sub repeat app].
    repeat f_equal; ndiv. }
  rewrite digitsFuel_step by exact H2.
  rewrite N.Div0.div_div. change (10 * 10)%N with 100%N.
  destruct (N.lt_ge_cases (n / 100) 10) as [H3|H3].
  { rewrite digitsFuel_last by exact H3. unfold padStart. cbn [length Nat.sub repeat app].
    repeat f_equal; ndiv. }
  rewrite digitsFuel_step by exact H3.
  rewrite N.Div0.div_div. change (100 * 10)%N with 1000%N.
  rewrite digitsFuel_last by ndiv. unfold padStart. cbn [length Nat.sub repeat app].
  repeat f_equal; ndiv.
Qed.

Lemma padStart_2 (n : N) :
  (n < 100)%N -> padStart 2 (showN n) = [48 + n / 10; 48 + n mod 10]%N.
Proof.
  intros Hn. unfold showN.
  destruct (N.lt_ge_cases n 10) as [H1|H1].
  { rewrite digitsFuel_last by exact H1. unfold padStart. cbn [length Nat.sub repeat app].
    repeat f_equal; ndiv. }
  destruct (log2_fuel n H1) as (f & ->).
  rewrite digitsFuel_step by exact H1.
  rewrite digitsFuel_last by ndiv. reflexivity.
Qed.

Lemma pad_nonneg (w : nat) (z : Z) : 0 <= z -> pad w z = padStart w (showN (Z.to_N z)).
Proof. intros Hz. unfold pad, showZ. destruct z; try reflexivity. lia. Qed.

Lemma isDigit_48 (x : N) : (x < 10)%N -> isDigit (48 + x) = true.
Proof.
  intros Hx. unfold isDigit, between. apply andb_true_iff. split; apply N.leb_le; lia.
Qed.

Lemma digitsValue_digit (x : N) (s : list N) (acc : N) :
  (x < 10)%N -> digitsValue ((48 + x)%N :: s) acc = digitsValue s (acc * 10 + x).
Proof.
  intros Hx. cbn [digitsValue]. rewrite isDigit_48 by exact Hx.
  f_equal. lia.
Qed.

Lemma digit_offset (c : N) : isDigit c = true -> exists x, (x < 10)%N /\ c = (48 + x)%N.
Proof. intros H. boolArith. exists (c - 48)%N. lia. Qed.

End Decimal.

Section DecimalRoundTrip.

Lemma pad_shape_4 (y : Z) :
  0 <= y <= 9999 ->
  exists a b c d, pad 4 y = [a; b; c; d]
    /\ forallb isDigit [a; b; c; d] = true
    /\ Z.of_N (digitsValue [a; b; c; d] 0) = y.
Proof.
  intros Hy. rewrite pad_nonneg by lia. rewrite padStart_4 by lia.
  do 4 eexists. split; [reflexivity|]. split.
  - cbn [forallb]. rewrite !isDigit_48 by ndiv. reflexivity.
  - rewrite !digitsValue_digit by ndiv. cbn [digitsValue]. ndiv.
Qed.

Lemma pad_shape_2 (z : Z) :
  0 <= z <= 99 ->
  exists a b, pad 2 z = [a; b]
    /\ forallb isDigit [a; b] = true
    /\ Z.of_N (digitsValue [a; b] 0) = z.
Proof.
  intros Hz. rewrite pad_nonneg by lia. rewrite padStart_2 by lia.
  do 2 eexists. split; [reflexivity|]. split.
  - cbn [forallb]. rewrite !isDigit_48 by ndiv. reflexivity.
  - rewrite !digitsValue_digit by ndiv. cbn [digitsValue]. ndiv.
Qed.

Lemma pad_digitsValue_4 (s : list N) :
  length s = 4%nat -> Forall (fun c => isDigit c = true) s ->
  pad 4 (Z.of_N (digitsValue s 0)) = s /\ 0 <= Z.of_N (digitsValue s 0) <= 9999.
Proof.
  intros Hl Hs.
  destruct s as [|c1 [|c2 [|c3 [|c4 [|c5 s]]]]]; try discriminate Hl.
  inversion Hs as [|? ? H1 Hs1]; subst. inversion Hs1 as [|? ? H2 Hs2]; subst.
  inversion Hs2 as [|? ? H3 Hs3]; subst. inversion Hs3 as [|? ? H4 _]; subst.
  apply digit_offset in H1 as (x1 & Hx1 & ->). apply digit_offset in H2 as (x2 & Hx2 & ->).
  apply digit_offset in H3 as (x3 & Hx3 & ->). apply digit_offset in H4 as (x4 & Hx4 & ->).
  rewrite !digitsValue_digit by assumption. cbn [digitsValue].
  split; [|lia].
  rewrite pad_nonneg by lia. rewrite N2Z.id, padStart_4 by lia.
  repeat f_equal; ndiv.
Qed.

Lemma pad_digitsValue_2 (s : list N) :
  length s = 2%nat -> Forall (fun c => isDigit c = true) s ->
  pad 2 (Z.of_N (digitsValue s 0)) = s.
Proof.
  intros Hl Hs.
  destruct s as [|c1 [|c2 [|c3 s]]]; try discriminate Hl.
  inversion Hs as [|? ? H1 Hs1]; subst. inversion Hs1 as [|? ? H2 _]; subst.
  apply digit_offset in H1 as (x1 & Hx1 & ->). apply digit_offset in H2 as (x2 & Hx2 & ->).
  rewrite !digitsValue_digit by assumption. cbn [digitsValue].
  rewrite pad_nonneg by lia. rewrite N2Z.id, padStart_2 by lia.
  repeat f_equal; ndiv.
Qed.

End DecimalRoundTrip.

Section IsoText.

Lemma digitsFuel_digits (f : nat) (n : N) (acc : list N) :
  Forall (fun c => isDigit c = true) acc ->
  Forall (fun c => isDigit c = true) (digitsFuel f n acc).
Proof.
  revert n acc. induction f as [|f IH]; intros n acc Hacc; [exact Hacc|].
  assert (Forall (fun c => isDigit c = true) ((48 + n mod 10)%N :: acc)) as Hacc'.
  { constructor; [|exact Hacc]. unfold isDigit, between.
    assert (n mod 10 < 10)%N by (apply N.mod_upper_bound; discriminate).
    generalize dependent (n mod 10)%N. intros r Hr.
    apply andb_true_iff. split; apply N.leb_le; lia. }
  simpl. destruct (n <? 10)%N; [exact Hacc' | now apply IH].
Qed.

Lemma pad_digits (w : nat) (z : Z) :
  0 <= z -> Forall (fun c => isDigit c = true) (pad w z).
Proof.
  intros Hz. unfold pad, padStart. apply Forall_app. split.
  - apply List.Forall_forall. intros c Hc. apply repeat_spec in Hc. now subst.
  - unfold showZ, showN. destruct z; try lia; apply digitsFuel_digits; constructor.
Qed.

Lemma pad_no_T (w : nat) (z : Z) : 0 <= z -> Forall (fun c => c <> 84%N) (pad w z).
Proof.
  intros Hz. apply (Forall_impl (fun c => isDigit c = true)).
  - now apply pad_digits.
  - intros c Hc ->. discriminate.
Qed.

Lemma splitUnit_cons (c : N) (s : list N) : exists w ws, splitUnit c s = w :: ws.
Proof.
  induction s as [|x s (w & ws & IH)]; simpl; [now eauto|].
  rewrite IH. destruct (x =? c)%N; eauto.
Qed.

Lemma splitUnit_head (c : N) (a b : list N) :
  Forall (fun x => x <> c) a ->
  exists ws, splitUnit c (a ++ c :: b) = a :: ws.
Proof.
  induction 1 as [|x a Hx Ha (ws & IH)]; simpl.
  - destruct (splitUnit_cons c b) as (w & ws & ->). rewrite N.eqb_refl. eauto.
  - rewrite IH. apply N.eqb_neq in Hx. rewrite Hx. eauto.
Qed.

(** The day part of the ISO text of a time value within a day that
    exists, in the years written with four digits. *)
Lemma isoDay_makeDate (y mo d ms : Z) :
  validDay y mo d -> 0 <= y <= 9999 -> 0 <= ms < msPerDay ->
  isoDay (makeDate (makeDay y mo d) ms) = dayText y mo d.
Proof.
  intros Hv Hy Hms. unfold isoDay, toISOString.
  rewrite (civilOf_makeDay y mo d ms Hv Hms). cbn [cYear cMonth cDate cMs].
  replace ((0 <=? y) && (y <=? 9999)) with true
    by (symmetry; apply andb_true_iff; split; apply Z.leb_le; lia).
  destruct Hv as [Hmo Hd].
  assert (1 <= daysInMonth y mo <= 31) by (unfold daysInMonth; repeat case_match; lia).
  set (tail := pad 2 (ms / 3600000) ++ _).
  destruct (splitUnit_head 84 (dayText y mo d) tail) as (ws & Hs).
  { unfold dayText. change (str "-") with [45%N].
    apply Forall_app; split; [apply pad_no_T; lia|].
    constructor; [discriminate|].
    apply Forall_app; split; [apply pad_no_T; lia|].
    constructor; [discriminate|]. apply pad_no_T; lia. }
  unfold dayText in *. change (str "T") with [84%N].
  rewrite <- !app_assoc in Hs. simpl in Hs. simpl. rewrite Hs. reflexivity.
Qed.

End IsoText.

Section IsoParse.

Lemma daysInMonth_bounds (y mo : Z) : 28 <= daysInMonth y mo <= 31.
Proof. unfold daysInMonth. repeat case_match; lia. Qed.

(** The date-only text of a day that exists parses to midnight UTC of
    that day. *)
Lemma parseIsoDay_dayText (y mo d : Z) :
  validDay y mo d -> 0 <= y <= 9999 ->
  parseIsoDay (dayText y mo d) = Some (makeDate (makeDay y mo d) 0).
Proof.
  intros [Hmo Hd] Hy. pose proof (daysInMonth_bounds y mo) as Hb.
  destruct (pad_shape_4 y Hy) as (y1 & y2 & y3 & y4 & Ey & Dy & Vy).
  destruct (pad_shape_2 (mo + 1)) as (m1 & m2 & Em & Dm & Vm); [lia|].
  destruct (pad_shape_2 d) as (d1 & d2 & Ed & Dd & Vd); [lia|].
  unfold dayText. rewrite Ey, Em, Ed. change (str "-") with [45%N].
  cbn [app]. unfold parseIsoDay.
  replace (forallb isDigit [y1; y2; y3; y4; m1; m2; d1; d2]) with true.
  2:{ symmetry. cbn [forallb] in *.
      repeat match goal with
             | H : (_ && _)%bool = true |- _ => apply andb_true_iff in H; destruct H
             end.
      repeat match goal with H : isDigit _ = true |- _ => rewrite H; clear H end.
      reflexivity. }
  rewrite Vy, Vm, Vd. replace (mo + 1 - 1) with mo by lia.
  replace ((1 <=? mo + 1) && (mo + 1 <=? 12) && (1 <=? d) && (d <=? daysInMonth y mo))
    with true; [reflexivity|].
  symmetry. repeat (apply andb_true_iff; split); apply Z.leb_le; lia.
Qed.

Lemma sep_inv {A} (c : N) (a b : A) :
  c <> 45%N -> match c with 45%N => a | _ => b end = b.
Proof.
  intros Hc. destruct c as [|p]; [reflexivity|].
  do 6 (destruct p as [p|p|]; try reflexivity). congruence.
Qed.

(** What [parseIsoDay] accepts is the text of a day that exists. *)
Lemma parseIsoDay_inv (s : list N) (t : Z) :
  parseIsoDay s = Some t ->
  exists y mo d, validDay y mo d /\ 0 <= y <= 9999
    /\ t = makeDate (makeDay y mo d) 0 /\ s = dayText y mo d.
Proof.
  intros H.
  destruct s as [|y1 [|y2 [|y3 [|y4 [|s1 s]]]]]; try discriminate H.
  destruct (N.eq_dec s1 45%N) as [->|Hs1];
    [|unfold parseIsoDay in H; rewrite (sep_inv s1) in H by exact Hs1; discriminate H].
  destruct s as [|m1 [|m2 [|s2 s]]]; try discriminate H.
  destruct (N.eq_dec s2 45%N) as [->|Hs2];
    [|unfold parseIsoDay in H; rewrite (sep_inv s2) in H by exact Hs2; discriminate H].
  destruct s as [|d1 [|d2 [|e l]]]; try discriminate H.
  unfold parseIsoDay in H.
  destruct (forallb isDigit [y1; y2; y3; y4; m1; m2; d1; d2]) eqn:Hdig; [|discriminate H].
  cbv zeta in H.
  set (y := Z.of_N (digitsValue [y1; y2; y3; y4] 0)) in *.
  set (mo := Z.of_N (digitsValue [m1; m2] 0)) in *.
  set (d := Z.of_N (digitsValue [d1; d2] 0)) in *.
  destruct ((1 <=? mo) && (mo <=? 12) && (1 <=? d) && (d <=? daysInMonth y (mo - 1)))
    eqn:Hv; [|discriminate H].
  injection H as <-.
  repeat match goal with
         | H : (_ && _)%bool = true |- _ => apply andb_true_iff in H; destruct H
         | H : (_ <=? _) = true |- _ => apply Z.leb_le in H
         end.
  cbn [forallb] in Hdig.
  repeat match goal with
         | H : (_ && _)%bool = true |- _ => apply andb_true_iff in H; destruct H
         end.
  destruct (pad_digitsValue_4 [y1; y2; y3; y4]) as [Ey Hy];
    [reflexivity | repeat constructor; assumption |].
  pose proof (pad_digitsValue_2 [m1; m2] eq_refl) as Em.
  pose proof (pad_digitsValue_2 [d1; d2] eq_refl) as Ed.
  exists y, (mo - 1), d. split; [split; lia|]. split; [exact Hy|]. split; [reflexivity|].
  unfold dayText. replace (mo - 1 + 1) with mo by lia.
  fold y in Ey. fold mo in Em. fold d in Ed.
  rewrite Ey, Em, Ed by (repeat constructor; assumption). reflexivity.
Qed.

End IsoParse.

Section LocalMidnight.

Lemma dayBefore_spec (y mo d : Z) :
  validDay y mo d ->
  validDay (fst (fst (dayBefore y mo d))) (snd (fst (dayBefore y mo d)))
           (snd (dayBefore y mo d))
  /\ makeDay (fst (fst (dayBefore y mo d))) (snd (fst (dayBefore y mo d)))
             (snd (dayBefore y mo d))
     = makeDay y mo d - 1.
Proof.
  intros Hv. pose proof (makeDay_in_year y mo d Hv) as [HD _].
  destruct Hv as [Hmo Hd]. unfold dayBefore.
  destruct (Z.leb_spec 2 d) as [H2|H2]; cbn [fst snd].
  { assert (validDay y mo (d - 1)) as Hv' by (split; lia).
    split; [exact Hv'|]. rewrite (proj1 (makeDay_in_year _ _ _ Hv')). lia. }
  assert (d = 1) as -> by lia.
  destruct (Z.leb_spec 1 mo) as [H1|H1]; cbn [fst snd].
  - pose proof (daysInMonth_bounds y (mo - 1)) as Hb.
    assert (validDay y (mo - 1) (daysInMonth y (mo - 1))) as Hv' by (split; lia).
    split; [exact Hv'|]. rewrite (proj1 (makeDay_in_year _ _ _ Hv')), HD.
    assert (mo = 1 \/ mo = 2 \/ mo = 3 \/ mo = 4 \/ mo = 5 \/ mo = 6
            \/ mo = 7 \/ mo = 8 \/ mo = 9 \/ mo = 10 \/ mo = 11) as Hcases by lia.
    repeat (destruct Hcases as [-> | Hcases]); try subst mo;
      unfold daysInMonth; destruct (isLeap y); simpl; lia.
  - assert (mo = 0) as -> by lia.
    assert (validDay (y - 1) 11 31) as Hv' by (split; [lia | simpl; lia]).
    split; [exact Hv'|]. rewrite (proj1 (makeDay_in_year _ _ _ Hv')), HD.
    pose proof (dayFromYear_step (y - 1)) as Hs.
    replace (y - 1 + 1) with y in Hs by lia.
    destruct (isLeap (y - 1)); destruct (isLeap y); simpl; lia.
Qed.

Lemma dayText_inj (y mo d y' mo' d' : Z) :
  validDay y mo d -> 0 <= y <= 9999 -> validDay y' mo' d' -> 0 <= y' <= 9999 ->
  dayText y mo d = dayText y' mo' d' -> makeDay y mo d = makeDay y' mo' d'.
Proof.
  intros Hv Hy Hv' Hy' E.
  pose proof (parseIsoDay_dayText y mo d Hv Hy) as H1.
  pose proof (parseIsoDay_dayText y' mo' d' Hv' Hy') as H2.
  rewrite E, H2 in H1. injection H1. unfold makeDate, msPerDay. lia.
Qed.

(** [new Date(year, month, day)] on a day that exists is local midnight
    of that day: its local calendar fields are the ones given, and its
    UTC day is the same day on a host at or west of UTC and the day
    before on a host east of UTC. *)
Lemma newDateYMD_day (h : Host) (y mo d : Z) :
  validDay y mo d -> 100 <= y <= 9999 ->
  - msPerDay < tzOffset h <= msPerDay ->
  exists t, newDateYMD h y mo d = Some t
    /\ getFullYear h t = y /\ getMonth h t = mo /\ getDate h t = d
    /\ isoDay t = (if 0 <? tzOffset h then dayTextOf (dayBefore y mo d)
                   else dayText y mo d).
Proof.
  intros Hv Hy Htz. unfold newDateYMD.
  replace ((0 <=? y) && (y <=? 99)) with false
    by (symmetry; apply andb_false_iff; right; apply Z.leb_gt; lia).
  pose proof (makeDay_in_year y mo d Hv) as [_ Hin].
  assert (dayFromYear 100 <= dayFromYear y) by (apply dayFromYear_mono; lia).
  assert (dayFromYear (y + 1) <= dayFromYear 10000) by (apply dayFromYear_mono; lia).
  assert (dayFromYear 100 = -683003) as E1 by reflexivity.
  assert (dayFromYear 10000 = 2932897) as E2 by reflexivity.
  unfold timeClip.
  destruct (Z.leb_spec (Z.abs (makeDate (makeDay y mo d) 0 - tzOffset h))
              8640000000000000) as [_|Hbig]; [|unfold makeDate, msPerDay in *; lia].
  eexists. split; [reflexivity|].
  unfold getFullYear, getMonth, getDate.
  replace (makeDate (makeDay y mo d) 0 - tzOffset h + tzOffset h)
    with (makeDate (makeDay y mo d) 0) by lia.
  rewrite (civilOf_makeDay y mo d 0 Hv) by (unfold msPerDay; lia).
  repeat (split; [reflexivity|]).
  destruct (Z.ltb_spec 0 (tzOffset h)) as [He|Hw].
  - destruct (dayBefore_spec y mo d Hv) as [Hv' HD'].
    replace (makeDate (makeDay y mo d) 0 - tzOffset h)
      with (makeDate (makeDay y mo d - 1) (msPerDay - tzOffset h))
      by (unfold makeDate; lia).
    rewrite <- HD'. unfold dayTextOf. apply isoDay_makeDate; [exact Hv' | | lia].
    unfold dayBefore. repeat case_match; cbn [fst snd]; lia.
  - replace (makeDate (makeDay y mo d) 0 - tzOffset h)
      with (makeDate (makeDay y mo d) (- tzOffset h)) by (unfold makeDate; lia).
    apply isoDay_makeDate; [exact Hv | lia | lia].
Qed.

Lemma monthMap_range (w : list N) (mo : Z) : monthMap w = Month mo -> 0 <= mo <= 11.
Proof.
  unfold monthMap, monthNames. cbn [assoc].
  repeat (case_bool_decide; [intros [= <-]; lia|]).
  discriminate.
Qed.

End LocalMidnight.

(** ** Calendar days through the date helpers *)

Section CalendarDays.
Variable h : Host.

Lemma triple_year (t : triple) :
  wfTriple t -> 0 <= Z.of_N (digitsValue (tYear t) 0) <= 9999.
Proof.
  intros (_ & _ & _ & _ & Hl & Hy). now apply pad_digitsValue_4.
Qed.

Lemma newDateStr_dayText (y mo d : Z) :
  validDay y mo d -> 0 <= y <= 9999 ->
  newDateStr h (dayText y mo d) = Some (makeDate (makeDay y mo d) 0).
Proof.
  intros Hv Hy. pose proof (parseIsoDay_dayText y mo d Hv Hy) as Hp.
  unfold newDateStr. destruct (dayText y mo d); [discriminate Hp|]. now rewrite Hp.
Qed.

Lemma isFestivalPast_endTime (now : Z) (fd : FestivalData) (s : list N) (t : Z) :
  endDate fd = Some s -> newDateStr h s = Some t ->
  isFestivalPast h now fd = (t <? startOfDay h now).
Proof.
  intros He Hs. unfold isFestivalPast. now rewrite (validTime_Some h _ _ _ He Hs).
Qed.

(** The local day on which midnight UTC of a day falls. *)
Lemma localDay_midnight (D : Z) :
  - msPerDay <= tzOffset h < msPerDay ->
  localDay h (makeDate D 0) = if 0 <=? tzOffset h then D else D - 1.
Proof.
  intros Htz. unfold localDay, makeDate.
  destruct (Z.leb_spec 0 (tzOffset h)); unfold msPerDay in *; zdiv.
Qed.

Lemma isoField_triple (ts : list triple) (t : triple) (mo : Z) :
  Forall wfTriple ts -> wfTriple t ->
  monthMap (toLowerCase (tWord t)) = Month mo ->
  validDay (Z.of_N (digitsValue (tYear t) 0)) mo (Z.of_N (digitsValue (tDay t) 0)) ->
  100 <= Z.of_N (digitsValue (tYear t) 0) ->
  - msPerDay < tzOffset h <= msPerDay ->
  isoField (parseItalianDate h (renderAll (ts ++ [t])))
  = Ok (Some (if 0 <? tzOffset h
              then dayTextOf (dayBefore (Z.of_N (digitsValue (tYear t) 0)) mo
                                        (Z.of_N (digitsValue (tDay t) 0)))
              else dayText (Z.of_N (digitsValue (tYear t) 0)) mo
                           (Z.of_N (digitsValue (tDay t) 0)))).
Proof.
  intros Hts Ht Hm Hv Hy Htz. pose proof (triple_year t Ht) as Hy'.
  rewrite (parseItalianDate_renderAll h ts t Hts Ht). unfold tripleDate. rewrite Hm.
  destruct (newDateYMD_day h _ mo _ Hv ltac:(lia) Htz) as (x & -> & _ & _ & _ & Hx).
  unfold isoField. now rewrite Hx.
Qed.

Lemma dayBefore_year (y mo d : Z) :
  validDay y mo d -> 100 <= y <= 9999 -> 0 <= fst (fst (dayBefore y mo d)) <= 9999.
Proof.
  intros _ Hy. unfold dayBefore. repeat case_match; cbn [fst snd]; lia.
Qed.

(** X12.  strapi.ts, [parseDate]: the date-only text of a day that exists
    comes back unchanged, on every host. *)
Theorem parseDate_date_only (y mo d : Z) :
  validDay y mo d -> 0 <= y <= 9999 ->
  Strapi.parseDate h (Some (dayText y mo d)) = Some (dayText y mo d).
Proof.
  intros Hv Hy. unfold Strapi.parseDate.
  rewrite (validTime_Some h _ _ _ eq_refl (newDateStr_dayText y mo d Hv Hy)).
  f_equal. apply isoDay_makeDate; [exact Hv | exact Hy | unfold msPerDay; lia].
Qed.

(** X2.  The Date [parseItalianDate] returns for a text that ends in a day
    that exists is local midnight of that day: [getFullYear], [getMonth]
    and [getDate] give back the year, the month and the day of the text,
    on every host. *)
Theorem parseItalianDate_local_fields (ts : list triple) (t : triple) (mo : Z) :
  Forall wfTriple ts -> wfTriple t ->
  monthMap (toLowerCase (tWord t)) = Month mo ->
  validDay (Z.of_N (digitsValue (tYear t) 0)) mo (Z.of_N (digitsValue (tDay t) 0)) ->
  100 <= Z.of_N (digitsValue (tYear t) 0) ->
  - msPerDay < tzOffset h <= msPerDay ->
  exists x, parseItalianDate h (renderAll (ts ++ [t])) = Some (Time x)
    /\ getFullYear h x = Z.of_N (digitsValue (tYear t) 0)
    /\ getMonth h x = mo
    /\ getDate h x = Z.of_N (digitsValue (tDay t) 0).
Proof.
  intros Hts Ht Hm Hv Hy Htz. pose proof (triple_year t Ht) as Hy'.
  rewrite (parseItalianDate_renderAll h ts t Hts Ht). unfold tripleDate. rewrite Hm.
  destruct (newDateYMD_day h _ mo _ Hv ltac:(lia) Htz) as (x & -> & H1 & H2 & H3 & _).
  exists x. auto.
Qed.

(** X3.  The date field a site parser derives from such a text, by
    [toISOString().split("T")[0]], is the day of the text on a host at or
    west of UTC, and the day before it on a host east of UTC. *)
Theorem isoField_parseItalianDate (ts : list triple) (t : triple) (mo : Z) :
  Forall wfTriple ts -> wfTriple t ->
  monthMap (toLowerCase (tWord t)) = Month mo ->
  validDay (Z.of_N (digitsValue (tYear t) 0)) mo (Z.of_N (digitsValue (tDay t) 0)) ->
  100 <= Z.of_N (digitsValue (tYear t) 0) ->
  - msPerDay < tzOffset h <= msPerDay ->
  let y := Z.of_N (digitsValue (tYear t) 0) in
  let d := Z.of_N (digitsValue (tDay t) 0) in
  isoField (parseItalianDate h (renderAll (ts ++ [t])))
  = Ok (Some (if 0 <? tzOffset h then dayTextOf (dayBefore y mo d) else dayText y mo d))
  /\ dayTextOf (dayBefore y mo d) <> dayText y mo d.
Proof.
  intros Hts Ht Hm Hv Hy Htz y d. pose proof (triple_year t Ht) as Hy'.
  fold y in Hv, Hy, Hy'. fold d in Hv. split.
  - now apply isoField_triple.
  - destruct (dayBefore_spec y mo d Hv) as [Hv' HD]. unfold dayTextOf. intros E.
    apply dayText_inj in E; [lia | exact Hv' | | exact Hv | lia].
    apply dayBefore_year; [exact Hv | lia].
Qed.

Variable now : Z.

(** X6.  An end date given as the date-only text of a day: at or east of UTC
    the record is past from the day after it; west of UTC it is past on
    that day already. *)
Theorem isFestivalPast_date_only_end (fd : FestivalData) (y mo d : Z) :
  validDay y mo d -> 0 <= y <= 9999 ->
  endDate fd = Some (dayText y mo d) ->
  - msPerDay <= tzOffset h < msPerDay ->
  (isFestivalPast h now fd = true
   <-> if 0 <=? tzOffset h then makeDay y mo d < localDay h now
       else makeDay y mo d <= localDay h now).
Proof.
  intros Hv Hy He Htz.
  rewrite (isFestivalPast_endTime now fd _ _ He (newDateStr_dayText y mo d Hv Hy)).
  rewrite Z.ltb_lt, startOfDay_lt, (localDay_midnight _ ltac:(lia)).
  destruct (0 <=? tzOffset h); lia.
Qed.

(** X7.  On a host east of UTC the two meet: the end date a site parser
    derives from a text that ends in a day makes the record past on that
    very day. *)
Theorem isFestivalPast_derived_end_east (ts : list triple) (t : triple) (mo : Z) :
  Forall wfTriple ts -> wfTriple t ->
  monthMap (toLowerCase (tWord t)) = Month mo ->
  validDay (Z.of_N (digitsValue (tYear t) 0)) mo (Z.of_N (digitsValue (tDay t) 0)) ->
  100 <= Z.of_N (digitsValue (tYear t) 0) ->
  0 < tzOffset h < msPerDay ->
  exists s, isoField (parseItalianDate h (renderAll (ts ++ [t]))) = Ok (Some s)
    /\ forall fd, endDate fd = Some s ->
         (isFestivalPast h now fd = true
          <-> makeDay (Z.of_N (digitsValue (tYear t) 0)) mo
                      (Z.of_N (digitsValue (tDay t) 0)) <= localDay h now).
Proof.
  intros Hts Ht Hm Hv Hy Htz. pose proof (triple_year t Ht) as Hy'.
  pose proof (isoField_triple ts t mo Hts Ht Hm Hv Hy ltac:(lia)) as Hiso.
  replace (0 <? tzOffset h) with true in Hiso by (symmetry; apply Z.ltb_lt; lia).
  eexists. split; [exact Hiso|]. intros fd He.
  destruct (dayBefore_spec _ mo _ Hv) as [Hv' HD].
  pose proof (dayBefore_year _ mo _ Hv ltac:(lia)) as Hy''.
  rewrite (isFestivalPast_endTime now fd _ _ He (newDateStr_dayText _ _ _ Hv' Hy'')).
  rewrite Z.ltb_lt, startOfDay_lt, (localDay_midnight _ ltac:(lia)), HD.
  replace (0 <=? tzOffset h) with true by (symmetry; apply Z.leb_le; lia).
  lia.
Qed.

End CalendarDays.


Lemma parseDate_date_only_witness :
  Strapi.parseDate cetHost (Some (str "2025-11-07")) = Some (str "2025-11-07").
Proof.
  apply (parseDate_date_only cetHost 2025 10 7).
  - calc.
  - calc.
Defined.

Lemma parseItalianDate_local_fields_witness :
  exists x,
    parseItalianDate cetHost (str "31 Ottobre 2025 2 Novembre 2025") = Some (Time x)
    /\ getFullYear cetHost x = 2025 /\ getMonth cetHost x = 10 /\ getDate cetHost x = 2.
Proof.
  apply (parseItalianDate_local_fields cetHost
           [ mkTriple "31" "Ottobre" "2025" ] (mkTriple "2" "Novembre" "2025") 10).
  - constructor; [|constructor].
    repeat split; try discriminate; try (right; reflexivity); repeat constructor.
  - repeat split; try discriminate; try (left; reflexivity); repeat constructor.
  - reflexivity.
  - calc.
  - calc.
  - calc.
Defined.

Lemma isoField_parseItalianDate_witness :
  isoField (parseItalianDate cetHost (str "7 Novembre 2025")) = Ok (Some (str "2025-11-06"))
  /\ isoField (parseItalianDate utcHost (str "7 Novembre 2025")) = Ok (Some (str "2025-11-07")).
Proof.
  split.
  - apply (isoField_parseItalianDate cetHost [] (mkTriple "7" "Novembre" "2025") 10).
    + constructor.
    + repeat split; try discriminate; try (left; reflexivity); repeat constructor.
    + reflexivity.
    + calc.
    + calc.
    + calc.
  - apply (isoField_parseItalianDate utcHost [] (mkTriple "7" "Novembre" "2025") 10).
    + constructor.
    + repeat split; try discriminate; try (left; reflexivity); repeat constructor.
    + reflexivity.
    + calc.
    + calc.
    + calc.
Defined.

Lemma isFestivalPast_date_only_end_witness :
  isFestivalPast estHost nov7 (withEndDate (str "2025-11-07") blank) = true
  /\ isFestivalPast cetHost nov7 (withEndDate (str "2025-11-07") blank) = false.
Proof.
  split.
  - apply (isFestivalPast_date_only_end estHost nov7
             (withEndDate (str "2025-11-07") blank) 2025 10 7).
    + calc.
    + calc.
    + reflexivity.
    + calc.
    + vm_compute. discriminate.
  - apply not_true_is_false. intros H.
    apply (isFestivalPast_date_only_end cetHost nov7
             (withEndDate (str "2025-11-07") blank) 2025 10 7) in H.
    + vm_compute in H. discriminate H.
    + calc.
    + calc.
    + reflexivity.
    + calc.
Defined.

Lemma isFestivalPast_derived_end_east_witness :
  exists s,
    isoField (parseItalianDate cetHost (str "7 Novembre 2025")) = Ok (Some s)
    /\ isFestivalPast cetHost nov7 (withEndDate s blank) = true.
Proof.
  destruct (isFestivalPast_derived_end_east cetHost nov7 []
              (mkTriple "7" "Novembre" "2025") 10) as (s & Hs & Hfd).
  - constructor.
  - repeat split; try discriminate; try (left; reflexivity); repeat constructor.
  - reflexivity.
  - calc.
  - calc.
  - calc.
  - exists s. split; [exact Hs|].
    apply (Hfd (withEndDate s blank) eq_refl). vm_compute. discriminate.
Defined.

(** ** The cleanup script *)

Section CleanupScript.
Variable h : Host.
Variable now : Z.

Lemma startOfDay_le : startOfDay h now <= now.
Proof. unfold startOfDay, msPerDay. zdiv. Qed.

Lemma validTime_unset (field : option (list N)) : unset field -> validTime h field = None.
Proof. now intros [-> | ->]. Qed.

Lemma isPastFestival_end (sf : Cleanup.StrapiFestival) (t : Z) :
  validTime h (Cleanup.endDate sf) = Some t ->
  Cleanup.isPastFestival h now sf = (t <? startOfDay h now).
Proof.
  unfold Cleanup.isPastFestival, validTime, Cleanup.dateBefore.
  destruct (Cleanup.endDate sf) as [[|c s]|]; try discriminate. now intros ->.
Qed.

Lemma isPastFestival_start (sf : Cleanup.StrapiFestival) :
  unset (Cleanup.endDate sf) ->
  Cleanup.isPastFestival h now sf
  = match validTime h (Cleanup.startDate sf) with Some t => t <? now | None => false end.
Proof.
  intros [He | He]; unfold Cleanup.isPastFestival, validTime, Cleanup.dateBefore; rewrite He;
    now destruct (Cleanup.startDate sf) as [[|c s]|].
Qed.

(** X13.  The crawler's filter and the cleanup's test on the same two date
    fields: they agree when the end date parses, and when neither date is
    set and the record has no fragments; with no end date the cleanup
    compares the start date with the current instant, not with the start
    of the day, so whatever the crawler drops the cleanup removes, and a
    start date between the start of the day and now is kept by the one
    and removed by the other; an end date that is set but does not parse
    stops the cleanup's test, while the crawler goes on to the start
    date. *)
Theorem isPastFestival_and_isFestivalPast (fd : FestivalData) (sf : Cleanup.StrapiFestival) :
  sameSchedule fd sf ->
  (validTime h (endDate fd) <> None ->
   Cleanup.isPastFestival h now sf = isFestivalPast h now fd)
  /\ (unset (endDate fd) -> forall t, validTime h (startDate fd) = Some t ->
      isFestivalPast h now fd = (t <? startOfDay h now)
      /\ Cleanup.isPastFestival h now sf = (t <? now)
      /\ (isFestivalPast h now fd = true -> Cleanup.isPastFestival h now sf = true)
      /\ (startOfDay h now <= t < now ->
          isFestivalPast h now fd = false /\ Cleanup.isPastFestival h now sf = true))
  /\ (endDate fd <> None -> endDate fd <> Some [] -> validTime h (endDate fd) = None ->
      Cleanup.isPastFestival h now sf = false
      /\ forall t, validTime h (startDate fd) = Some t -> t < startOfDay h now ->
           isFestivalPast h now fd = true)
  /\ (unset (endDate fd) -> unset (startDate fd) ->
      Cleanup.isPastFestival h now sf = false).
Proof.
  intros [Hs He]. pose proof startOfDay_le as Hle. split; [|split; [|split]].
  - intros Hv. destruct (validTime h (endDate fd)) as [t|] eqn:Ht; [|congruence].
    rewrite (isPastFestival_end sf t) by (now rewrite He).
    unfold isFestivalPast. now rewrite Ht.
  - intros Hu t Ht.
    assert (isFestivalPast h now fd = (t <? startOfDay h now)) as ->.
    { unfold isFestivalPast. now rewrite (validTime_unset _ Hu), Ht. }
    assert (Cleanup.isPastFestival h now sf = (t <? now)) as ->.
    { rewrite isPastFestival_start by (now rewrite He). now rewrite Hs, Ht. }
    split; [reflexivity|]. split; [reflexivity|]. split.
    + rewrite !Z.ltb_lt. lia.
    + intros Hb. split; [apply Z.ltb_ge | apply Z.ltb_lt]; lia.
  - intros Hn Hn' Hv. split.
    + unfold Cleanup.isPastFestival, Cleanup.dateBefore. rewrite He.
      destruct (endDate fd) as [[|c s]|]; try congruence.
      unfold validTime in Hv. now rewrite Hv.
    + intros t Ht Hlt. unfold isFestivalPast. rewrite Hv, Ht. now apply Z.ltb_lt.
  - intros Hu Hu'. rewrite isPastFestival_start by (now rewrite He).
    now rewrite Hs, (validTime_unset _ Hu').
Qed.

(** X14.  A festival with no end date that starts today, stored with the
    date-only text of its day: on a host at or east of UTC the crawler
    keeps it all day, and the cleanup removes it as soon as midnight UTC
    of that day is behind. *)
Theorem isPastFestival_starts_today (fd : FestivalData) (sf : Cleanup.StrapiFestival)
    (y mo d : Z) :
  sameSchedule fd sf -> unset (endDate fd) ->
  startDate fd = Some (dayText y mo d) ->
  validDay y mo d -> 0 <= y <= 9999 ->
  0 <= tzOffset h < msPerDay ->
  makeDay y mo d = localDay h now ->
  makeDate (makeDay y mo d) 0 < now ->
  isFestivalPast h now fd = false /\ Cleanup.isPastFestival h now sf = true.
Proof.
  intros [Hs He] Hu Hsd Hv Hy Htz Hday Hnow.
  pose proof (validTime_Some h _ _ _ Hsd (newDateStr_dayText h y mo d Hv Hy)) as Ht.
  split.
  - unfold isFestivalPast. rewrite (validTime_unset _ Hu), Ht.
    apply Z.ltb_ge. unfold startOfDay. unfold localDay in Hday.
    rewrite <- Hday. unfold makeDate. lia.
  - rewrite isPastFestival_start by (now rewrite He).
    rewrite Hs, Ht. now apply Z.ltb_lt.
Qed.

Variable dryRun : bool.
Variable remote : Cleanup.Remote.

Lemma deleteLoop_spec (past : list Cleanup.StrapiFestival) (asked : list (list N))
    (res : Cleanup.CleanupResult) :
  let r := Cleanup.deleteLoop dryRun remote past asked res in
  Cleanup.total (fst r) = Cleanup.total res
  /\ (exists infos, Cleanup.festivals (fst r) = Cleanup.festivals res ++ infos
        /\ map Cleanup.infoDocumentId infos = map Cleanup.documentId past
        /\ Forall (fun i => Cleanup.infoStatus i = Cleanup.StSkipped <-> dryRun = true) infos)
  /\ snd r = asked ++ (if dryRun then [] else map Cleanup.documentId past)
  /\ (Cleanup.deleted (fst r) + Cleanup.failed (fst r)
      = Cleanup.deleted res + Cleanup.failed res + (if dryRun then 0 else length past))%nat
  /\ (dryRun = true -> Cleanup.deleted (fst r) = Cleanup.deleted res /\ Cleanup.failed (fst r) = Cleanup.failed res).
Proof.
  revert asked res. induction past as [|f past IH]; intros asked res; cbn [Cleanup.deleteLoop].
  - cbn [fst snd]. split; [reflexivity|]. split.
    + exists []. now rewrite app_nil_r.
    + destruct dryRun; rewrite ?app_nil_r; auto with lia.
  - destruct dryRun eqn:Hdry.
    + match goal with |- context [Cleanup.deleteLoop true remote past asked ?r] =>
        specialize (IH asked r) end.
      cbv zeta in IH. destruct IH as (H1 & (infos & H2 & H3 & H4) & H5 & H6 & H7).
      cbn [Cleanup.total Cleanup.festivals Cleanup.deleted Cleanup.failed] in *.
      split; [exact H1|]. split.
      * eexists (_ :: infos). rewrite H2, <- app_assoc. split; [reflexivity|].
        split; [simpl; now rewrite H3|]. constructor; [now simpl | exact H4].
      * split; [exact H5|]. split; [exact H6|]. intros _. now apply H7.
    + destruct (remote asked (Cleanup.documentId f)).
      * match goal with |- context [Cleanup.deleteLoop false remote past ?a ?r] =>
          specialize (IH a r) end.
        cbv zeta in IH. destruct IH as (H1 & (infos & H2 & H3 & H4) & H5 & H6 & H7).
        cbn [Cleanup.total Cleanup.festivals Cleanup.deleted Cleanup.failed] in *.
        split; [exact H1|]. split.
        -- eexists (_ :: infos). rewrite H2, <- app_assoc. split; [reflexivity|].
           split; [simpl; now rewrite H3|]. constructor; [now simpl | exact H4].
        -- split; [rewrite H5, <- app_assoc; reflexivity|].
           split; [rewrite H6; simpl; lia | discriminate].
      * match goal with |- context [Cleanup.deleteLoop false remote past ?a ?r] =>
          specialize (IH a r) end.
        cbv zeta in IH. destruct IH as (H1 & (infos & H2 & H3 & H4) & H5 & H6 & H7).
        cbn [Cleanup.total Cleanup.festivals Cleanup.deleted Cleanup.failed] in *.
        split; [exact H1|]. split.
        -- eexists (_ :: infos). rewrite H2, <- app_assoc. split; [reflexivity|].
           split; [simpl; now rewrite H3|]. constructor; [now simpl | exact H4].
        -- split; [rewrite H5, <- app_assoc; reflexivity|].
           split; [rewrite H6; simpl; lia | discriminate].
Qed.

(** X15.  [cleanupPastFestivals] on a list it could fetch: the result lists
    the past festivals, in the order fetched, and counts them; in a dry
    run nothing is asked of the remote side and every entry is
    "skipped"; otherwise [deleteFestival] is called once for each past
    festival, in that order, and for no other, no entry is "skipped",
    and the deleted and failed counts add up to the total. *)
Theorem cleanupPastFestivals_result (allFestivals : list Cleanup.StrapiFestival) :
  exists res,
    fst (Cleanup.cleanupPastFestivals h now dryRun remote (Ok allFestivals)) = Ok res
    /\ Cleanup.total res = length (pastIds h now allFestivals)
    /\ map Cleanup.infoDocumentId (Cleanup.festivals res) = pastIds h now allFestivals
    /\ snd (Cleanup.cleanupPastFestivals h now dryRun remote (Ok allFestivals))
       = (if dryRun then [] else pastIds h now allFestivals)
    /\ (Cleanup.deleted res + Cleanup.failed res = if dryRun then 0 else Cleanup.total res)%nat
    /\ Forall (fun i => Cleanup.infoStatus i = Cleanup.StSkipped <-> dryRun = true) (Cleanup.festivals res).
Proof.
  unfold Cleanup.cleanupPastFestivals, pastIds. cbn [fst snd].
  set (past := filter _ allFestivals).
  set (res0 := {| Cleanup.total := length past; Cleanup.deleted := 0; Cleanup.failed := 0; Cleanup.festivals := [] |}).
  pose proof (deleteLoop_spec past [] res0) as Hloop. cbv zeta in Hloop.
  destruct Hloop as (H1 & (infos & H2 & H3 & H4) & H5 & H6 & H7).
  eexists. split; [reflexivity|].
  cbn [Cleanup.total Cleanup.festivals Cleanup.deleted Cleanup.failed app] in *.
  rewrite H1, H2, H5, H6. subst res0.
  cbn [Cleanup.total Cleanup.festivals Cleanup.deleted Cleanup.failed app].
  rewrite H3, length_map.
  repeat split; try exact H4; try reflexivity.
Qed.

End CleanupScript.


Lemma isPastFestival_and_isFestivalPast_witness :
  isFestivalPast cetHost nov7 (withStartDate (str "2025-11-07") blank) = false
  /\ Cleanup.isPastFestival cetHost nov7 (stored (withStartDate (str "2025-11-07") blank))
     = true.
Proof.
  destruct (isPastFestival_and_isFestivalPast cetHost nov7
              (withStartDate (str "2025-11-07") blank)
              (stored (withStartDate (str "2025-11-07") blank)))
    as (_ & H & _).
  - split; reflexivity.
  - apply (H (or_introl eq_refl) 1762473600000 eq_refl). calc.
Defined.

Lemma isPastFestival_starts_today_witness :
  isFestivalPast utcHost nov7 (withStartDate (str "2025-11-07") blank) = false
  /\ Cleanup.isPastFestival utcHost nov7 (stored (withStartDate (str "2025-11-07") blank))
     = true.
Proof.
  apply (isPastFestival_starts_today utcHost nov7
           (withStartDate (str "2025-11-07") blank)
           (stored (withStartDate (str "2025-11-07") blank)) 2025 10 7).
  - split; reflexivity.
  - left. reflexivity.
  - reflexivity.
  - calc.
  - calc.
  - calc.
  - reflexivity.
  - calc.
Defined.

(** ** Global replacement, one position at a time *)

Section Replace.
Variable ic : bool.
Variable r : regex.
Variable by_ : list N.

Lemma matchAt_index (st : mstate) (mt : rmatch) :
  matchAt ic r st = Some mt -> index mt = pos st.
Proof.
  unfold matchAt. destruct (m ic r _ Some); [|discriminate]. now intros [= <-].
Qed.

Lemma search_index (s : list N) (p : option N) (i : nat) (mt : rmatch) :
  search ic r p i s = Some mt -> (i <= index mt)%nat.
Proof.
  revert p i. induction s as [|c s IH]; intros p i; rewrite search_unfold;
    destruct (matchAt ic r _) as [mt'|] eqn:Hm; try discriminate.
  - intros [= <-]. apply matchAt_index in Hm. simpl in Hm. lia.
  - intros [= <-]. apply matchAt_index in Hm. simpl in Hm. lia.
  - intros H. apply IH in H. lia.
Qed.

Lemma matchesFrom_index (fuel : nat) (st : mstate) :
  match matchesFrom fuel ic r st with
  | mt :: _ => (pos st <= index mt)%nat
  | [] => True
  end.
Proof.
  destruct fuel as [|fuel]; [exact I|]. cbn [matchesFrom].
  destruct (search ic r (prev st) (pos st) (rest st)) as [mt|] eqn:Hs; [|exact I].
  apply search_index in Hs.
  destruct (Nat.eqb (pos (stop mt)) (index mt)); [destruct (advance (stop mt))|]; exact Hs.
Qed.

Lemma splice_lead (S : list N) (cur : nat) (c : N) (s' : list N) (ms : list rmatch) :
  drop cur S = c :: s' ->
  match ms with mt :: _ => (cur < index mt)%nat | [] => True end ->
  splice S cur ms by_ = c :: splice S (Datatypes.S cur) ms by_.
Proof.
  intros Hd Hms.
  assert (drop (Datatypes.S cur) S = s') as Hd'.
  { replace (drop (Datatypes.S cur) S) with (drop 1 (drop cur S))
      by (rewrite drop_drop; f_equal; lia).
    now rewrite Hd. }
  destruct ms as [|mt ms]; cbn [splice].
  - now rewrite Hd, Hd'.
  - rewrite Hd, Hd'.
    destruct (index mt - cur)%nat as [|n] eqn:E; [lia|].
    replace (index mt - Datatypes.S cur)%nat with n by lia. reflexivity.
Qed.


(** The pattern's behaviour at a position: [dec i s] is the run it
    matches at index [i] before the text [s] and what is left, if it
    matches there; [nice] is the text the replacement is to give. *)
Variable dec : nat -> list N -> option (list N * list N).
Variable nice : nat -> list N -> list N.

Hypothesis Hdec : forall (p : option N) (s : list N) (i : nat),
  match dec i s with
  | Some (run, tail) =>
    run <> [] /\ s = run ++ tail
    /\ exists mt, matchAt ic r (MState p s i []) = Some mt
                  /\ pos (stop mt) = (i + length run)%nat /\ rest (stop mt) = tail
  | None => matchAt ic r (MState p s i []) = None
  end.

Hypothesis Hnice : forall (i : nat) (s : list N),
  nice i s = match dec i s with
             | Some (run, tail) => by_ ++ nice (i + length run) tail
             | None => match s with
                       | [] => []
                       | c :: s' => c :: nice (S i) s'
                       end
             end.

Lemma matchesFrom_miss (fuel : nat) (st : mstate) (c : N) (s' : list N) :
  rest st = c :: s' ->
  matchAt ic r (MState (prev st) (c :: s') (pos st) []) = None ->
  matchesFrom fuel ic r st
  = matchesFrom fuel ic r (MState (Some c) s' (Datatypes.S (pos st)) []).
Proof.
  intros Hr Hn. destruct fuel as [|fuel]; [reflexivity|].
  cbn [matchesFrom prev pos rest]. rewrite Hr, search_unfold, Hn. reflexivity.
Qed.

Lemma matchesFrom_end (fuel : nat) (st : mstate) :
  rest st = [] ->
  matchAt ic r (MState (prev st) [] (pos st) []) = None ->
  matchesFrom fuel ic r st = [].
Proof.
  intros Hr Hn. destruct fuel as [|fuel]; [reflexivity|].
  cbn [matchesFrom]. rewrite Hr, search_unfold, Hn. reflexivity.
Qed.

Lemma matchesFrom_hit (fuel : nat) (st : mstate) (mt : rmatch) :
  matchAt ic r (MState (prev st) (rest st) (pos st) []) = Some mt ->
  pos (stop mt) <> index mt ->
  matchesFrom (Datatypes.S fuel) ic r st = mt :: matchesFrom fuel ic r (stop mt).
Proof.
  intros Hm Hp. cbn [matchesFrom]. rewrite search_unfold, Hm. cbv zeta.
  apply Nat.eqb_neq in Hp. now rewrite Hp.
Qed.

Lemma splice_matchesFrom (n : nat) :
  forall (s : list N) (S : list N) (st : mstate) (fuel : nat),
    (length s <= n)%nat -> rest st = s -> drop (pos st) S = s -> (length s < fuel)%nat ->
    splice S (pos st) (matchesFrom fuel ic r st) by_ = nice (pos st) s.
Proof.
  induction n as [|n IH]; intros s S st fuel Hn Hr Hd Hf;
    (destruct fuel as [|fuel]; [lia|]); rewrite (Hnice (pos st) s);
    pose proof (Hdec (prev st) s (pos st)) as Hm.
  - destruct s; [|simpl in Hn; lia].
    destruct (dec (pos st) []) as [[run tail]|].
    + destruct Hm as (Hne & Hs & _). destruct run; [congruence | discriminate].
    + rewrite (matchesFrom_end _ st Hr Hm). cbn [splice]. exact Hd.
  - destruct (dec (pos st) s) as [[run tail]|].
    + destruct Hm as (Hne & Hs & mt & Hmt & Hp & Ht).
      pose proof (matchAt_index _ _ Hmt) as Hi. cbn [pos] in Hi.
      assert (0 < length run)%nat by (destruct run; [congruence | simpl; lia]).
      rewrite <- Hr in Hmt.
      rewrite (matchesFrom_hit fuel st mt Hmt) by lia.
      cbn [splice]. rewrite Hi, Nat.sub_diag, take_0. cbn [app]. f_equal.
      rewrite <- Hp. apply (IH tail).
      * rewrite Hs, length_app in Hn. lia.
      * exact Ht.
      * rewrite Hp. rewrite <- drop_drop, Hd, Hs. apply drop_app_length.
      * rewrite Hs, length_app in Hf. lia.
    + destruct s as [|c s'].
      * rewrite (matchesFrom_end _ st Hr Hm). cbn [splice]. exact Hd.
      * rewrite (matchesFrom_miss _ st c s' Hr Hm).
        set (st1 := MState (Some c) s' (Datatypes.S (pos st)) []).
        rewrite (splice_lead S (pos st) c s' _ Hd).
        2:{ pose proof (matchesFrom_index (Datatypes.S fuel) st1) as Hx.
            destruct (matchesFrom _ ic r st1); [exact I|]. simpl in Hx. lia. }
        f_equal. apply (IH s' S st1 (Datatypes.S fuel)); simpl in *; try lia; try reflexivity.
        replace (drop (Datatypes.S (pos st)) S) with (drop 1 (drop (pos st) S))
          by (rewrite drop_drop; f_equal; lia).
        now rewrite Hd.
Qed.

(** Replacing every match is the pass [nice] over the text. *)
Lemma replaceAll_pass (s : list N) : replaceAll ic r by_ s = nice 0 s.
Proof.
  unfold replaceAll, matchAll.
  apply (splice_matchesFrom (length s) s s (MState None s 0 [])); auto.
Qed.

End Replace.

(** ** Runs of a class *)

Section ClassRuns.

Lemma spanRun_app (p : N -> bool) (s : list N) :
  s = fst (spanRun p s) ++ snd (spanRun p s).
Proof.
  induction s as [|c s IH]; [reflexivity|]. cbn [spanRun].
  destruct (p c); cbn [fst snd app]; [now rewrite <- IH | reflexivity].
Qed.

Lemma spanRun_all (p : N -> bool) (s : list N) :
  Forall (fun c => p c = true) (fst (spanRun p s)).
Proof.
  induction s as [|c s IH]; [constructor|]. cbn [spanRun].
  destruct (p c) eqn:Hc; cbn [fst]; [now constructor | constructor].
Qed.

Lemma spanRun_stop (p : N -> bool) (s : list N) :
  match snd (spanRun p s) with [] => True | c :: _ => p c = false end.
Proof.
  induction s as [|c s IH]; [exact I|]. cbn [spanRun].
  destruct (p c) eqn:Hc; cbn [snd]; [exact IH | exact Hc].
Qed.

Lemma spanRun_nil (p : N -> bool) (s : list N) :
  fst (spanRun p s) = [] -> match s with [] => True | c :: _ => p c = false end.
Proof.
  destruct s as [|c s]; [trivial|]. cbn [spanRun].
  destruct (p c) eqn:Hc; [discriminate | trivial].
Qed.

Lemma spanRun_forallb (p : N -> bool) (s : list N) :
  forallb p s = true <-> snd (spanRun p s) = [].
Proof.
  induction s as [|c s IH]; [now split|]. cbn [forallb spanRun].
  destruct (p c); cbn [andb snd]; [exact IH | split; discriminate].
Qed.

Lemma spanRun_whole (p : N -> bool) (s : list N) :
  forallb p s = true -> fst (spanRun p s) = s.
Proof.
  intros H. pose proof (spanRun_app p s) as Happ.
  apply spanRun_forallb in H. rewrite H, app_nil_r in Happ. now symmetry.
Qed.


Lemma dropLeading_span (p : N -> bool) (s : list N) :
  dropLeading p s = snd (spanRun p s).
Proof.
  induction s as [|c s IH]; [reflexivity|]. cbn [dropLeading spanRun].
  destruct (p c); [exact IH | reflexivity].
Qed.

Lemma matchAt_some (ic : bool) (r : regex) (st e : mstate) :
  m ic r (MState (prev st) (rest st) (pos st) []) Some = Some e ->
  exists mt, matchAt ic r st = Some mt /\ stop mt = e.
Proof. intros H. unfold matchAt. rewrite H. eexists. split; reflexivity. Qed.

Lemma matchAt_none (ic : bool) (r : regex) (st : mstate) :
  m ic r (MState (prev st) (rest st) (pos st) []) Some = None ->
  matchAt ic r st = None.
Proof. intros H. unfold matchAt. now rewrite H. Qed.

Variable neg : bool.
Variable rs : list (N * N).
Variable keep : N -> bool.
Variable sep : N.
Hypothesis Hclass : forall c, classHas false neg rs c = negb (keep c).

Lemma collapseFrom_run (s : list N) :
  collapseFrom keep sep true s
  = collapseFrom keep sep false (snd (spanRun (fun c => negb (keep c)) s)).
Proof.
  induction s as [|c s IH]; [reflexivity|]. cbn [spanRun collapseFrom].
  destruct (keep c) eqn:Hc; cbn [negb snd]; [|exact IH].
  cbn [collapseFrom]. now rewrite Hc.
Qed.

(** Replacing every maximal run of a class by one unit. *)
Lemma replaceAll_plus_class (s : list N) :
  replaceAll false (plus (Class neg rs)) [sep] s = collapseFrom keep sep false s.
Proof.
  set (p := fun c => negb (keep c)).
  apply (replaceAll_pass false (plus (Class neg rs)) [sep]
           (fun _ s => match fst (spanRun p s) with
                       | [] => None
                       | c :: run => Some (c :: run, snd (spanRun p s))
                       end)
           (fun _ s => collapseFrom keep sep false s)).
  - intros pv s0 i. pose proof (spanRun_app p s0) as Happ.
    pose proof (spanRun_all p s0) as Hall. pose proof (spanRun_stop p s0) as Hstop.
    destruct (fst (spanRun p s0)) as [|c run] eqn:Hrun.
    + apply spanRun_nil in Hrun. apply matchAt_none.
      cbn [m plus prev rest pos caps].
      apply repeatMatcher_class_fail; [|lia|discriminate].
      cbn [rest]. destruct s0 as [|c s']; [exact I|].
      rewrite Hclass. exact Hrun.
    + split; [discriminate|]. split; [exact Happ|].
      set (st0 := MState pv s0 i []).
      destruct (matchAt_some false (plus (Class neg rs)) st0
                  (after st0 (c :: run) (snd (spanRun p s0)))) as (mt & Hm & He).
      { apply (m_repeat_class false neg rs Some _ (c :: run) (snd (spanRun p s0))).
        - exact Happ.
        - apply (Forall_impl _ _ _ Hall). intros x Hx. rewrite Hclass. exact Hx.
        - simpl. lia.
        - right. split; [exact I|].
          destruct (snd (spanRun p s0)) as [|x t]; [exact I|].
          rewrite Hclass. exact Hstop.
        - reflexivity. }
      exists mt. rewrite He. split; [exact Hm|]. split; reflexivity.
  - intros i s0. destruct s0 as [|c s']; [reflexivity|].
    assert (Hp : p c = negb (keep c)) by reflexivity.
    cbn [spanRun]. rewrite Hp.
    destruct (keep c) eqn:Hc; cbn [negb fst snd collapseFrom]; rewrite Hc.
    + reflexivity.
    + cbn [app]. f_equal. apply collapseFrom_run.
Qed.

End ClassRuns.

(** ** The patterns of generateSlug *)

Section SlugPatterns.
Import Strapi.

(** The combining marks U+0300 to U+036F replaced by nothing: the units
    of the class are dropped. *)
Lemma replaceAll_DIACRITICS (s : list N) :
  replaceAll false DIACRITICS [] s
  = List.filter (fun c => negb (inRanges diacriticRanges c)) s.
Proof.
  apply (replaceAll_pass false DIACRITICS []
           (fun _ s => match s with
                       | c :: s' => if inRanges diacriticRanges c then Some ([c], s') else None
                       | [] => None
                       end)
           (fun _ s => List.filter (fun c => negb (inRanges diacriticRanges c)) s)).
  - intros p s0 i. destruct s0 as [|c s']; [reflexivity|].
    destruct (inRanges diacriticRanges c) eqn:Hc.
    + split; [discriminate|]. split; [reflexivity|].
      destruct (matchAt_some false DIACRITICS (MState p (c :: s') i [])
                  (MState (Some c) s' (S i) [])) as (mt & Hm & He).
      { cbn [m DIACRITICS prev rest pos caps]. unfold classHas.
        fold diacriticRanges. now rewrite Hc. }
      exists mt. rewrite He. split; [exact Hm|]. split; [simpl; lia | reflexivity].
    + apply matchAt_none. cbn [m DIACRITICS prev rest pos caps]. unfold classHas.
      fold diacriticRanges. now rewrite Hc.
  - intros i s0. destruct s0 as [|c s']; [reflexivity|]. cbn [List.filter].
    destruct (inRanges diacriticRanges c); reflexivity.
Qed.


Lemma classHas_hyphen (c : N) : classHas false false hyphenRanges c = isHyphen c.
Proof.
  unfold classHas, hyphenRanges, inRanges, isHyphen, between. simpl.
  destruct (N.eqb_spec c 45) as [->|Hne]; [reflexivity|].
  destruct (N.leb_spec 45 c); destruct (N.leb_spec c 45); simpl; try reflexivity. lia.
Qed.

(** A quantified literal unit runs as the class of that unit alone. *)
Lemma repeat_char_class (a : N) (greedy : bool) (k : mstate -> option mstate) :
  forall (fuel lo : nat) (hi : option nat) (st : mstate),
    repeatMatcher (m false (Char a)) greedy k fuel lo hi st
    = repeatMatcher (m false (Class false [(a, a)])) greedy k fuel lo hi st.
Proof.
  induction fuel as [|fuel IH]; intros lo hi st; [reflexivity|].
  cbn [repeatMatcher]. cbv zeta.
  assert (Hbody :
    m false (Char a) st
      (fun st1 => if Nat.eqb lo 0 && Nat.eqb (pos st1) (pos st) then None
                  else repeatMatcher (m false (Char a)) greedy k fuel (Nat.pred lo)
                         (option_map Nat.pred hi) st1)
    = m false (Class false [(a, a)]) st
        (fun st1 => if Nat.eqb lo 0 && Nat.eqb (pos st1) (pos st) then None
                    else repeatMatcher (m false (Class false [(a, a)])) greedy k fuel
                           (Nat.pred lo) (option_map Nat.pred hi) st1)).
  { cbn [m]. destruct (rest st) as [|c s']; [reflexivity|].
    assert (charEq false a c = classHas false false [(a, a)] c) as ->.
    { unfold charEq, classHas, inRanges, between. simpl.
      destruct (N.eqb_spec a c) as [->|Hne].
      - now rewrite N.leb_refl.
      - destruct (N.leb_spec a c); destruct (N.leb_spec c a); simpl; try reflexivity. lia. }
    destruct (classHas false false [(a, a)] c); [|reflexivity].
    now rewrite IH. }
  rewrite Hbody. reflexivity.
Qed.

Lemma m_plus_hyphen (st : mstate) (k : mstate -> option mstate) :
  m false (plus (Char 45)) st k = m false (plus (Class false hyphenRanges)) st k.
Proof. cbn [m plus]. apply repeat_char_class. Qed.

(** A quantifier over a class, before a run of the class that is followed
    by a unit outside it, fails when its continuation refuses every state
    that has input left. *)
Lemma repeat_class_stuck (ic neg : bool) (rs : list (N * N)) (greedy : bool)
    (k : mstate -> option mstate) (c : N) (t : list N) :
  classHas ic neg rs c = false ->
  (forall st1, rest st1 <> [] -> k st1 = None) ->
  forall (fuel : nat) (run : list N) (st : mstate) (lo : nat) (hi : option nat),
    rest st = run ++ c :: t ->
    Forall (fun x => classHas ic neg rs x = true) run ->
    repeatMatcher (m ic (Class neg rs)) greedy k fuel lo hi st = None.
Proof.
  intros Hc Hk. induction fuel as [|fuel IH]; intros run st lo hi Hr Hrun; [reflexivity|].
  assert (Hkst : k st = None).
  { apply Hk. rewrite Hr. destruct run; discriminate. }
  cbn [repeatMatcher]. cbv zeta.
  match goal with |- context [m ic (Class neg rs) st ?dd] => set (d := dd) end.
  assert (Hbody : m ic (Class neg rs) st d = None).
  { cbn [m]. rewrite Hr. destruct run as [|x run]; cbn [app].
    - now rewrite Hc.
    - inversion Hrun as [|? ? Hx Hrun']; subst. rewrite Hx. subst d. cbv beta.
      destruct (Nat.eqb lo 0 && Nat.eqb _ _); [reflexivity|].
      now apply (IH run). }
  rewrite Hbody.
  destruct hi as [[|x]|]; [exact Hkst | |];
    destruct (Nat.ltb 0 lo); try reflexivity; destruct greedy; unfold orElse;
    now rewrite Hkst.
Qed.

Lemma m_EDGE_HYPHENS (st : mstate) (k : mstate -> option mstate) :
  m false EDGE_HYPHENS st k
  = orElse (if Nat.eqb (pos st) 0
            then m false (plus (Class false hyphenRanges)) st k else None)
           (m false (plus (Class false hyphenRanges)) st
              (fun st1 => match rest st1 with [] => k st1 | _ :: _ => None end)).
Proof.
  unfold EDGE_HYPHENS.
  change (m false (Alt ?a ?b) st k) with (orElse (m false a st k) (m false b st k)).
  change (m false (Seq Bol ?x) st k)
    with (if Nat.eqb (pos st) 0 then m false x st k else None).
  change (m false (Seq ?x Eol) st k)
    with (m false x st (fun st1 => match rest st1 with [] => k st1 | _ :: _ => None end)).
  now rewrite !m_plus_hyphen.
Qed.

(** Hyphens at the two ends of the text are removed. *)
Lemma replaceAll_EDGE_HYPHENS (s : list N) :
  replaceAll false EDGE_HYPHENS [] s = dropTrailing isHyphen (dropLeading isHyphen s).
Proof.
  apply (replaceAll_pass false EDGE_HYPHENS []
           (fun i s =>
              if Nat.eqb i 0 then
                match fst (spanRun isHyphen s) with
                | [] => None
                | c :: run => Some (c :: run, snd (spanRun isHyphen s))
                end
              else
                match s with
                | [] => None
                | c :: s' => if forallb isHyphen (c :: s') then Some (c :: s', []) else None
                end)
           (fun i s => if Nat.eqb i 0 then dropTrailing isHyphen (dropLeading isHyphen s) else dropTrailing isHyphen s)).
  - intros pv s0 i. set (st0 := MState pv s0 i []).
    assert (Est : MState (prev st0) (rest st0) (pos st0) [] = st0) by reflexivity.
    pose proof (spanRun_app isHyphen s0) as Happ.
    pose proof (spanRun_all isHyphen s0) as Hall.
    pose proof (spanRun_stop isHyphen s0) as Hstop.
    assert (Hfail : fst (spanRun isHyphen s0) = [] ->
              forall k, m false (plus (Class false hyphenRanges)) st0 k = None).
    { intros Hrun k. apply spanRun_nil in Hrun. cbn [m plus].
      apply repeatMatcher_class_fail; [|lia|discriminate].
      cbn [rest st0]. destruct s0 as [|c s']; [exact I|]. now rewrite classHas_hyphen. }
    destruct (Nat.eqb i 0) eqn:Hi.
    + destruct (fst (spanRun isHyphen s0)) as [|c run] eqn:Hrun.
      * apply matchAt_none. rewrite Est, m_EDGE_HYPHENS. rewrite !Hfail by reflexivity.
        now destruct (Nat.eqb _ 0).
      * split; [discriminate|]. split; [exact Happ|].
        destruct (matchAt_some false EDGE_HYPHENS st0
                    (after st0 (c :: run) (snd (spanRun isHyphen s0)))) as (mt & Hm & He).
        { rewrite Est, m_EDGE_HYPHENS. unfold plus. cbn [pos st0]. rewrite Hi.
          rewrite (m_repeat_class false false hyphenRanges Some
                     (after st0 (c :: run) (snd (spanRun isHyphen s0)))
                     (c :: run) (snd (spanRun isHyphen s0))); [reflexivity | exact Happ | | | |].
          - apply (Forall_impl _ _ _ Hall). intros x Hx. now rewrite classHas_hyphen.
          - simpl. lia.
          - right. split; [exact I|].
            destruct (snd (spanRun isHyphen s0)) as [|x t]; [exact I|].
            now rewrite classHas_hyphen.
          - reflexivity. }
        exists mt. rewrite He. split; [exact Hm|]. split; reflexivity.
    + destruct s0 as [|c s'].
      * apply matchAt_none. rewrite Est, m_EDGE_HYPHENS. cbn [pos st0]. rewrite Hi.
        rewrite Hfail by reflexivity. reflexivity.
      * destruct (forallb isHyphen (c :: s')) eqn:Hf.
        -- split; [discriminate|]. split; [now rewrite app_nil_r|].
           pose proof (spanRun_whole _ _ Hf) as Hw. rewrite Hw in Hall.
           destruct (matchAt_some false EDGE_HYPHENS st0 (after st0 (c :: s') []))
             as (mt & Hm & He).
           { rewrite Est, m_EDGE_HYPHENS. unfold plus. cbn [pos st0]. rewrite Hi. cbn [orElse].
             apply (m_repeat_class false false hyphenRanges _ _ (c :: s') []).
             - cbn [rest st0]. now rewrite app_nil_r.
             - apply (Forall_impl _ _ _ Hall). intros x Hx. now rewrite classHas_hyphen.
             - simpl. lia.
             - right. split; exact I.
             - reflexivity. }
           exists mt. rewrite He. split; [exact Hm|]. split; reflexivity.
        -- apply matchAt_none. rewrite Est, m_EDGE_HYPHENS. cbn [pos st0]. rewrite Hi.
           cbn [orElse]. unfold plus. cbn [m].
           assert (snd (spanRun isHyphen (c :: s')) <> []) as Hne.
           { intros E. apply spanRun_forallb in E. congruence. }
           destruct (snd (spanRun isHyphen (c :: s'))) as [|x t] eqn:Et; [congruence|].
           apply (repeat_class_stuck false false hyphenRanges true _ x t) with
             (run := fst (spanRun isHyphen (c :: s'))).
           ++ now rewrite classHas_hyphen.
           ++ intros st1 Hst1. destruct (rest st1); [congruence | reflexivity].
           ++ exact Happ.
           ++ apply (Forall_impl _ _ _ Hall). intros y Hy. now rewrite classHas_hyphen.
  - intros i s0. destruct (Nat.eqb i 0) eqn:Hi.
    + rewrite dropLeading_span.
      pose proof (spanRun_nil isHyphen s0) as Hnil.
      destruct (fst (spanRun isHyphen s0)) as [|c run] eqn:Hrun.
      * specialize (Hnil eq_refl). destruct s0 as [|c s']; [reflexivity|].
        cbn [spanRun]. rewrite Hnil. cbn [snd dropTrailing forallb]. rewrite Hnil.
        reflexivity.
      * cbn [app]. apply Nat.eqb_eq in Hi. subst i. reflexivity.
    + destruct s0 as [|c s']; [reflexivity|].
      destruct (forallb isHyphen (c :: s')) eqn:Hf.
      * cbn [dropTrailing]. rewrite Hf. cbn [app].
        destruct (Nat.eqb (i + length (c :: s')) 0); reflexivity.
      * cbn [dropTrailing]. rewrite Hf. reflexivity.
Qed.

End SlugPatterns.

(** ** Collapsing, then trimming, is one pass *)

Section Squeeze.
Variable keep : N -> bool.
Variable sep : N.
Variable dropP : N -> bool.
Hypothesis Hkeep : forall c, keep c = true -> dropP c = false.
Hypothesis Hsep : dropP sep = true.

Lemma dropTrailing_cons (c : N) (s : list N) :
  dropP c = false -> dropTrailing dropP (c :: s) = c :: dropTrailing dropP s.
Proof. intros H. cbn [dropTrailing forallb]. now rewrite H. Qed.

Lemma dropTrailing_sep_cons (c : N) (s : list N) :
  dropP c = false ->
  dropTrailing dropP (sep :: c :: s) = sep :: c :: dropTrailing dropP s.
Proof.
  intros H. cbn [dropTrailing forallb]. rewrite H.
  rewrite andb_false_r. cbn [andb]. reflexivity.
Qed.

(** After the first run: what is left of the collapsed text once the
    trailing separator is dropped is what the pass writes in its word
    and gap states. *)
Lemma dropTrailing_collapse (s : list N) :
  dropTrailing dropP (collapseFrom keep sep false s) = squeeze keep sep InWord s
  /\ dropTrailing dropP (sep :: collapseFrom keep sep true s) = squeeze keep sep InGap s.
Proof.
  induction s as [|c s [IH1 IH2]].
  - split; [reflexivity|]. cbn [collapseFrom squeeze dropTrailing forallb].
    now rewrite Hsep.
  - cbn [collapseFrom squeeze]. destruct (keep c) eqn:Hc.
    + pose proof (Hkeep c Hc) as Hh. split.
      * rewrite dropTrailing_cons by exact Hh. now rewrite IH1.
      * rewrite dropTrailing_sep_cons by exact Hh. now rewrite IH1.
    + split; exact IH2.
Qed.

Lemma dropLeading_collapse (s : list N) :
  dropTrailing dropP (dropLeading dropP (collapseFrom keep sep true s))
  = squeeze keep sep AtStart s.
Proof.
  induction s as [|c s IH]; [reflexivity|].
  cbn [collapseFrom squeeze]. destruct (keep c) eqn:Hc; [|exact IH].
  pose proof (Hkeep c Hc) as Hh.
  cbn [dropLeading]. rewrite Hh, dropTrailing_cons by exact Hh.
  now rewrite (proj1 (dropTrailing_collapse s)).
Qed.

Lemma trim_collapse (s : list N) :
  dropTrailing dropP (dropLeading dropP (collapseFrom keep sep false s))
  = squeeze keep sep AtStart s.
Proof.
  destruct s as [|c s]; [reflexivity|].
  cbn [collapseFrom squeeze]. destruct (keep c) eqn:Hc.
  - pose proof (Hkeep c Hc) as Hh.
    cbn [dropLeading]. rewrite Hh, dropTrailing_cons by exact Hh.
    now rewrite (proj1 (dropTrailing_collapse s)).
  - cbn [dropLeading]. rewrite Hsep. apply dropLeading_collapse.
Qed.

Lemma squeeze_units (q : passState) (s : list N) :
  Forall (fun c => keep c = true \/ c = sep) (squeeze keep sep q s).
Proof.
  revert q. induction s as [|c s IH]; intros q; [constructor|].
  cbn [squeeze]. destruct (keep c) eqn:Hc.
  - destruct q; try (constructor; [now left | apply IH]).
    constructor; [now right|]. constructor; [now left | apply IH].
  - destruct q; apply IH.
Qed.

Lemma squeeze_head (s : list N) :
  match squeeze keep sep AtStart s with
  | [] => True
  | c :: _ => keep c = true
  end.
Proof.
  induction s as [|c s IH]; [exact I|].
  cbn [squeeze]. destruct (keep c) eqn:Hc; [exact Hc | exact IH].
Qed.

Lemma squeeze_last (q : passState) (s : list N) :
  match last (squeeze keep sep q s) with
  | Some c => keep c = true
  | None => True
  end.
Proof.
  revert q. induction s as [|c s IH]; intros q; [exact I|].
  cbn [squeeze]. destruct (keep c) eqn:Hc.
  - specialize (IH InWord).
    assert (match last (c :: squeeze keep sep InWord s) with
            | Some x => keep x = true
            | None => True
            end) as H1.
    { rewrite last_cons. destruct (last (squeeze keep sep InWord s)); [exact IH | exact Hc]. }
    destruct q; exact H1.
  - destruct q; apply IH.
Qed.

Lemma noTwo_cons (c : N) (s : list N) :
  dropP c = false -> noTwo dropP (c :: s) = noTwo dropP s.
Proof.
  intros H. destruct s as [|b s]; [reflexivity|].
  cbn [noTwo]. rewrite H. reflexivity.
Qed.

Lemma squeeze_noTwo (q : passState) (s : list N) :
  noTwo dropP (squeeze keep sep q s) = true.
Proof.
  revert q. induction s as [|c s IH]; intros q; [reflexivity|].
  cbn [squeeze]. destruct (keep c) eqn:Hc.
  - pose proof (Hkeep c Hc) as Hh.
    assert (noTwo dropP (c :: squeeze keep sep InWord s) = true) as H1
      by (rewrite noTwo_cons by exact Hh; apply IH).
    destruct q; try exact H1.
    change (noTwo dropP (sep :: c :: squeeze keep sep InWord s))
      with (negb (dropP sep && dropP c) && noTwo dropP (c :: squeeze keep sep InWord s)).
    rewrite Hh, andb_false_r. exact H1.
  - destruct q; apply IH.
Qed.

(** The shape of what the pass writes: units to keep and separators
    only, a unit to keep at each end, no two dropped units in a row. *)
Lemma squeeze_shape (s : list N) :
  Forall (fun c => keep c = true \/ c = sep) (squeeze keep sep AtStart s)
  /\ (forall c, head (squeeze keep sep AtStart s) = Some c -> keep c = true)
  /\ (forall c, last (squeeze keep sep AtStart s) = Some c -> keep c = true)
  /\ noTwo dropP (squeeze keep sep AtStart s) = true.
Proof.
  split; [apply squeeze_units|]. split; [|split; [|apply squeeze_noTwo]].
  - pose proof (squeeze_head s) as H.
    destruct (squeeze keep sep AtStart s) as [|x out]; [discriminate|].
    now intros c [= <-].
  - pose proof (squeeze_last AtStart s) as H.
    destruct (last (squeeze keep sep AtStart s)) as [x|]; [|discriminate].
    now intros c [= <-].
Qed.

End Squeeze.

(** ** generateSlug as one pass *)

Section Slug.
Import Strapi.

Lemma isAlnum_not_hyphen (c : N) : isAlnum c = true -> isHyphen c = false.
Proof.
  unfold isAlnum, alnumRanges, inRanges, between, isHyphen. simpl. intros H.
  apply N.eqb_neq. intros ->. discriminate H.
Qed.

Lemma NON_ALNUM_class (c : N) : classHas false true alnumRanges c = negb (isAlnum c).
Proof. reflexivity. Qed.

(** X16.  [generateSlug] is one pass over the title in lower case, decomposed,
    with the combining marks U+0300 to U+036F dropped: the pass writes
    the maximal runs of [a-z0-9] in order, one hyphen between two runs,
    nothing before the first run and nothing after the last. *)
Theorem generateSlug_slugify (title_ : list N) :
  generateSlug title_
  = slugify (List.filter (fun c => negb (inRanges diacriticRanges c))
               (normalizeNFD (toLowerCase title_))).
Proof.
  unfold slugify, generateSlug. rewrite replaceAll_DIACRITICS, replaceAll_EDGE_HYPHENS.
  change (str "-") with [45%N]. unfold NON_ALNUM. fold alnumRanges.
  rewrite (replaceAll_plus_class true alnumRanges isAlnum 45%N NON_ALNUM_class).
  apply (trim_collapse isAlnum 45%N isHyphen isAlnum_not_hyphen eq_refl).
Qed.

(** X17.  Every slug is made of [a-z0-9] and hyphens only, neither starts nor
    ends with a hyphen, and has no two hyphens in a row; in particular
    a title without a letter of [a-z] (after lower-casing and
    decomposition) or digit gives the empty slug. *)
Theorem generateSlug_shape (title_ : list N) :
  Forall (fun c => isAlnum c = true \/ c = 45%N) (generateSlug title_)
  /\ head (generateSlug title_) <> Some 45%N
  /\ last (generateSlug title_) <> Some 45%N
  /\ noTwo isHyphen (generateSlug title_) = true
  /\ (Forall (fun c => isAlnum c = false) (normalizeNFD (toLowerCase title_)) ->
      generateSlug title_ = []).
Proof.
  unfold generateSlug. rewrite replaceAll_DIACRITICS, replaceAll_EDGE_HYPHENS.
  change (str "-") with [45%N]. unfold NON_ALNUM. fold alnumRanges.
  rewrite (replaceAll_plus_class true alnumRanges isAlnum 45%N NON_ALNUM_class).
  rewrite (trim_collapse isAlnum 45%N isHyphen isAlnum_not_hyphen eq_refl).
  set (s := List.filter _ _).
  destruct (squeeze_shape isAlnum 45%N isHyphen isAlnum_not_hyphen s)
    as (H1 & H2 & H3 & H4).
  split; [exact H1|]. split; [|split; [|split; [exact H4|]]].
  - intros E. now pose proof (H2 _ E).
  - intros E. now pose proof (H3 _ E).
  - intros Hall.
    assert (Forall (fun c => isAlnum c = false) s) as Hs.
    { subst s. apply List.Forall_forall. intros c Hc. apply filter_In in Hc as [Hc _].
      rewrite List.Forall_forall in Hall. now apply Hall. }
    clear -Hs. induction Hs as [|c s Hc Hs IH]; [reflexivity|].
    cbn [squeeze]. now rewrite Hc.
Qed.

End Slug.

(** ** The page text with single spaces *)

Section FullText.

Lemma trimStart_dropLeading (s : list N) : trimStart s = dropLeading isWhite s.
Proof. induction s as [|c s IH]; [reflexivity|]. cbn. now rewrite IH. Qed.

Lemma trimStart_app (a b : list N) :
  trimStart (a ++ b) = if forallb isWhite a then trimStart b else trimStart a ++ b.
Proof.
  induction a as [|c a IH]; [reflexivity|]. cbn [app trimStart forallb].
  destruct (isWhite c); [exact IH | reflexivity].
Qed.

Lemma forallb_rev (p : N -> bool) (s : list N) : forallb p (rev s) = forallb p s.
Proof.
  induction s as [|c s IH]; [reflexivity|]. cbn [rev forallb].
  rewrite forallb_app, IH. cbn [forallb]. rewrite andb_true_r. apply andb_comm.
Qed.

Lemma dropTrailing_all (p : N -> bool) (s : list N) :
  forallb p s = true -> dropTrailing p s = [].
Proof. intros H. destruct s as [|c s]; [reflexivity|]. cbn [dropTrailing]. now rewrite H. Qed.

Lemma trimEnd_dropTrailing (s : list N) : trimEnd s = dropTrailing isWhite s.
Proof.
  unfold trimEnd. induction s as [|c s IH]; [reflexivity|].
  cbn [rev]. rewrite trimStart_app, forallb_rev.
  destruct (forallb isWhite s) eqn:Hs.
  - cbn [dropTrailing forallb]. rewrite Hs, andb_true_r. cbn [trimStart].
    destruct (isWhite c); [reflexivity|].
    rewrite (dropTrailing_all _ _ Hs). reflexivity.
  - rewrite rev_app_distr. cbn [rev app]. rewrite IH.
    cbn [dropTrailing forallb]. rewrite Hs, andb_false_r. reflexivity.
Qed.

Lemma isInk_not_white (c : N) : isInk c = true -> isWhite c = false.
Proof. unfold isInk. now destruct (isWhite c). Qed.

Lemma space_class (c : N) : classHas false false whiteRanges c = negb (isInk c).
Proof. unfold isInk, isWhite, classHas. cbn [xorb]. now destruct (inRanges whiteRanges c). Qed.

(** X18.  [extractFullText] is the text of the body with every run of white
    space written as one space and none at the two ends: it is made of
    units that are not white space and of spaces, it neither starts nor
    ends with white space, and it has no two white-space units in a
    row. *)
Theorem extractFullText_single_spaced (q : Cheerio) :
  extractFullText q = singleSpaced (textOf (q "body"%string))
  /\ Forall (fun c => isWhite c = false \/ c = 32%N) (extractFullText q)
  /\ (forall c, head (extractFullText q) = Some c -> isWhite c = false)
  /\ (forall c, last (extractFullText q) = Some c -> isWhite c = false)
  /\ noTwo isWhite (extractFullText q) = true.
Proof.
  assert (extractFullText q = singleSpaced (textOf (q "body"%string))) as ->.
  { unfold extractFullText, trim, singleSpaced. unfold space.
    change (str " ") with [32%N].
    rewrite (replaceAll_plus_class false whiteRanges isInk 32%N space_class).
    rewrite trimStart_dropLeading, trimEnd_dropTrailing.
    apply (trim_collapse isInk 32%N isWhite isInk_not_white eq_refl). }
  split; [reflexivity|]. unfold singleSpaced.
  destruct (squeeze_shape isInk 32%N isWhite isInk_not_white (textOf (q "body"%string)))
    as (H1 & H2 & H3 & H4).
  split; [|split; [|split; [|exact H4]]].
  - apply (Forall_impl _ _ _ H1). intros c [Hc | ->]; [left | now right].
    now apply isInk_not_white.
  - intros c Hc. now apply isInk_not_white, H2.
  - intros c Hc. now apply isInk_not_white, H3.
Qed.

End FullText.

(** ** The date parsers need a digit *)

Section NeedsDigit.

Lemma digitFree_app (a b : list N) : digitFree (a ++ b) <-> digitFree a /\ digitFree b.
Proof. apply Forall_app. Qed.

Lemma digitFree_take (n : nat) (s : list N) : digitFree s -> digitFree (take n s).
Proof. apply Forall_take. Qed.

Lemma digitFree_drop (n : nat) (s : list N) : digitFree s -> digitFree (drop n s).
Proof. apply Forall_drop. Qed.

Lemma digitFree_trimStart (s : list N) : digitFree s -> digitFree (trimStart s).
Proof.
  intros H. destruct (trimStart_suffix s) as (l & E). rewrite E in H.
  now apply digitFree_app in H.
Qed.

Lemma digitFree_trim (s : list N) : digitFree s -> digitFree (trim s).
Proof.
  intros H. unfold trim, trimEnd. apply Forall_rev, digitFree_trimStart, Forall_rev.
  now apply digitFree_trimStart.
Qed.

Lemma digitFree_replaceOnce (ic : bool) (r : regex) (by_ s : list N) :
  digitFree by_ -> digitFree s -> digitFree (replaceOnce ic r by_ s).
Proof.
  intros Hb Hs. unfold replaceOnce. destruct (exec ic r s); [|exact Hs].
  apply digitFree_app. split; [now apply digitFree_take|].
  apply digitFree_app. split; [exact Hb | now apply digitFree_drop].
Qed.

(** A pattern whose texts all hold a digit matches nowhere in a text
    without digits. *)
Lemma matchAll_digitFree (ic : bool) (r : regex) (s : list N) :
  (forall w, lang ic r w -> exists a c b, w = a ++ c :: b /\ isDigit c = true) ->
  digitFree s -> matchAll ic r s = [].
Proof.
  intros Hlang Hs.
  assert (Hat : forall st, digitFree (rest st) -> matchAt ic r st = None).
  { intros st Hst. unfold matchAt.
    destruct (m ic r _ Some) as [e|] eqn:Hm; [|reflexivity].
    apply m_sound in Hm as (st' & w & _ & Hw & Hr). cbn [rest] in Hr.
    destruct (Hlang w Hw) as (a & c & b & -> & Hc).
    rewrite Hr in Hst. apply digitFree_app in Hst as [Hst _].
    apply digitFree_app in Hst as [_ Hst]. inversion Hst; congruence. }
  assert (Hsearch : forall s' p i, digitFree s' -> search ic r p i s' = None).
  { induction s' as [|c s' IH]; intros p i Hs'; rewrite search_unfold, Hat; auto.
    apply IH. now inversion Hs'. }
  unfold matchAll. cbn [matchesFrom prev pos rest]. now rewrite Hsearch.
Qed.

Lemma lang_digit_run (ic : bool) (lo : nat) (hi : option nat) (g : bool) (w : list N) :
  (0 < lo)%nat -> hi <> Some 0%nat -> lang ic (Repeat lo hi g digit) w ->
  exists c b, w = c :: b /\ isDigit c = true.
Proof.
  intros Hlo Hhi (ws & Hws & -> & Hn).
  destruct ws as [|w1 ws].
  - exfalso. destruct Hn as [Hn | Hn]; simpl in Hn; [lia | congruence].
  - inversion Hws as [|? ? (c & -> & Hc) _]; subst.
    exists c, (concat ws). split; [reflexivity|]. now apply (digit_class ic).
Qed.

Lemma lang_DAY_NUMBERS (w : list N) :
  lang false DAY_NUMBERS w -> exists a c b, w = a ++ c :: b /\ isDigit c = true.
Proof.
  unfold DAY_NUMBERS. simpl.
  intros (w0 & r0 & -> & -> & w1 & r1 & -> & Hd & _).
  apply (lang_digit_run false 1 (Some 2%nat) true) in Hd as (c & b & -> & Hc);
    [|lia|discriminate].
  exists [], c, (b ++ r1). split; [reflexivity | exact Hc].
Qed.

Lemma lang_periodPattern (w : list N) :
  lang true Viviromagna.periodPattern w ->
  exists a c b, w = a ++ c :: b /\ isDigit c = true.
Proof.
  unfold Viviromagna.periodPattern. simpl.
  intros (w1 & r1 & -> & Hd & _).
  apply (lang_digit_run true 1 (Some 2%nat) true) in Hd as (c & b & -> & Hc);
    [|lia|discriminate].
  exists [], c, (b ++ r1). split; [reflexivity | exact Hc].
Qed.

(** X19.  On a text without a decimal digit both site parsers return no dates,
    and neither throws. *)
Theorem date_parsers_need_a_digit (h : Host) (now : Z) (text_ : list N) :
  digitFree text_ ->
  Assosagre.parseSagradateText h now text_ = Ok Assosagre.noDates
  /\ Viviromagna.parseViviromagnaPeriod h now text_ = Ok Assosagre.noDates.
Proof.
  intros Hs. split.
  - unfold Assosagre.parseSagradateText, Assosagre.noDates.
    destruct text_ as [|c s]; [reflexivity|].
    rewrite (matchAll_digitFree false DAY_NUMBERS (c :: s) lang_DAY_NUMBERS Hs).
    cbv zeta. now destruct (map RegExp.text (matchAll true ITALIAN_MONTH (c :: s))).
  - unfold Viviromagna.parseViviromagnaPeriod, Assosagre.noDates.
    destruct text_ as [|c s]; [reflexivity|]. cbv zeta.
    rewrite (matchAll_digitFree true Viviromagna.periodPattern _ lang_periodPattern);
      [reflexivity|].
    apply digitFree_trim, digitFree_replaceOnce; [repeat constructor|].
    apply digitFree_replaceOnce; [constructor | exact Hs].
Qed.

End NeedsDigit.

Lemma date_parsers_need_a_digit_witness :
  Assosagre.parseSagradateText cetHost nov7 (str "Novembre, data da definire")
  = Ok Assosagre.noDates
  /\ Viviromagna.parseViviromagnaPeriod cetHost nov7 (str "Novembre, data da definire")
     = Ok Assosagre.noDates.
Proof.
  apply (date_parsers_need_a_digit cetHost nov7 (str "Novembre, data da definire")).
  vm_compute. repeat constructor.
Defined.

(** ** One key for one day *)

Section SameDay.
Variable h : Host.

Lemma monthYear_midnight (y mo d : Z) :
  validDay y mo d -> 0 <= tzOffset h < msPerDay ->
  monthYear h (Time (makeDate (makeDay y mo d) 0)) = showZ mo ++ str "-" ++ showZ y.
Proof.
  intros Hv Htz. unfold monthYear, getMonth, getFullYear.
  replace (makeDate (makeDay y mo d) 0 + tzOffset h)
    with (makeDate (makeDay y mo d) (tzOffset h)) by (unfold makeDate; lia).
  now rewrite (civilOf_makeDay y mo d _ Hv Htz).
Qed.

(** X20.  At or east of UTC a day gives the same duplicate key whether the
    record carries it as a date-only startDate or as the last triple of
    its first date fragment: with the same title and location the second
    record is reported as a duplicate of the first. *)
Theorem generateFestivalKey_same_day (fd1 fd2 : FestivalData) (ts : list triple)
    (t : triple) (mo : Z) (more : list (list N)) (seen : gset (list N)) :
  title fd1 = title fd2 -> location fd1 = location fd2 ->
  Forall wfTriple ts -> wfTriple t ->
  monthMap (toLowerCase (tWord t)) = Month mo ->
  validDay (Z.of_N (digitsValue (tYear t) 0)) mo (Z.of_N (digitsValue (tDay t) 0)) ->
  100 <= Z.of_N (digitsValue (tYear t) 0) ->
  0 <= tzOffset h < msPerDay ->
  startDate fd1 = Some (dayText (Z.of_N (digitsValue (tYear t) 0)) mo
                                (Z.of_N (digitsValue (tDay t) 0))) ->
  unset (startDate fd2) ->
  dates fd2 = Some (renderAll (ts ++ [t]) :: more) ->
  generateFestivalKey h fd1 = generateFestivalKey h fd2
  /\ fst (isDuplicate h fd2 (snd (isDuplicate h fd1 seen))) = true.
Proof.
  intros Ht Hl Hts Hwf Hm Hv Hy Htz Hs1 Hs2 Hd2.
  pose proof (triple_year t Hwf) as Hy'.
  assert (generateFestivalKey h fd1 = generateFestivalKey h fd2) as Hkey.
  { unfold generateFestivalKey. rewrite Ht, Hl. f_equal. f_equal. f_equal. f_equal.
    rewrite Hs1, Hd2.
    pose proof (newDateStr_dayText h _ mo _ Hv ltac:(lia)) as Hn.
    destruct (dayText _ mo _) as [|c s] eqn:Ed; [discriminate Hn|].
    rewrite Hn, (monthYear_midnight _ _ _ Hv Htz).
    assert (match startDate fd2 with
            | Some (c0 :: s0) =>
              match newDateStr h (c0 :: s0) with
              | Some t0 => monthYear h (Time t0)
              | None => []
              end
            | _ =>
              match parseItalianDate h (renderAll (ts ++ [t])) with
              | Some parsedDate => monthYear h parsedDate
              | None => []
              end
            end
            = match parseItalianDate h (renderAll (ts ++ [t])) with
              | Some parsedDate => monthYear h parsedDate
              | None => []
              end) as -> by (destruct Hs2 as [-> | ->]; reflexivity).
    rewrite (parseItalianDate_renderAll h ts t Hts Hwf). unfold tripleDate. rewrite Hm.
    destruct (newDateYMD_day h _ mo _ Hv ltac:(lia) ltac:(lia)) as (x & -> & H1 & H2 & _).
    unfold monthYear. now rewrite H1, H2. }
  split; [exact Hkey|].
  unfold isDuplicate. rewrite <- Hkey.
  destruct (bool_decide (generateFestivalKey h fd1 ∈ seen)) eqn:Hin; cbn [snd].
  - now rewrite Hin.
  - rewrite bool_decide_eq_true_2 by set_solver. reflexivity.
Qed.

End SameDay.

Lemma generateFestivalKey_same_day_witness :
  generateFestivalKey cetHost
    (withStartDate (str "2025-11-07") (withTitle (str "Sagra della Castagna") blank))
  = generateFestivalKey cetHost
      (withDates [ str "7 Novembre 2025" ] (withTitle (str "Sagra della Castagna") blank)).
Proof.
  apply (generateFestivalKey_same_day cetHost
           (withStartDate (str "2025-11-07") (withTitle (str "Sagra della Castagna") blank))
           (withDates [ str "7 Novembre 2025" ] (withTitle (str "Sagra della Castagna") blank))
           [] (mkTriple "7" "Novembre" "2025") 10 [] ∅).
  - reflexivity.
  - reflexivity.
  - constructor.
  - repeat split; try discriminate; try (left; reflexivity); repeat constructor.
  - reflexivity.
  - calc.
  - calc.
  - calc.
  - reflexivity.
  - left. reflexivity.
  - reflexivity.
Defined.

(** ** Once past, always past *)

Section Monotone.
Variable h : Host.

Lemma startOfDay_mono (now now' : Z) : now <= now' -> startOfDay h now <= startOfDay h now'.
Proof. intros H. unfold startOfDay, msPerDay. zdiv. Qed.

Lemma allDatesPast_mono (today today' : Z) (ds : list (list N)) :
  today <= today' -> allDatesPast h today ds = true -> allDatesPast h today' ds = true.
Proof.
  intros Ht. induction ds as [|s ds IH]; [reflexivity|]. cbn [allDatesPast].
  destruct (parseItalianDate h s) as [[|t]|]; try exact IH.
  destruct (Z.leb_spec today t); [discriminate|].
  destruct (Z.leb_spec today' t); [lia | exact IH].
Qed.

(** X21.  A record the temporal filter drops at one time is dropped at every
    later time, and a festival the cleanup removes at one time is removed
    at every later time. *)
Theorem isFestivalPast_monotone (now now' : Z) (fd : FestivalData)
    (sf : Cleanup.StrapiFestival) :
  now <= now' ->
  (isFestivalPast h now fd = true -> isFestivalPast h now' fd = true)
  /\ (Cleanup.isPastFestival h now sf = true -> Cleanup.isPastFestival h now' sf = true).
Proof.
  intros Hn. pose proof (startOfDay_mono now now' Hn) as Hs. split.
  - unfold isFestivalPast.
    destruct (validTime h (endDate fd)) as [t|]; [rewrite !Z.ltb_lt; lia|].
    destruct (validTime h (startDate fd)) as [t|]; [rewrite !Z.ltb_lt; lia|].
    destruct (dates fd) as [[|d ds]|]; try discriminate.
    now apply allDatesPast_mono.
  - unfold Cleanup.isPastFestival, Cleanup.dateBefore.
    destruct (Cleanup.endDate sf) as [[|c s]|];
      try (destruct (Cleanup.startDate sf) as [[|c' s']|]; try discriminate;
           destruct (newDateStr h (c' :: s')); [rewrite !Z.ltb_lt; lia | discriminate]).
    destruct (newDateStr h (c :: s)); [rewrite !Z.ltb_lt; lia | discriminate].
Qed.

End Monotone.

Lemma isFestivalPast_monotone_witness :
  isFestivalPast utcHost (nov7 + msPerDay) (withEndDate (str "2025-11-06") blank) = true.
Proof.
  apply (isFestivalPast_monotone utcHost nov7 (nov7 + msPerDay)
           (withEndDate (str "2025-11-06") blank) (stored blank)).
  - calc.
  - reflexivity.
Defined.

(** ** The JSON-LD scripts *)

Section Scripts.
Import JsonLd.
Variable env : Env.

(** What one script contributes: nothing, an event, or a throw. *)
Lemma scanScripts_step (script : Element) (scripts : list Element)
    (acc : option StructuredData) :
  scanScripts env (script :: scripts) acc
  = match orNull (elHtml script) with
    | None => scanScripts env scripts acc
    | Some content =>
      match jsonParse env content with
      | Thrown => Thrown
      | Ok v =>
        match parseStructuredData v with
        | Some d => if isEvent d then scanScripts env scripts (Some d)
                    else scanScripts env scripts acc
        | None => scanScripts env scripts acc
        end
      end
    end.
Proof. reflexivity. Qed.

Lemma scanScripts_found (scripts : list Element) :
  forall acc d, scanScripts env scripts acc = Ok (Some d) ->
    acc = Some d
    \/ (isEvent d = true
        /\ exists script content v,
             In script scripts /\ orNull (elHtml script) = Some content
             /\ jsonParse env content = Ok v /\ parseStructuredData v = Some d).
Proof.
  induction scripts as [|script scripts IH]; intros acc d.
  - cbn [scanScripts]. intros [= ->]. now left.
  - rewrite scanScripts_step.
    destruct (orNull (elHtml script)) as [content|] eqn:Hc.
    2:{ intros H. destruct (IH _ _ H) as [-> | (He & s & c & v & Hin & Hs)];
          [now left | right]. split; [exact He|]. exists s, c, v. simpl. tauto. }
    destruct (jsonParse env content) as [v|] eqn:Hj; [|discriminate].
    destruct (parseStructuredData v) as [d'|] eqn:Hp.
    + destruct (isEvent d') eqn:He'; intros H;
        (destruct (IH _ _ H) as [E | (He & s & c & v0 & Hin & Hs)];
         [|right; split; [exact He|]; exists s, c, v0; simpl; tauto]).
      * injection E as <-. right. split; [exact He'|].
        exists script, content, v. simpl. tauto.
      * now left.
    + intros H. destruct (IH _ _ H) as [-> | (He & s & c & v0 & Hin & Hs)];
        [now left | right]. split; [exact He|]. exists s, c, v0. simpl. tauto.
Qed.

Lemma scanScripts_app (pre post : list Element) :
  forall acc, scanScripts env (pre ++ post) acc
              = match scanScripts env pre acc with
                | Ok acc' => scanScripts env post acc'
                | Thrown => Thrown
                end.
Proof.
  induction pre as [|script pre IH]; intros acc; [reflexivity|].
  cbn [app]. rewrite !scanScripts_step.
  destruct (orNull (elHtml script)); [|apply IH].
  destruct (jsonParse env l); [|reflexivity].
  destruct (parseStructuredData a) as [d|]; [|apply IH].
  destruct (isEvent d); apply IH.
Qed.

Lemma scanScripts_thrown (scripts : list Element) :
  forall acc, scanScripts env scripts acc = Thrown
              <-> exists script content,
                    In script scripts /\ orNull (elHtml script) = Some content
                    /\ jsonParse env content = Thrown.
Proof.
  induction scripts as [|script scripts IH]; intros acc.
  - cbn [scanScripts]. split; [discriminate | intros (s & c & [] & _)].
  - rewrite scanScripts_step.
    destruct (orNull (elHtml script)) as [content|] eqn:Hc.
    + destruct (jsonParse env content) as [v|] eqn:Hj.
      * assert (forall acc', scanScripts env scripts acc' = Thrown
                  <-> exists s c, In s (script :: scripts) /\ orNull (elHtml s) = Some c
                                  /\ jsonParse env c = Thrown) as Hrec.
        { intros acc'. rewrite IH. split.
          - intros (s & c & Hin & Hs). exists s, c. simpl. tauto.
          - intros (s & c & [<- | Hin] & Hs & Ht); [congruence|]. now exists s, c. }
        destruct (parseStructuredData v) as [d|]; [destruct (isEvent d)|]; apply Hrec.
      * split; [|reflexivity]. intros _. exists script, content. simpl. tauto.
    + rewrite IH. split.
      * intros (s & c & Hin & Hs). exists s, c. simpl. tauto.
      * intros (s & c & [<- | Hin] & Hs & Ht); [congruence|]. now exists s, c.
Qed.

(** X22.  The loop over the JSON-LD scripts keeps the last island that
    validates as an Event or FoodEvent: what it returns was parsed from
    one of the scripts and is such an event; an event island at the end
    wins over every earlier one; and the loop throws exactly when
    [JSON.parse] throws on one of the scripts. *)
Theorem scanScripts_last_event (scripts : list Element) :
  (forall d, scanScripts env scripts None = Ok (Some d) ->
     isEvent d = true
     /\ exists script content v,
          In script scripts /\ orNull (elHtml script) = Some content
          /\ jsonParse env content = Ok v /\ parseStructuredData v = Some d)
  /\ (forall script content v d,
        orNull (elHtml script) = Some content -> jsonParse env content = Ok v ->
        parseStructuredData v = Some d -> isEvent d = true ->
        scanScripts env scripts None <> Thrown ->
        scanScripts env (scripts ++ [script]) None = Ok (Some d))
  /\ (scanScripts env scripts None = Thrown
      <-> exists script content,
            In script scripts /\ orNull (elHtml script) = Some content
            /\ jsonParse env content = Thrown).
Proof.
  split; [|split].
  - intros d H. destruct (scanScripts_found _ _ _ H) as [E | H']; [discriminate | exact H'].
  - intros script content v d Hc Hj Hp He Hn.
    rewrite scanScripts_app.
    destruct (scanScripts env scripts None) as [acc|]; [|congruence].
    rewrite scanScripts_step, Hc, Hj, Hp, He. reflexivity.
  - apply scanScripts_thrown.
Qed.

End Scripts.

(** ** The pages of the list endpoint *)

Section Pages.
Import Cleanup.
Variable server : Server.

Lemma fetchLoop_pages (n : nat) :
  forall (from fuel : nat) (acc : list StrapiFestival),
    (0 < n)%nat -> (n <= fuel)%nat ->
    (forall p, (from <= p < from + n)%nat ->
       exists data_ count, server p = Ok (data_, count)
         /\ (Z.of_nat p <? count) = negb (Nat.eqb p (from + n - 1))) ->
    fetchLoop fuel server from acc = Some (Ok (acc ++ pagesFrom server from n)).
Proof.
  induction n as [|n IH]; intros from fuel acc Hn Hf Hp; [lia|].
  destruct fuel as [|fuel]; [lia|]. cbn [fetchLoop pagesFrom].
  destruct (Hp from ltac:(lia)) as (data_ & count & -> & Hc). rewrite Hc.
  destruct n as [|n].
  - replace (from + 1 - 1)%nat with from by lia. rewrite Nat.eqb_refl. cbn [negb pagesFrom].
    now rewrite app_nil_r.
  - replace (Nat.eqb from (from + S (S n) - 1)) with false
      by (symmetry; apply Nat.eqb_neq; lia).
    cbn [negb]. rewrite (IH (S from) fuel (acc ++ data_)); try lia.
    + now rewrite <- app_assoc.
    + intros p Hp'. destruct (Hp p ltac:(lia)) as (d & c & Hs & Hc').
      exists d, c. split; [exact Hs|]. rewrite Hc'. f_equal. f_equal. lia.
Qed.

Lemma fetchLoop_endless (fuel : nat) :
  forall (from : nat) (acc : list StrapiFestival),
    (forall p, (from <= p)%nat ->
       exists data_ count, server p = Ok (data_, count) /\ Z.of_nat p < count) ->
    fetchLoop fuel server from acc = None.
Proof.
  induction fuel as [|fuel IH]; intros from acc Hp; [reflexivity|].
  cbn [fetchLoop]. destruct (Hp from ltac:(lia)) as (data_ & count & -> & Hc).
  apply Z.ltb_lt in Hc. rewrite Hc. apply IH.
  intros p Hp'. apply Hp. lia.
Qed.

(** X23.  [fetchAllFestivals] asks for page 1, then for the next page for as
    long as the page just read is below the page count the server
    reports with it: when page [n] is the first that is not, the result
    is the festivals of pages 1 to [n] in order; a failure on the first
    page throws; and against a server whose page count always exceeds the
    page asked, the loop never ends. *)
Theorem fetchAllFestivals_pages (n fuel : nat) :
  ((0 < n)%nat -> (n <= fuel)%nat ->
   (forall p, (1 <= p <= n)%nat ->
      exists data_ count, server p = Ok (data_, count)
        /\ (Z.of_nat p <? count) = negb (Nat.eqb p n)) ->
   fetchAllFestivals fuel server = Some (Ok (pagesFrom server 1 n)))
  /\ (server 1%nat = Thrown -> (0 < fuel)%nat -> fetchAllFestivals fuel server = Some Thrown)
  /\ ((forall p, (1 <= p)%nat ->
         exists data_ count, server p = Ok (data_, count) /\ Z.of_nat p < count) ->
      fetchAllFestivals fuel server = None).
Proof.
  unfold fetchAllFestivals. split; [|split].
  - intros Hn Hf Hp. rewrite (fetchLoop_pages n 1 fuel [] Hn Hf); [reflexivity|].
    intros p Hp'. destruct (Hp p ltac:(lia)) as (d & c & Hs & Hc).
    exists d, c. split; [exact Hs|]. rewrite Hc. f_equal. f_equal. lia.
  - intros Hs Hf. destruct fuel as [|fuel]; [lia|]. cbn [fetchLoop]. now rewrite Hs.
  - intros Hp. now apply fetchLoop_endless.
Qed.

End Pages.

Lemma fetchAllFestivals_pages_witness :
  Cleanup.fetchAllFestivals 5 twoPages
  = Some (Ok [ stored (withTitle (str "Sagra del Tortello") blank);
               stored (withTitle (str "Sagra della Castagna") blank) ]).
Proof.
  apply (proj1 (fetchAllFestivals_pages twoPages 2 5)); try lia.
  intros p Hp. assert (p = 1 \/ p = 2)%nat as [-> | ->] by lia; do 2 eexists; split; reflexivity.
Defined.


(** ** The viviromagna handler and the site constants *)

Section NoViviromagnaEntry.
Variable env : Env.

(** X24.  WEBSITE_CONFIG has no VIVIROMAGNA entry, so the viviromagna detail
    handler, which reads WEBSITE_CONFIG.VIVIROMAGNA.SOURCE as soon as the
    page has a title, throws at that read: it calls none of the checks,
    emits nothing and leaves the seen-set and the log as they were.  On a
    page without a title it returns before the read. *)
Theorem viviromagnaDetail_throws (loadedUrl : list N) (q : Cheerio) (w : world) :
  configSource "VIVIROMAGNA" = Thrown
  /\ snd (Viviromagna.viviromagnaDetail env loadedUrl q w) = w
  /\ fst (Viviromagna.viviromagnaDetail env loadedUrl q w)
     = if nonEmpty (trim (textOf (firstOf (q "h1.titoloevento.titolopagina"%string))))
       then Thrown else Ok tt.
Proof.
  split; [reflexivity|]. unfold Viviromagna.viviromagnaDetail.
  destruct (firstOf (q "h1.titoloevento.titolopagina"%string)) as [|el els].
  - split; reflexivity.
  - destruct (nonEmpty (trim (textOf (el :: els)))); split; reflexivity.
Qed.

End NoViviromagnaEntry.

(** ** Days that do not exist *)

Section RollOver.
Variable h : Host.

Lemma makeDay_next_month (y mo d : Z) :
  0 <= mo <= 11 ->
  makeDay y mo (daysInMonth y mo + d) = makeDay (y + (mo + 1) / 12) ((mo + 1) mod 12) d.
Proof.
  intros Hmo. generalize (dayFromYear_step y).
  unfold makeDay. rewrite (Z.div_small mo 12), (Z.mod_small mo 12), Z.add_0_r by lia.
  destruct (Z.eq_dec mo 11) as [-> | Hne].
  - change ((11 + 1) / 12) with 1. change (((11 + 1) mod 12) / 12) with 0.
    change (((11 + 1) mod 12) mod 12) with 0. rewrite Z.add_0_r.
    cbn [daysInMonth]. destruct (isLeap y), (isLeap (y + 1)); cbn [monthStart]; intros Hstep; rewrite ?Z.add_0_r; lia.
  - rewrite (Z.div_small (mo + 1) 12), (Z.mod_small (mo + 1) 12) by lia.
    rewrite (Z.div_small (mo + 1) 12), (Z.mod_small (mo + 1) 12), !Z.add_0_r by lia.
    assert (mo = 0 \/ mo = 1 \/ mo = 2 \/ mo = 3 \/ mo = 4 \/ mo = 5 \/ mo = 6
            \/ mo = 7 \/ mo = 8 \/ mo = 9 \/ mo = 10) as Hcases by lia.
    repeat (destruct Hcases as [-> | Hcases]); try subst mo;
      cbn [daysInMonth]; destruct (isLeap y); simpl; intros _; lia.
Qed.

Lemma newDateYMD_next_month (y mo d : Z) :
  100 <= y < 9999 -> 0 <= mo <= 11 ->
  newDateYMD h y mo (daysInMonth y mo + d)
  = newDateYMD h (y + (mo + 1) / 12) ((mo + 1) mod 12) d.
Proof.
  intros Hy Hmo. unfold newDateYMD.
  assert ((0 <=? y) && (y <=? 99) = false) as ->
    by (apply andb_false_iff; right; apply Z.leb_gt; lia).
  assert ((0 <=? y + (mo + 1) / 12) && (y + (mo + 1) / 12 <=? 99) = false) as ->
    by (apply andb_false_iff; right; apply Z.leb_gt; zdiv).
  f_equal. f_equal. f_equal. apply makeDay_next_month, Hmo.
Qed.

(** X25.  [parseItalianDate] does not check the day against the month: a day
    up to 28 beyond the end of the month gives the date that many days
    into the following month (of the following year after December). *)
Theorem parseItalianDate_day_rolls_over (ts : list triple) (t : triple) (mo : Z) :
  Forall wfTriple ts -> wfTriple t ->
  monthMap (toLowerCase (tWord t)) = Month mo ->
  100 <= Z.of_N (digitsValue (tYear t) 0) < 9999 ->
  - msPerDay < tzOffset h <= msPerDay ->
  let y := Z.of_N (digitsValue (tYear t) 0) in
  let d := Z.of_N (digitsValue (tDay t) 0) in
  daysInMonth y mo < d <= daysInMonth y mo + 28 ->
  exists x, parseItalianDate h (renderAll (ts ++ [t])) = Some (Time x)
    /\ getFullYear h x = y + (mo + 1) / 12
    /\ getMonth h x = (mo + 1) mod 12
    /\ getDate h x = d - daysInMonth y mo.
Proof.
  intros Hts Ht Hm Hy Htz y d Hd. pose proof (monthMap_range _ _ Hm) as Hmo.
  rewrite (parseItalianDate_renderAll h ts t Hts Ht). unfold tripleDate. rewrite Hm.
  fold y d.
  assert (validDay (y + (mo + 1) / 12) ((mo + 1) mod 12) (d - daysInMonth y mo)) as Hv.
  { pose proof (daysInMonth_bounds (y + (mo + 1) / 12) ((mo + 1) mod 12)).
    split; [zdiv | lia]. }
  destruct (newDateYMD_day h _ _ _ Hv ltac:(zdiv) Htz) as (x & Hx & H1 & H2 & H3 & _).
  exists x. split; [|auto].
  replace d with (daysInMonth y mo + (d - daysInMonth y mo)) at 1 by lia.
  rewrite (newDateYMD_next_month y mo _ Hy Hmo), Hx. reflexivity.
Qed.

End RollOver.

Lemma parseItalianDate_day_rolls_over_witness :
  exists x,
    parseItalianDate cetHost (str "31 Novembre 2025") = Some (Time x)
    /\ getFullYear cetHost x = 2025 /\ getMonth cetHost x = 11 /\ getDate cetHost x = 1.
Proof.
  apply (parseItalianDate_day_rolls_over cetHost [] (mkTriple "31" "Novembre" "2025") 10).
  - constructor.
  - repeat split; try discriminate; try (right; reflexivity); repeat constructor.
  - reflexivity.
  - calc.
  - calc.
  - calc.
Defined.

(** ** The description blocks *)

Section RichText.
Import Strapi.
Local Open Scope nat_scope.

Lemma matchAt_BLANK_LINES_none (pv : option N) (s : list N) (q : nat) :
  startsBlank s = false -> matchAt false BLANK_LINES (MState pv s q []) = None.
Proof.
  intros Hs. apply matchAt_none. cbn [prev rest pos]. unfold BLANK_LINES, plus.
  cbn [m rest]. destruct s as [|a s]; [reflexivity|].
  unfold charEq. destruct (N.eqb_spec 10 a) as [<-|Ha]; [|reflexivity].
  cbn [rest pos caps length Nat.add repeatMatcher Nat.ltb Nat.leb m].
  destruct s as [|b s]; [reflexivity|]. unfold charEq.
  destruct (N.eqb_spec 10 b) as [<-|Hb]; [discriminate Hs | reflexivity].
Qed.

Lemma matchAt_BLANK_LINES_hit (pv : option N) (t : list N) (q : nat) :
  head t <> Some 10%N ->
  exists mt, matchAt false BLANK_LINES (MState pv (10 :: 10 :: t)%N q []) = Some mt
             /\ pos (stop mt) = S (S q).
Proof.
  intros Ht.
  destruct (matchAt_some false BLANK_LINES (MState pv (10 :: 10 :: t)%N q [])
              (MState (Some 10%N) t (S (S q)) [])) as (mt & Hm & He).
  - assert (Hc : forall c t', t = c :: t' -> charEq false 10 c = false).
    { intros c t' ->. unfold charEq. destruct (N.eqb_spec 10 c) as [<-|Hc];
        [now contradiction Ht | reflexivity]. }
    cbn [prev rest pos]. unfold BLANK_LINES, plus.
    cbn [m rest pos caps length Nat.add repeatMatcher].
    change (charEq false 10 10) with true. cbv iota.
    change (0 <? 1) with true. cbv iota.
    cbn [m rest pos caps]. change (charEq false 10 10) with true. cbv iota beta.
    cbn [Nat.eqb andb Nat.pred option_map pos].
    destruct t as [|c t']; cbn [length repeatMatcher].
    + reflexivity.
    + change (0 <? 0) with false. cbv iota. cbn [m rest].
      rewrite (Hc c t' eq_refl). reflexivity.
  - exists mt. split; [exact Hm|]. now rewrite He.
Qed.

Lemma join_joinTail (p : list N) (ps : list (list N)) :
  join [10; 10]%N (p :: ps) = p ++ joinTail ps.
Proof.
  revert p. induction ps as [|p1 ps IH]; intros p.
  - cbn. now rewrite app_nil_r.
  - change (join [10; 10]%N (p :: p1 :: ps)) with (p ++ [10; 10]%N ++ join [10; 10]%N (p1 :: ps)).
    rewrite IH. reflexivity.
Qed.

Lemma startsBlank_inside (c : N) (w t : list N) :
  noTwo isLineFeed (c :: w) = true -> last (c :: w) <> Some 10%N ->
  startsBlank ((c :: w) ++ t) = false.
Proof.
  intros Hno Hlast. destruct w as [|b w].
  - cbn in Hlast. cbn [app startsBlank].
    destruct (N.eqb_spec c 10) as [->|Hc]; [now contradiction Hlast|].
    destruct t; [reflexivity|]. unfold isLineFeed.
    now replace (c =? 10)%N with false by (symmetry; now apply N.eqb_neq).
  - cbn [noTwo] in Hno. apply andb_true_iff in Hno as [Hno _].
    cbn [app startsBlank]. apply negb_true_iff in Hno. exact Hno.
Qed.

(** The scan of [split] between two blocks: from a split point at the
    start of a block it walks to the end of the block, cuts there, and
    resumes after the two line feeds. *)
Lemma splitFrom_blocks (ps : list (list N)) :
  Forall (fun p => head p <> Some 10%N /\ p <> [] /\ last p <> Some 10%N
                   /\ noTwo isLineFeed p = true) ps ->
  forall (w : list N) (fuel : nat) (A u : list N),
    noTwo isLineFeed w = true -> (w <> [] -> last w <> Some 10%N) ->
    length w + length (joinTail ps) < fuel ->
    splitFrom fuel false BLANK_LINES (A ++ u ++ w ++ joinTail ps) (length A)
      (length A + length u)
    = (u ++ w) :: ps.
Proof.
  induction ps as [|p1 ps IHps]; intros Hps.
  - induction w as [|c w IHw]; intros fuel A u Hno Hlast Hfuel;
      (destruct fuel as [|fuel]; [lia|]); cbn [splitFrom joinTail flat_map].
    + rewrite !app_nil_r.
      replace (length (A ++ u) <=? length A + length u) with true
        by (symmetry; apply Nat.leb_le; rewrite length_app; lia).
      now rewrite drop_app_length.
    + replace (length (A ++ u ++ (c :: w) ++ []) <=? length A + length u) with false
        by (symmetry; apply Nat.leb_gt; rewrite !length_app; cbn; lia).
      cbv zeta.
      replace (drop (length A + length u) (A ++ u ++ (c :: w) ++ [])) with ((c :: w) ++ [])
        by (rewrite app_assoc, <- length_app; now rewrite drop_app_length).
      rewrite matchAt_BLANK_LINES_none
        by (apply startsBlank_inside; [exact Hno | apply Hlast; discriminate]).
      replace (A ++ u ++ (c :: w) ++ []) with (A ++ (u ++ [c]) ++ w ++ joinTail [])
        by (cbn; now rewrite <- !app_assoc).
      replace (S (length A + length u)) with (length A + length (u ++ [c]))
        by (rewrite length_app; cbn; lia).
      rewrite IHw.
      * now rewrite <- app_assoc.
      * destruct w as [|b w]; [reflexivity|]. cbn [noTwo] in Hno.
        now apply andb_true_iff in Hno as [_ Hno].
      * intros Hw. destruct w as [|b w]; [congruence|]. exact (Hlast ltac:(discriminate)).
      * cbn in Hfuel |- *. lia.
  - inversion Hps as [|? ? (Hhead & Hne & Hl & Hn) Hps']; subst.
    specialize (IHps Hps').
    induction w as [|c w IHw]; intros fuel A u Hno Hlast Hfuel;
      (destruct fuel as [|fuel]; [lia|]); cbn [splitFrom].
    + cbn [joinTail flat_map app]. fold (joinTail ps).
      replace (length (A ++ u ++ 10%N :: 10%N :: p1 ++ joinTail ps) <=? length A + length u)
        with false by (symmetry; apply Nat.leb_gt; rewrite !length_app; cbn; lia).
      cbv zeta.
      replace (drop (length A + length u) (A ++ u ++ 10%N :: 10%N :: p1 ++ joinTail ps))
        with (10%N :: 10%N :: p1 ++ joinTail ps)
        by (rewrite app_assoc, <- length_app; now rewrite drop_app_length).
      destruct (matchAt_BLANK_LINES_hit
                  (last (take (length A + length u) (A ++ u ++ 10%N :: 10%N :: p1 ++ joinTail ps)))
                  (p1 ++ joinTail ps) (length A + length u)) as (mt & -> & Hpos).
      { destruct p1 as [|x p1]; [congruence | exact Hhead]. }
      rewrite Hpos.
      replace (Nat.min (S (S (length A + length u)))
                 (length (A ++ u ++ 10%N :: 10%N :: p1 ++ joinTail ps)))
        with (S (S (length A + length u)))
        by (rewrite !length_app; cbn [length]; lia).
      replace (Nat.eqb (S (S (length A + length u))) (length A)) with false
        by (symmetry; apply Nat.eqb_neq; lia).
      f_equal.
      * rewrite app_nil_r, drop_app_length.
        replace (length A + length u - length A) with (length u) by lia.
        now rewrite take_app_length.
      * replace (A ++ u ++ 10%N :: 10%N :: p1 ++ joinTail ps)
          with ((A ++ u ++ [10; 10]%N) ++ [] ++ p1 ++ joinTail ps)
          by (cbn [app]; rewrite <- !app_assoc; reflexivity).
        replace (S (S (length A + length u))) with (length (A ++ u ++ [10; 10]%N))
          by (rewrite !length_app; cbn [length]; lia).
        rewrite <- (Nat.add_0_r (length (A ++ u ++ [10; 10]%N))) at 2.
        change 0 with (length (@nil N)).
        rewrite IHps; [reflexivity | exact Hn | intros _; exact Hl |].
        cbn [joinTail flat_map app length] in Hfuel. fold (joinTail ps) in Hfuel.
        rewrite length_app in Hfuel. lia.
    + set (tl := joinTail (p1 :: ps)) in *.
      replace (length (A ++ u ++ (c :: w) ++ tl) <=? length A + length u) with false
        by (symmetry; apply Nat.leb_gt; rewrite !length_app; cbn; lia).
      cbv zeta.
      replace (drop (length A + length u) (A ++ u ++ (c :: w) ++ tl)) with ((c :: w) ++ tl)
        by (rewrite app_assoc, <- length_app; now rewrite drop_app_length).
      rewrite matchAt_BLANK_LINES_none
        by (apply startsBlank_inside; [exact Hno | apply Hlast; discriminate]).
      replace (A ++ u ++ (c :: w) ++ tl) with (A ++ (u ++ [c]) ++ w ++ tl)
        by (cbn; now rewrite <- !app_assoc).
      replace (S (length A + length u)) with (length A + length (u ++ [c]))
        by (rewrite length_app; cbn; lia).
      rewrite IHw.
      * now rewrite <- app_assoc.
      * destruct w as [|b w]; [reflexivity|]. cbn [noTwo] in Hno.
        now apply andb_true_iff in Hno as [_ Hno].
      * intros Hw. destruct w as [|b w]; [congruence|]. exact (Hlast ltac:(discriminate)).
      * cbn [length] in Hfuel. lia.
Qed.

Lemma trimStart_length (s : list N) : length (trimStart s) <= length s.
Proof.
  induction s as [|c s IH]; [reflexivity|]. cbn [trimStart].
  destruct (isWhite c); cbn [length]; lia.
Qed.

Lemma trimStart_head (s : list N) (c : N) :
  head (trimStart s) = Some c -> isWhite c = false.
Proof.
  induction s as [|a s IH]; [discriminate|]. cbn [trimStart].
  destruct (isWhite a) eqn:Ha; [exact IH|]. intros [= <-]. exact Ha.
Qed.

Lemma trim_fixed_head (p : list N) (c : N) :
  trim p = p -> head p = Some c -> isWhite c = false.
Proof.
  intros Hp Hc. destruct p as [|a p]; [discriminate|]. injection Hc as ->.
  destruct (isWhite c) eqn:Hw; [|reflexivity].
  assert (length (trim (c :: p)) <= length p) as Hlen.
  { unfold trim, trimEnd. rewrite length_rev.
    etransitivity; [apply trimStart_length|]. rewrite length_rev.
    cbn [trimStart]. rewrite Hw. apply trimStart_length. }
  rewrite Hp in Hlen. cbn [length] in Hlen. lia.
Qed.

Lemma trim_fixed_last (p : list N) (c : N) :
  trim p = p -> last p = Some c -> isWhite c = false.
Proof.
  intros Hp Hc. apply (trimStart_head (rev (trimStart p))).
  assert (trimStart (rev (trimStart p)) = rev p) as ->.
  { rewrite <- Hp at 2. unfold trim, trimEnd. now rewrite rev_involutive. }
  destruct (rev p) as [|x r] eqn:Hr.
  - apply (f_equal (@rev N)) in Hr. rewrite rev_involutive in Hr. subst p. discriminate.
  - apply (f_equal (@rev N)) in Hr. rewrite rev_involutive in Hr. subst p.
    cbn [rev] in Hc. rewrite last_snoc in Hc. exact Hc.
Qed.

(** X26.  With paragraphs that are trimmed, not empty and without two line
    feeds in a row, the description blocks are the paragraphs
    themselves, whatever description and metaDescription hold: joining
    with a blank line and splitting at blank lines gives them back. *)
Theorem createRichTextDescription_paragraphs (fd : FestivalData)
    (p : list N) (ps : list (list N)) :
  paragraphs fd = Some (p :: ps) ->
  Forall (fun x => x <> [] /\ trim x = x /\ noTwo isLineFeed x = true) (p :: ps) ->
  createRichTextDescription fd = p :: ps.
Proof.
  intros Hpar Hall. unfold createRichTextDescription. rewrite Hpar.
  assert (Hgood : Forall (fun x => head x <> Some 10%N /\ x <> [] /\ last x <> Some 10%N
                                   /\ noTwo isLineFeed x = true) (p :: ps)).
  { apply (Forall_impl _ _ _ Hall). intros x (Hne & Htrim & Hno).
    repeat split; try assumption.
    - intros Hh. now pose proof (trim_fixed_head x 10%N Htrim Hh).
    - intros Hl. now pose proof (trim_fixed_last x 10%N Htrim Hl). }
  assert (Hsplit : split false BLANK_LINES (join [10; 10]%N (p :: ps)) = p :: ps).
  { rewrite join_joinTail. inversion Hgood as [|? ? (Hh & Hne & Hl & Hn) Hgood']; subst.
    destruct p as [|c p]; [congruence|]. unfold split. cbn [app].
    change (c :: p ++ joinTail ps) with ([] ++ [] ++ (c :: p) ++ joinTail ps).
    change 0 with (length (@nil N)) at 1.
    change 0 with (length (@nil N) + length (@nil N)).
    rewrite (splitFrom_blocks ps Hgood' (c :: p) _ [] []); [reflexivity | exact Hn | auto |].
    cbn [app length]. rewrite length_app. cbn [length]. lia. }
  rewrite Hsplit. clear Hsplit Hgood Hpar.
  induction Hall as [|x xs (Hne & Htrim & _) Hxs IH]; [reflexivity|].
  rewrite filter_cons_True by (rewrite Htrim; destruct x; [congruence | exact I]).
  cbn [map]. now rewrite Htrim, IH.
Qed.

End RichText.

Lemma createRichTextDescription_paragraphs_witness :
  Strapi.createRichTextDescription
    (withParagraphs [str "Tre giorni di festa."; str "Stand gastronomici dalle 19."]
       (withTitle (str "Sagra del Tortello") blank))
  = [str "Tre giorni di festa."; str "Stand gastronomici dalle 19."].
Proof.
  apply createRichTextDescription_paragraphs; [reflexivity|].
  repeat constructor; discriminate.
Defined.

(** ** The slug, step by step *)

Section SlugSteps.
Import Strapi.

(** C7.  generateSlug lower-cases the title, decomposes it and drops the
    combining marks U+0300 to U+036F, writes one hyphen for every maximal
    run of characters outside [a-z0-9], and drops the hyphens at the two
    ends; the title "Sagra dei Tortelli", em dash, "Citt" and a with
    grave gives "sagra-dei-tortelli-citta". *)
Theorem generateSlug_steps (title_ : list N) :
  generateSlug title_
  = dropTrailing isHyphen
      (dropLeading isHyphen
         (collapseFrom isAlnum 45%N false
            (List.filter (fun c => negb (inRanges diacriticRanges c))
               (normalizeNFD (toLowerCase title_)))))
  /\ generateSlug tortelliCitta = str "sagra-dei-tortelli-citta".
Proof.
  split; [|vm_compute; reflexivity].
  unfold generateSlug. rewrite replaceAll_DIACRITICS, replaceAll_EDGE_HYPHENS.
  change (str "-") with [45%N]. unfold NON_ALNUM. fold alnumRanges.
  now rewrite (replaceAll_plus_class true alnumRanges isAlnum 45%N NON_ALNUM_class).
Qed.

End SlugSteps.

(** ** The normalizer on a text with triples in it *)

Section TriplesInText.
Local Open Scope nat_scope.











Local Close Scope nat_scope.









End TriplesInText.


